(* ===== verification/_CoqProject ===== *)
-Q . S2P
Prelude.v
PyValue.v
PyBuiltins.v
Url.v
Config.v
Serializer.v
Flask.v
Sql.v
Bind.v
Store.v
Psycopg.v
Exact.v
Search.v
Nearby.v
Insert.v
Sent.v
Health.v
Home.v
App.v
Cors.v
Http.v
Logging.v
Prog.v
Logged.v
Extended.v
Concurrent.v
Shapes.v
Requests.v
Engine.v
