(* ===== verification/Prelude.v ===== *)
(** * Verification of the PostGIS property-search service

    The program ([src/app.py]) is a small Flask service in front of a
    PostgreSQL/PostGIS table [properties].  It has a health probe
    ([health_check]), a radius search ([find_nearby_properties]), a filtered
    search ([search_properties]), an insert ([add_property]), two error
    handlers and a documentation page.  Every handler parses its input, builds
    a parameterised SQL statement, runs it on a fresh connection and shapes a
    JSON response; any exception is caught at the handler boundary and mapped
    to a status code.  [Flask(__name__)] (line 25) adds the rule of the
    static files and [CORS(app)] (line 26) a function that adds the headers
    of cross-origin access to every response.
    [src/modules/module_10/example.py] is a class with a
    constructor only, which stores a connection string and an optional
    CloudWatch client.

    ** Files, in dependency order

    - [Prelude] (this file): exceptions as values (the [result] type with
      stdpp's monad notation), the tactics and hint databases of the
      development, and the lemmas on strings, lists and sorted selections
      the components share.
    - [PyValue]: Python values ([pyval]), exceptions ([exn]), decimals and
      dates, the interface [PyFloat] for floats, and the operators the
      handlers use on the request body ([truthy], [py_contains],
      [py_getitem], [py_get], [py_all]).
    - [PyBuiltins]: [int(str)], [str(int)], [str.strip], [str.lower] and
      [str.upper].
    - [Url]: the query string as [urllib.parse] reads it: the escapes
      ([unquote], [unquote_plus]) and the pairs ([query_pairs]), with the
      encoder ([quote_plus], [urlencode]) as the specification of what is
      read back.
    - [Config]: what loading the module does to the configuration:
      [load_dotenv()] (line 19) on the bindings of the file [.env], and the
      connection string, required (lines 29-31); [startup] is the two in
      order.
    - [Serializer]: [serialize_result] (lines 42-48), JSON values, the
      encoder of the [json] module with its [default] hook ([json_encode]),
      [datetime.isoformat].
    - [Flask]: headers ([header_get], compared without regard to case), the
      arguments of a request ([parse_qs] over [Url], [args_get]), its body as
      [get_json] reads it, requests and responses (a body is JSON, a text or
      a page of Werkzeug, [BPage]), and the interface [Flask] for [jsonify],
      with its two instances [flask_keyword_default] and [flask_released].
    - [Sql]: the texts of the statements, exactly as in the source, the
      conditions of the filtered search ([cond]), and psycopg2's scan for
      placeholders ([placeholders]).
    - [Bind]: what psycopg2 sends.  The literal of each Python value
      ([adapt], [quote_string]; the interface [SqlText] for the text of a
      float and of a decimal), the merge of the literals into the text at its
      placeholders ([bind], [mogrify]), and what the server makes of a text:
      code and string constants ([sql_lex], a three-state lexer on the
      quote).  A template is read the same way with its placeholders kept
      ([lex_template]), which says of each placeholder whether it stands
      inside a string constant ([kinds]).
    - [Store]: the table ([property]), the interface [Spatial] for what
      PostgreSQL and PostGIS compute, [ILIKE], and the meaning of each
      statement on a list of rows ([run_search], [run_nearby], [run_insert],
      [run_counts]).
    - [Psycopg]: [get_db_connection] (lines 33-40), connections and
      transactions ([with_connection], commit and rollback), the monad [dbm]
      of a handler's block, and [execute], which binds the arguments
      ([Bind.mogrify]), reads the statement back from the text of the
      template ([parse_stmt]) and runs it.
    - [Exact]: an instance of the four interfaces with exact rationals for
      floats, and a sample table, used to evaluate the handlers in the
      examples.
    - [Search]: [search_properties] (lines 225-289) with its builder
      [build_search], and the abstract view [search_result].
    - [Nearby]: [find_nearby_properties] (lines 171-223), and the abstract
      view [nearby_result].
    - [Insert]: [add_property] (lines 291-333), and the abstract view
      [add_outcome].
    - [Sent]: the texts the three handlers send ([Search.search_sent],
      [nearby_sent], [insert_sent]) and whether they are [intact]: read by
      the server as the template with each placeholder filled by the value
      that was written for it.
    - [Health]: [health_check] (lines 118-168), and the abstract view
      [health_outcome].
    - [Home]: [home] (lines 50-116) and the text of its template.
    - [App]: the arguments of [app.run] (lines 344-351), the rules of the
      routes ([url_map]: the rule of the static files, [static_rule], and the
      five of the decorators) and their matching ([rule_matches], [route]),
      the error handlers (lines 336-342), one request ([handle]), the status
      codes of the interface ([statuses]) and the life of the service
      ([step], [reachable]).
    - [Cors]: flask-cors with the options of line 26, which are its
      defaults: the origins to name ([get_cors_origins]), the headers of an
      answer and of a
      preflight request ([get_cors_headers]) and the function Flask calls on
      every response ([cors_after_request]).
    - [Http]: requests and responses with their headers: the type of the
      body ([make_response]), the functions of [after_request]
      ([process_response]), Flask's [full_dispatch_request] with the
      wrappers of the extension on the answers to exceptions
      ([full_dispatch]), what is sent, which for [HEAD] has no body
      ([wsgi_app]), and the request Flask makes of the method, the path, the
      text of the query, the headers and the data ([received]).
    - [Logging]: the levels, the configuration of lines 22-23 and what a
      call of the logger lets through ([emit]).
    - [Prog]: the handlers once more, as trees of their requests to
      psycopg2 and to the logger ([prog]: connect, execute, commit,
      rollback, log, each with a continuation), with the calls of
      [logger.error] where the source has them (lines 39, 163, 222, 288 and
      332) and [logger.info] in the script (line 350); the meaning of a
      request on the shared database and the uncommitted rows of a
      transaction ([handle_event]), the log of a run ([run_log]), and the
      proof that a program run without interruption is its handler
      ([run_handle]).
    - [Logged]: what a request writes to the log, from the result of its
      [try] block ([view_log]), and what the log tells of the answers.
    - [Extended]: a second instance of the interfaces, whose floats have
      [nan] and the infinities, for the requests [Exact] cannot express.
    - [Concurrent]: requests in flight together, as the threaded
      development server runs them: a thread is the rest of a program with
      the rows and the log of its request, a step is one event of one
      thread ([cstep]), a schedule names the thread of each step
      ([run_schedule]); what holds of every program.
    - [Shapes]: the handlers' programs look at the rows once, end within
      six events and do not raise.
    - [Requests]: the requests of the service under interleaving, the
      schedule of [App] ([serial]), the stream of the log ([stream]) and
      the examples.
    - [Engine]: [PropertySearchEngine] and the script of
      [src/modules/module_10/example.py], with [boto3.client] as a parameter.

    ** How the model corresponds to the code

    A handler is a function from the request and the database to the
    database afterwards and the answer, [request -> db -> db * py response].
    Its [try] block is a definition of its own ([search_try], [nearby_try],
    [add_try]) and its [except] clauses are the [match] on the result.  The
    block under [with get_db_connection() as conn] runs in [dbm], a state and
    exception monad over the connection; [with_connection] opens the
    connection, commits when the block returns and rolls back when it raises.
    A database [db] holds the committed rows, the next value of the id
    sequence, whether it can be reached and what the probes of the health
    check return.  A statement is sent as its text: [execute] merges the
    literals of the arguments into the text as psycopg2 does, which fails
    when the placeholders and the arguments differ in number or an argument
    has no literal, and then gives the statement the meaning of its
    template on the arguments.  That meaning is the server's when the text
    sent is [intact]; [Sent] proves it is for the filtered search, for the
    radius search exactly when its coordinates are finite, and for the
    insert when its coordinates are written without a quote
    ([Insert.plain_coordinates]).  The theorems on the effect of the insert
    and on the life of the service carry that premise
    ([App.well_bound]); a body the store accepts satisfies it.

    The views read the arguments of a request as a list of pairs
    ([Flask.multidict]); [Flask.parse_qs] gives that list for the text after
    the question mark.  A request of [App] has no headers, since no view
    reads one; [Http] adds the headers on both sides and proves that
    forgetting them gives [App.handle] ([Http.full_dispatch_handle]), so the
    theorems on statuses and bodies hold of what [Http.wsgi_app] sends.
    The body of a request is what [request.get_json()] returns or raises
    ([Flask.req_json]); [Flask.get_json] says what that is, from the content
    type of the request and from what [json.loads] makes of the data.  What
    it raises for another content type changed with the versions of Flask
    and is an argument ([unread]); the theorems hold for each.

    ** What the theorems show

    - The builders: the filtered search never sends a statement whose
      placeholders and arguments differ in number, its text is made of fixed
      conditions only, and which filters are in force ([Search], section
      statement and row_claims).
    - The texts sent ([Bind], [Sent]): a literal is read back as the value
      it was written for ([Bind.sql_lex_quote_string]); a text whose
      arguments fit their placeholders has the tokens of its template
      ([Bind.bound_fits]); the filtered search is intact for every
      combination of filters, the radius search exactly for finite
      coordinates ([Sent.nearby_text_intact_iff]: [nan] and the infinities
      are written between quotes), the insert for coordinates that are
      numbers.  A coordinate given as a string leaves the quoted text of
      the point and is read as code ([Sent.insert_text_escapes], over
      [Bind.hole_in_literal_escape]).
    - Round trips: [int(str(n))] is [n] ([PyBuiltins.int_of_str_of_int]),
      an encoded value decodes to itself ([Serializer.json_encode_roundtrip]),
      the pattern of the type filter reaches the server as it is, and the
      query [urlencode] writes for arguments of ASCII text is read back as
      those arguments ([Url.query_pairs_urlencode],
      [Search.search_limit_roundtrip]).
    - The results: the rows of both searches are rows of the table that
      satisfy the request, sorted, at most [limit] and at most 100; nothing
      that qualifies is left out unless the limit is reached ([Search] and
      [Nearby], row_claims over the shared lemmas of [Prelude], section
      selection).
    - The handlers: each answers every request without raising; which
      status each gives and when (400 exactly on arguments that do not
      convert, 500 on a negative limit or radius, on a coordinate that is
      not finite, on a database that is down, on a body that is not an
      object, on a body that is not read as JSON,
      [Insert.add_fields_check]); the exact body of a success under each
      reading of [jsonify].
    - The insert: it is atomic, stores what the body says with the point as
      (longitude, latitude), and is refined by [add_outcome].
    - The service: no view lets an exception out and every answer has a
      status code of its endpoint, requests other than POST do not change
      the table, every table reachable from a well-formed one is well
      formed, rows are never changed or removed, and an insert that is
      accepted once stays accepted ([App]).  The documentation page lists
      the routes that exist.  With the [jsonify] of released Flask neither
      search answers 200 ([App.released_searches_fail]).  An insert whose
      body is not read as JSON is answered 500 from the text of the request
      to what is sent ([Http.insert_unread_body]).
    - The headers ([Cors], [Http]): every answer, the 404, 405 and 500
      answers included, carries exactly one [Access-Control-Allow-Origin],
      which names the origin of the request or the wildcard
      ([Http.cors_allows_origin]); the headers of an answer to a request
      that is not a preflight request are its type, that origin and [Vary]
      ([Http.full_dispatch_headers]); going through the function of the
      extension twice adds its headers once
      ([Cors.cors_after_request_twice]); a preflight request is answered with
      every method ([Http.preflight_allowed]); and a [HEAD] request is
      answered as the [GET] request without its body ([Http.head_as_get]).
    - The configuration ([Config]): the loop of [load_dotenv] gives the
      environment first and the last binding of the file for what the
      environment lacks ([load_dotenv_spec]), and the module loads exactly
      when that gives a connection string that is not empty
      ([startup_spec]); a variable set to the empty string hides the file.
    - The log ([Logged]): the log of a handler from the result of its
      [try] block ([view_log_spec]); a request is logged exactly when it is
      answered 500 ([logged_iff_500]); the record holds the text of the
      exception, which the answer of the health check repeats and the
      answers of the other handlers do not ([cause_logged]).
    - Interleaving ([Concurrent], [Shapes], [Requests]): the invariant of
      the table holds
      under every interleaving, for the committed rows and for those in
      flight; the log and the answer of a request are those its handler
      gives alone on one database the service went through
      ([interleaved_log], for every program that looks at the rows once,
      [one_shot_outcome]); the log of a request is what the one stream of
      the log has from it, in order ([Requests.stream_thread]); the
      sequential service of [App] is the schedule
      that lets each request end before the next starts
      ([serial_schedule]); every request ends after six turns, whatever the
      others do ([request_ends]); and the answers of requests in flight
      together need not be those of any serial order, because an id is
      taken at the insert and the row is seen at the commit
      ([race_not_serial]).
    - The engine of module 10: when its constructor raises, and how its
      reading of [DATABASE_URL] differs from the service's ([Engine]).

    ** Bounds and fuel

    - [json_encode] takes fuel for the chain of calls to the hook, as the
      interpreter's recursion limit bounds it ([recursion_limit], 1000).
      With [serialize_result] one level is enough
      ([Serializer.json_encode_serialized] holds for every fuel above 0), so
      the bound is never reached ([Serializer.json_encode_terminates]).
    - A program of a handler is a finite tree: [Prog.run] and the steps of
      [Concurrent] are structural, and a handler ends within six events
      ([Shapes.handle_shape]), which is the number of turns
      [Requests.serial] gives each request.
    - The lexers and the merge of [Bind] and the decoder of [Url] are
      structural on the text: no fuel.  [int_of_str (str_of_int n)] is proved
      by well-founded induction on the number, following stdpp's
      [pretty_N_go].
    - A character is a byte.  [Flask.parse_qs] is defined on the queries
      whose decoded text is ASCII and is [None] on the others, whose reading
      (UTF-8, with a replacement for what is not) the model of strings cannot
      express; the round trip is stated for ASCII text.
    - The repository has no directory [static]: the view of the static rule
      answers 404 to every name ([App.view] on [EStatic]).
    - An allowed origin or header of [Cors] is the wildcard or a text, which
      covers the options of line 26; the regular expressions the extension
      also accepts are not modelled.
    - Floats are abstract ([PyFloat]): no theorem depends on rounding.  The
      distance and the order of floats are abstract ([Spatial]); the order is
      assumed total and transitive.  The two instances ([Exact],
      [Extended]) serve the examples only.
    - [load_dotenv] is given the bindings of the file, not its text, and
      reads no file with a [${NAME}] reference ([Config.load_dotenv_None]).
    - The store reads arguments of the Python types the handlers send and
      refuses others with an error; PostgreSQL accepts some of those (a
      numeric string for a number).  Theorems about success are stated for
      arguments the model accepts.

    ** Not modelled

    Closing of connections (the handlers leave it to the collection of
    the connection object, which no answer depends on) and the use of the
    connection string; the parser of the [json] module ([Flask.get_json]
    is given what [json.loads] makes of the data); the headers of a
    response other than its type and
    those of cross-origin access ([Content-Length], the [Allow] of the 405
    answer, those of the server); the text of the page Werkzeug writes for
    the 405 answer ([BPage] holds the status only); the redirect Werkzeug
    answers to a path with a doubled slash; the header flask-cors adds, in
    its later versions, to a request for access to a private network;
    the text of a log line, the stream it goes to, the records of werkzeug
    and the traceback of Flask's own record; the search for the file
    [.env], its parser and the expansion of references in its values;
    isolation levels other than
    read committed, locks and the limit on connections; gaps in the id
    sequence after a
    failed insert; what the server does with a text that is not intact (the
    theorems say that the text is not the template's, not what it runs);
    comments, dollar quoting, escape strings and quoted identifiers in SQL
    texts, which the statements of the source do not use; query strings
    whose decoded text is not ASCII; the script of the documentation page;
    [app.run]; [boto3.client] itself.

    ** Conventions

    - A Python exception is a value [Err e] of [result E A]; a handler's
      [try/except] is a [match] on it.  Sub-expressions are evaluated in the
      order the source fixes (left to right, top to bottom).
    - Python [int] is [Z] (unbounded, no wrap-around); strings are
      [String.string] (bytes, ASCII where character classes matter).
    - Code of libraries the sources only call (Flask, Werkzeug, psycopg2,
      PostgreSQL, PostGIS, CPython built-ins) is modelled from its documented
      behaviour, behind an interface where the service's correctness should
      not depend on the details. *)

From Stdlib Require Import ZArith Lia.
From stdpp Require Import base tactics option list strings sorting.

(** ** Exceptions as values *)

Inductive result (E A : Type) : Type :=
| Ok (a : A)
| Err (e : E).
Arguments Ok {E A} a.
Arguments Err {E A} e.

#[export] Instance result_ret {E} : MRet (result E) := fun _ a => Ok a.
#[export] Instance result_bind {E} : MBind (result E) := fun _ _ k m =>
  match m with Ok a => k a | Err e => Err e end.
#[export] Instance result_fmap {E} : FMap (result E) := fun _ _ f m =>
  match m with Ok a => Ok (f a) | Err e => Err e end.

(** [try m except h]: run [m], hand an exception to [h]. *)
Definition try_except {E A} (m : result E A) (h : E -> A) : A :=
  match m with Ok a => a | Err e => h e end.

(** [is_ok m] holds when [m] raised nothing. *)
Definition is_ok {E A} (m : result E A) : bool :=
  match m with Ok _ => true | Err _ => false end.

(** An optional value as a computation that raises [e] when it is absent. *)
Definition of_option {E A} (e : E) (o : option A) : result E A :=
  match o with Some a => Ok a | None => Err e end.

(** [f] on every element, left to right, stopping at the first exception. *)
Fixpoint mapM_result {E A B} (f : A -> result E B) (l : list A) : result E (list B) :=
  match l with
  | [] => Ok []
  | x :: r => y ← f x; ys ← mapM_result f r; Ok (y :: ys)
  end.

#[export] Instance result_eq_dec {E A} `{EqDecision E, EqDecision A} :
  EqDecision (result E A).
Proof. solve_decision. Defined.

(** ** Tactics *)

(** Case analysis on the scrutinee of a [match] on a [result] or an [option]
    in the goal, keeping the equation. *)
Ltac case_result :=
  match goal with
  | |- context [match ?m with Ok _ => _ | Err _ => _ end] =>
      let E := fresh "Hres" in destruct m eqn:E
  | |- context [mbind _ ?m] =>
      let E := fresh "Hres" in destruct m eqn:E; simpl
  end.

(** Membership in a list written out. *)
Ltac solve_elem :=
  simpl; repeat first [apply list_elem_of_here | apply list_elem_of_further].

(** A decidable proposition that evaluates to true. *)
Ltac decide_true :=
  match goal with |- ?P => apply (bool_decide_eq_true_1 P); reflexivity end.

(** Unfold the monad operations of [result]. *)
Ltac unfold_result :=
  unfold mbind, mret, fmap, result_bind, result_ret, result_fmap,
    try_except, of_option in *.

(** ** Hint databases

    [pydb] collects the resolution hints of the components; the rewrite
    database [pyrw] their simplification equations. *)

Create HintDb pydb discriminated.
Create Rewrite HintDb pyrw.

(** ** Laws of the [result] monad *)

Section result_laws.
Context {E A B C : Type}.
Implicit Types (m : result E A) (f : A -> result E B) (g : B -> result E C).

Lemma rbind_ok a f : (Ok a ≫= f) = f a.
Proof. done. Qed.

Lemma rbind_err (e : E) f : (Err e ≫= f) = Err e.
Proof. done. Qed.

Lemma rbind_ret m : (m ≫= mret) = m.
Proof. by destruct m. Qed.

Lemma rbind_assoc m f g : ((m ≫= f) ≫= g) = (m ≫= fun a => f a ≫= g).
Proof. by destruct m. Qed.

Lemma rbind_Ok_inv m f (b : B) :
  m ≫= f = Ok b <-> exists a, m = Ok a /\ f a = Ok b.
Proof.
  destruct m as [a|e]; simpl; split.
  - eauto.
  - by intros (a' & [= ->] & ?).
  - done.
  - by intros (a' & ? & ?).
Qed.

Lemma rbind_Err_inv m f (e : E) :
  m ≫= f = Err e <-> m = Err e \/ exists a, m = Ok a /\ f a = Err e.
Proof.
  destruct m as [a|e']; simpl; split.
  - eauto.
  - by intros [?|(a' & [= ->] & ?)].
  - intros [= ->]. by left.
  - by intros [[= ->]|(a' & ? & ?)].
Qed.

Lemma rfmap_id m : (fun x => x) <$> m = m.
Proof. by destruct m. Qed.

Lemma rfmap_compose (h : A -> B) (k : B -> C) m :
  k <$> (h <$> m) = (fun x => k (h x)) <$> m.
Proof. by destruct m. Qed.

Lemma rfmap_Ok_inv (h : A -> B) m (b : B) :
  h <$> m = Ok b <-> exists a, m = Ok a /\ h a = b.
Proof.
  destruct m as [a|e]; cbn; split.
  - intros [= <-]. eauto.
  - by intros (a' & [= ->] & ->).
  - done.
  - by intros (a' & ? & ?).
Qed.

Lemma is_ok_true m : is_ok m = true <-> exists a, m = Ok a.
Proof. destruct m; simpl; split; eauto; [done | by intros [? ?]]. Qed.

Lemma Ok_bool_decide (P : Prop) `{!Decision P} :
  (Ok (bool_decide P) : result E bool) = Ok true <-> P.
Proof.
  split; [by intros [= ?%bool_decide_eq_true]|].
  intros. by rewrite bool_decide_eq_true_2.
Qed.

Lemma of_option_Ok (e : E) (o : option A) a :
  of_option e o = Ok a <-> o = Some a.
Proof. destruct o; simpl; split; congruence. Qed.

End result_laws.

#[export] Hint Rewrite @rbind_ok @rbind_err @rbind_ret : pyrw.

(** ** Strings

    stdpp keeps [String.app] from unfolding under [simpl]; these equations
    are the ones the components rewrite with (database [strrw]). *)

Create Rewrite HintDb strrw.

(** [is_prefix p s]: [s] starts with [p]. *)
Fixpoint is_prefix (p s : string) : bool :=
  match p, s with
  | EmptyString, _ => true
  | String x p', String y s' => Ascii.eqb x y && is_prefix p' s'
  | String _ _, EmptyString => false
  end.

(** [strip_prefix p s]: [s] without its prefix [p]. *)
Fixpoint strip_prefix (p s : string) : option string :=
  match p, s with
  | EmptyString, _ => Some s
  | String x p', String y s' => if Ascii.eqb x y then strip_prefix p' s' else None
  | String _ _, EmptyString => None
  end.

(** [strip_suffix q s]: [s] without its suffix [q]. *)
Definition strip_suffix (q s : string) : option string :=
  String.rev <$> strip_prefix (String.rev q) (String.rev s).

(** [split_on sep s]: the pieces of [s] between the occurrences of [sep],
    scanned left to right ([sep] is not empty).  [skip] counts the characters
    of a separator still to pass and [cur] holds the current piece,
    reversed. *)
Fixpoint split_go (sep : string) (skip : nat) (cur s : string) : list string :=
  match s with
  | EmptyString => [String.rev cur]
  | String x r =>
      match skip with
      | S k => split_go sep k cur r
      | O =>
          if is_prefix sep s
          then String.rev cur :: split_go sep (String.length sep - 1) "" r
          else split_go sep 0 (String x cur) r
      end
  end.

Definition split_on (sep s : string) : list string := split_go sep 0 "" s.

Section strings.
Implicit Types (a b c s t : string) (x y : Ascii.ascii).

Lemma string_app_nil_l s : "" +:+ s = s.
Proof. reflexivity. Qed.

Lemma string_app_cons x a b : String x a +:+ b = String x (a +:+ b).
Proof. reflexivity. Qed.

Lemma string_app_nil_r s : s +:+ "" = s.
Proof. induction s as [|x s IH]; [done|]. by rewrite string_app_cons, IH. Qed.

Lemma string_app_assoc a b c : (a +:+ b) +:+ c = a +:+ (b +:+ c).
Proof. induction a as [|x a IH]; [done|]. by rewrite !string_app_cons, IH. Qed.

Lemma string_length_app a b :
  String.length (a +:+ b) = String.length a + String.length b.
Proof. induction a as [|x a IH]; [done|]. rewrite string_app_cons; simpl. by rewrite IH. Qed.

Lemma string_chars_app a b :
  String.list_ascii_of_string (a +:+ b) =
    String.list_ascii_of_string a ++ String.list_ascii_of_string b.
Proof. induction a as [|x a IH]; [done|]. rewrite string_app_cons; simpl. by rewrite IH. Qed.

Lemma string_rev_app_acc s t : String.rev_app s t = String.rev_app s "" +:+ t.
Proof.
  revert t. induction s as [|x s IH]; intros t; simpl; [done|].
  by rewrite IH, (IH (String x "")), string_app_assoc.
Qed.

Lemma string_rev_cons x s : String.rev (String x s) = String.rev s +:+ String x "".
Proof. unfold String.rev; simpl. apply string_rev_app_acc. Qed.

Lemma string_rev_app a b : String.rev (a +:+ b) = String.rev b +:+ String.rev a.
Proof.
  induction a as [|x a IH].
  - by rewrite string_app_nil_l, string_app_nil_r.
  - by rewrite string_app_cons, !string_rev_cons, IH, string_app_assoc.
Qed.

Lemma string_rev_involutive s : String.rev (String.rev s) = s.
Proof.
  induction s as [|x s IH]; [done|].
  by rewrite string_rev_cons, string_rev_app, IH.
Qed.

Lemma strip_prefix_app p s : strip_prefix p (p +:+ s) = Some s.
Proof.
  induction p as [|x p IH]; [by destruct s|].
  rewrite string_app_cons; simpl. by rewrite Ascii.eqb_refl.
Qed.

Lemma strip_suffix_app q s : strip_suffix q (s +:+ q) = Some s.
Proof.
  unfold strip_suffix.
  by rewrite string_rev_app, strip_prefix_app; simpl; rewrite string_rev_involutive.
Qed.

End strings.

#[export] Hint Rewrite string_app_nil_l string_app_cons string_app_nil_r
  string_app_assoc string_length_app : strrw.

(** ** Lists *)

Section lists.
Context {A : Type}.
Implicit Types (l : list A) (P Q : A -> Prop).

Lemma Forall_filter_keep P `{!forall x, Decision (P x)} Q l :
  Forall Q l -> Forall Q (filter P l).
Proof.
  rewrite !Forall_forall. intros HQ x [_ Hx]%list_elem_of_filter. by apply HQ.
Qed.

Lemma Forall_filter_holds P `{!forall x, Decision (P x)} l : Forall P (filter P l).
Proof. apply Forall_forall. by intros x [HP _]%list_elem_of_filter. Qed.

Lemma filter_none P `{!forall x, Decision (P x)} l :
  Forall (fun x => ~ P x) l -> filter P l = [].
Proof.
  induction 1 as [|x l Hx _ IH]; [done|]. rewrite filter_cons. by case_decide.
Qed.

(** What holds of a list holds of the lists taken from it. *)
Lemma Forall_submseteq (Q : A -> Prop) l k : l ⊆+ k -> Forall Q k -> Forall Q l.
Proof.
  intros Hl. rewrite !Forall_forall. intros Hk x Hx.
  by apply Hk, (elem_of_submseteq l).
Qed.

Lemma NoDup_submseteq_inv l k : l ⊆+ k -> NoDup k -> NoDup l.
Proof. intros [k' ->]%submseteq_Permutation. by intros [? _]%NoDup_app. Qed.

End lists.

#[export] Hint Resolve Forall_filter_keep Forall_filter_holds : pydb.

(** ** The first rows of a sorted selection

    [ORDER BY ... LIMIT k] is [take k (merge_sort R l)]: what both searches
    of the service return.  The lemmas say what such a list is: sorted, made
    of elements of [l], at most [k] long, all of [l] when [l] is short
    enough, and never worse than what it leaves out. *)

Section selection.
Context {A : Type} (R : relation A) `{!RelDecision R, !Transitive R, !Total R}.
Implicit Types (l : list A) (k : nat).

Lemma HdRel_take x l k : HdRel R x l -> HdRel R x (take k l).
Proof. destruct 1, k; by constructor. Qed.

Lemma Sorted_take l k : Sorted R l -> Sorted R (take k l).
Proof.
  intros Hs. revert k.
  induction Hs; intros [|k]; simpl; constructor; auto using HdRel_take.
Qed.

Lemma selection_sorted l k : Sorted R (take k (merge_sort R l)).
Proof. apply Sorted_take, Sorted_merge_sort, _. Qed.

Lemma selection_elem l k x : x ∈ take k (merge_sort R l) -> x ∈ l.
Proof. intros Hx%subseteq_take. by rewrite merge_sort_Permutation in Hx. Qed.

Lemma selection_length l k : length (take k (merge_sort R l)) = k `min` length l.
Proof. by rewrite length_take, merge_sort_Permutation. Qed.

Lemma selection_all l k : length l <= k -> take k (merge_sort R l) ≡ₚ l.
Proof.
  intros Hk. rewrite take_ge; [apply merge_sort_Permutation|].
  by rewrite merge_sort_Permutation.
Qed.

(** An element that is left out is not better than one that is kept. *)
Lemma selection_least l k x y :
  x ∈ take k (merge_sort R l) -> y ∈ drop k (merge_sort R l) -> R x y.
Proof.
  intros Hx Hy. pose proof (StronglySorted_merge_sort R l) as Hs.
  rewrite <-(take_drop k (merge_sort R l)) in Hs.
  by eapply StronglySorted_app_1_elem_of.
Qed.

(** Every element is kept or left out. *)
Lemma selection_split l k x :
  x ∈ l -> x ∈ take k (merge_sort R l) \/ x ∈ drop k (merge_sort R l).
Proof.
  intros Hx. rewrite <-(merge_sort_Permutation R l) in Hx.
  rewrite <-(take_drop k (merge_sort R l)) in Hx at 1.
  by apply elem_of_app in Hx.
Qed.

(** An element of [l] is kept, or the selection is full and nothing in it is
    worse than the element. *)
Lemma selection_complete l k x :
  x ∈ l ->
  x ∈ take k (merge_sort R l) \/
  (length (take k (merge_sort R l)) = k /\
   Forall (fun y => R y x) (take k (merge_sort R l))).
Proof.
  intros [Hx|Hx]%(selection_split _ k); [by left|right]. split.
  - apply list_elem_of_lookup in Hx as [i Hi].
    apply lookup_lt_Some in Hi. rewrite length_drop in Hi.
    rewrite length_take. lia.
  - apply Forall_forall. intros y Hy. by eapply selection_least.
Qed.

End selection.
