(* ===== verification/PyValue.v ===== *)
(** * Python values, exceptions and the built-ins the handlers use

    The values that flow through [src/app.py]: query-string arguments,
    the decoded JSON body of a POST, the rows psycopg2 returns, and the
    objects handed to [jsonify].  Floats are kept behind the interface
    [PyFloat]: the service parses them, tests them for truth and passes them
    on, and never computes with them. *)

From Stdlib Require Import ZArith Lia.
From stdpp Require Import base tactics option list strings.
From S2P Require Import Prelude.

(** ** Exceptions

    The classes the handlers distinguish ([except ValueError] against
    [except Exception]) or that the modelled libraries raise.  [DbError] is
    [psycopg2.Error] and its subclasses, [HttpError] Werkzeug's
    [HTTPException]. *)

Inductive exn_class :=
| ValueError | TypeError | KeyError | IndexError | AttributeError
| DbError | HttpError.

Record exn := Exn { exn_cls : exn_class; exn_msg : string }.

#[export] Instance exn_class_eq_dec : EqDecision exn_class.
Proof. solve_decision. Defined.
#[export] Instance exn_eq_dec : EqDecision exn.
Proof. solve_decision. Defined.

(** [isinstance(e, ValueError)]: no modelled class derives from it. *)
Definition is_value_error (e : exn) : bool :=
  bool_decide (exn_cls e = ValueError).

(** [str(e)]: the message; a [KeyError] prints the key quoted. *)
Definition str_of_exn (e : exn) : string :=
  match exn_cls e with
  | KeyError => "'" +:+ exn_msg e +:+ "'"
  | _ => exn_msg e
  end.

(** A computation that may raise. *)
Abbreviation py := (result exn).

Definition raise {A} (c : exn_class) (msg : string) : py A := Err (Exn c msg).

(** ** Decimals and timestamps

    [decimal.Decimal] restricted to finite values: [dec_mant * 10 ^ dec_exp].
    [datetime.datetime] with an optional UTC offset in minutes. *)

Record decimal := Decimal { dec_mant : Z; dec_exp : Z }.

Record datetime := Datetime {
  dt_year : Z; dt_month : Z; dt_day : Z;
  dt_hour : Z; dt_minute : Z; dt_second : Z; dt_micro : Z;
  dt_offset : option Z
}.

#[export] Instance decimal_eq_dec : EqDecision decimal.
Proof. solve_decision. Defined.
#[export] Instance datetime_eq_dec : EqDecision datetime.
Proof. solve_decision. Defined.

(** ** Floats, as an interface

    What the service needs of Python's [float]: the constructor on strings
    ([None] is [ValueError]), the conversion of a [Decimal] (also the meaning
    of a float literal of the source), the test [x == 0.0] behind truth
    values, and [math.isfinite]: the constructor also accepts [nan] and
    [inf]. *)

Class PyFloat := {
  pyfloat : Type;
  pyfloat_eq_dec :: EqDecision pyfloat;
  float_of_str : string -> option pyfloat;
  float_of_decimal : decimal -> pyfloat;
  float_is_zero : pyfloat -> bool;
  float_finite : pyfloat -> bool;
}.

Section values.
Context `{PyFloat}.

(** ** Values *)

Unset Elimination Schemes.
Inductive pyval :=
| VNone
| VBool (b : bool)
| VInt (z : Z)
| VFloat (f : pyfloat)
| VStr (s : string)
| VDecimal (d : decimal)
| VDatetime (t : datetime)
| VList (l : list pyval)
| VDict (kvs : list (string * pyval)).
Set Elimination Schemes.

(** Induction on values, with the hypothesis for every element of a list
    and every value of a dict. *)
Definition pyval_ind (P : pyval -> Prop)
    (HNone : P VNone) (HBool : forall b, P (VBool b)) (HInt : forall z, P (VInt z))
    (HFloat : forall f, P (VFloat f)) (HStr : forall s, P (VStr s))
    (HDecimal : forall d, P (VDecimal d)) (HDatetime : forall t, P (VDatetime t))
    (HList : forall l, Forall P l -> P (VList l))
    (HDict : forall kvs, Forall (fun kv => P kv.2) kvs -> P (VDict kvs)) :
    forall v, P v :=
  fix go (v : pyval) : P v :=
    match v with
    | VNone => HNone | VBool b => HBool b | VInt z => HInt z
    | VFloat f => HFloat f | VStr s => HStr s
    | VDecimal d => HDecimal d | VDatetime t => HDatetime t
    | VList l =>
        HList l ((fix all (l : list pyval) : Forall P l :=
          match l with
          | [] => Forall_nil_2 P
          | x :: r => Forall_cons_2 P x r (go x) (all r)
          end) l)
    | VDict kvs =>
        HDict kvs ((fix all (l : list (string * pyval)) : Forall (fun kv => P kv.2) l :=
          match l with
          | [] => Forall_nil_2 _
          | x :: r => Forall_cons_2 (fun kv => P kv.2) x r (go x.2) (all r)
          end) kvs)
    end.

(** A float literal of the source, [m * 10 ^ e]. *)
Definition float_lit (m e : Z) : pyfloat := float_of_decimal (Decimal m e).

(** [bool(v)]: the truth value behind [if v:]. *)
Definition truthy (v : pyval) : bool :=
  match v with
  | VNone => false
  | VBool b => b
  | VInt z => negb (z =? 0)%Z
  | VFloat f => negb (float_is_zero f)
  | VStr s => negb (String.eqb s "")
  | VDecimal d => negb (dec_mant d =? 0)%Z
  | VDatetime _ => true
  | VList l => match l with [] => false | _ => true end
  | VDict kvs => match kvs with [] => false | _ => true end
  end.

(** An optional argument ([None] when absent) as a value. *)
Definition of_opt {A} (inj : A -> pyval) (o : option A) : pyval :=
  match o with Some a => inj a | None => VNone end.

(** The name Python prints for the type of a value. *)
Definition type_name (v : pyval) : string :=
  match v with
  | VNone => "NoneType" | VBool _ => "bool" | VInt _ => "int"
  | VFloat _ => "float" | VStr _ => "str" | VDecimal _ => "decimal.Decimal"
  | VDatetime _ => "datetime.datetime" | VList _ => "list" | VDict _ => "dict"
  end.

(** ** Dictionaries and the operators used on the request body *)

Fixpoint assoc {A} (k : string) (kvs : list (string * A)) : option A :=
  match kvs with
  | [] => None
  | (k', v) :: r => if decide (k' = k) then Some v else assoc k r
  end.

(** [p in s] on strings: [p] occurs in [s]. *)
Fixpoint is_infix (p s : string) : bool :=
  is_prefix p s ||
  match s with
  | EmptyString => false
  | String _ r => is_infix p r
  end.

Definition is_str (k : string) (v : pyval) : bool :=
  match v with VStr s => bool_decide (s = k) | _ => false end.

(** [k in data] for a string [k]: key membership on a dict, element
    membership on a list, substring on a string, [TypeError] otherwise. *)
Definition py_contains (k : string) (data : pyval) : py bool :=
  match data with
  | VDict kvs => Ok (bool_decide (is_Some (assoc k kvs)))
  | VList l => Ok (existsb (is_str k) l)
  | VStr s => Ok (is_infix k s)
  | v => raise TypeError ("argument of type '" +:+ type_name v +:+ "' is not iterable")
  end.

(** [data[k]] for a string [k]. *)
Definition py_getitem (data : pyval) (k : string) : py pyval :=
  match data with
  | VDict kvs => of_option (Exn KeyError k) (assoc k kvs)
  | VList _ => raise TypeError "list indices must be integers or slices, not str"
  | VStr _ => raise TypeError "string indices must be integers"
  | v => raise TypeError ("'" +:+ type_name v +:+ "' object is not subscriptable")
  end.

(** [data.get(k, default)]. *)
Definition py_get (data : pyval) (k : string) (dflt : pyval) : py pyval :=
  match data with
  | VDict kvs => Ok (default dflt (assoc k kvs))
  | v => raise AttributeError ("'" +:+ type_name v +:+ "' object has no attribute 'get'")
  end.

(** [all(f(x) for x in l)]: stops at the first false, raises what [f] raises. *)
Fixpoint py_all {A} (f : A -> py bool) (l : list A) : py bool :=
  match l with
  | [] => Ok true
  | x :: r => b ← f x; if b : bool then py_all f r else Ok false
  end.

End values.
