(* ===== verification/PyBuiltins.v ===== *)
(** * CPython built-ins the handlers call on request input

    [int(s)] on a string, with [str.strip] and the digit grammar of integer
    literals in base 10, [str(n)] on an integer, and [str.lower] and
    [str.upper].  The handlers call
    [int] on the raw query-string values of [radius] and [limit]
    ([src/app.py], lines 177, 178 and 234), where a [ValueError] decides
    between a 400 and a 500.  ASCII input is assumed: a byte above 127 is
    neither a digit nor white space.  The limit on the number of digits of
    Python 3.11 and later is not modelled. *)

From Stdlib Require Import ZArith Lia Ascii.
From stdpp Require Import base tactics option list strings pretty.
From S2P Require Import Prelude PyValue.

Section definitions.

(** [c.isspace()] on ASCII: tab to carriage return, the four separators
    0x1c to 0x1f, and space. *)
Definition is_space (c : ascii) : bool :=
  let n := N_of_ascii c in
  ((9 <=? n) && (n <=? 13) || (28 <=? n) && (n <=? 32))%N.

Definition is_digit (c : ascii) : bool :=
  bool_decide (is_Some (Ascii.is_nat c)).

Fixpoint lstrip (s : string) : string :=
  match s with
  | EmptyString => EmptyString
  | String c r => if is_space c then lstrip r else s
  end.

Definition rstrip (s : string) : string := String.rev (lstrip (String.rev s)).

(** [s.strip()] *)
Definition strip (s : string) : string := rstrip (lstrip s).

(** The digits of a base-10 literal, most significant first, with single
    underscores allowed between digits.  [after_digit] says that the previous
    character was a digit: the literal may end, or an underscore may follow,
    only there. *)
Fixpoint digits_val (acc : Z) (after_digit : bool) (s : string) : option Z :=
  match s with
  | EmptyString => if after_digit then Some acc else None
  | String c r =>
      match Ascii.is_nat c with
      | Some d => digits_val (10 * acc + Z.of_nat d) true r
      | None =>
          if Ascii.eqb c "_" && after_digit then digits_val acc false r
          else None
      end
  end.

(** [int(s)]: white space around, an optional sign, digits.  [None] is
    [ValueError]. *)
Definition int_of_str (s : string) : option Z :=
  match strip s with
  | String c r =>
      if Ascii.eqb c "-" then Z.opp <$> digits_val 0 false r
      else if Ascii.eqb c "+" then digits_val 0 false r
      else digits_val 0 false (String c r)
  | EmptyString => None
  end.

(** [int(s)] as a computation. *)
Definition py_int (s : string) : py Z :=
  of_option (Exn ValueError ("invalid literal for int() with base 10: " +:+ s))
    (int_of_str s).

(** [str(n)] *)
Definition str_of_int (n : Z) : string := pretty n.

(** [s.lower()] and [s.upper()] on ASCII letters. *)
Definition lower_ascii (c : ascii) : ascii :=
  let n := nat_of_ascii c in
  if (65 <=? n)%nat && (n <=? 90)%nat then ascii_of_nat (n + 32) else c.

Definition upper_ascii (c : ascii) : ascii :=
  let n := nat_of_ascii c in
  if (97 <=? n)%nat && (n <=? 122)%nat then ascii_of_nat (n - 32) else c.

Fixpoint str_map (f : ascii -> ascii) (s : string) : string :=
  match s with
  | EmptyString => EmptyString
  | String c r => String (f c) (str_map f r)
  end.

Definition str_lower : string -> string := str_map lower_ascii.
Definition str_upper : string -> string := str_map upper_ascii.

End definitions.

(** ** Examples *)

Example int_of_str_examples :
  int_of_str "10" = Some 10%Z /\ int_of_str "  -5 " = Some (-5)%Z /\
  int_of_str "+007" = Some 7%Z /\ int_of_str "1_000" = Some 1000%Z /\
  int_of_str "" = None /\ int_of_str "1__0" = None /\ int_of_str "_1" = None /\
  int_of_str "1_" = None /\ int_of_str "1e3" = None /\ int_of_str "10.5" = None /\
  int_of_str "- 5" = None /\ int_of_str "abc" = None.
Proof. repeat split; vm_compute; reflexivity. Qed.

(** ** White space *)

Section strip_lemmas.

Definition no_space (s : string) : Prop :=
  Forall (fun c => is_space c = false) (String.list_ascii_of_string s).

Lemma lstrip_head c r : is_space c = false -> lstrip (String c r) = String c r.
Proof. simpl. by intros ->. Qed.

Lemma no_space_rev s : no_space s -> no_space (String.rev s).
Proof.
  unfold no_space. induction s as [|c s IH]; [done|].
  rewrite string_rev_cons, string_chars_app; simpl.
  intros [Hc Hs]%Forall_cons. apply Forall_app; split; [by apply IH|by constructor].
Qed.

Lemma lstrip_no_space s : no_space s -> lstrip s = s.
Proof. destruct s; [done|]. intros [Hc _]%Forall_cons. by apply lstrip_head. Qed.

Lemma strip_no_space s : no_space s -> strip s = s.
Proof.
  intros Hs. unfold strip, rstrip.
  rewrite (lstrip_no_space s Hs), (lstrip_no_space _ (no_space_rev s Hs)).
  apply string_rev_involutive.
Qed.

End strip_lemmas.

(** ** Decimal numerals

    [str(n)] writes digits after an optional minus sign, and [int] reads
    them back. *)

Section numerals.

Fixpoint all_digits (s : string) : bool :=
  match s with
  | EmptyString => true
  | String c r => is_digit c && all_digits r
  end.

Lemma is_nat_pretty_char x :
  (x < 10)%N -> Ascii.is_nat (pretty_N_char x) = Some (N.to_nat x).
Proof.
  intros Hx.
  assert (x = 0 \/ x = 1 \/ x = 2 \/ x = 3 \/ x = 4 \/ x = 5 \/ x = 6 \/ x = 7 \/
          x = 8 \/ x = 9)%N as Hcases by lia.
  repeat (destruct Hcases as [->|Hcases]; [done|]). by subst.
Qed.

Lemma is_digit_pretty_char x : is_digit (pretty_N_char x) = true.
Proof. unfold pretty_N_char. by repeat case_match. Qed.

Lemma all_digits_pretty_go x s :
  all_digits s = true -> all_digits (pretty_N_go x s) = true.
Proof.
  revert s. induction (N.lt_wf_0 x) as [x _ IH]; intros s Hs.
  destruct (decide (x = 0)%N) as [->|Hx]; [done|].
  rewrite pretty_N_go_step by lia. apply IH; [apply N.div_lt; lia|].
  simpl. by rewrite is_digit_pretty_char.
Qed.

(** Reading the digits of [x] in front of [s]: the value read so far is
    [x], and a digit has been seen unless [x] is zero. *)
Lemma digits_val_pretty_go x b s :
  digits_val 0 b (pretty_N_go x s) =
    digits_val (Z.of_N x) (b || bool_decide (0 < x)%N) s.
Proof.
  revert b s. induction (N.lt_wf_0 x) as [x _ IH]; intros b s.
  destruct (decide (x = 0)%N) as [->|Hx].
  { rewrite pretty_N_go_0. by rewrite orb_false_r. }
  rewrite pretty_N_go_step, IH by (try apply N.div_lt; lia).
  cbn [digits_val]. rewrite is_nat_pretty_char by (apply N.mod_lt; lia).
  rewrite (bool_decide_eq_true_2 (0 < x)%N), orb_true_r by lia. f_equal.
  rewrite (N.div_mod x 10) at 3 by done. lia.
Qed.

Lemma all_digits_pretty_N (x : N) : all_digits (pretty x) = true.
Proof.
  unfold pretty, pretty_N. case_decide; [done|]. by apply all_digits_pretty_go.
Qed.

Lemma digits_val_pretty_N (x : N) : digits_val 0 false (pretty x) = Some (Z.of_N x).
Proof.
  unfold pretty, pretty_N. case_decide as Hx; [by subst|].
  rewrite digits_val_pretty_go, bool_decide_eq_true_2 by lia. done.
Qed.

(** The numeral of an integer: digits, after a minus sign when it is
    negative. *)
Lemma str_of_int_cases z :
  (exists s, str_of_int z = s /\ all_digits s = true /\ s <> "" /\ (0 <= z)%Z /\
             digits_val 0 false s = Some z) \/
  (exists s, str_of_int z = String "-" s /\ all_digits s = true /\ (z < 0)%Z /\
             digits_val 0 false s = Some (- z)%Z).
Proof.
  unfold str_of_int, pretty, pretty_Z. destruct z as [|p|p].
  - left. by exists "0".
  - left. exists (pretty (N.pos p)). split_and!; [done|apply all_digits_pretty_N| |lia|].
    + intros Hp. pose proof (digits_val_pretty_N (N.pos p)) as Hv. by rewrite Hp in Hv.
    + by rewrite digits_val_pretty_N.
  - right. exists (pretty (N.pos p)).
    split_and!; [done|apply all_digits_pretty_N|lia|by rewrite digits_val_pretty_N].
Qed.

Lemma all_digits_no_space s : all_digits s = true -> no_space s.
Proof.
  unfold no_space. induction s as [|c s IH]; [constructor|]. simpl.
  intros [Hc Hs]%andb_prop. constructor; [|by apply IH].
  unfold is_digit in Hc. apply bool_decide_eq_true in Hc as [d Hd].
  destruct c as [[] [] [] [] [] [] [] []]; by vm_compute in Hd |- *.
Qed.

Lemma all_digits_head c s :
  all_digits (String c s) = true -> Ascii.eqb c "-" = false /\ Ascii.eqb c "+" = false.
Proof.
  simpl. intros [Hc _]%andb_prop. apply bool_decide_eq_true in Hc as [d Hd].
  destruct c as [[] [] [] [] [] [] [] []]; by vm_compute in Hd |- *.
Qed.

(** [int(str(n)) == n] *)
Lemma int_of_str_of_int z : int_of_str (str_of_int z) = Some z.
Proof.
  unfold int_of_str.
  destruct (str_of_int_cases z) as [(s & -> & Hd & Hne & _ & Hv)|(s & -> & Hd & _ & Hv)].
  - rewrite strip_no_space by by apply all_digits_no_space.
    destruct s as [|c s]; [done|]. by destruct (all_digits_head c s Hd) as [-> ->].
  - rewrite strip_no_space.
    + simpl. rewrite Hv. simpl. f_equal. lia.
    + constructor; [done|]. by apply all_digits_no_space.
Qed.

End numerals.
