(* ===== verification/Url.v ===== *)
(** * Query strings: percent-escapes and the pairs of a query

    What Werkzeug does to the query string of a request before a handler
    reads [request.args] ([src/app.py], lines 175-178 and 229-234): the
    string is cut at every [&], each piece at its first [=], a [+] is read as
    a space and a percent-escape as the byte it names ([urllib.parse.parse_qsl]
    with [keep_blank_values], which Werkzeug calls; its own decoder of
    earlier versions reads the same pairs).  An escape that is not followed
    by two hexadecimal digits is left as it is.

    [quote_plus] and [urlencode] are the encoder of [urllib.parse], which a
    client uses to write a query: they are here to state that every list of
    pairs is the query of some request, and which one. *)

From Stdlib Require Import ZArith NArith Lia Ascii.
From stdpp Require Import base tactics option list strings.
From S2P Require Import Prelude PyValue PyBuiltins.

Section decoding.

(** The value of a hexadecimal digit, in either case. *)
Definition hex_val (c : ascii) : option N :=
  let n := N_of_ascii c in
  if (48 <=? n)%N && (n <=? 57)%N then Some (n - 48)%N
  else if (65 <=? n)%N && (n <=? 70)%N then Some (n - 55)%N
  else if (97 <=? n)%N && (n <=? 102)%N then Some (n - 87)%N
  else None.

(** The byte two hexadecimal digits name. *)
Definition hex_byte (a b : ascii) : option ascii :=
  x ← hex_val a; y ← hex_val b; Some (ascii_of_N (16 * x + y)).

(** [urllib.parse.unquote_to_bytes]: every [%] followed by two hexadecimal
    digits is the byte they name; any other [%] stays. *)
Fixpoint unquote (s : string) : string :=
  match s with
  | EmptyString => EmptyString
  | String c r =>
      if Ascii.eqb c "%" then
        match r with
        | String a (String b r') =>
            match hex_byte a b with
            | Some x => String x (unquote r')
            | None => String c (unquote r)
            end
        | _ => String c (unquote r)
        end
      else String c (unquote r)
  end.

(** [s.replace('+', ' ')] *)
Fixpoint plus_to_space (s : string) : string :=
  match s with
  | EmptyString => EmptyString
  | String c r => String (if Ascii.eqb c "+" then " "%char else c) (plus_to_space r)
  end.

(** [unquote_plus]: the [+] signs first, then the escapes, so that [%2B]
    is read as a [+]. *)
Definition unquote_plus (s : string) : string := unquote (plus_to_space s).

(** [s.split(sep)] for a separator of one character: the first piece and
    the others. *)
Fixpoint pieces (sep : ascii) (s : string) : string * list string :=
  match s with
  | EmptyString => (EmptyString, [])
  | String x r =>
      let '(p, ps) := pieces sep r in
      if Ascii.eqb x sep then (EmptyString, p :: ps) else (String x p, ps)
  end.

Definition split_char (sep : ascii) (s : string) : list string :=
  let '(p, ps) := pieces sep s in p :: ps.

(** [s.split(sep, 1)]: [s] cut at its first [sep], when it has one. *)
Fixpoint cut (sep : ascii) (s : string) : string * option string :=
  match s with
  | EmptyString => (EmptyString, None)
  | String x r =>
      if Ascii.eqb x sep then (EmptyString, Some r)
      else let '(a, b) := cut sep r in (String x a, b)
  end.

(** One piece of a query: the name and the value, which is empty when the
    piece has no [=]. *)
Definition query_pair (nv : string) : string * string :=
  let '(name, value) := cut "=" nv in
  (unquote_plus name, unquote_plus (default EmptyString value)).

(** [parse_qsl(qs, keep_blank_values=True)]: the pairs of a query, in
    order; an empty piece is skipped. *)
Definition query_pairs (qs : string) : list (string * string) :=
  query_pair <$> filter (fun nv => nv <> EmptyString) (split_char "&" qs).

(** Text of bytes below 128. *)
Definition is_ascii (s : string) : bool :=
  forallb (fun c => (N_of_ascii c <? 128)%N) (String.list_ascii_of_string s).

(** The characters with a meaning in a query. *)
Definition special (c : ascii) : bool :=
  Ascii.eqb c "%" || Ascii.eqb c "+" || Ascii.eqb c "&" || Ascii.eqb c "=".

(** [sep] does not occur in [s]. *)
Definition lacks (sep : ascii) (s : string) : Prop :=
  Forall (fun c => c <> sep) (String.list_ascii_of_string s).

End decoding.

Section encoding.

(** The characters [quote] never escapes: letters, digits and [_.-~]. *)
Definition always_safe (c : ascii) : bool :=
  let n := N_of_ascii c in
  ((48 <=? n) && (n <=? 57) || (65 <=? n) && (n <=? 90) || (97 <=? n) && (n <=? 122) ||
   (n =? 95) || (n =? 46) || (n =? 45) || (n =? 126))%N.

(** A hexadecimal digit, in upper case. *)
Definition hex_digit (n : N) : ascii :=
  ascii_of_N (if (n <? 10)%N then 48 + n else 55 + n).

Definition quote_char (c : ascii) : string :=
  if always_safe c then String c EmptyString
  else if Ascii.eqb c " " then "+"
  else String "%" (String (hex_digit (N_of_ascii c / 16))
                     (String (hex_digit (N_of_ascii c mod 16)) EmptyString)).

(** [urllib.parse.quote_plus(s)] *)
Fixpoint quote_plus (s : string) : string :=
  match s with
  | EmptyString => EmptyString
  | String c r => quote_char c +:+ quote_plus r
  end.

Definition quote_pair (kv : string * string) : string :=
  quote_plus kv.1 +:+ "=" +:+ quote_plus kv.2.

(** [urllib.parse.urlencode(pairs)] *)
Fixpoint urlencode (a : list (string * string)) : string :=
  match a with
  | [] => EmptyString
  | [kv] => quote_pair kv
  | kv :: r => quote_pair kv +:+ "&" +:+ urlencode r
  end.

End encoding.

(** ** Examples *)

Example unquote_plus_examples :
  unquote_plus "San+Jose" = "San Jose" /\ unquote_plus "a%2Bb%3d%26" = "a+b=&" /\
  unquote_plus "100%" = "100%" /\ unquote_plus "%zz%4" = "%zz%4" /\
  unquote_plus "%%41" = "%A" /\ unquote_plus "%4%41" = "%4A".
Proof. by vm_compute. Qed.

Example query_pairs_examples :
  query_pairs "lat=37.7&lng=-122.4" = [("lat", "37.7"); ("lng", "-122.4")] /\
  query_pairs "a=1&&b&=c&a=x=y" = [("a", "1"); ("b", ""); ("", "c"); ("a", "x=y")] /\
  query_pairs "" = [] /\ query_pairs "=" = [("", "")] /\
  query_pairs "property_type=%25" = [("property_type", "%")].
Proof. by vm_compute. Qed.

Example urlencode_example :
  urlencode [("property_type", "Town house & co"); ("limit", "5")] =
    "property_type=Town+house+%26+co&limit=5".
Proof. by vm_compute. Qed.

(** ** The pieces of a string *)

Section pieces_lemmas.
Implicit Types (s t : string) (c sep : ascii).

Lemma lacks_cons sep c s : lacks sep (String c s) <-> c <> sep /\ lacks sep s.
Proof. unfold lacks; simpl. by rewrite Forall_cons. Qed.

Lemma lacks_app sep s t : lacks sep (s +:+ t) <-> lacks sep s /\ lacks sep t.
Proof. unfold lacks. rewrite string_chars_app. apply Forall_app. Qed.

Lemma pieces_lacks sep s : lacks sep s -> pieces sep s = (s, []).
Proof.
  induction s as [|c s IH]; [done|]. intros [Hc Hs]%lacks_cons. simpl.
  rewrite (IH Hs). by rewrite (proj2 (Ascii.eqb_neq c sep)).
Qed.

Lemma pieces_app sep s t :
  lacks sep s -> pieces sep (s +:+ String sep t) = (s, split_char sep t).
Proof.
  unfold split_char. induction s as [|c s IH]; intros Hs.
  - rewrite string_app_nil_l; simpl. rewrite Ascii.eqb_refl. by destruct (pieces sep t).
  - apply lacks_cons in Hs as [Hc Hs]. rewrite string_app_cons; simpl. rewrite (IH Hs).
    rewrite (proj2 (Ascii.eqb_neq c sep)) by done. by destruct (pieces sep t).
Qed.

Lemma split_char_lacks sep s : lacks sep s -> split_char sep s = [s].
Proof. intros Hs. unfold split_char. by rewrite pieces_lacks. Qed.

Lemma split_char_app sep s t :
  lacks sep s -> split_char sep (s +:+ String sep t) = s :: split_char sep t.
Proof. intros Hs. unfold split_char at 1. by rewrite pieces_app. Qed.

Lemma cut_app sep s t : lacks sep s -> cut sep (s +:+ String sep t) = (s, Some t).
Proof.
  induction s as [|c s IH]; intros Hs.
  - rewrite string_app_nil_l; simpl. by rewrite Ascii.eqb_refl.
  - apply lacks_cons in Hs as [Hc Hs]. rewrite string_app_cons; simpl. rewrite (IH Hs).
    by rewrite (proj2 (Ascii.eqb_neq c sep)).
Qed.

Lemma is_ascii_app s t : is_ascii (s +:+ t) = is_ascii s && is_ascii t.
Proof. unfold is_ascii. by rewrite string_chars_app, forallb_app. Qed.

End pieces_lemmas.

(** ** Reading back what the encoder wrote *)

Section roundtrip.
Implicit Types (s t : string) (c : ascii) (kv : string * string).

(** What the encoder writes for a character: the character itself when it
    has no meaning in a query, a [+] for a space, or an escape of two
    digits that name it. *)
Inductive quoted (c : ascii) : string -> Prop :=
| quoted_safe : special c = false -> quoted c (String c "")
| quoted_space : c = " "%char -> quoted c "+"
| quoted_escape a b :
    hex_byte a b = Some c -> special a = false -> special b = false ->
    quoted c (String "%" (String a (String b ""))).

Lemma quote_char_quoted c : quoted c (quote_char c).
Proof.
  destruct c as [[] [] [] [] [] [] [] []]; vm_compute;
    first [by apply quoted_space | by apply quoted_safe | by apply quoted_escape].
Qed.

Lemma special_false c :
  special c = false ->
  Ascii.eqb c "%" = false /\ Ascii.eqb c "+" = false /\ c <> "&"%char /\ c <> "="%char.
Proof.
  unfold special. intros [[[H1 H2]%orb_false_elim H3]%orb_false_elim H4]%orb_false_elim.
  by rewrite H1, H2, <-!Ascii.eqb_neq.
Qed.

Lemma plus_to_space_app s t : plus_to_space (s +:+ t) = plus_to_space s +:+ plus_to_space t.
Proof. induction s as [|c s IH]; [done|]. rewrite string_app_cons; simpl. by rewrite IH. Qed.

(** The decoder reads a character back, whatever follows. *)
Lemma unquote_quoted c q t :
  quoted c q -> unquote (plus_to_space q +:+ t) = String c (unquote t).
Proof.
  intros [Hc| -> |a b Hab Ha Hb]; [|done|]; cbn [plus_to_space].
  - apply special_false in Hc as (Hp & Hs & _).
    rewrite Hs, string_app_cons, string_app_nil_l. cbn [unquote]. by rewrite Hp.
  - apply special_false in Ha as (_ & Ha & _). apply special_false in Hb as (_ & Hb & _).
    rewrite Ha, Hb, !string_app_cons, string_app_nil_l. cbn [unquote].
    by rewrite Ascii.eqb_refl, Hab.
Qed.

Lemma quoted_lacks c q sep :
  quoted c q -> (sep = "&" \/ sep = "=")%char -> lacks sep q.
Proof.
  intros [Hc| -> |a b _ Ha Hb] Hsep; unfold lacks; simpl.
  - apply special_false in Hc as (_ & _ & ? & ?). repeat constructor. by intros ->; destruct Hsep.
  - repeat constructor. by destruct Hsep as [-> | ->].
  - apply special_false in Ha as (_ & _ & ? & ?). apply special_false in Hb as (_ & _ & ? & ?).
    repeat constructor; try by intros ->; destruct Hsep. by destruct Hsep as [-> | ->].
Qed.

(** [unquote_plus(quote_plus(s)) == s] *)
Lemma unquote_plus_quote_plus s : unquote_plus (quote_plus s) = s.
Proof.
  unfold unquote_plus. induction s as [|c s IH]; [done|]. simpl.
  by rewrite plus_to_space_app, (unquote_quoted c), IH by apply quote_char_quoted.
Qed.

Lemma quote_plus_lacks s sep : (sep = "&" \/ sep = "=")%char -> lacks sep (quote_plus s).
Proof.
  intros Hsep. induction s as [|c s IH]; [constructor|]. simpl.
  apply lacks_app. split; [|done]. by apply (quoted_lacks c _ _ (quote_char_quoted c)).
Qed.

Lemma query_pair_quote_pair kv : query_pair (quote_pair kv) = kv.
Proof.
  destruct kv as [k v]. unfold query_pair, quote_pair; simpl.
  rewrite string_app_cons, string_app_nil_l, cut_app by (apply quote_plus_lacks; by right).
  simpl. by rewrite !unquote_plus_quote_plus.
Qed.

Lemma quote_pair_lacks kv : lacks "&" (quote_pair kv).
Proof.
  unfold quote_pair. rewrite !lacks_app. split_and!; try (apply quote_plus_lacks; by left).
  by repeat constructor.
Qed.

Lemma quote_pair_nonempty kv : quote_pair kv <> "".
Proof.
  unfold quote_pair. destruct (quote_plus kv.1); [by rewrite string_app_nil_l|].
  by rewrite string_app_cons.
Qed.

(** The pairs of an encoded query are the pairs that were encoded. *)
Lemma query_pairs_urlencode (a : list (string * string)) : query_pairs (urlencode a) = a.
Proof.
  unfold query_pairs. induction a as [|kv [|kv' a] IH]; [done|..].
  - simpl urlencode. rewrite split_char_lacks by apply quote_pair_lacks.
    rewrite filter_cons_True by apply quote_pair_nonempty.
    by rewrite filter_nil, fmap_cons, query_pair_quote_pair.
  - change (urlencode (kv :: kv' :: a))
      with (quote_pair kv +:+ "&" +:+ urlencode (kv' :: a)).
    rewrite string_app_cons, string_app_nil_l, split_char_app by apply quote_pair_lacks.
    rewrite filter_cons_True by apply quote_pair_nonempty.
    by rewrite fmap_cons, query_pair_quote_pair, IH.
Qed.

End roundtrip.
