(* ===== verification/Config.v ===== *)
(** * Configuration: the environment, the [.env] file, the connection string

    What [src/app.py] does when the module is loaded, before any request:
    [load_dotenv()] (line 19) reads the file [.env] into the environment,
    and the connection string is taken from the environment and required
    (lines 29-31).

    python-dotenv is modelled on the bindings of the file as its parser
    gives them, in the order of the file: the dictionary it builds of them
    ([dotenv_dict], each name once, with its last value) and the loop that
    sets what the environment does not have ([set_as_environment_variables],
    the library's default, [override=False]).  Values that refer to other
    variables ([${NAME}]) are expanded by the library; such a file is not
    read here ([load_dotenv] gives [None]).

    The theorems give the environment after the load by a formula
    ([load_dotenv_spec]) and say when the service starts
    ([startup_spec]). *)

From Stdlib Require Import ZArith Lia.
From stdpp Require Import base tactics option list strings.
From S2P Require Import Prelude PyValue.

(** [os.environ] *)
Definition environ : Type := string -> option string.

(** [os.environ[k] = v] *)
Definition setenv (env : environ) (k v : string) : environ :=
  fun key => if decide (key = k) then Some v else env key.

(** The bindings of a [.env] file, in the order of the file; a name
    without [=] is bound to nothing. *)
Definition dotenv : Type := list (string * option string).

(** [d[k] = v] on a dictionary kept in the order of insertion. *)
Definition dict_set {V} (acc : list (string * V)) (k : string) (v : V)
    : list (string * V) :=
  if bool_decide (k ∈ acc.*1)
  then (fun b => if decide (b.1 = k) then (k, v) else b) <$> acc
  else acc ++ [(k, v)].

(** [DotEnv.dict()]: the bindings as a dictionary. *)
Definition dotenv_dict (file : dotenv) : list (string * option string) :=
  foldl (fun acc b => dict_set acc b.1 b.2) [] file.

(** [DotEnv.set_as_environment_variables()] without [override]: a name the
    environment has is skipped, and so is a name bound to nothing. *)
Definition set_as_environment_variables (values : list (string * option string))
    (env : environ) : environ :=
  foldl (fun env b =>
           match env b.1, b.2 with
           | None, Some v => setenv env b.1 v
           | _, _ => env
           end) env values.

(** A value that refers to a variable. *)
Definition has_reference (v : option string) : bool :=
  from_option (is_infix "${") false v.

(** Line 19, [load_dotenv()]: the environment afterwards; [file] is the
    [.env] file found from the directory of the module upwards, if any. *)
Definition load_dotenv (file : option dotenv) (env : environ) : option environ :=
  let bindings := default [] file in
  if forallb (fun b => negb (has_reference b.2)) bindings
  then Some (set_as_environment_variables (dotenv_dict bindings) env)
  else None.

(** Lines 29-31: the connection string, required and not empty. *)
Definition load_database_url (env : environ) : py string :=
  match env "DATABASE_URL" with
  | Some url =>
      if String.eqb url "" then
        raise ValueError "DATABASE_URL environment variable is required"
      else Ok url
  | None => raise ValueError "DATABASE_URL environment variable is required"
  end.

(** Lines 19-31: the connection string the module ends up with. *)
Definition startup (file : option dotenv) (env : environ) : option (py string) :=
  load_database_url <$> load_dotenv file env.

(** ** The environment after the load, by a formula *)

(** The value the file gives to a name: that of its last binding. *)
Definition dotenv_get (file : dotenv) (k : string) : option string :=
  mjoin (snd <$> last (filter (fun b => b.1 = k) file)).

(** The environment first, the file for what it does not have. *)
Definition merged (file : dotenv) (env : environ) : environ :=
  fun k => match env k with
           | Some v => Some v
           | None => dotenv_get file k
           end.

Section dict.
Context {V : Type}.
Implicit Types (acc : list (string * V)) (k : string) (v : V).

Lemma assoc_None k acc : assoc k acc = None <-> k ∉ acc.*1.
Proof.
  induction acc as [|[k' v'] acc IH]; simpl; [split; [intros _; apply not_elem_of_nil|done]|].
  rewrite not_elem_of_cons, <-IH. case_decide as Hk; [|by intuition].
  split; [done|]. by intros [? _].
Qed.

Lemma assoc_app k acc1 acc2 :
  assoc k (acc1 ++ acc2) = from_option Some (assoc k acc2) (assoc k acc1).
Proof.
  induction acc1 as [|[k' v'] acc1 IH]; simpl; [done|]. by case_decide.
Qed.

Lemma assoc_update k k' v acc :
  assoc k ((fun b => if decide (b.1 = k') then (k', v) else b) <$> acc) =
    if decide (k = k') then (fun _ => v) <$> assoc k' acc else assoc k acc.
Proof.
  induction acc as [|[k0 v0] acc IH]; simpl; [by case_decide|].
  repeat (case_decide; simplify_eq/=); try done; by rewrite IH, ?decide_True, ?decide_False.
Qed.

(** Setting a name changes the value of that name only. *)
Lemma assoc_dict_set k k' v acc :
  assoc k (dict_set acc k' v) = if decide (k = k') then Some v else assoc k acc.
Proof.
  unfold dict_set. case_bool_decide as Hin.
  - rewrite assoc_update. case_decide; [subst|done].
    destruct (assoc k' acc) eqn:E; [done|]. by apply assoc_None in E.
  - rewrite assoc_app; simpl. apply assoc_None in Hin.
    repeat (case_decide; simplify_eq/=); try done; [by rewrite Hin|by destruct (assoc k acc)].
Qed.

Lemma dict_set_keys k v acc : NoDup acc.*1 -> NoDup (dict_set acc k v).*1.
Proof.
  unfold dict_set. case_bool_decide as Hin; intros Hnd.
  - rewrite <-list_fmap_compose.
    erewrite (list_fmap_ext _ fst); [done|]. intros i [k0 v0] _; simpl. by case_decide.
  - rewrite fmap_app. apply NoDup_app. split_and!; [done| |apply NoDup_singleton].
    intros k0 Hk0 ->%list_elem_of_singleton. done.
Qed.

End dict.

Lemma dotenv_dict_snoc file b :
  dotenv_dict (file ++ [b]) = dict_set (dotenv_dict file) b.1 b.2.
Proof. unfold dotenv_dict. by rewrite foldl_app. Qed.

Lemma dotenv_dict_keys file : NoDup (dotenv_dict file).*1.
Proof.
  induction file as [|b file IH] using rev_ind; [constructor|].
  rewrite dotenv_dict_snoc. by apply dict_set_keys.
Qed.

(** The dictionary gives each name the value of its last binding. *)
Lemma dotenv_dict_get file k : mjoin (assoc k (dotenv_dict file)) = dotenv_get file k.
Proof.
  unfold dotenv_get. induction file as [|[k' v'] file IH] using rev_ind; [done|].
  rewrite dotenv_dict_snoc, assoc_dict_set. simpl.
  rewrite (filter_app _ file [_]), filter_cons, filter_nil. simpl.
  case_decide; [subst; rewrite decide_True by done|rewrite decide_False by done].
  - by rewrite last_snoc.
  - by rewrite app_nil_r.
Qed.

(** The loop over a dictionary: the environment first. *)
Lemma set_as_environment_variables_get values : forall env k,
  NoDup values.*1 ->
  set_as_environment_variables values env k =
    match env k with
    | Some v => Some v
    | None => mjoin (assoc k values)
    end.
Proof.
  induction values as [|[k0 v0] values IH]; intros env k Hnd; simpl.
  { by destruct (env k). }
  apply NoDup_cons in Hnd as [Hk0%assoc_None Hnd].
  unfold set_as_environment_variables in *. simpl. rewrite IH by done.
  destruct (env k0) as [v|] eqn:E0, v0 as [s|]; unfold setenv;
    repeat (case_decide; simplify_eq/=); rewrite ?E0, ?Hk0; try done;
    by destruct (env k).
Qed.

(** ** The load *)

Lemma forallb_plain (bindings : dotenv) :
  forallb (fun b => negb (has_reference b.2)) bindings = true <->
  Forall (fun b => has_reference b.2 = false) bindings.
Proof.
  induction bindings as [|b bs IH]; simpl; [done|].
  by rewrite Forall_cons, andb_true_iff, IH, negb_true_iff.
Qed.

(** The environment after [load_dotenv()].  A file without references
    is read, and afterwards every variable the environment had has the
    value it had, and every other variable has the value of its last
    binding in the file, if it has one with a value: the file never
    replaces what the environment holds. *)
Lemma load_dotenv_spec file env :
  Forall (fun b => has_reference b.2 = false) (default [] file) ->
  exists env', load_dotenv file env = Some env' /\
               forall k, env' k = merged (default [] file) env k.
Proof.
  intros Hplain%forallb_plain. unfold load_dotenv. rewrite Hplain. eexists. split; [done|].
  - intros k. rewrite set_as_environment_variables_get by apply dotenv_dict_keys.
    unfold merged. by rewrite dotenv_dict_get.
Qed.

(** A file with a reference is not read. *)
Lemma load_dotenv_None file env :
  load_dotenv file env = None <->
  ~ Forall (fun b => has_reference b.2 = false) (default [] file).
Proof.
  unfold load_dotenv. rewrite <-forallb_plain.
  destruct (forallb _ _); by split.
Qed.

(** C32: when the service starts.  The module loads with the connection
    string [url] exactly when [url] is not empty and is the value of
    [DATABASE_URL] in the environment or, the environment not having the
    variable at all, its last value in the file [.env]. *)
Theorem startup_spec file env url :
  Forall (fun b => has_reference b.2 = false) (default [] file) ->
  startup file env = Some (Ok url) <->
  url <> "" /\ merged (default [] file) env "DATABASE_URL" = Some url.
Proof.
  intros (env' & Hload & Henv)%(load_dotenv_spec file env). unfold startup.
  rewrite Hload; simpl. unfold load_database_url. rewrite Henv.
  destruct (merged _ env "DATABASE_URL") as [u|]; [|by split; [|intros []]].
  destruct (String.eqb_spec u "") as [->|Hu].
  - split; [done|]. by intros [Hne [= <-]].
  - split; [by intros [= <-]|]. by intros [_ [= <-]].
Qed.

(** A variable that is set and empty hides the file: with [DATABASE_URL]
    empty in the environment the module does not load, whatever the file
    binds the name to. *)
Lemma startup_empty_masks file env :
  env "DATABASE_URL" = Some "" ->
  startup file env = None \/
  startup file env = Some (raise ValueError "DATABASE_URL environment variable is required").
Proof.
  intros Hurl. unfold startup.
  destruct (decide (Forall (fun b => has_reference b.2 = false) (default [] file)))
    as [Hp|Hn]; [right|left; by rewrite (proj2 (load_dotenv_None file env))].
  destruct (load_dotenv_spec file env Hp) as (env' & -> & Henv). simpl.
  unfold load_database_url. rewrite Henv. unfold merged. by rewrite Hurl.
Qed.

(** ** Examples *)

(** A file that binds the connection string twice and an empty
    environment: the last binding is the connection string. *)
Definition two_urls : dotenv :=
  [ ("DATABASE_URL", Some "postgresql://localhost/dev"); ("PORT", Some "8000");
    ("DATABASE_URL", Some "postgresql://db/properties"); ("DEBUG", None) ].

Definition no_env : environ := fun _ => None.

Definition empty_url : environ :=
  fun key => if decide (key = "DATABASE_URL") then Some "" else None.

Lemma load_dotenv_spec_witness :
  exists env', load_dotenv (Some two_urls) no_env = Some env' /\
               forall k, env' k = merged two_urls no_env k.
Proof. apply (load_dotenv_spec (Some two_urls) no_env). by repeat constructor. Defined.

Lemma startup_spec_witness :
  startup (Some two_urls) no_env = Some (Ok "postgresql://db/properties") <->
  "postgresql://db/properties" <> "" /\
  merged two_urls no_env "DATABASE_URL" = Some "postgresql://db/properties".
Proof. apply (startup_spec (Some two_urls) no_env). by repeat constructor. Defined.

Example startup_two_urls :
  startup (Some two_urls) no_env = Some (Ok "postgresql://db/properties") /\
  startup (Some two_urls) empty_url =
    Some (raise ValueError "DATABASE_URL environment variable is required") /\
  startup None no_env =
    Some (raise ValueError "DATABASE_URL environment variable is required") /\
  startup (Some [("DATABASE_URL", Some "postgresql://${HOST}/properties")]) no_env = None.
Proof. by vm_compute. Qed.
