(* ===== verification/Serializer.v ===== *)
(** * The result serializer and JSON encoding

    [serialize_result] ([src/app.py], lines 42-48) is the [default] hook the
    search handlers hand to the JSON encoder: the encoder calls it on every
    object it cannot encode itself and encodes what it returns.  This file
    holds the JSON values, the encoder of the [json] module with its hook
    ([json_encode], modelled from its documentation), [datetime.isoformat],
    and the hook itself. *)

From Stdlib Require Import ZArith Lia Ascii.
From stdpp Require Import base tactics option list strings pretty.
From S2P Require Import Prelude PyValue.

Section serializer.
Context `{PyFloat}.

(** ** JSON values *)

Unset Elimination Schemes.
Inductive json :=
| JNull
| JBool (b : bool)
| JInt (z : Z)
| JFloat (f : pyfloat)
| JStr (s : string)
| JArr (l : list json)
| JObj (kvs : list (string * json)).
Set Elimination Schemes.

(** The value a JSON document decodes to ([json.loads]). *)
Fixpoint of_json (j : json) : pyval :=
  match j with
  | JNull => VNone
  | JBool b => VBool b
  | JInt z => VInt z
  | JFloat f => VFloat f
  | JStr s => VStr s
  | JArr l => VList (map of_json l)
  | JObj kvs => VDict (map (fun kv => (kv.1, of_json kv.2)) kvs)
  end.

(** ** [datetime.isoformat] *)

Definition pad (n : nat) (s : string) : string :=
  String.string_of_list_ascii (replicate (n - String.length s) "0"%char) +:+ s.

Definition iso_offset (o : option Z) : string :=
  match o with
  | None => ""
  | Some m =>
      (if (m <? 0)%Z then "-" else "+") +:+
      pad 2 (pretty (Z.abs m / 60)%Z) +:+ ":" +:+ pad 2 (pretty (Z.abs m mod 60)%Z)
  end.

Definition isoformat (t : datetime) : string :=
  pad 4 (pretty (dt_year t)) +:+ "-" +:+ pad 2 (pretty (dt_month t)) +:+ "-" +:+
  pad 2 (pretty (dt_day t)) +:+ "T" +:+ pad 2 (pretty (dt_hour t)) +:+ ":" +:+
  pad 2 (pretty (dt_minute t)) +:+ ":" +:+ pad 2 (pretty (dt_second t)) +:+
  (if (dt_micro t =? 0)%Z then "" else "." +:+ pad 6 (pretty (dt_micro t))) +:+
  iso_offset (dt_offset t).

(** ** The hook *)

(** [serialize_result(obj)]: a [Decimal] becomes a float, a [datetime] its
    ISO-8601 string, anything else raises [TypeError]. *)
Definition serialize_result (obj : pyval) : py pyval :=
  match obj with
  | VDecimal d => Ok (VFloat (float_of_decimal d))
  | VDatetime t => Ok (VStr (isoformat t))
  | v => raise TypeError
           ("Object of type <class '" +:+ type_name v +:+ "'> is not JSON serializable")
  end.

(** ** The encoder

    [json_encode fuel default v]: what [json.dumps(v, default=default)]
    writes, as a JSON value.  The encoder handles [None], booleans, numbers,
    strings, lists and dicts with string keys itself; on anything else it
    calls [default] and encodes the result, which may call [default] again:
    [fuel] bounds that chain, as the interpreter's recursion limit does. *)

Fixpoint json_encode (fuel : nat) (dflt : pyval -> py pyval) (v : pyval) {struct fuel}
    : py json :=
  let hook (v : pyval) : py json :=
    match fuel with
    | O => raise TypeError "maximum recursion depth exceeded"
    | S n => v' ← dflt v; json_encode n dflt v'
    end in
  (fix go (v : pyval) : py json :=
     match v with
     | VNone => Ok JNull
     | VBool b => Ok (JBool b)
     | VInt z => Ok (JInt z)
     | VFloat f => Ok (JFloat f)
     | VStr s => Ok (JStr s)
     | VList l => JArr <$> mapM_result go l
     | VDict kvs =>
         JObj <$> mapM_result (fun kv => j ← go kv.2; Ok (kv.1, j)) kvs
     | VDecimal _ | VDatetime _ => hook v
     end) v.

(** Encoding without a hook: [json.dumps(v)]. *)
Definition no_default (v : pyval) : py pyval :=
  raise TypeError
    ("Object of type " +:+ type_name v +:+ " is not JSON serializable").

(** A value the encoder handles without its hook. *)
Fixpoint json_native (v : pyval) : bool :=
  match v with
  | VNone | VBool _ | VInt _ | VFloat _ | VStr _ => true
  | VDecimal _ | VDatetime _ => false
  | VList l => forallb json_native l
  | VDict kvs => forallb (fun kv => json_native kv.2) kvs
  end.

(** A value whose leaves the encoder or [serialize_result] handle: every
    value a database row holds. *)
Definition row_value (v : pyval) : bool :=
  match v with
  | VList _ | VDict _ => false
  | _ => true
  end.

(** What the encoder writes for a value when its hook is [serialize_result]:
    a decimal as a float, a date as its ISO-8601 string, everything else as
    it is. *)
Fixpoint serialized (v : pyval) : json :=
  match v with
  | VNone => JNull
  | VBool b => JBool b
  | VInt z => JInt z
  | VFloat f => JFloat f
  | VStr s => JStr s
  | VDecimal d => JFloat (float_of_decimal d)
  | VDatetime t => JStr (isoformat t)
  | VList l => JArr (map serialized l)
  | VDict kvs => JObj (map (fun kv => (kv.1, serialized kv.2)) kvs)
  end.

End serializer.

Arguments isoformat : simpl never.

(** ** The encoder on lists, dicts and native values *)

Section encoder_lemmas.
Context `{PyFloat}.

Lemma mapM_result_ext {E A B} (f g : A -> result E B) (l : list A) :
  Forall (fun x => f x = g x) l -> mapM_result f l = mapM_result g l.
Proof. induction 1 as [|x l Hx _ IH]; [done|]. simpl. by rewrite Hx, IH. Qed.

Lemma mapM_result_Ok {E A B} (f : A -> result E B) (g : A -> B) (l : list A) :
  Forall (fun x => f x = Ok (g x)) l -> mapM_result f l = Ok (g <$> l).
Proof. induction 1 as [|x l Hx _ IH]; [done|]. simpl. by rewrite Hx, IH. Qed.

Lemma mapM_result_Err {E A B} (f : A -> result E B) (l : list A) e :
  mapM_result f l = Err e -> exists x, x ∈ l /\ f x = Err e.
Proof.
  induction l as [|x l IH]; [done|]. simpl.
  intros [Hx|(y & _ & [Hl|(? & _ & [=])]%rbind_Err_inv)]%rbind_Err_inv.
  - exists x. split; [solve_elem|done].
  - destruct (IH Hl) as (x' & ? & ?). exists x'. split; [by right|done].
Qed.

Lemma json_encode_list fuel hook l :
  json_encode fuel hook (VList l) = JArr <$> mapM_result (json_encode fuel hook) l.
Proof. by destruct fuel. Qed.

Lemma json_encode_dict fuel hook kvs :
  json_encode fuel hook (VDict kvs) =
    JObj <$> mapM_result (fun kv => j ← json_encode fuel hook kv.2; Ok (kv.1, j)) kvs.
Proof. by destruct fuel. Qed.

Lemma json_encode_hook fuel hook v :
  json_native v = false -> row_value v = true ->
  json_encode (S fuel) hook v = hook v ≫= json_encode fuel hook.
Proof. by destruct v. Qed.

(** On a native value the encoder never calls its hook: the result does not
    depend on the hook or on the fuel. *)
Lemma json_encode_native fuel fuel' hook hook' v :
  json_native v = true ->
  json_encode fuel hook v = json_encode fuel' hook' v.
Proof.
  induction v as [| | | | | | |l IH|kvs IH] using pyval_ind;
    try (by destruct fuel, fuel'); simpl; intros Hn.
  - rewrite !json_encode_list. f_equal. apply mapM_result_ext.
    rewrite forallb_forall in Hn. rewrite Forall_forall in IH |- *.
    intros x Hx. apply IH; [done|]. by apply Hn, list_elem_of_In.
  - rewrite !json_encode_dict. f_equal. apply mapM_result_ext.
    rewrite forallb_forall in Hn. rewrite Forall_forall in IH |- *.
    intros x Hx. rewrite (IH x Hx); [done|]. by apply Hn, list_elem_of_In.
Qed.

End encoder_lemmas.

(** ** The encoder with [serialize_result] as its hook *)

Section hook_lemmas.
Context `{PyFloat}.

Lemma serialize_result_Ok v w :
  serialize_result v = Ok w ->
  (exists d, v = VDecimal d /\ w = VFloat (float_of_decimal d)) \/
  (exists t, v = VDatetime t /\ w = VStr (isoformat t)).
Proof. destruct v; intros [= <-]; eauto. Qed.

(** What the hook returns is always native: the encoder calls it at most
    once on a value. *)
Lemma serialize_result_native v w : serialize_result v = Ok w -> json_native w = true.
Proof. by intros [(d & _ & ->)|(t & _ & ->)]%serialize_result_Ok. Qed.

(** With [serialize_result] as its hook the encoder accepts every value, and
    one level of hook calls is enough. *)
Lemma json_encode_serialized fuel v :
  json_encode (S fuel) serialize_result v = Ok (serialized v).
Proof.
  induction v as [| | | | | | |l IH|kvs IH] using pyval_ind;
    try (by destruct fuel).
  - rewrite json_encode_list. by rewrite (mapM_result_Ok _ serialized).
  - rewrite json_encode_dict.
    rewrite (mapM_result_Ok _ (fun kv => (kv.1, serialized kv.2))); [done|].
    eapply Forall_impl; [exact IH|]. intros kv Hkv; simpl in *. by rewrite Hkv.
Qed.

Lemma serialize_result_Err v e : serialize_result v = Err e -> exn_cls e = TypeError.
Proof. by destruct v; intros [= <-]. Qed.

(** What the encoder raises is a [TypeError] of its own or what its hook
    raised. *)
Lemma json_encode_Err fuel hook v e :
  json_encode fuel hook v = Err e ->
  exn_cls e = TypeError \/ exists w, hook w = Err e.
Proof.
  revert v. induction fuel as [|fuel IHf]; intros v;
    induction v as [| | | | |d|t|l IH|kvs IH] using pyval_ind;
    try done; try (by intros [= <-]; left);
    rewrite ?json_encode_list, ?json_encode_dict, ?json_encode_hook by done.
  all: try (intros [He|(w & _ & He)]%rbind_Err_inv; [by eauto|by apply IHf in He]).
  all: destruct (mapM_result _ _) as [?|e'] eqn:E; intros [= <-];
    apply mapM_result_Err in E as (x & Hx & He);
    rewrite Forall_forall in IH; specialize (IH x Hx).
  all: try (by apply IH).
  all: destruct (json_encode _ hook x.2) as [j|e''] eqn:E'; [done|];
    injection He as ->; by apply IH.
Qed.

(** Without fuel the hook cannot run: a decimal or a date is refused. *)
Lemma json_encode_no_fuel hook v :
  row_value v = true -> json_native v = false -> is_ok (json_encode 0 hook v) = false.
Proof. by destruct v. Qed.

End hook_lemmas.

(** ** Encoding and decoding *)

Section roundtrip.
Context `{PyFloat}.

Lemma mapM_result_inverse {E A B} (f : A -> result E B) (g : B -> A) (l : list A) :
  Forall (fun x => g <$> f x = Ok x) l -> map g <$> mapM_result f l = Ok l.
Proof.
  induction 1 as [|x l Hx _ IH]; [done|]. simpl.
  destruct (f x) as [y|]; [|done]. destruct (mapM_result f l) as [ys|]; [|done].
  simpl in *. by simplify_eq.
Qed.

(** A value made of [None], booleans, numbers, strings, lists and dicts is
    encoded without the hook, and decoding what the encoder wrote gives the
    value back. *)
Lemma json_encode_roundtrip v :
  json_native v = true -> of_json <$> json_encode 0 no_default v = Ok v.
Proof.
  induction v as [| | | | | | |l IH|kvs IH] using pyval_ind; try done;
    cbn [json_native]; intros Hn.
  - rewrite json_encode_list. rewrite forallb_forall in Hn.
    assert (map of_json <$> mapM_result (json_encode 0 no_default) l = Ok l) as Hl.
    { apply mapM_result_inverse. rewrite Forall_forall in IH |- *.
      intros x Hx. apply IH; [done|]. by apply Hn, list_elem_of_In. }
    destruct (mapM_result _ l); simpl in *; by simplify_eq.
  - rewrite json_encode_dict. rewrite forallb_forall in Hn.
    assert (map (fun kv => (kv.1, of_json kv.2)) <$>
              mapM_result (fun kv => j ← json_encode 0 no_default kv.2; Ok (kv.1, j)) kvs =
            Ok kvs) as Hl.
    { apply mapM_result_inverse. rewrite Forall_forall in IH |- *.
      intros [k x] Hx. specialize (IH _ Hx (Hn _ (proj1 (list_elem_of_In _ _) Hx))).
      cbn [fst snd] in *. destruct (json_encode 0 no_default x); [|done].
      cbn [fmap result_fmap mbind result_bind fst snd] in *. by simplify_eq. }
    destruct (mapM_result _ kvs); simpl in *; by simplify_eq.
Qed.

End roundtrip.

(** ** Termination of the encoder *)

Section termination.
Context `{PyFloat}.

(** A hook that hands back what it was given never lets the encoder finish
    a decimal. *)
Lemma json_encode_loops fuel d : is_ok (json_encode fuel Ok (VDecimal d)) = false.
Proof. induction fuel as [|fuel IH]; [done|]. by rewrite json_encode_hook. Qed.

(** C33: with [serialize_result] as its hook the encoder terminates on every
    value: it returns a JSON value, the same for every positive bound on the
    chain of hook calls, so it is never the bound that ends the encoding
    (what [serialize_result] returns needs no hook).  The bound is needed in
    general: with a hook that returns its argument the encoder never
    finishes a decimal, whatever the bound. *)
Theorem json_encode_terminates v :
  (exists j, forall fuel, json_encode (S fuel) serialize_result v = Ok j) /\
  (forall fuel d, is_ok (json_encode fuel Ok (VDecimal d)) = false).
Proof.
  split; [|apply json_encode_loops].
  exists (serialized v). intros fuel. apply json_encode_serialized.
Qed.

End termination.
