(* ===== verification/Flask.v ===== *)
(** * The Flask side: requests, responses and [jsonify]

    What the handlers of [src/app.py] see of Flask and Werkzeug: the query
    string as a [MultiDict] with its [get] method (decoded by [Url], see
    [parse_qs]), the headers, the JSON body as [get_json] reads it, and
    [jsonify], which turns a Python object into a JSON response.  [jsonify]
    is kept behind the interface [Flask]; two instances are given,
    [flask_keyword_default] (a keyword argument [default] is handed to the
    encoder as its hook) and [flask_released] (positional and keyword
    arguments together are refused, as the released versions of Flask do). *)

From Stdlib Require Import ZArith Lia Ascii.
From stdpp Require Import base tactics option list strings.
From S2P Require Import Prelude PyValue PyBuiltins Url Serializer.

Section headers.

(** ** Headers *)

(** Names and values, in order; a name may repeat. *)
Definition headers : Type := list (string * string).

Definition same_name (a b : string) : bool := String.eqb (str_lower a) (str_lower b).

(** [headers.get(name)]: the first value of the name, which is compared
    without regard to case. *)
Definition header_get (h : headers) (name : string) : option string :=
  snd <$> List.find (fun kv => same_name kv.1 name) h.

(** [headers.getlist(name)]: every value of the name. *)
Definition header_all (h : headers) (name : string) : list string :=
  snd <$> List.filter (fun kv => same_name kv.1 name) h.

(** [Request.mimetype]: the content type without its parameters, in lower
    case; the empty string when the request names none. *)
Definition mimetype_of (h : headers) : string :=
  str_lower (strip (cut ";"%char (default "" (header_get h "Content-Type"))).1).

(** [s.endswith(q)] *)
Definition ends_with (q s : string) : bool := is_prefix (String.rev q) (String.rev s).

(** [Request.is_json] *)
Definition is_json (mt : string) : bool :=
  String.eqb mt "application/json" ||
  (is_prefix "application/" mt && ends_with "+json" mt).

End headers.

Section flask.
Context `{PyFloat}.

(** ** Requests *)

(** [request.args]: the decoded query string, keys may repeat. *)
Definition multidict := list (string * string).

(** How Werkzeug reads a query string: the pairs of [Url.query_pairs].  A
    query whose decoded text has a byte above 127 is not read: what such a
    byte becomes depends on the version of Werkzeug. *)
Definition ascii_pair (kv : string * string) : bool := is_ascii kv.1 && is_ascii kv.2.

Definition parse_qs (s : string) : option multidict :=
  let a := query_pairs s in
  if forallb ascii_pair a then Some a else None.

(** [args.get(key)]: the first value of [key], [None] when absent. *)
Definition args_get (a : multidict) (key : string) : option string :=
  assoc key a.

(** [args.get(key, type=conv)]: the converted first value; [None] when the
    key is absent and when the conversion raises [ValueError]. *)
Definition args_get_type {A} (conv : string -> option A)
    (a : multidict) (key : string) : option A :=
  s ← args_get a key; conv s.

(** [int(args.get(key, dflt))] with an integer default. *)
Definition args_int (a : multidict) (key : string) (dflt : Z) : py Z :=
  match args_get a key with
  | Some s => py_int s
  | None => Ok dflt
  end.

(** [float(args.get(key, dflt))] with a float default. *)
Definition args_float (a : multidict) (key : string) (dflt : pyfloat) : py pyfloat :=
  match args_get a key with
  | Some s =>
      of_option (Exn ValueError ("could not convert string to float: " +:+ s))
        (float_of_str s)
  | None => Ok dflt
  end.

(** An argument that is given and does not convert. *)
Definition unreadable {A} (conv : string -> option A) (a : multidict) (key : string)
    : bool :=
  match args_get a key with
  | Some s => match conv s with Some _ => false | None => true end
  | None => false
  end.

Record request := Request {
  req_method : string;
  req_path : string;
  req_args : multidict;
  (** [request.get_json()]: the decoded body, or what decoding raises. *)
  req_json : py pyval
}.

(** [request.get_json()], with its defaults: the body is decoded when the
    content type of the request is one of JSON, and only then.  [loads] is
    what [json.loads] makes of the data: a value, or the [ValueError] of a
    text that is not a JSON document.  Two things depend on the version of
    Flask and are arguments:
    - [unread], what is raised for another content type: nothing before
      Flask 2.1, which returns [None]; [BadRequest] in 2.1 and 2.2;
      [UnsupportedMediaType] since;
    - [failed], the [BadRequest] raised for the error of the decoder, whose
      description has the message of the decoder in debug mode only. *)
Definition get_json (unread : option exn) (failed : exn -> exn)
    (h : headers) (loads : py pyval) : py pyval :=
  if is_json (mimetype_of h) then
    match loads with
    | Ok v => Ok v
    | Err e => Err (failed e)
    end
  else
    match unread with
    | Some x => Err x
    | None => Ok VNone
    end.

(** The two exceptions as Werkzeug 3 prints them, outside debug mode. *)
Definition bad_request : exn :=
  Exn HttpError
    "400 Bad Request: The browser (or proxy) sent a request that this server could not understand.".

Definition unsupported_media_type : exn :=
  Exn HttpError
    "415 Unsupported Media Type: Did not attempt to load JSON data because the request Content-Type was not 'application/json'.".

(** ** Responses *)

(** A body: JSON, a text, or the page Werkzeug writes for an HTTP error of
    a code that has no handler (a title and a sentence, whose wording
    depends on the version). *)
Inductive body :=
| BJson (j : json)
| BHtml (s : string)
| BPage (code : Z).

Record response := Response { status : Z; resp_body : body }.

(** ** [jsonify] *)

Class Flask := {
  (** [jsonify(obj)] *)
  jsonify : pyval -> py json;
  (** [jsonify(obj, default=hook)] *)
  jsonify_default : pyval -> (pyval -> py pyval) -> py json;
  (** Flask encodes what the [json] module encodes as the module does. *)
  jsonify_native v : json_native v = true -> jsonify v = json_encode 0 no_default v;
  (** What [jsonify] raises is a [TypeError] or what the hook raised. *)
  jsonify_default_raises v hook e :
    jsonify_default v hook = Err e -> exn_cls e = TypeError \/ exists w, hook w = Err e
}.

(** [return jsonify(obj)] and [return jsonify(obj), code]. *)
Definition json_response `{Flask} (code : Z) (obj : pyval) : py response :=
  j ← jsonify obj; Ok (Response code (BJson j)).

Definition json_response_default `{Flask} (code : Z) (obj : pyval)
    (hook : pyval -> py pyval) : py response :=
  j ← jsonify_default obj hook; Ok (Response code (BJson j)).

End flask.

Section header_lemmas.
Implicit Types (h : headers) (name : string).

Lemma header_get_app h1 h2 name :
  header_get (h1 ++ h2) name =
    match header_get h1 name with Some v => Some v | None => header_get h2 name end.
Proof.
  unfold header_get. induction h1 as [|kv h1 IH]; [done|]. simpl.
  by destruct (same_name kv.1 name).
Qed.

Lemma header_all_app h1 h2 name :
  header_all (h1 ++ h2) name = header_all h1 name ++ header_all h2 name.
Proof. unfold header_all. by rewrite List.filter_app, fmap_app. Qed.

Lemma header_get_head h name : header_get h name = head (header_all h name).
Proof.
  unfold header_get, header_all. induction h as [|kv h IH]; [done|]. simpl.
  by destruct (same_name kv.1 name).
Qed.

(** The content types of JSON. *)
Example is_json_examples :
  mimetype_of [("content-type", "application/json; charset=utf-8")] = "application/json" /\
  is_json "application/json" = true /\ is_json "application/geo+json" = true /\
  is_json (mimetype_of [("Content-Type", " Application/JSON ")]) = true /\
  is_json "text/json" = false /\ is_json "application/x-www-form-urlencoded" = false /\
  is_json (mimetype_of []) = false.
Proof. by vm_compute. Qed.

End header_lemmas.

Section get_json_lemmas.
Context `{PyFloat} (unread : option exn) (failed : exn -> exn).
Implicit Types (h : headers) (loads : py pyval).

(** A body of JSON under a content type of JSON is what [get_json]
    returns. *)
Lemma get_json_Ok h loads v :
  is_json (mimetype_of h) = true -> loads = Ok v -> get_json unread failed h loads = Ok v.
Proof. unfold get_json. by intros -> ->. Qed.

(** What [get_json] gives otherwise: an exception or [None]. *)
Lemma get_json_unread h loads :
  is_json (mimetype_of h) = false \/ is_ok loads = false ->
  get_json unread failed h loads = Ok VNone \/ exists e, get_json unread failed h loads = Err e.
Proof.
  unfold get_json. intros [->|Hl].
  - destruct unread; eauto.
  - destruct loads; [done|]. destruct (is_json _); [eauto|]. destruct unread; eauto.
Qed.

End get_json_lemmas.

Section args_lemmas.
Context `{PyFloat}.

(** Every list of pairs of ASCII text is the [request.args] of a query, the
    one [urlencode] writes for it. *)
Lemma parse_qs_urlencode (a : multidict) :
  forallb ascii_pair a = true -> parse_qs (urlencode a) = Some a.
Proof. intros Ha. unfold parse_qs. by rewrite query_pairs_urlencode, Ha. Qed.

(** A query that is read has the pairs of its text. *)
Lemma parse_qs_Some s a : parse_qs s = Some a -> a = query_pairs s.
Proof. unfold parse_qs. by destruct (forallb _ _); intros [= <-]. Qed.

Lemma unreadable_float a k dflt :
  unreadable float_of_str a k = negb (is_ok (args_float a k dflt)).
Proof.
  unfold unreadable, args_float. destruct (args_get a k) as [s|]; [|done].
  by destruct (float_of_str s).
Qed.

Lemma unreadable_int a k dflt :
  unreadable int_of_str a k = negb (is_ok (args_int a k dflt)).
Proof.
  unfold unreadable, args_int, py_int. destruct (args_get a k) as [s|]; [|done].
  by destruct (int_of_str s).
Qed.

(** What the conversions raise is a [ValueError]. *)
Lemma args_float_Err a k dflt e :
  args_float a k dflt = Err e -> is_value_error e = true.
Proof.
  unfold args_float. destruct (args_get a k) as [s|]; [|done].
  by destruct (float_of_str s); intros [= <-].
Qed.

Lemma args_int_Err a k dflt e : args_int a k dflt = Err e -> is_value_error e = true.
Proof.
  unfold args_int, py_int. destruct (args_get a k) as [s|]; [|done].
  by destruct (int_of_str s); intros [= <-].
Qed.

End args_lemmas.

Section response_lemmas.
Context `{PyFloat} `{!Flask}.

Lemma json_response_status code obj r : json_response code obj = Ok r -> status r = code.
Proof. by intros (j & _ & [= <-])%rbind_Ok_inv. Qed.

Lemma json_response_default_status code obj hook r :
  json_response_default code obj hook = Ok r -> status r = code.
Proof. by intros (j & _ & [= <-])%rbind_Ok_inv. Qed.

(** An answer whose body needs no hook is always produced. *)
Lemma json_response_native code obj :
  json_native obj = true ->
  exists j, json_encode 0 no_default obj = Ok j /\
            json_response code obj = Ok (Response code (BJson j)).
Proof.
  intros Hn. unfold json_response. rewrite jsonify_native by done.
  rewrite <-(json_encode_native 1 0 serialize_result) by done.
  rewrite json_encode_serialized. by eexists.
Qed.

(** With [serialize_result] as the hook an answer raises [TypeError] only. *)
Lemma json_response_default_Err code obj e :
  json_response_default code obj serialize_result = Err e -> exn_cls e = TypeError.
Proof.
  intros [He|(j & _ & [=])]%rbind_Err_inv.
  apply jsonify_default_raises in He as [He|[w He]]; [done|].
  by apply serialize_result_Err in He.
Qed.

End response_lemmas.

(** ** Two readings of [jsonify(obj, default=hook)]

    [own] is the hook Flask itself gives the encoder (what it does with
    dates, decimals and the like when the caller names no hook). *)

Section instances.
Context `{PyFloat} (own : pyval -> py pyval).

(** The chain of hook calls is bounded by the interpreter's recursion
    limit. *)
Definition recursion_limit : nat := 1000.

Lemma jsonify_own_native v :
  json_native v = true ->
  json_encode recursion_limit own v = json_encode 0 no_default v.
Proof. apply json_encode_native. Qed.

(** The keyword argument [default] is the encoder's hook. *)
Definition flask_keyword_default : Flask := {|
  jsonify v := json_encode recursion_limit own v;
  jsonify_default v hook := json_encode recursion_limit hook v;
  jsonify_native := jsonify_own_native;
  jsonify_default_raises v hook e := json_encode_Err recursion_limit hook v e
|}.

Lemma refused_raises (v : pyval) (hook : pyval -> py pyval) e :
  (raise TypeError "jsonify() behavior undefined when passed both args and kwargs"
     : py json) = Err e ->
  exn_cls e = TypeError \/ exists w, hook w = Err e.
Proof. intros [= <-]. by left. Qed.

(** Released Flask ([flask.json.jsonify], and [DefaultJSONProvider.response]
    from 2.2 on): positional and keyword arguments together raise
    [TypeError]; the keywords would be the fields of the object. *)
Definition flask_released : Flask := {|
  jsonify v := json_encode recursion_limit own v;
  jsonify_default v hook :=
    raise TypeError "jsonify() behavior undefined when passed both args and kwargs";
  jsonify_native := jsonify_own_native;
  jsonify_default_raises := refused_raises
|}.

End instances.

Arguments recursion_limit : simpl never.

(** ** The two readings, on an answer *)

Section instance_lemmas.
Context `{PyFloat} (own : pyval -> py pyval).

(** With the keyword handed to the encoder and [serialize_result] as the
    hook, every answer is encoded. *)
Lemma json_response_default_keyword code obj :
  @json_response_default _ (flask_keyword_default own) code obj serialize_result =
    Ok (Response code (BJson (serialized obj))).
Proof.
  unfold json_response_default, jsonify_default, flask_keyword_default.
  by rewrite (json_encode_serialized 999).
Qed.

(** With a released Flask no answer is. *)
Lemma json_response_default_released code obj hook :
  is_ok (@json_response_default _ (flask_released own) code obj hook) = false.
Proof. done. Qed.

End instance_lemmas.
