(* ===== verification/Sql.v ===== *)
(** * SQL text

    The statements [src/app.py] sends, as the strings the source holds, and
    the scanner of psycopg2 that finds the placeholders in them.  A [%s]
    stands for the next positional argument and [%%] for a percent sign;
    psycopg2 refuses any other use of [%].  The filtered search assembles
    its WHERE clause from a list of condition texts joined by [" AND "]
    ([search_sql]). *)

From Stdlib Require Import ZArith Lia Ascii.
From stdpp Require Import base tactics option list strings.
From S2P Require Import Prelude PyValue.

(** ** Placeholders *)

Inductive frag :=
| FChar (c : ascii)
| FHole.

Inductive scan_state := Normal | AfterPercent.

#[export] Instance frag_eq_dec : EqDecision frag.
Proof. solve_decision. Defined.

Fixpoint scan_from (st : scan_state) (s : string) : py (list frag) :=
  match s, st with
  | EmptyString, Normal => Ok []
  | EmptyString, AfterPercent => raise ValueError "incomplete format"
  | String c r, Normal =>
      if Ascii.eqb c "%" then scan_from AfterPercent r
      else cons (FChar c) <$> scan_from Normal r
  | String c r, AfterPercent =>
      if Ascii.eqb c "s" then cons FHole <$> scan_from Normal r
      else if Ascii.eqb c "%" then cons (FChar "%") <$> scan_from Normal r
      else if Ascii.eqb c "(" then raise TypeError "format requires a mapping"
      else raise ValueError "unsupported format character"
  end.

(** The fragments of a statement: its characters and its placeholders. *)
Definition scan : string -> py (list frag) := scan_from Normal.

Definition is_hole (f : frag) : bool :=
  match f with FHole => true | FChar _ => false end.

Definition holes (fs : list frag) : nat := length (filter is_hole fs).

(** The number of positional arguments a statement takes. *)
Definition placeholders (s : string) : py nat := holes <$> scan s.

(** ** The statements of the handlers *)

(** [health_check], lines 125, 130 and 134-138. *)
Definition health_info_sql : string :=
  "SELECT version(), current_database(), current_user, NOW();".

Definition postgis_version_sql : string := "SELECT PostGIS_Version();".

Definition counts_sql : string :=
  "
                    SELECT COUNT(*) as property_count,
                           COUNT(location) as properties_with_location
                    FROM properties;
                ".

(** [find_nearby_properties], lines 182-208. *)
Definition nearby_sql : string :=
  "
                    SELECT 
                        id,
                        address,
                        price,
                        bedrooms,
                        bathrooms,
                        square_feet,
                        property_type,
                        listing_status,
                        ST_X(location) as longitude,
                        ST_Y(location) as latitude,
                        ST_Distance(
                            location,
                            ST_GeomFromText('POINT(%s %s)', 4326)
                        ) as distance_meters,
                        created_at
                    FROM properties 
                    WHERE location IS NOT NULL
                    AND ST_DWithin(
                        location,
                        ST_GeomFromText('POINT(%s %s)', 4326),
                        %s
                    )
                    ORDER BY distance_meters
                    LIMIT %s;
                ".

(** [add_property], lines 303-311. *)
Definition insert_sql : string :=
  "
                    INSERT INTO properties (
                        address, price, bedrooms, bathrooms, square_feet,
                        property_type, location
                    ) VALUES (
                        %s, %s, %s, %s, %s, %s,
                        ST_GeomFromText('POINT(%s %s)', 4326)
                    ) RETURNING id;
                ".

(** [search_properties], lines 258-269: the text before and after the
    joined conditions. *)
Definition search_select : string :=
  "
            SELECT 
                id, address, price, bedrooms, bathrooms, square_feet,
                property_type, listing_status,
                ST_X(location) as longitude,
                ST_Y(location) as latitude,
                created_at
            FROM properties 
            WHERE ".

Definition search_tail : string :=
  "
            ORDER BY price ASC
            LIMIT %s;
        ".

(** [' AND '.join(conditions)] *)
Definition join_and (conditions : list string) : string :=
  String.concat " AND " conditions.

(** The f-string of lines 258-269. *)
Definition search_sql (conditions : list string) : string :=
  search_select +:+ join_and conditions +:+ search_tail.

(** ** The conditions of the filtered search

    The six predicates [search_properties] can put in its WHERE clause
    (lines 237-254), with the text the source appends for each. *)

Inductive cond :=
| CActive | CPriceGe | CPriceLe | CBedroomsGe | CBathroomsGe | CTypeILike.

#[export] Instance cond_eq_dec : EqDecision cond.
Proof. solve_decision. Defined.

Definition cond_sql (c : cond) : string :=
  match c with
  | CActive => "listing_status = 'active'"
  | CPriceGe => "price >= %s"
  | CPriceLe => "price <= %s"
  | CBedroomsGe => "bedrooms >= %s"
  | CBathroomsGe => "bathrooms >= %s"
  | CTypeILike => "property_type ILIKE %s"
  end.

(** The number of arguments a condition binds. *)
Definition cond_arity (c : cond) : nat :=
  match c with CActive => 0 | _ => 1 end.

(** ** Scanning and concatenation *)

Section scan_lemmas.

Lemma holes_app (x y : list frag) : holes (x ++ y) = holes x + holes y.
Proof. unfold holes. by rewrite filter_app, length_app. Qed.

Lemma holes_cons_char c fs : holes (FChar c :: fs) = holes fs.
Proof. done. Qed.

Lemma holes_cons_hole fs : holes (FHole :: fs) = S (holes fs).
Proof. done. Qed.

(** Scanning a concatenation: once the first part is scanned, the scanner
    is back in its normal state and goes on with the second. *)
Lemma scan_from_app st a b fa :
  scan_from st a = Ok fa ->
  scan_from st (a +:+ b) = (fun fb => fa ++ fb) <$> scan_from Normal b.
Proof.
  revert st fa. induction a as [|c a IH]; intros st fa.
  - destruct st; simpl; [|done]. intros [= <-]. by rewrite string_app_nil_l, rfmap_id.
  - rewrite string_app_cons. destruct st; simpl.
    + destruct (Ascii.eqb c "%"); [by apply IH|].
      intros (fa' & Ha & <-)%rfmap_Ok_inv.
      by rewrite (IH _ _ Ha), rfmap_compose.
    + repeat case_match; try done;
        intros (fa' & Ha & <-)%rfmap_Ok_inv;
        by rewrite (IH _ _ Ha), rfmap_compose.
Qed.

Lemma placeholders_app a b n m :
  placeholders a = Ok n -> placeholders b = Ok m ->
  placeholders (a +:+ b) = Ok (n + m).
Proof.
  unfold placeholders, scan.
  intros (fa & Ha & <-)%rfmap_Ok_inv (fb & Hb & <-)%rfmap_Ok_inv.
  rewrite (scan_from_app _ _ _ _ Ha), Hb. simpl. by rewrite holes_app.
Qed.

(** Joining texts with a separator that holds no placeholder adds the
    placeholders up. *)
Lemma placeholders_concat sep (l : list string) (ns : list nat) :
  placeholders sep = Ok 0 ->
  Forall2 (fun s n => placeholders s = Ok n) l ns ->
  placeholders (String.concat sep l) = Ok (sum_list ns).
Proof.
  intros Hsep. induction 1 as [|s n l ns Hs Hl IH]; [done|].
  destruct Hl as [|s' n' l' ns' Hs' Hl'].
  - simpl. by rewrite Nat.add_0_r.
  - change (String.concat sep (s :: s' :: l'))
      with (s +:+ sep +:+ String.concat sep (s' :: l')).
    rewrite (placeholders_app _ _ n (0 + sum_list (n' :: ns')) Hs); [done|].
    by apply placeholders_app.
Qed.

End scan_lemmas.

(** The condition texts and the fixed statements take the arguments their
    handlers pass. *)
Lemma cond_sql_placeholders c : placeholders (cond_sql c) = Ok (cond_arity c).
Proof. by destruct c. Qed.

Lemma fixed_sql_placeholders :
  placeholders nearby_sql = Ok 6 /\ placeholders insert_sql = Ok 8 /\
  placeholders search_select = Ok 0 /\ placeholders search_tail = Ok 1 /\
  placeholders health_info_sql = Ok 0 /\ placeholders postgis_version_sql = Ok 0 /\
  placeholders counts_sql = Ok 0.
Proof. repeat split; vm_compute; reflexivity. Qed.

(** The statement of the filtered search takes one argument for each
    placeholder of its conditions, and one for the limit. *)
Lemma search_sql_placeholders (cs : list cond) :
  placeholders (search_sql (cond_sql <$> cs)) = Ok (sum_list (cond_arity <$> cs) + 1).
Proof.
  destruct fixed_sql_placeholders as (_ & _ & Hsel & Htail & _).
  unfold search_sql. apply (placeholders_app _ _ 0 _ Hsel).
  apply placeholders_app; [|done]. apply placeholders_concat; [done|].
  apply Forall2_fmap, Forall_Forall2_diag, Forall_forall.
  intros c _. apply cond_sql_placeholders.
Qed.
