(* ===== verification/Bind.v ===== *)
(** * Binding arguments: psycopg2's adapters and the literals of SQL

    psycopg2 binds on the client: [cursor.execute(sql, args)] writes every
    argument as an SQL literal ([adapt]), puts the literals in the place of
    the placeholders ([bind], [mogrify]) and sends the resulting text.  The
    server never sees which characters were arguments.  This file models
    that step and the part of the server's lexer that decides which
    characters of a text are code and which are data ([sql_lex]): string
    literals in single quotes, a doubled quote standing for one quote inside
    a literal (the setting [standard_conforming_strings] of PostgreSQL 9.1
    and later).

    A template is read the same way with its placeholders kept
    ([lex_template]): a placeholder in the place of a value is [SArg], a
    placeholder inside a quoted literal is [SArgIn].  [inst] fills the
    placeholders of a template's tokens; [lex_bound] shows that the text
    psycopg2 sends has the tokens of its template whenever every argument in
    the place of a value is a complete piece of SQL and every argument inside
    a literal has no quote.  Comments, quoted identifiers and dollar quotes
    are not modelled: the statements of [src/app.py] hold none. *)

From Stdlib Require Import ZArith Lia Ascii.
From stdpp Require Import base tactics option list strings pretty.
From S2P Require Import Prelude PyValue PyBuiltins Serializer Sql.

(** ** The lexer *)

Inductive token :=
| TCode (c : ascii)   (** a character outside literals *)
| TOpen               (** the quote that opens a literal *)
| TData (c : ascii)   (** a character of a literal's value *)
| TClose.             (** the quote that closes a literal *)

(** [Closing]: inside a literal, just after a quote, which closes the
    literal unless another quote follows. *)
Inductive lex_state := Code | InLit | Closing.

#[export] Instance token_eq_dec : EqDecision token.
Proof. solve_decision. Defined.
#[export] Instance lex_state_eq_dec : EqDecision lex_state.
Proof. solve_decision. Defined.

Definition is_quote (c : ascii) : bool := Ascii.eqb c "'".

Definition lex_char (st : lex_state) (c : ascii) : lex_state * list token :=
  match st with
  | Code => if is_quote c then (InLit, [TOpen]) else (Code, [TCode c])
  | InLit => if is_quote c then (Closing, []) else (InLit, [TData c])
  | Closing => if is_quote c then (InLit, [TData c]) else (Code, [TClose; TCode c])
  end.

(** The state after a text and the tokens read so far. *)
Fixpoint lex_run (st : lex_state) (s : string) : lex_state * list token :=
  match s with
  | EmptyString => (st, [])
  | String c r =>
      let '(st1, o1) := lex_char st c in
      let '(st2, o2) := lex_run st1 r in
      (st2, o1 ++ o2)
  end.

(** The end of the text: a literal left open is an error. *)
Definition lex_end (st : lex_state) : option (list token) :=
  match st with
  | Code => Some []
  | InLit => None
  | Closing => Some [TClose]
  end.

Definition lex_from (st : lex_state) (s : string) : option (list token) :=
  let '(st', o) := lex_run st s in
  e ← lex_end st'; Some (o ++ e).

(** The tokens of a text; [None] when a literal is not closed. *)
Definition sql_lex : string -> option (list token) := lex_from Code.

(** The tokens of a literal with the value [s]. *)
Definition literal (s : string) : list token :=
  TOpen :: (TData <$> String.list_ascii_of_string s) ++ [TClose].

(** The tokens of a text outside literals. *)
Definition code (s : string) : list token :=
  TCode <$> String.list_ascii_of_string s.

(** ** Quoting *)

Fixpoint no_quote (s : string) : bool :=
  match s with
  | EmptyString => true
  | String c r => negb (is_quote c) && no_quote r
  end.

(** [PQescapeStringConn]: every quote is doubled. *)
Fixpoint double_quotes (s : string) : string :=
  match s with
  | EmptyString => EmptyString
  | String c r =>
      if is_quote c then String c (String c (double_quotes r))
      else String c (double_quotes r)
  end.

Definition quote_string (s : string) : string :=
  "'" +:+ double_quotes s +:+ "'".

(** A text that is a whole number of tokens: no literal is left open. *)
Definition closed (s : string) : bool := bool_decide (is_Some (sql_lex s)).

(** ** Lemmas on the lexer *)

Section lex_lemmas.

Lemma lex_run_app st a b :
  lex_run st (a +:+ b) =
    let '(st1, o1) := lex_run st a in
    let '(st2, o2) := lex_run st1 b in
    (st2, o1 ++ o2).
Proof.
  revert st. induction a as [|c a IH]; intros st.
  - rewrite string_app_nil_l. simpl. by destruct (lex_run st b).
  - rewrite string_app_cons. simpl. destruct (lex_char st c) as [st1 o1].
    rewrite IH. destruct (lex_run st1 a) as [st2 o2], (lex_run st2 b) as [st3 o3].
    by rewrite app_assoc.
Qed.

Lemma lex_from_app st a b :
  lex_from st (a +:+ b) =
    let '(st1, o1) := lex_run st a in (fun o => o1 ++ o) <$> lex_from st1 b.
Proof.
  unfold lex_from. rewrite lex_run_app.
  destruct (lex_run st a) as [st1 o1], (lex_run st1 b) as [st2 o2].
  destruct (lex_end st2); simpl; [|done]. by rewrite app_assoc.
Qed.

(** Outside literals a text without quotes is code, inside a literal it is
    data. *)
Lemma lex_run_code s : no_quote s = true -> lex_run Code s = (Code, code s).
Proof.
  unfold code. induction s as [|c s IH]; [done|]. simpl.
  intros [Hc Hs]%andb_prop. apply negb_true_iff in Hc. rewrite Hc.
  by rewrite (IH Hs).
Qed.

Lemma lex_run_data s :
  no_quote s = true ->
  lex_run InLit s = (InLit, TData <$> String.list_ascii_of_string s).
Proof.
  induction s as [|c s IH]; [done|]. simpl.
  intros [Hc Hs]%andb_prop. apply negb_true_iff in Hc. rewrite Hc.
  by rewrite (IH Hs).
Qed.

(** Inside a literal the escaped form of a text is read as the text. *)
Lemma lex_run_double_quotes s :
  lex_run InLit (double_quotes s) = (InLit, TData <$> String.list_ascii_of_string s).
Proof.
  induction s as [|c s IH]; [done|]. simpl.
  destruct (is_quote c) eqn:Hc; simpl; rewrite Hc; simpl; rewrite ?Hc, IH; done.
Qed.

Lemma lex_run_quote_string s :
  lex_run Code (quote_string s) =
    (Closing, TOpen :: (TData <$> String.list_ascii_of_string s)).
Proof.
  unfold quote_string. rewrite string_app_cons, string_app_nil_l. simpl.
  rewrite lex_run_app, lex_run_double_quotes. simpl. by rewrite app_nil_r.
Qed.

(** The server reads the quoted form of a string as one literal whose value
    is the string. *)
Lemma sql_lex_quote_string s : sql_lex (quote_string s) = Some (literal s).
Proof. unfold sql_lex, lex_from. by rewrite lex_run_quote_string. Qed.

Lemma sql_lex_code s : no_quote s = true -> sql_lex s = Some (code s).
Proof.
  intros Hs. unfold sql_lex, lex_from. rewrite (lex_run_code s Hs). simpl.
  by rewrite app_nil_r.
Qed.

Lemma closed_code s : no_quote s = true -> closed s = true.
Proof. intros Hs. apply bool_decide_eq_true. by rewrite sql_lex_code. Qed.

Lemma closed_quote_string s : closed (quote_string s) = true.
Proof. apply bool_decide_eq_true. by rewrite sql_lex_quote_string. Qed.

Lemma no_quote_app a b : no_quote (a +:+ b) = no_quote a && no_quote b.
Proof.
  induction a as [|c a IH]; [by rewrite string_app_nil_l|].
  rewrite string_app_cons. simpl. by rewrite IH, andb_assoc.
Qed.

End lex_lemmas.

(** ** What psycopg2 writes for an argument *)

(** Floats and decimals are written by the adapters of their types: [repr]
    of a float that is finite, after a space when it is negative, and
    ['NaN'::float], ['Infinity'::float] or ['-Infinity'::float] for the
    others; [str] of a [Decimal].  The service depends on three properties
    only: the text is a whole number of tokens, the text of a finite float
    has no quote, and the text of any other float has one. *)
Class SqlText `{PyFloat} := {
  float_sql : pyfloat -> string;
  decimal_sql : decimal -> string;
  float_sql_plain f : float_finite f = true -> no_quote (float_sql f) = true;
  float_sql_quoted f : float_finite f = false -> no_quote (float_sql f) = false;
  float_sql_closed f : closed (float_sql f) = true;
  decimal_sql_closed d : closed (decimal_sql d) = true;
}.

Section adapt.
Context `{SqlText}.

Fixpoint has_nul (s : string) : bool :=
  match s with
  | EmptyString => false
  | String c r => Ascii.eqb c "000" || has_nul r
  end.

(** A negative number is written after a space, so that it cannot join a
    minus sign before it. *)
Definition spaced (s : string) : string :=
  match s with
  | String c _ => if Ascii.eqb c "-" then " " +:+ s else s
  | EmptyString => s
  end.

Definition is_none (v : pyval) : bool :=
  match v with VNone => true | _ => false end.

(** A list: ['{}'] when it is empty, the elements between braces in a
    literal when all are [None], and [ARRAY[...]] otherwise. *)
Definition array_sql (l : list pyval) (lits : list string) : string :=
  match l with
  | [] => "'{}'"
  | _ =>
      if forallb is_none l then "'{" +:+ String.concat "," lits +:+ "}'"
      else "ARRAY[" +:+ String.concat "," lits +:+ "]"
  end.

(** [adapt(v).getquoted()].  [isoformat] writes no quote, so quoting its
    result only puts it between quotes. *)
Fixpoint adapt (v : pyval) : py string :=
  match v with
  | VNone => Ok "NULL"
  | VBool b => Ok (if b then "true" else "false")
  | VInt z => Ok (spaced (str_of_int z))
  | VFloat f => Ok (float_sql f)
  | VStr s =>
      if has_nul s then
        raise ValueError "A string literal cannot contain NUL (0x00) characters."
      else Ok (quote_string s)
  | VDecimal d => Ok (decimal_sql d)
  | VDatetime t =>
      Ok (quote_string (isoformat t) +:+
          match dt_offset t with Some _ => "::timestamptz" | None => "::timestamp" end)
  | VList l => array_sql l <$> mapM_result adapt l
  | VDict _ => raise DbError "can't adapt type 'dict'"
  end.

(** ** Binding *)

(** The text of a statement with its arguments: the placeholders are filled
    from left to right.  An argument is adapted when its placeholder is
    reached; a placeholder without an argument and an argument without a
    placeholder are errors. *)
Fixpoint bind (fs : list frag) (args : list pyval) : py string :=
  match fs with
  | [] =>
      match args with
      | [] => Ok ""
      | _ => raise TypeError "not all arguments converted during string formatting"
      end
  | FChar c :: r => String c <$> bind r args
  | FHole :: r =>
      match args with
      | [] => raise IndexError "list index out of range"
      | a :: args' => l ← adapt a; rest ← bind r args'; Ok (l +:+ rest)
      end
  end.

(** [cursor.mogrify(sql, args)]: the text [execute] sends.  Without
    arguments the text is sent as it is. *)
Definition mogrify (sql : string) (args : option (list pyval)) : py string :=
  match args with
  | None => Ok sql
  | Some a => fs ← scan sql; bind fs a
  end.

(** The text with the placeholders filled by texts already written. *)
Fixpoint fill (fs : list frag) (lits : list string) : string :=
  match fs, lits with
  | [], _ => ""
  | FChar c :: r, _ => String c (fill r lits)
  | FHole :: r, l :: lits' => l +:+ fill r lits'
  | FHole :: r, [] => fill r []
  end.

End adapt.

Arguments mogrify : simpl never.

(** ** The tokens of a template *)

Inductive slot :=
| SFix (t : token)   (** a token of the template's own text *)
| SArg               (** a placeholder in the place of a value *)
| SArgIn.            (** a placeholder inside a literal *)

(** The state of the lexer in a template: [AfterArg] is just after a
    placeholder in the place of a value. *)
Inductive tpl_state := At (st : lex_state) | AfterArg.

#[export] Instance slot_eq_dec : EqDecision slot.
Proof. solve_decision. Defined.

(** A placeholder may stand in the place of a value or inside a literal; a
    quote may not follow a placeholder, and a placeholder may not follow a
    quote that closes a literal or another placeholder: the argument would
    join the literal or the argument next to it. *)
Definition tpl_step (ts : tpl_state) (f : frag) : option (tpl_state * list slot) :=
  match f, ts with
  | FChar c, At st => let '(st', o) := lex_char st c in Some (At st', SFix <$> o)
  | FChar c, AfterArg =>
      if is_quote c then None else Some (At Code, [SFix (TCode c)])
  | FHole, At Code => Some (AfterArg, [SArg])
  | FHole, At InLit => Some (At InLit, [SArgIn])
  | FHole, _ => None
  end.

Fixpoint tpl_run (ts : tpl_state) (fs : list frag) : option (tpl_state * list slot) :=
  match fs with
  | [] => Some (ts, [])
  | f :: r =>
      '(ts1, o1) ← tpl_step ts f;
      '(ts2, o2) ← tpl_run ts1 r;
      Some (ts2, o1 ++ o2)
  end.

Definition tpl_end (ts : tpl_state) : option (list slot) :=
  match ts with
  | At st => (fun toks : list token => SFix <$> toks) <$> lex_end st
  | AfterArg => Some []
  end.

Definition tpl_from (ts : tpl_state) (fs : list frag) : option (list slot) :=
  '(ts', o) ← tpl_run ts fs;
  e ← tpl_end ts'; Some (o ++ e).

(** The tokens of a template; [None] when a literal is left open or a
    placeholder stands where no argument can be kept apart. *)
Definition lex_template : list frag -> option (list slot) := tpl_from (At Code).

(** The tokens of a template with its placeholders filled: in the place of
    a value an argument brings the tokens of its text, which must be whole;
    inside a literal its text, which must have no quote, is data. *)
Fixpoint inst (slots : list slot) (lits : list string) : option (list token) :=
  match slots with
  | [] => match lits with [] => Some [] | _ => None end
  | SFix t :: r => cons t <$> inst r lits
  | SArg :: r =>
      match lits with
      | l :: lits' => toks ← sql_lex l; rest ← inst r lits'; Some (toks ++ rest)
      | [] => None
      end
  | SArgIn :: r =>
      match lits with
      | l :: lits' =>
          if no_quote l then
            rest ← inst r lits';
            Some ((TData <$> String.list_ascii_of_string l) ++ rest)
          else None
      | [] => None
      end
  end.

(** Where the placeholders of a template stand, from left to right: [true]
    inside a literal, [false] in the place of a value. *)
Definition slot_kind (s : slot) : option bool :=
  match s with
  | SFix _ => None
  | SArg => Some false
  | SArgIn => Some true
  end.

Definition slot_kinds (slots : list slot) : list bool := omap slot_kind slots.

(** A template read from a state: the state it ends in and where its
    placeholders stand. *)
Definition reads (ts : tpl_state) (s : string) : option (tpl_state * list bool) :=
  match scan s with
  | Ok fs => '(ts', o) ← tpl_run ts fs; Some (ts', slot_kinds o)
  | Err _ => None
  end.

Definition kinds (sql : string) : option (list bool) :=
  '(ts, ks) ← reads (At Code) sql;
  _ ← tpl_end ts; Some ks.

(** What a placeholder can take: inside a literal a text without quotes, in
    the place of a value a text that is whole. *)
Definition fits (inside : bool) (l : string) : bool :=
  if inside then no_quote l else closed l.

(** ** Closed texts

    Every quote takes the lexer into a literal or out of one ([Closing]
    counts as outside): a text is closed exactly when its quotes are even in
    number. *)

Section closed_lemmas.

Fixpoint odd_quotes (s : string) : bool :=
  match s with
  | EmptyString => false
  | String c r => xorb (is_quote c) (odd_quotes r)
  end.

Definition in_lit (st : lex_state) : bool :=
  match st with InLit => true | _ => false end.

Lemma lex_run_in_lit st s :
  in_lit (lex_run st s).1 = xorb (in_lit st) (odd_quotes s).
Proof.
  revert st. induction s as [|c s IH]; intros st; simpl.
  - by rewrite xorb_false_r.
  - destruct (lex_char st c) as [st1 o1] eqn:Hc. specialize (IH st1).
    destruct (lex_run st1 s) as [st2 o2]. cbn [fst] in *. rewrite IH.
    unfold lex_char in Hc.
    destruct st, (is_quote c); injection Hc as <- <-; by destruct (odd_quotes s).
Qed.

Lemma closed_odd_quotes s : closed s = negb (odd_quotes s).
Proof.
  pose proof (lex_run_in_lit Code s) as Hin. unfold closed, sql_lex, lex_from.
  destruct (lex_run Code s) as [st o]. simpl in Hin. rewrite <-Hin.
  by destruct st.
Qed.

Lemma odd_quotes_app a b : odd_quotes (a +:+ b) = xorb (odd_quotes a) (odd_quotes b).
Proof.
  induction a as [|c a IH]; [by rewrite string_app_nil_l|].
  rewrite string_app_cons. simpl. by rewrite IH, xorb_assoc.
Qed.

Lemma closed_app a b : closed a = true -> closed b = true -> closed (a +:+ b) = true.
Proof.
  rewrite !closed_odd_quotes, odd_quotes_app.
  by intros ->%negb_true_iff ->%negb_true_iff.
Qed.

Lemma closed_concat sep l :
  closed sep = true -> Forall (fun s => closed s = true) l ->
  closed (String.concat sep l) = true.
Proof.
  intros Hsep. induction 1 as [|s l Hs Hl IH]; [done|].
  destruct l as [|s' l]; [done|].
  change (String.concat sep (s :: s' :: l)) with (s +:+ sep +:+ String.concat sep (s' :: l)).
  by repeat apply closed_app.
Qed.

End closed_lemmas.

(** ** What the adapters write *)

Section adapt_lemmas.
Context `{SqlText}.

Lemma no_quote_digits s : all_digits s = true -> no_quote s = true.
Proof.
  induction s as [|c s IH]; [done|]. simpl.
  intros [Hc Hs]%andb_prop. rewrite (IH Hs), andb_true_r.
  apply bool_decide_eq_true in Hc as [d Hd].
  destruct c as [[] [] [] [] [] [] [] []]; by vm_compute in Hd |- *.
Qed.

(** An integer is written without a quote. *)
Lemma no_quote_str_of_int z : no_quote (str_of_int z) = true.
Proof.
  destruct (str_of_int_cases z) as [(s & -> & Hd & _)|(s & -> & Hd & _)];
    [|simpl]; by apply no_quote_digits.
Qed.

Lemma no_quote_spaced s : no_quote (spaced s) = no_quote s.
Proof. destruct s as [|c s]; [done|]. unfold spaced. by case_match. Qed.

Lemma adapt_list l :
  adapt (VList l) = array_sql l <$> mapM_result adapt l.
Proof. done. Qed.

Lemma mapM_result_Forall2 {E A B} (f : A -> result E B) (l : list A) (l' : list B) :
  mapM_result f l = Ok l' -> Forall2 (fun x y => f x = Ok y) l l'.
Proof.
  revert l'. induction l as [|x l IH]; intros l'; simpl.
  - intros [= <-]. constructor.
  - intros (y & Hy & (ys & Hys & [= <-])%rbind_Ok_inv)%rbind_Ok_inv.
    constructor; [done|by apply IH].
Qed.

Lemma closed_array l lits :
  Forall (fun s => closed s = true) lits -> closed (array_sql l lits) = true.
Proof.
  intros Hl. unfold array_sql. destruct l; [done|].
  pose proof (closed_concat "," lits eq_refl Hl) as Hc.
  rewrite closed_odd_quotes in Hc. apply negb_true_iff in Hc.
  case_match; by rewrite closed_odd_quotes, !odd_quotes_app, Hc.
Qed.

(** Whatever the argument, the text written for it is a whole number of
    tokens. *)
Lemma adapt_closed v l : adapt v = Ok l -> closed l = true.
Proof.
  revert l. induction v as [|b|z|f|s|d|t|vs IH|kvs _] using pyval_ind;
    intros l; simpl; try (intros [= <-]); try done.
  - by destruct b.
  - apply closed_code. by rewrite no_quote_spaced, no_quote_str_of_int.
  - apply float_sql_closed.
  - case_match; [done|]. intros [= <-]. apply closed_quote_string.
  - apply decimal_sql_closed.
  - apply closed_app; [apply closed_quote_string|by case_match].
  - intros (lits & Hlits%mapM_result_Forall2 & <-)%rfmap_Ok_inv.
    apply closed_array. clear -IH Hlits.
    induction Hlits as [|x y xs ys Hxy _ IHl]; [constructor|].
    apply Forall_cons in IH as [Hx Hxs]. constructor; [by apply Hx|by apply IHl].
Qed.

(** A string is written as one literal whose value is the string. *)
Lemma adapt_str s :
  has_nul s = false -> adapt (VStr s) = Ok (quote_string s).
Proof. simpl. by intros ->. Qed.

End adapt_lemmas.

(** ** The text sent has the tokens of its template *)

Section binding.
Context `{SqlText}.

(** The lexer in the text against the lexer in the template: they are in
    the same state, except after an argument in the place of a value, where
    the lexer in the text may still owe the quote that closes the
    argument. *)
Inductive corr : tpl_state -> lex_state -> list token -> Prop :=
| corr_at st : corr (At st) st []
| corr_code : corr AfterArg Code []
| corr_closing : corr AfterArg Closing [TClose].

Lemma tpl_from_cons ts f r :
  tpl_from ts (f :: r) =
    '(ts1, o1) ← tpl_step ts f; (fun o => o1 ++ o) <$> tpl_from ts1 r.
Proof.
  unfold tpl_from. simpl. destruct (tpl_step ts f) as [[ts1 o1]|]; [|done]. simpl.
  destruct (tpl_run ts1 r) as [[ts2 o2]|]; [|done]. simpl.
  destruct (tpl_end ts2); [|done]. simpl. by rewrite app_assoc.
Qed.

Lemma inst_fix_app o r lits :
  inst ((SFix <$> o) ++ r) lits = (fun toks => o ++ toks) <$> inst r lits.
Proof.
  induction o as [|t o IH]; [simpl; by destruct (inst r lits)|].
  rewrite fmap_cons. cbn [app inst]. rewrite IH. by destruct (inst r lits).
Qed.

Lemma lex_from_cons st c s :
  lex_from st (String c s) =
    let '(st1, o1) := lex_char st c in (fun o => o1 ++ o) <$> lex_from st1 s.
Proof.
  unfold lex_from. simpl. destruct (lex_char st c) as [st1 o1].
  destruct (lex_run st1 s) as [st2 o2]. destruct (lex_end st2); simpl; [|done].
  by rewrite app_assoc.
Qed.

(** An argument in the place of a value: its tokens, then what follows. *)
Lemma lex_from_value l rest toks :
  sql_lex l = Some toks ->
  exists st e o, corr AfterArg st e /\ toks = o ++ e /\
    lex_from Code (l +:+ rest) = (fun r => o ++ r) <$> lex_from st rest.
Proof.
  intros Hl. rewrite lex_from_app. unfold sql_lex, lex_from in Hl.
  destruct (lex_run Code l) as [st o]. exists st.
  destruct st; simplify_eq/=; eexists _, o; split_and!; done || constructor.
Qed.

Lemma lex_fill fs : forall ts st pend slots lits toks,
  corr ts st pend -> tpl_from ts fs = Some slots -> inst slots lits = Some toks ->
  lex_from st (fill fs lits) = Some (pend ++ toks).
Proof.
  induction fs as [|f r IH]; intros ts st pend slots lits toks Hc Hs Hi.
  { unfold tpl_from, lex_from in *. simpl in *.
    destruct Hc as [st| |]; simpl in *; [|destruct lits; by simplify_eq/=..].
    destruct (lex_end st) as [e|]; simplify_eq/=.
    rewrite <-(app_nil_r (SFix <$> e)), inst_fix_app in Hi.
    destruct lits; simplify_eq/=. by rewrite app_nil_r. }
  rewrite tpl_from_cons in Hs.
  destruct (tpl_step ts f) as [[ts1 o1]|] eqn:Hstep; simplify_eq/=.
  destruct (tpl_from ts1 r) as [slots'|] eqn:Hr; simplify_eq/=.
  destruct f as [c|], Hc as [st| |]; simpl in Hstep.
  - destruct (lex_char st c) as [st1 o] eqn:Hch. simplify_eq.
    rewrite inst_fix_app in Hi.
    destruct (inst slots' lits) as [toks'|] eqn:Hi'; simplify_eq/=.
    rewrite lex_from_cons, Hch, (IH _ _ _ _ _ _ (corr_at st1) Hr Hi'). done.
  - destruct (is_quote c) eqn:Hq; simplify_eq/=.
    destruct (inst slots' lits) as [toks'|] eqn:Hi'; simplify_eq/=.
    rewrite lex_from_cons. simpl. rewrite Hq.
    by rewrite (IH _ _ _ _ _ _ (corr_at Code) Hr Hi').
  - destruct (is_quote c) eqn:Hq; simplify_eq/=.
    destruct (inst slots' lits) as [toks'|] eqn:Hi'; simplify_eq/=.
    rewrite lex_from_cons. simpl. rewrite Hq.
    by rewrite (IH _ _ _ _ _ _ (corr_at Code) Hr Hi').
  - destruct st; simplify_eq/=; destruct lits as [|l lits]; simplify_eq/=.
    + destruct (sql_lex l) as [tl|] eqn:Hl; simplify_eq/=.
      destruct (inst slots' lits) as [toks'|] eqn:Hi'; simplify_eq/=.
      destruct (lex_from_value l (fill r lits) tl Hl) as (st & e & o & Hc & -> & ->).
      rewrite (IH _ _ _ _ _ _ Hc Hr Hi'). simpl. by rewrite app_assoc.
    + destruct (no_quote l) eqn:Hl; simplify_eq/=.
      destruct (inst slots' lits) as [toks'|] eqn:Hi'; simplify_eq/=.
      rewrite lex_from_app, (lex_run_data l Hl).
      by rewrite (IH _ _ _ _ _ _ (corr_at InLit) Hr Hi').
  - done.
  - done.
Qed.

End binding.

(** ** [mogrify] and the tokens of the template *)

Section mogrify_lemmas.
Context `{SqlText}.

(** The tokens a statement has when every argument stays what it is: the
    tokens of its template with the placeholders filled. *)
Definition bound_tokens (sql : string) (args : list pyval) : option (list token) :=
  match scan sql, mapM_result adapt args with
  | Ok fs, Ok lits => slots ← lex_template fs; inst slots lits
  | _, _ => None
  end.

Lemma bind_fill fs : forall args lits,
  mapM_result adapt args = Ok lits -> length args = holes fs ->
  bind fs args = Ok (fill fs lits).
Proof.
  induction fs as [|[c|] r IH]; intros args lits Hl Hn.
  - destruct args; simplify_eq/=. done.
  - simpl. rewrite holes_cons_char in Hn. by rewrite (IH _ _ Hl Hn).
  - rewrite holes_cons_hole in Hn. destruct args as [|a args]; [done|].
    simpl in Hl. apply rbind_Ok_inv in Hl as (l & Ha & (ls & Hls & [= <-])%rbind_Ok_inv).
    simpl. rewrite Ha. simpl. rewrite (IH _ _ Hls) by (simpl in Hn; lia). done.
Qed.

(** Filling a template takes as many texts as it has placeholders. *)
Lemma inst_length fs : forall ts slots lits toks,
  tpl_from ts fs = Some slots -> inst slots lits = Some toks ->
  length lits = holes fs.
Proof.
  induction fs as [|f r IH]; intros ts slots lits toks Hs Hi.
  { unfold tpl_from in Hs. simpl in Hs.
    destruct ts as [st|]; simpl in Hs; [destruct (lex_end st) as [e|]|]; simplify_eq/=.
    - rewrite <-(app_nil_r (SFix <$> e)), inst_fix_app in Hi.
      by destruct lits; simplify_eq/=.
    - by destruct lits; simplify_eq/=. }
  rewrite tpl_from_cons in Hs.
  destruct (tpl_step ts f) as [[ts1 o1]|] eqn:Hstep; simplify_eq/=.
  destruct (tpl_from ts1 r) as [slots'|] eqn:Hr; simplify_eq/=.
  destruct f as [c|]; [rewrite holes_cons_char|rewrite holes_cons_hole].
  - assert (exists o, o1 = SFix <$> o) as [o ->].
    { destruct ts as [st|]; simpl in Hstep.
      - destruct (lex_char st c) as [st' o]. simplify_eq. by exists o.
      - case_match; simplify_eq. by exists [TCode c]. }
    rewrite inst_fix_app in Hi.
    destruct (inst slots' lits) as [toks'|] eqn:Hi'; simplify_eq/=. by eapply IH.
  - destruct ts as [[]|], lits as [|l lits]; simplify_eq/=.
    + destruct (sql_lex l); simplify_eq/=.
      destruct (inst slots' lits) as [toks'|] eqn:Hi'; simplify_eq/=.
      f_equal. by eapply IH.
    + destruct (no_quote l); simplify_eq/=.
      destruct (inst slots' lits) as [toks'|] eqn:Hi'; simplify_eq/=.
      f_equal. by eapply IH.
Qed.

(** The text psycopg2 sends has the tokens of the template with the
    placeholders filled: the code of the statement is the code of its
    template, and each argument is read as what was written for it. *)
Lemma lex_bound sql args toks :
  bound_tokens sql args = Some toks ->
  exists text, mogrify sql (Some args) = Ok text /\ sql_lex text = Some toks.
Proof.
  unfold bound_tokens, mogrify.
  destruct (scan sql) as [fs|]; [|done].
  destruct (mapM_result adapt args) as [lits|] eqn:Hl; [|done]. simpl.
  destruct (lex_template fs) as [slots|] eqn:Hs; [|done]. simpl. intros Hi.
  exists (fill fs lits). split.
  - apply bind_fill; [done|]. apply mapM_result_Forall2, Forall2_length in Hl.
    rewrite Hl. by eapply inst_length.
  - by apply (lex_fill fs (At Code) Code [] slots lits toks); [constructor|..].
Qed.

Lemma tpl_run_app ts a b :
  tpl_run ts (a ++ b) =
    '(ts1, o1) ← tpl_run ts a; '(ts2, o2) ← tpl_run ts1 b; Some (ts2, o1 ++ o2).
Proof.
  revert ts. induction a as [|f a IH]; intros ts; simpl.
  - by destruct (tpl_run ts b) as [[]|].
  - destruct (tpl_step ts f) as [[ts1 o1]|]; [|done]. simpl. rewrite IH.
    destruct (tpl_run ts1 a) as [[ts2 o2]|]; [|done]. simpl.
    destruct (tpl_run ts2 b) as [[ts3 o3]|]; [|done]. simpl. by rewrite app_assoc.
Qed.

End mogrify_lemmas.

(** ** Where the placeholders stand *)

Section kinds_lemmas.
Context `{SqlText}.

Lemma slot_kinds_app a b : slot_kinds (a ++ b) = slot_kinds a ++ slot_kinds b.
Proof. apply omap_app. Qed.

Lemma slot_kinds_fix (o : list token) : slot_kinds (SFix <$> o) = [].
Proof. by induction o. Qed.

(** The placeholders of a template can be filled exactly when each of the
    texts fits its placeholder. *)
Lemma inst_fits slots : forall lits,
  is_Some (inst slots lits) <-> Forall2 (fun k l => fits k l = true) (slot_kinds slots) lits.
Proof.
  induction slots as [|[t| |] slots IH]; intros lits; simpl.
  - destruct lits; [by split|]. split; [by intros []|inversion 1].
  - rewrite <-IH. destruct (inst slots lits); simpl; split; by intros [].
  - destruct lits as [|l lits]; [split; [by intros []|inversion 1]|].
    rewrite Forall2_cons, <-IH. simpl. unfold closed. rewrite bool_decide_eq_true.
    destruct (sql_lex l), (inst slots lits); simpl; split; (by intros []) || eauto.
    all: by intros [[] []].
  - destruct lits as [|l lits]; [split; [by intros []|inversion 1]|].
    rewrite Forall2_cons, <-IH. simpl.
    destruct (no_quote l), (inst slots lits); simpl; split; (by intros []) || eauto.
    all: by intros [? []].
Qed.

Lemma reads_app ts a b ts1 k1 ts2 k2 :
  reads ts a = Some (ts1, k1) -> reads ts1 b = Some (ts2, k2) ->
  reads ts (a +:+ b) = Some (ts2, k1 ++ k2).
Proof.
  unfold reads, scan. destruct (scan_from Normal a) as [fa|] eqn:Ha; [|done].
  rewrite (scan_from_app _ _ b _ Ha). destruct (scan_from Normal b) as [fb|]; [|done].
  simpl. rewrite tpl_run_app.
  destruct (tpl_run ts fa) as [[ts1' o1]|]; [|done]. simpl. intros [= <- <-].
  destruct (tpl_run ts1' fb) as [[ts2' o2]|]; [|done]. simpl. intros [= <- <-].
  by rewrite slot_kinds_app.
Qed.

Lemma kinds_template sql ks :
  kinds sql = Some ks ->
  exists fs slots, scan sql = Ok fs /\ lex_template fs = Some slots /\
                   slot_kinds slots = ks.
Proof.
  unfold kinds, reads. destruct (scan sql) as [fs|]; [|done].
  destruct (tpl_run (At Code) fs) as [[ts o]|] eqn:Hrun; [|done]. simpl.
  destruct (tpl_end ts) as [e|] eqn:He; [|done]. simpl. intros [= <-].
  exists fs, (o ++ e). split_and!; [done| |].
  - unfold lex_template, tpl_from. rewrite Hrun. simpl. by rewrite He.
  - rewrite slot_kinds_app.
    destruct ts as [st|]; simpl in He; [destruct (lex_end st)|]; simplify_eq/=;
      by rewrite ?slot_kinds_fix, app_nil_r.
Qed.

(** The text sent is whole and has the tokens of its template with the
    placeholders filled, whenever the text written for each argument fits the
    placeholder it fills. *)
Lemma bound_fits sql args ks lits :
  kinds sql = Some ks -> mapM_result adapt args = Ok lits ->
  Forall2 (fun k l => fits k l = true) ks lits ->
  exists text toks, mogrify sql (Some args) = Ok text /\
    bound_tokens sql args = Some toks /\ sql_lex text = Some toks.
Proof.
  intros (fs & slots & Hfs & Hs & <-)%kinds_template Hl [toks Hi]%inst_fits.
  assert (bound_tokens sql args = Some toks) as Hb.
  { unfold bound_tokens. by rewrite Hfs, Hl, Hs. }
  destruct (lex_bound sql args toks Hb) as (text & ? & ?). by exists text, toks.
Qed.

(** In the place of a value every argument that can be written fits. *)
Lemma adapt_fits_values args lits :
  mapM_result adapt args = Ok lits ->
  Forall2 (fun k l => fits k l = true) (replicate (length args) false) lits.
Proof.
  intros Hl%mapM_result_Forall2. induction Hl as [|a l args lits Ha _ IH]; simpl.
  - constructor.
  - constructor; [by apply (adapt_closed a)|done].
Qed.

End kinds_lemmas.

(** ** A quoted argument inside a literal

    A string is written between quotes.  In a placeholder that stands
    inside a literal its first quote closes the literal of the template: the
    characters of the string are read as code, and its last quote opens a
    literal again. *)

Section escape.
Context `{SqlText}.

(** The quotes of the template's own text are odd in number. *)
Fixpoint odd_frags (fs : list frag) : bool :=
  match fs with
  | [] => false
  | FChar c :: r => xorb (is_quote c) (odd_frags r)
  | FHole :: r => odd_frags r
  end.

(** The template before and after its [n]-th placeholder, counted from 0. *)
Fixpoint split_hole (n : nat) (fs : list frag) : option (list frag * list frag) :=
  match fs with
  | [] => None
  | FChar c :: r => '(a, b) ← split_hole n r; Some (FChar c :: a, b)
  | FHole :: r =>
      match n with
      | O => Some ([], r)
      | S n' => '(a, b) ← split_hole n' r; Some (FHole :: a, b)
      end
  end.

Lemma split_hole_spec fs : forall n fs1 fs2,
  split_hole n fs = Some (fs1, fs2) -> fs = fs1 ++ FHole :: fs2 /\ holes fs1 = n.
Proof.
  induction fs as [|[c|] fs IH]; intros n fs1 fs2; simpl; [done|..].
  - destruct (split_hole n fs) as [[a b]|] eqn:Hs; [|done]. simpl. intros [= <- <-].
    destruct (IH _ _ _ Hs) as [-> <-]. by rewrite holes_cons_char.
  - destruct n as [|n]; [by intros [= <- <-]|].
    destruct (split_hole n fs) as [[a b]|] eqn:Hs; [|done]. simpl. intros [= <- <-].
    destruct (IH _ _ _ Hs) as [-> <-]. by rewrite holes_cons_hole.
Qed.

Lemma bind_Ok fs : forall args text,
  bind fs args = Ok text ->
  exists lits, mapM_result adapt args = Ok lits /\ text = fill fs lits /\
               length args = holes fs.
Proof.
  induction fs as [|[c|] fs IH]; intros args text; simpl.
  - destruct args; [|done]. intros [= <-]. by exists [].
  - intros (t & (lits & Hl & -> & Hn)%IH & <-)%rfmap_Ok_inv.
    exists lits. by rewrite holes_cons_char.
  - destruct args as [|a args]; [done|].
    intros (l & Ha & (t & (lits & Hl & -> & Hn)%IH & [= <-])%rbind_Ok_inv)%rbind_Ok_inv.
    exists (l :: lits). simpl. rewrite Ha, Hl, holes_cons_hole. by rewrite Hn.
Qed.

Lemma fill_app fs1 : forall fs2 lits1 lits2,
  length lits1 = holes fs1 ->
  fill (fs1 ++ fs2) (lits1 ++ lits2) = fill fs1 lits1 +:+ fill fs2 lits2.
Proof.
  induction fs1 as [|[c|] fs1 IH]; intros fs2 lits1 lits2 Hn; simpl.
  - destruct lits1; [|done]. by rewrite string_app_nil_l.
  - rewrite holes_cons_char in Hn. by rewrite IH, string_app_cons.
  - rewrite holes_cons_hole in Hn. destruct lits1 as [|l lits1]; [done|]. simpl.
    rewrite IH by (simpl in Hn; lia). by rewrite string_app_assoc.
Qed.

(** Arguments that are whole leave the parity of the template's quotes. *)
Lemma odd_quotes_fill fs : forall lits,
  Forall (fun l => closed l = true) lits -> odd_quotes (fill fs lits) = odd_frags fs.
Proof.
  induction fs as [|[c|] fs IH]; intros lits Hl; simpl; [done|by rewrite IH|].
  destruct Hl as [|l lits Hc Hl]; [by apply IH|].
  rewrite odd_quotes_app, (IH _ Hl). rewrite closed_odd_quotes in Hc.
  apply negb_true_iff in Hc. by rewrite Hc.
Qed.

Lemma double_quotes_plain x : no_quote x = true -> double_quotes x = x.
Proof.
  induction x as [|c x IH]; [done|]. simpl. intros [Hc Hx]%andb_prop.
  apply negb_true_iff in Hc. by rewrite Hc, (IH Hx).
Qed.

Lemma lex_run_quoted_in_lit x :
  no_quote x = true -> x <> "" ->
  lex_run InLit (quote_string x) = (InLit, TClose :: code x ++ [TOpen]).
Proof.
  intros Hq Hx. unfold quote_string. rewrite (double_quotes_plain x Hq).
  destruct x as [|c x]; [done|]. simpl in Hq. apply andb_prop in Hq as [Hc Hq].
  apply negb_true_iff in Hc. rewrite !string_app_cons, string_app_nil_l. simpl.
  rewrite Hc, lex_run_app, (lex_run_code x Hq). done.
Qed.

Lemma lex_run_odd s : odd_quotes s = true -> (lex_run Code s).1 = InLit.
Proof.
  intros Hs. pose proof (lex_run_in_lit Code s) as Hin. rewrite Hs in Hin.
  by destruct (lex_run Code s).1.
Qed.

Lemma lex_from_odd s : odd_quotes s = true -> is_Some (lex_from InLit s).
Proof.
  intros Hs. pose proof (lex_run_in_lit InLit s) as Hin. rewrite Hs in Hin.
  unfold lex_from. destruct (lex_run InLit s) as [[] o]; by simpl in *.
Qed.

(** The tokens of a text in which [x] is read as code between the end of
    one literal and the start of another. *)
Definition escapes (x : string) (toks : list token) : Prop :=
  exists pre post, toks = pre ++ TClose :: code x ++ TOpen :: post.

Lemma lex_escape pre x post :
  odd_quotes pre = true -> no_quote x = true -> x <> "" -> odd_quotes post = true ->
  exists toks, sql_lex (pre +:+ quote_string x +:+ post) = Some toks /\ escapes x toks.
Proof.
  intros Hpre Hq Hx [o2 Hpost]%lex_from_odd. unfold sql_lex.
  rewrite lex_from_app. pose proof (lex_run_odd pre Hpre) as Hst.
  destruct (lex_run Code pre) as [st o1]. simpl in Hst. subst st.
  rewrite lex_from_app, (lex_run_quoted_in_lit x Hq Hx), Hpost. simpl.
  eexists. split; [done|]. exists o1, o2. by rewrite <-app_assoc.
Qed.

(** A string without quotes, not empty, in a placeholder inside a literal:
    the text sent holds the string as code. *)
Lemma mogrify_escape sql args n x fs fs1 fs2 text :
  scan sql = Ok fs -> split_hole n fs = Some (fs1, fs2) ->
  odd_frags fs1 = true -> odd_frags fs2 = true ->
  args !! n = Some (VStr x) -> no_quote x = true -> x <> "" ->
  mogrify sql (Some args) = Ok text ->
  exists toks, sql_lex text = Some toks /\ escapes x toks.
Proof.
  intros Hfs [-> Hn]%split_hole_spec Ho1 Ho2 Hx Hq Hne.
  unfold mogrify. rewrite Hfs. simpl.
  intros (lits & Hl%mapM_result_Forall2 & -> & Hlen)%bind_Ok.
  assert (Forall (fun l => closed l = true) lits) as Hcl.
  { clear -Hl. induction Hl as [|a l ? ? Ha _ IH]; constructor; [|done].
    by apply (adapt_closed a). }
  destruct (Forall2_lookup_l _ _ _ _ _ Hl Hx) as (l & Hln & Hadapt).
  simpl in Hadapt. case_match; [done|]. injection Hadapt as <-.
  rewrite <-(take_drop_middle lits n _ Hln) in Hcl |- *.
  apply Forall_app in Hcl as [Hc1 [_ Hc2]%Forall_cons].
  rewrite fill_app; [|rewrite length_take, Hn; apply lookup_lt_Some in Hln; lia].
  simpl. apply lex_escape; [|done..|]; by rewrite odd_quotes_fill.
Qed.

End escape.

(** ** Arguments written without a quote *)

Section quote_free.
Context `{SqlText}.

(** The text written for the argument has no quote. *)
Definition quote_free (v : pyval) : bool :=
  match adapt v with
  | Ok l => no_quote l
  | Err _ => false
  end.

(** The placeholder [n] of a statement, counted from 0, stands inside a
    literal whose quotes are the template's. *)
Definition hole_in_literal (sql : string) (n : nat) : bool :=
  match scan sql with
  | Ok fs =>
      match split_hole n fs with
      | Some (fs1, fs2) => odd_frags fs1 && odd_frags fs2
      | None => false
      end
  | Err _ => false
  end.

Lemma quote_free_int z : quote_free (VInt z) = true.
Proof. unfold quote_free. simpl. by rewrite no_quote_spaced, no_quote_str_of_int. Qed.

Lemma quote_free_float f : float_finite f = true -> quote_free (VFloat f) = true.
Proof. apply float_sql_plain. Qed.

(** A string is never written without a quote. *)
Lemma quote_free_str s : quote_free (VStr s) = false.
Proof.
  unfold quote_free. simpl. destruct (has_nul s); [done|].
  unfold quote_string. by rewrite string_app_cons.
Qed.

Lemma quote_free_fits v l : adapt v = Ok l -> quote_free v = true -> fits true l = true.
Proof. unfold quote_free. by intros ->. Qed.

Lemma hole_in_literal_escape sql args n x text :
  hole_in_literal sql n = true ->
  args !! n = Some (VStr x) -> no_quote x = true -> x <> "" ->
  mogrify sql (Some args) = Ok text ->
  exists toks, sql_lex text = Some toks /\ escapes x toks.
Proof.
  unfold hole_in_literal. destruct (scan sql) as [fs|] eqn:Hfs; [|done].
  destruct (split_hole n fs) as [[fs1 fs2]|] eqn:Hs; [|done].
  intros [Ho1 Ho2]%andb_prop. by apply (mogrify_escape sql args n x fs fs1 fs2).
Qed.

End quote_free.

(** ** Intact texts, conversely *)

Section converse.
Context `{SqlText}.

(** When the text sent has the tokens of its template, every argument fits
    its placeholder. *)
Lemma bound_tokens_fits sql args ks lits toks :
  kinds sql = Some ks -> mapM_result adapt args = Ok lits ->
  bound_tokens sql args = Some toks ->
  Forall2 (fun k l => fits k l = true) ks lits.
Proof.
  intros (fs & slots & Hfs & Hs & <-)%kinds_template Hl. unfold bound_tokens.
  rewrite Hfs, Hl, Hs. simpl. intros Hi. by apply inst_fits.
Qed.

Lemma bound_tokens_sent sql args toks :
  bound_tokens sql args = Some toks -> is_ok (mapM_result adapt args) = true.
Proof.
  unfold bound_tokens. destruct (scan sql); [|done]. by destruct (mapM_result adapt args).
Qed.

End converse.
