(* ===== verification/Store.v ===== *)
(** * The store: the table, its rows and the meaning of the statements

    The service owns no data: every handler of [src/app.py] sends one of a
    few SQL statements to PostgreSQL through psycopg2.  This file gives the
    statements a meaning on a model of the table [properties]:

    - the columns as the spec's data model lists them ([property]), the order
      of decimals, and the interface [Spatial] for what PostGIS and the
      [double precision] type supply (distance between points, their order);
    - the predicates of the filtered search ([cond_holds], with [ILIKE] as
      [ilike]) and the rows each SELECT returns ([search_row], [nearby_row]);
    - the result of each statement on a list of rows ([run_search],
      [run_nearby], [run_insert], [run_counts]).

    The store reads arguments of the Python types the handlers send and
    refuses others with [DbError]; PostgreSQL also accepts some the model
    refuses (a numeric string for a number).  Gaps in the id sequence after a
    failed insert are not modelled. *)

From Stdlib Require Import ZArith Lia QArith Ascii.
From stdpp Require Import base tactics option list strings sorting.
From S2P Require Import Prelude PyValue Sql Bind.

(** ** The order of decimals *)

Definition dec_Q (d : decimal) : Q := inject_Z (dec_mant d) * 10 ^ dec_exp d.

Definition dec_le (a b : decimal) : Prop := (dec_Q a <= dec_Q b)%Q.

Definition dec_of_int (z : Z) : decimal := Decimal z 0.

#[export] Instance dec_le_dec : RelDecision dec_le.
Proof.
  intros a b. unfold dec_le.
  destruct (Qlt_le_dec (dec_Q b) (dec_Q a)) as [Hlt|Hle].
  - right. by apply Qlt_not_le.
  - by left.
Defined.

#[export] Instance dec_le_refl : Reflexive dec_le.
Proof. intros a. apply Qle_refl. Qed.

#[export] Instance dec_le_trans : Transitive dec_le.
Proof. intros a b c. apply Qle_trans. Qed.

#[export] Instance dec_le_total : Total dec_le.
Proof.
  intros a b. unfold dec_le.
  destruct (Qlt_le_dec (dec_Q b) (dec_Q a)) as [Hlt|Hle]; [|by left].
  right. by apply Qlt_le_weak.
Qed.

(** ** What PostgreSQL and PostGIS supply *)

Class Spatial `{PyFloat} := {
  (** [ST_Distance] of two points [(x, y)] of SRID 4326 *)
  st_distance : pyfloat * pyfloat -> pyfloat * pyfloat -> pyfloat;
  (** the order of [double precision] *)
  float_le : relation pyfloat;
  float_le_dec :: RelDecision float_le;
  float_le_trans :: Transitive float_le;
  float_le_total :: Total float_le;
  (** an integer as a [double precision] *)
  float_of_int : Z -> pyfloat;
  (** the [numeric] a float argument is read as, when it is finite *)
  float_to_decimal : pyfloat -> option decimal;
  float_to_decimal_finite f : is_Some (float_to_decimal f) <-> float_finite f = true;
}.

Section store.
Context `{Spatial}.

Definition point : Type := pyfloat * pyfloat.

(** ** Rows *)

Record property := Property {
  p_id : Z;
  p_address : string;
  p_price : decimal;
  p_bedrooms : option Z;
  p_bathrooms : option decimal;
  p_square_feet : option Z;
  p_property_type : option string;
  p_listing_status : string;
  (** [(longitude, latitude)], the [x] and [y] of the stored point *)
  p_location : option point;
  p_created_at : datetime
}.

(** A row as psycopg2's [RealDictCursor] returns it. *)
Definition row : Type := list (string * pyval).

(** The columns of the filtered search's SELECT (lines 259-265). *)
Definition search_row (p : property) : row :=
  [ ("id", VInt (p_id p));
    ("address", VStr (p_address p));
    ("price", VDecimal (p_price p));
    ("bedrooms", of_opt VInt (p_bedrooms p));
    ("bathrooms", of_opt VDecimal (p_bathrooms p));
    ("square_feet", of_opt VInt (p_square_feet p));
    ("property_type", of_opt VStr (p_property_type p));
    ("listing_status", VStr (p_listing_status p));
    ("longitude", of_opt VFloat (fst <$> p_location p));
    ("latitude", of_opt VFloat (snd <$> p_location p));
    ("created_at", VDatetime (p_created_at p)) ].

(** The columns of the radius search's SELECT (lines 183-198), for a row
    with a location; [center] is the point of the [ST_Distance] call. *)
Definition nearby_row (center : point) (pl : property * point) : row :=
  let '(p, loc) := pl in
  [ ("id", VInt (p_id p));
    ("address", VStr (p_address p));
    ("price", VDecimal (p_price p));
    ("bedrooms", of_opt VInt (p_bedrooms p));
    ("bathrooms", of_opt VDecimal (p_bathrooms p));
    ("square_feet", of_opt VInt (p_square_feet p));
    ("property_type", of_opt VStr (p_property_type p));
    ("listing_status", VStr (p_listing_status p));
    ("longitude", VFloat (fst loc));
    ("latitude", VFloat (snd loc));
    ("distance_meters", VFloat (st_distance loc center));
    ("created_at", VDatetime (p_created_at p)) ].

(** ** [ILIKE]

    [%] matches any run of characters, [_] any one character, a backslash
    takes the next character of the pattern literally; letters match
    without regard to case.  A pattern that ends in a lone backslash is an
    error when the matcher reaches it. *)

Definition lower (c : ascii) : ascii :=
  let n := N_of_ascii c in
  if ((65 <=? n) && (n <=? 90))%N then ascii_of_N (n + 32) else c.

Definition same_letter (a b : ascii) : bool := Ascii.eqb (lower a) (lower b).

Fixpoint ilike (pat : string) : string -> py bool :=
  match pat with
  | EmptyString => fun s => Ok (bool_decide (s = ""))
  | String c pat' =>
      if Ascii.eqb c "%" then
        fix any (s : string) : py bool :=
          b ← ilike pat' s;
          if b : bool then Ok true
          else match s with
               | EmptyString => Ok false
               | String _ s' => any s'
               end
      else if Ascii.eqb c "_" then
        fun s => match s with
                 | EmptyString => Ok false
                 | String _ s' => ilike pat' s'
                 end
      else if Ascii.eqb c "\" then
        match pat' with
        | EmptyString =>
            fun _ => raise DbError "LIKE pattern must not end with escape character"
        | String e pat'' =>
            fun s => match s with
                     | EmptyString => Ok false
                     | String x s' =>
                         if same_letter e x then ilike pat'' s' else Ok false
                     end
        end
      else
        fun s => match s with
                 | EmptyString => Ok false
                 | String x s' => if same_letter c x then ilike pat' s' else Ok false
                 end
  end.

(** ** The predicates of the filtered search

    [cond_holds c arg p]: the condition [c], with [arg] bound to its
    placeholder, on the row [p].  A comparison with NULL is not true. *)

Definition cond_holds (c : cond) (arg : pyval) (p : property) : py bool :=
  match c, arg with
  | CActive, _ => Ok (bool_decide (p_listing_status p = "active"))
  | CPriceGe, VInt z => Ok (bool_decide (dec_le (dec_of_int z) (p_price p)))
  | CPriceLe, VInt z => Ok (bool_decide (dec_le (p_price p) (dec_of_int z)))
  | CBedroomsGe, VInt z =>
      Ok (from_option (fun b => bool_decide (z <= b)%Z) false (p_bedrooms p))
  | CBathroomsGe, VFloat f =>
      Ok (from_option (fun b => bool_decide (float_le f (float_of_decimal b)))
            false (p_bathrooms p))
  | CTypeILike, VStr pat =>
      match p_property_type p with
      | Some t => ilike pat t
      | None => Ok false
      end
  | _, _ => raise DbError "operator does not exist"
  end.

(** The conditions of a WHERE clause with the arguments bound to their
    placeholders, left to right; what is left of the arguments is returned. *)
Fixpoint bind_conds (cs : list cond) (args : list pyval)
    : py (list (cond * pyval) * list pyval) :=
  match cs with
  | [] => Ok ([], args)
  | c :: cs' =>
      match cond_arity c, args with
      | O, _ =>
          '(bs, rest) ← bind_conds cs' args; Ok ((c, VNone) :: bs, rest)
      | S _, a :: args' =>
          '(bs, rest) ← bind_conds cs' args'; Ok ((c, a) :: bs, rest)
      | S _, [] => raise IndexError "list index out of range"
      end
  end.

(** All bound conditions hold on a row ([AND]). *)
Fixpoint all_hold (bs : list (cond * pyval)) (p : property) : py bool :=
  match bs with
  | [] => Ok true
  | (c, a) :: bs' =>
      b ← cond_holds c a p; if b : bool then all_hold bs' p else Ok false
  end.

(** [filter] with a predicate that may raise. *)
Fixpoint filterM {A} (f : A -> py bool) (l : list A) : py (list A) :=
  match l with
  | [] => Ok []
  | x :: r => b ← f x; ys ← filterM f r; Ok (if b : bool then x :: ys else ys)
  end.

(** [LIMIT n]: the number of rows to keep; a negative [n] is refused when
    the statement starts. *)
Definition check_limit (n : Z) : py nat :=
  if (n <? 0)%Z then raise DbError "LIMIT must not be negative"
  else Ok (Z.to_nat n).

(** ** The filtered search

    [ORDER BY price ASC]: the order of two rows with the same price is the
    store's choice; the model sorts with a merge sort. *)

Definition by_price : relation property :=
  fun a b => dec_le (p_price a) (p_price b).

#[export] Instance by_price_dec : RelDecision by_price.
Proof. intros a b. unfold by_price. apply _. Defined.
#[export] Instance by_price_trans : Transitive by_price.
Proof. intros a b c. unfold by_price. apply transitivity. Qed.
#[export] Instance by_price_total : Total by_price.
Proof. intros a b. unfold by_price. apply total, _. Qed.

(** The rows of [SELECT ... WHERE cs ORDER BY price ASC LIMIT %s] with
    [args] bound to the placeholders of [cs] and of the limit. *)
Definition run_search (rows : list property) (cs : list cond) (args : list pyval)
    : py (list row) :=
  '(bs, rest) ← bind_conds cs args;
  match rest with
  | [VInt n] =>
      k ← check_limit n;
      kept ← filterM (all_hold bs) rows;
      Ok (search_row <$> take k (merge_sort by_price kept))
  | [] => raise IndexError "list index out of range"
  | [_] => raise DbError "argument of LIMIT must be type bigint"
  | _ => raise TypeError "not all arguments converted during string formatting"
  end.

(** ** The radius search *)

(** [ST_DWithin(a, b, r)]: the distance is at most [r]; PostGIS refuses a
    negative tolerance. *)
Definition st_dwithin (a b : point) (r : Z) : py bool :=
  if (r <? 0)%Z then raise DbError "Tolerance cannot be negative"
  else Ok (bool_decide (float_le (st_distance a b) (float_of_int r))).

Definition by_distance (center : point) : relation (property * point) :=
  fun a b => float_le (st_distance a.2 center) (st_distance b.2 center).

#[export] Instance by_distance_dec c : RelDecision (by_distance c).
Proof. intros a b. unfold by_distance. apply _. Defined.
#[export] Instance by_distance_trans c : Transitive (by_distance c).
Proof. intros x y z. unfold by_distance. apply transitivity. Qed.
#[export] Instance by_distance_total c : Total (by_distance c).
Proof. intros a b. unfold by_distance. apply total, _. Qed.

(** The rows that have a location, with it. *)
Definition located (rows : list property) : list (property * point) :=
  omap (fun p => pair p <$> p_location p) rows.

(** A float that can stand in the text of a point. *)
Definition finite (f : pyfloat) : bool := bool_decide (is_Some (float_to_decimal f)).

(** The rows of the statement of lines 182-208.  Its six placeholders are
    the point of [ST_Distance], the point of [ST_DWithin], the radius and
    the limit. *)
Definition run_nearby (rows : list property) (args : list pyval) : py (list row) :=
  match args with
  | [VFloat x1; VFloat y1; VFloat x2; VFloat y2; VInt r; VInt n] =>
      if finite x1 && finite y1 && finite x2 && finite y2 then
        k ← check_limit n;
        kept ← filterM (fun pl => st_dwithin pl.2 (x2, y2) r) (located rows);
        Ok (nearby_row (x1, y1) <$> take k (merge_sort (by_distance (x1, y1)) kept))
      else raise DbError "parse error - invalid geometry"
  | _ => raise DbError "invalid input syntax"
  end.

(** ** The insert *)

(** An argument as a value of a column type; [None] is NULL.  A text
    holds no character NUL. *)
Definition text_arg (v : pyval) : py (option string) :=
  match v with
  | VStr s =>
      if has_nul s then raise DbError "invalid byte sequence for encoding"
      else Ok (Some s)
  | VNone => Ok None
  | _ => raise DbError "invalid input syntax for type text"
  end.

Definition numeric_arg (v : pyval) : py (option decimal) :=
  match v with
  | VInt z => Ok (Some (dec_of_int z))
  | VFloat f =>
      match float_to_decimal f with
      | Some d => Ok (Some d)
      | None => raise DbError "invalid input syntax for type numeric"
      end
  | VNone => Ok None
  | _ => raise DbError "invalid input syntax for type numeric"
  end.

Definition integer_arg (v : pyval) : py (option Z) :=
  match v with
  | VInt z => Ok (Some z)
  | VNone => Ok None
  | _ => raise DbError "invalid input syntax for type integer"
  end.

(** A coordinate inside [POINT(%s %s)]. *)
Definition coord_arg (v : pyval) : py pyfloat :=
  match v with
  | VFloat f =>
      if finite f then Ok f else raise DbError "parse error - invalid geometry"
  | VInt z => Ok (float_of_int z)
  | _ => raise DbError "parse error - invalid geometry"
  end.

(** A column declared NOT NULL. *)
Definition not_null {A} (column : string) (o : option A) : py A :=
  of_option (Exn DbError ("null value in column " +:+ column +:+
                          " violates not-null constraint")) o.

(** A column that holds no negative value. *)
Definition check_nonneg {A} (column : string) (neg : A -> bool) (o : option A)
    : py unit :=
  match o with
  | Some a =>
      if neg a then raise DbError ("new row violates check constraint on " +:+ column)
      else Ok ()
  | None => Ok ()
  end.

Definition dec_neg (d : decimal) : bool := (dec_mant d <? 0)%Z.

(** The row [INSERT ... VALUES (%s, ...) RETURNING id] stores (lines
    303-311): address, price, bedrooms, bathrooms, square_feet,
    property_type, then the [x] and the [y] of the point.  [new_id], [status]
    and [now] are the defaults of the columns the statement leaves out. *)
Definition run_insert (new_id : Z) (status : string) (now : datetime)
    (args : list pyval) : py property :=
  match args with
  | [a; pr; bd; bt; sq; pt; x; y] =>
      address ← text_arg a ≫= not_null "address";
      price ← numeric_arg pr ≫= not_null "price";
      bedrooms ← integer_arg bd;
      bathrooms ← numeric_arg bt;
      square_feet ← integer_arg sq;
      property_type ← text_arg pt;
      lon ← coord_arg x;
      lat ← coord_arg y;
      check_nonneg "price" dec_neg (Some price);;
      check_nonneg "bedrooms" (fun z => z <? 0)%Z bedrooms;;
      check_nonneg "bathrooms" dec_neg bathrooms;;
      check_nonneg "square_feet" (fun z => z <? 0)%Z square_feet;;
      Ok (Property new_id address price bedrooms bathrooms square_feet
            property_type status (Some (lon, lat)) now)
  | _ => raise DbError "INSERT has more target columns than expressions"
  end.

(** A row the table accepts: what its NOT NULL and CHECK constraints say. *)
Definition row_ok (p : property) : Prop :=
  dec_neg (p_price p) = false /\
  from_option (fun z => 0 <= z)%Z True (p_bedrooms p) /\
  from_option (fun d => dec_neg d = false) True (p_bathrooms p) /\
  from_option (fun z => 0 <= z)%Z True (p_square_feet p).

(** ** The counts of the health probe (lines 134-138) *)

Definition run_counts (rows : list property) : list row :=
  [ [ ("property_count", VInt (Z.of_nat (length rows)));
      ("properties_with_location", VInt (Z.of_nat (length (located rows)))) ] ].

End store.

(** ** Lemmas on the statements *)

Section store_lemmas.
Context `{Spatial}.

Lemma finite_float_finite f : finite f = float_finite f.
Proof.
  unfold finite. destruct (float_finite f) eqn:Hf.
  - by apply bool_decide_eq_true, float_to_decimal_finite.
  - apply bool_decide_eq_false. rewrite float_to_decimal_finite. congruence.
Qed.

Lemma filterM_Ok {A} (f : A -> py bool) (l l' : list A) :
  filterM f l = Ok l' ->
  l' = filter (fun x => f x = Ok true) l /\ Forall (fun x => is_ok (f x) = true) l.
Proof.
  revert l'. induction l as [|x l IH]; intros l'; simpl.
  - intros [= <-]. by split.
  - intros (b & Hb & (ys & Hys & [= <-])%rbind_Ok_inv)%rbind_Ok_inv.
    destruct (IH _ Hys) as [-> Hall]. split.
    + rewrite filter_cons. destruct b; case_decide; congruence.
    + constructor; [by rewrite Hb|done].
Qed.

Lemma filterM_total {A} (f : A -> py bool) (l : list A) :
  Forall (fun x => is_ok (f x) = true) l ->
  filterM f l = Ok (filter (fun x => f x = Ok true) l).
Proof.
  induction 1 as [|x l Hx Hl IH]; [done|].
  simpl. rewrite IH, filter_cons. apply is_ok_true in Hx as [b Hb]. rewrite Hb. simpl.
  destruct b; case_decide; congruence.
Qed.

Lemma filterM_Err {A} (f : A -> py bool) (l : list A) e :
  filterM f l = Err e -> exists x, x ∈ l /\ f x = Err e.
Proof.
  induction l as [|x l IH]; [done|]. simpl.
  intros [Hx|(b & _ & [Hl|(? & _ & [=])]%rbind_Err_inv)]%rbind_Err_inv.
  - exists x. split; [solve_elem|done].
  - destruct (IH Hl) as (x' & ? & ?). exists x'. split; [by right|done].
Qed.

Lemma check_limit_Err n e : check_limit n = Err e -> exn_cls e = DbError.
Proof. unfold check_limit. case_match; [|done]. by intros [= <-]. Qed.

Lemma length_located rows : length (located rows) <= length rows.
Proof.
  unfold located. induction rows as [|p rows IH]; [done|].
  cbn [omap list_omap]. destruct (p_location p); cbn [fmap option_fmap option_map length]; lia.
Qed.

(** Conditions that bind one argument each take the arguments in order. *)
Lemma bind_conds_unary (bs : list (cond * pyval)) (rest : list pyval) :
  Forall (fun b => cond_arity b.1 = 1) bs ->
  bind_conds (fst <$> bs) ((snd <$> bs) ++ rest) = Ok (bs, rest).
Proof.
  induction 1 as [|[c a] bs Hc Hbs IH]; [done|].
  rewrite !fmap_cons. cbn [fst snd app bind_conds] in *. by rewrite Hc, IH.
Qed.

Lemma check_limit_Ok n k : check_limit n = Ok k -> (0 <= n)%Z /\ k = Z.to_nat n.
Proof. unfold check_limit. case_match eqn:E; [done|]. intros [= <-]. lia. Qed.

Lemma check_limit_nonneg n : (0 <= n)%Z -> check_limit n = Ok (Z.to_nat n).
Proof. intros. unfold check_limit. case_match eqn:E; [lia|done]. Qed.

(** [all_hold] is the conjunction of its conditions. *)
Lemma all_hold_true bs p :
  all_hold bs p = Ok true <-> Forall (fun b => cond_holds b.1 b.2 p = Ok true) bs.
Proof.
  induction bs as [|[c a] bs IH]; simpl.
  - split; [by constructor|done].
  - rewrite Forall_cons; simpl. destruct (cond_holds c a p) as [[]|e]; simpl.
    + rewrite IH. split; [by split|by intros [_ ?]].
    + split; [done|]. by intros [? _].
    + split; [done|]. by intros [? _].
Qed.

(** The conditions, one by one. *)
Lemma cond_holds_price_ge z p :
  cond_holds CPriceGe (VInt z) p = Ok true <-> dec_le (dec_of_int z) (p_price p).
Proof. apply Ok_bool_decide. Qed.

Lemma cond_holds_price_le z p :
  cond_holds CPriceLe (VInt z) p = Ok true <-> dec_le (p_price p) (dec_of_int z).
Proof. apply Ok_bool_decide. Qed.

Lemma cond_holds_bedrooms z p :
  cond_holds CBedroomsGe (VInt z) p = Ok true <->
  exists b, p_bedrooms p = Some b /\ (z <= b)%Z.
Proof.
  simpl. destruct (p_bedrooms p) as [b|]; simpl.
  - rewrite Ok_bool_decide. split; [eauto|]. by intros (? & [= <-] & ?).
  - split; [done|by intros (? & ? & ?)].
Qed.

Lemma cond_holds_bathrooms x p :
  cond_holds CBathroomsGe (VFloat x) p = Ok true <->
  exists b, p_bathrooms p = Some b /\ float_le x (float_of_decimal b).
Proof.
  simpl. destruct (p_bathrooms p) as [b|]; simpl.
  - rewrite Ok_bool_decide. split; [eauto|]. by intros (? & [= <-] & ?).
  - split; [done|by intros (? & ? & ?)].
Qed.

Lemma cond_holds_type pat p :
  cond_holds CTypeILike (VStr pat) p = Ok true <->
  exists t, p_property_type p = Some t /\ ilike pat t = Ok true.
Proof.
  simpl. destruct (p_property_type p) as [t|].
  - split; [eauto|]. by intros (? & [= <-] & ?).
  - split; [done|by intros (? & ? & ?)].
Qed.

End store_lemmas.

(** ** The insert *)

Section insert_lemmas.
Context `{Spatial}.

Lemma check_nonneg_Ok {A} column (neg : A -> bool) o u :
  check_nonneg column neg o = Ok u -> from_option (fun a => neg a = false) True o.
Proof. destruct o as [a|]; simpl; [|done]. by destruct (neg a). Qed.

(** What a successful insert stores: the arguments read as values of the
    columns, the point with the seventh argument as its [x] and the eighth
    as its [y], and the defaults of the other columns. *)
Lemma run_insert_Ok new_id status now args p :
  run_insert new_id status now args = Ok p ->
  exists a pr bd bt sq pt x y lon lat,
    args = [a; pr; bd; bt; sq; pt; x; y] /\
    text_arg a = Ok (Some (p_address p)) /\
    numeric_arg pr = Ok (Some (p_price p)) /\
    integer_arg bd = Ok (p_bedrooms p) /\
    numeric_arg bt = Ok (p_bathrooms p) /\
    integer_arg sq = Ok (p_square_feet p) /\
    text_arg pt = Ok (p_property_type p) /\
    coord_arg x = Ok lon /\ coord_arg y = Ok lat /\
    p_location p = Some (lon, lat) /\
    p_id p = new_id /\ p_listing_status p = status /\ p_created_at p = now /\
    row_ok p.
Proof.
  destruct args as [|a [|pr [|bd [|bt [|sq [|pt [|x [|y [|]]]]]]]]]; try done.
  unfold run_insert.
  intros (address & (oa & Ha & ->%of_option_Ok)%rbind_Ok_inv &
          (price & (op & Hp & ->%of_option_Ok)%rbind_Ok_inv &
          (bedrooms & Hbd & (bathrooms & Hbt & (square_feet & Hsq &
          (property_type & Hpt & (lon & Hx & (lat & Hy &
          (? & Hc1%check_nonneg_Ok & (? & Hc2%check_nonneg_Ok &
          (? & Hc3%check_nonneg_Ok & (? & Hc4%check_nonneg_Ok & [= <-])
          %rbind_Ok_inv)%rbind_Ok_inv)%rbind_Ok_inv)%rbind_Ok_inv)%rbind_Ok_inv)
          %rbind_Ok_inv)%rbind_Ok_inv)%rbind_Ok_inv)%rbind_Ok_inv)%rbind_Ok_inv)
          %rbind_Ok_inv)%rbind_Ok_inv.
  exists a, pr, bd, bt, sq, pt, x, y, lon, lat. unfold row_ok; simpl.
  repeat split; try done.
  - destruct bedrooms; simpl in *; [lia|done].
  - destruct square_feet; simpl in *; [lia|done].
Qed.

(** Whether the store accepts a row does not depend on the id it would
    take, nor on the defaults of the table. *)
Lemma run_insert_any new_id status now new_id' status' now' args p :
  run_insert new_id status now args = Ok p ->
  exists p', run_insert new_id' status' now' args = Ok p'.
Proof.
  destruct args as [|a [|pr [|bd [|bt [|sq [|pt [|x [|y [|]]]]]]]]]; try done.
  unfold run_insert.
  repeat (match goal with
          | |- context [?m ≫= _] =>
              lazymatch m with
              | _ ≫= _ => fail
              | _ => destruct m; cbn [mbind result_bind]; try done
              end
          end).
  by eexists.
Qed.

End insert_lemmas.

(** ** [ILIKE] on the patterns of the service

    A pattern that ends in [%] (not the lone escape character) never makes
    the matcher fail: the handler's [%...%] patterns are always answered. *)

Section ilike_lemmas.
Context `{Spatial}.

Lemma ilike_percent p s :
  ilike (String "%" p) s =
    b ← ilike p s;
    if b : bool then Ok true
    else match s with
         | EmptyString => Ok false
         | String _ s' => ilike (String "%" p) s'
         end.
Proof. by destruct s. Qed.

Lemma ilike_percent_total p :
  (forall s, is_ok (ilike p s) = true) -> forall s, is_ok (ilike (String "%" p) s) = true.
Proof.
  intros Hp s. induction s as [|x s IH]; rewrite ilike_percent.
  - specialize (Hp ""). by destruct (ilike p "") as [[]|e].
  - specialize (Hp (String x s)). by destruct (ilike p (String x s)) as [[]|e].
Qed.

Lemma ilike_total_upto n s :
  String.length s <= n -> forall t, is_ok (ilike (s +:+ "%") t) = true.
Proof.
  revert s. induction n as [|n IH]; intros [|c s] Hlen; simpl in Hlen; try lia.
  - apply ilike_percent_total. by intros [].
  - apply ilike_percent_total. by intros [].
  - rewrite string_app_cons. intros t. cbn [ilike].
    destruct (Ascii.eqb c "%") eqn:E1; [apply Ascii.eqb_eq in E1 as ->|].
    { apply ilike_percent_total, IH. lia. }
    destruct (Ascii.eqb c "_") eqn:E2.
    { destruct t; [done|]. apply IH. lia. }
    destruct (Ascii.eqb c "\") eqn:E3.
    + destruct s as [|e s]; [by destruct t as [|x [|]]; simpl; repeat case_match|].
      rewrite string_app_cons. destruct t as [|x t]; [done|].
      destruct (same_letter e x); [|done]. apply IH. simpl in Hlen. lia.
    + destruct t as [|x t]; [done|]. destruct (same_letter c x); [|done].
      apply IH. lia.
Qed.

Lemma ilike_total s t : is_ok (ilike ("%" +:+ s +:+ "%") t) = true.
Proof.
  rewrite string_app_cons, string_app_nil_l.
  apply ilike_percent_total. by apply (ilike_total_upto (String.length s)).
Qed.

(** ** [ILIKE] on text without wildcards

    When the text between the two [%] has no [%], no [_] and no backslash,
    the pattern matches exactly the strings that contain the text, letters
    compared without regard to case. *)

(** A character that is not special in a pattern. *)
Definition plain_char (c : ascii) : bool :=
  negb (Ascii.eqb c "%" || Ascii.eqb c "_" || Ascii.eqb c "\").

Fixpoint plain (s : string) : bool :=
  match s with
  | EmptyString => true
  | String c r => plain_char c && plain r
  end.

(** [s] starts [t], and [s] occurs in [t], without regard to case. *)
Fixpoint prefix_ci (s t : string) : bool :=
  match s, t with
  | EmptyString, _ => true
  | String c s', String x t' => same_letter c x && prefix_ci s' t'
  | String _ _, EmptyString => false
  end.

Fixpoint infix_ci (s t : string) : bool :=
  prefix_ci s t ||
  match t with
  | EmptyString => false
  | String _ t' => infix_ci s t'
  end.

Lemma ilike_any t : ilike "%" t = Ok true.
Proof. induction t as [|x t IH]; rewrite ilike_percent; [done|by rewrite <-IH]. Qed.

Lemma ilike_plain_char c p t :
  plain_char c = true ->
  ilike (String c p) t =
    match t with
    | EmptyString => Ok false
    | String x t' => if same_letter c x then ilike p t' else Ok false
    end.
Proof.
  unfold plain_char. rewrite negb_true_iff, !orb_false_iff. intros [[H1 H2] H3].
  cbn [ilike]. by rewrite H1, H2, H3.
Qed.

Lemma ilike_plain_prefix s t :
  plain s = true -> ilike (s +:+ "%") t = Ok (prefix_ci s t).
Proof.
  revert t. induction s as [|c s IH]; intros t.
  - intros _. rewrite string_app_nil_l. apply ilike_any.
  - cbn [plain]. intros [Hc Hs]%andb_true_iff.
    rewrite string_app_cons, (ilike_plain_char _ _ _ Hc).
    destruct t as [|x t]; [done|]. cbn [prefix_ci].
    destruct (same_letter c x); [by apply IH|done].
Qed.

Lemma ilike_contains s t :
  plain s = true -> ilike ("%" +:+ s +:+ "%") t = Ok (infix_ci s t).
Proof.
  intros Hs. rewrite string_app_cons, string_app_nil_l.
  induction t as [|x t IH]; rewrite ilike_percent, (ilike_plain_prefix _ _ Hs);
    cbn [mbind result_bind infix_ci].
  - by destruct (prefix_ci s "").
  - destruct (prefix_ci s (String x t)); [done|]. by rewrite IH.
Qed.

End ilike_lemmas.
