(* ===== verification/Psycopg.v ===== *)
(** * Connections, transactions and [cursor.execute]

    The database as the handlers of [src/app.py] reach it through psycopg2:
    [get_db_connection] (lines 33-40), the connection as a context manager
    (it commits when its block ends and rolls back when the block raises),
    [cursor.execute] with positional arguments, [fetchone], [fetchall] and
    [commit].  A handler's block runs in the monad [dbm], which threads the
    connection and stops at the first exception.

    [execute] first does what psycopg2 does on the client ([Bind.mogrify]:
    the arguments must match the placeholders of the text and be adaptable
    to SQL), then reads the text as one of the statements of the service
    ([parse_stmt]) and gives it the meaning [Store] defines.  Other SQL is
    refused: the model knows the service's statements only. *)

From Stdlib Require Import ZArith Lia.
From stdpp Require Import base tactics option list strings.
From S2P Require Import Prelude PyValue Sql Bind Store.

Section psycopg.
Context `{Spatial} `{!SqlText}.

(** ** The database and a connection to it *)

Record db := Db {
  (** whether [psycopg2.connect] succeeds *)
  db_up : bool;
  (** the committed rows of [properties], in insertion order *)
  db_rows : list property;
  (** the next value of the sequence behind [id] *)
  db_next_id : Z;
  (** the default of [listing_status] *)
  db_default_status : string;
  (** [NOW()], also the default of [created_at] *)
  db_now : datetime;
  db_version : string;
  db_name : string;
  db_user : string;
  (** [PostGIS_Version()], when the extension is installed *)
  db_postgis : option string
}.

(** An open connection: the database as committed, and the rows and the
    sequence as the connection's transaction sees them. *)
Record conn := Conn {
  c_db : db;
  c_rows : list property;
  c_next_id : Z
}.

Definition set_rows (d : db) (rows : list property) (next : Z) : db :=
  Db (db_up d) rows next (db_default_status d) (db_now d)
     (db_version d) (db_name d) (db_user d) (db_postgis d).

(** A database as the service leaves it: ids are below the next value of the
    sequence and differ from row to row, and every row satisfies the
    constraints of the table. *)
Definition db_wf (d : db) : Prop :=
  Forall (fun p => (p_id p < db_next_id d)%Z) (db_rows d) /\
  NoDup (p_id <$> db_rows d) /\
  Forall row_ok (db_rows d).

(** [get_db_connection()]: a new connection, or the error of
    [psycopg2.connect], logged and raised again. *)
Definition get_db_connection (d : db) : py conn :=
  if db_up d then Ok (Conn d (db_rows d) (db_next_id d))
  else raise DbError "could not connect to server".

(** [conn.commit()] and [conn.rollback()] *)
Definition conn_commit (c : conn) : conn :=
  Conn (set_rows (c_db c) (c_rows c) (c_next_id c)) (c_rows c) (c_next_id c).

Definition conn_rollback (c : conn) : conn :=
  Conn (c_db c) (db_rows (c_db c)) (db_next_id (c_db c)).

(** ** The monad of a handler's block *)

Definition dbm (A : Type) : Type := conn -> conn * py A.

#[export] Instance dbm_ret : MRet dbm := fun _ a c => (c, Ok a).
#[export] Instance dbm_bind : MBind dbm := fun _ _ k m c =>
  match m c with
  | (c', Ok a) => k a c'
  | (c', Err e) => (c', Err e)
  end.

(** A computation that does not touch the connection. *)
Definition lift {A} (m : py A) : dbm A := fun c => (c, m).

Definition commit : dbm unit := fun c => (conn_commit c, Ok ()).

(** [with get_db_connection() as conn: body]: the database afterwards and
    the block's result. *)
Definition with_connection {A} (d : db) (body : dbm A) : db * py A :=
  match get_db_connection d with
  | Err e => (d, Err e)
  | Ok c =>
      match body c with
      | (c', Ok a) => (c_db (conn_commit c'), Ok a)
      | (c', Err e) => (c_db (conn_rollback c'), Err e)
      end
  end.

(** ** Reading a statement *)

Inductive stmt :=
| SInfo | SPostgis | SCounts | SNearby | SInsert
| SSearch (cs : list cond).

Definition all_conds : list cond :=
  [CActive; CPriceGe; CPriceLe; CBedroomsGe; CBathroomsGe; CTypeILike].

Definition parse_cond (t : string) : option cond :=
  snd <$> list_find (fun c => cond_sql c = t) all_conds.

Definition parse_where (w : string) : option (list cond) :=
  mapM parse_cond (split_on " AND " w).

Definition parse_stmt (sql : string) : option stmt :=
  if decide (sql = health_info_sql) then Some SInfo
  else if decide (sql = postgis_version_sql) then Some SPostgis
  else if decide (sql = counts_sql) then Some SCounts
  else if decide (sql = nearby_sql) then Some SNearby
  else if decide (sql = insert_sql) then Some SInsert
  else
    w ← strip_prefix search_select sql ≫= strip_suffix search_tail;
    SSearch <$> parse_where w.

(** ** [cursor.execute] *)

Definition info_row (d : db) : row :=
  [ ("version", VStr (db_version d));
    ("current_database", VStr (db_name d));
    ("current_user", VStr (db_user d));
    ("now", VDatetime (db_now d)) ].

(** The server side: the rows a statement returns and the connection after
    it. *)
Definition run_stmt (st : stmt) (args : list pyval) : dbm (list row) := fun c =>
  match st with
  | SInfo => (c, Ok [info_row (c_db c)])
  | SPostgis =>
      (c, match db_postgis (c_db c) with
          | Some v => Ok [[("postgis_version", VStr v)]]
          | None => raise DbError "function postgis_version() does not exist"
          end)
  | SCounts => (c, Ok (run_counts (c_rows c)))
  | SNearby => (c, run_nearby (c_rows c) args)
  | SSearch cs => (c, run_search (c_rows c) cs args)
  | SInsert =>
      match run_insert (c_next_id c) (db_default_status (c_db c)) (db_now (c_db c)) args with
      | Ok p =>
          (Conn (c_db c) (c_rows c ++ [p]) (c_next_id c + 1), Ok [[("id", VInt (p_id p))]])
      | Err e => (c, Err e)
      end
  end.

(** [cur.execute(sql, args)]: the client writes the text to send, which
    fails when the arguments do not fit the placeholders or cannot be
    written; the server then runs the statement.  The model gives the
    statement the meaning of its template with the arguments as values, which
    is what the server reads when the text sent has the tokens of the
    template ([Bind.lex_bound]). *)
Definition execute (sql : string) (args : option (list pyval)) : dbm (list row) :=
  _ ← lift (mogrify sql args);
  st ← lift (of_option (Exn DbError "syntax error") (parse_stmt sql));
  run_stmt st (default [] args).

(** [cur.fetchall()] is the list of rows; [cur.fetchone()] the first row, or
    [None]. *)
Definition fetchone (rows : list row) : pyval :=
  match rows with
  | r :: _ => VDict r
  | [] => VNone
  end.

End psycopg.

(** ** Reading back the statements of the service *)

Section parse_lemmas.
Context `{Spatial}.

Lemma strip_prefix_None p s x : strip_prefix p s = None -> p +:+ x <> s.
Proof. intros Hp <-. by rewrite strip_prefix_app in Hp. Qed.

Lemma parse_cond_sql c : parse_cond (cond_sql c) = Some c.
Proof. by destruct c; vm_compute. Qed.

(** One condition followed by [" AND "] is split off whatever follows. *)
Lemma split_go_cond c acc rest :
  split_go " AND " 0 acc (cond_sql c +:+ " AND " +:+ rest) =
    String.rev (String.rev_app (cond_sql c) acc) :: split_go " AND " 0 "" rest.
Proof. destruct c; reflexivity. Qed.

Lemma split_go_last c acc :
  split_go " AND " 0 acc (cond_sql c) = [String.rev (String.rev_app (cond_sql c) acc)].
Proof. destruct c; reflexivity. Qed.

Lemma split_on_join (cs : list cond) :
  cs <> [] -> split_on " AND " (join_and (cond_sql <$> cs)) = cond_sql <$> cs.
Proof.
  induction cs as [|c cs IH]; [done|]. intros _.
  destruct cs as [|c' cs]; unfold split_on, join_and.
  - change (split_go " AND " 0 "" (cond_sql c) = [cond_sql c]).
    rewrite split_go_last. by destruct c.
  - change (split_go " AND " 0 ""
              (cond_sql c +:+ " AND " +:+ join_and (cond_sql <$> c' :: cs)) =
            cond_sql c :: (cond_sql <$> c' :: cs)).
    rewrite split_go_cond. f_equal; [by destruct c|by apply IH].
Qed.

Lemma parse_where_join (cs : list cond) :
  cs <> [] -> parse_where (join_and (cond_sql <$> cs)) = Some cs.
Proof.
  intros Hcs. unfold parse_where. rewrite split_on_join by done.
  apply mapM_Some, Forall2_fmap_l, Forall_Forall2_diag, Forall_forall.
  intros c _. apply parse_cond_sql.
Qed.

(** The text of the filtered search is read back as the search over the
    conditions it was rendered from. *)
Lemma parse_search_sql (cs : list cond) :
  cs <> [] -> parse_stmt (search_sql (cond_sql <$> cs)) = Some (SSearch cs).
Proof.
  intros Hcs. unfold parse_stmt, search_sql.
  repeat (case_decide as Heq;
    [by apply strip_prefix_None in Heq; [|vm_compute]|clear Heq]).
  rewrite strip_prefix_app; simpl. rewrite strip_suffix_app; simpl.
  by rewrite parse_where_join.
Qed.

Lemma parse_fixed_sql :
  parse_stmt health_info_sql = Some SInfo /\
  parse_stmt postgis_version_sql = Some SPostgis /\
  parse_stmt counts_sql = Some SCounts /\
  parse_stmt nearby_sql = Some SNearby /\
  parse_stmt insert_sql = Some SInsert.
Proof. repeat split; vm_compute; reflexivity. Qed.

End parse_lemmas.

(** ** Executing the statements of the service *)

Section execute_lemmas.
Context `{Spatial} `{!SqlText}.

(** Arguments psycopg2 can write. *)
Definition sendable (args : list pyval) : bool := is_ok (mapM_result adapt args).

Lemma sendable_cons a args :
  sendable (a :: args) = is_ok (adapt a) && sendable args.
Proof.
  unfold sendable. simpl. destruct (adapt a); [|done]. simpl.
  by destruct (mapM_result adapt args).
Qed.

Lemma sendable_app a b : sendable (a ++ b) = sendable a && sendable b.
Proof.
  induction a as [|x a IH]; [done|].
  rewrite <-app_comm_cons, !sendable_cons, IH. by rewrite andb_assoc.
Qed.

(** With as many arguments as placeholders, all of which can be written,
    the client sends the statement. *)
Lemma mogrify_exact sql args n :
  placeholders sql = Ok n -> length args = n -> sendable args = true ->
  is_ok (mogrify sql (Some args)) = true.
Proof.
  unfold placeholders, mogrify, sendable.
  intros (fs & -> & <-)%rfmap_Ok_inv Hlen [lits Hl]%is_ok_true. simpl.
  by rewrite (bind_fill fs args lits Hl Hlen).
Qed.

(** An argument that cannot be written stops the client. *)
Lemma mogrify_unsendable sql args n :
  placeholders sql = Ok n -> length args = n -> sendable args = false ->
  is_ok (mogrify sql (Some args)) = false.
Proof.
  unfold placeholders, mogrify, sendable.
  intros (fs & -> & <-)%rfmap_Ok_inv. simpl. revert args.
  induction fs as [|[c|] fs IH]; intros args Hlen Hs.
  - by destruct args.
  - simpl. rewrite holes_cons_char in Hlen. specialize (IH args Hlen Hs).
    by destruct (bind fs args).
  - rewrite holes_cons_hole in Hlen. destruct args as [|a args]; [done|]. simpl in *.
    destruct (adapt a); [|done]. simpl in *.
    assert (is_ok (mapM_result adapt args) = false) as Hs'.
    { by destruct (mapM_result adapt args). }
    assert (length args = holes fs) as Hlen' by lia.
    specialize (IH args Hlen' Hs'). by destruct (bind fs args).
Qed.

Lemma execute_sent sql args st c :
  is_ok (mogrify sql (Some args)) = true -> parse_stmt sql = Some st ->
  execute sql (Some args) c = run_stmt st args c.
Proof.
  intros [text Ht]%is_ok_true Hst. unfold execute, mbind, dbm_bind, lift.
  by rewrite Ht, Hst.
Qed.

Lemma execute_unsent sql args c :
  is_ok (mogrify sql args) = false -> exists e, execute sql args c = (c, Err e).
Proof.
  unfold execute, mbind, dbm_bind, lift. destruct (mogrify sql args); [done|].
  by eexists.
Qed.

(** With as many arguments as placeholders, all of which can be written,
    [execute] is the meaning of the statement on the connection's rows. *)
Lemma execute_search cs args c :
  cs <> [] -> length args = sum_list (cond_arity <$> cs) + 1 ->
  sendable args = true ->
  execute (search_sql (cond_sql <$> cs)) (Some args) c =
    (c, run_search (c_rows c) cs args).
Proof.
  intros Hcs Hlen Had.
  by rewrite (execute_sent _ _ (SSearch cs));
    [|apply (mogrify_exact _ _ _ (search_sql_placeholders cs))|apply parse_search_sql].
Qed.

Lemma execute_nearby args c :
  length args = 6 -> sendable args = true ->
  execute nearby_sql (Some args) c = (c, run_nearby (c_rows c) args).
Proof.
  intros Hlen Had. destruct fixed_sql_placeholders as (Hn & _).
  by rewrite (execute_sent _ _ SNearby); [|apply (mogrify_exact _ _ _ Hn)|].
Qed.

Lemma execute_insert args c :
  length args = 8 -> sendable args = true ->
  execute insert_sql (Some args) c = run_stmt SInsert args c.
Proof.
  intros Hlen Had. destruct fixed_sql_placeholders as (_ & Hn & _).
  by rewrite (execute_sent _ _ SInsert); [|apply (mogrify_exact _ _ _ Hn)|].
Qed.

Lemma text_arg_sendable v o : text_arg v = Ok o -> is_ok (adapt v) = true.
Proof. destruct v; try done. simpl. by case_match. Qed.

Lemma numeric_arg_sendable v o : numeric_arg v = Ok o -> is_ok (adapt v) = true.
Proof. by destruct v. Qed.

Lemma integer_arg_sendable v o : integer_arg v = Ok o -> is_ok (adapt v) = true.
Proof. by destruct v. Qed.

Lemma coord_arg_sendable v x : coord_arg v = Ok x -> is_ok (adapt v) = true.
Proof. by destruct v. Qed.

(** A coordinate the store accepts is a number, and is written without a
    quote. *)
Lemma coord_arg_quote_free v x : coord_arg v = Ok x -> quote_free v = true.
Proof.
  destruct v as [| |z|f| | | | |]; try done; simpl.
  - intros _. apply quote_free_int.
  - rewrite finite_float_finite. case_match eqn:Hf; [|done]. intros _.
    by apply quote_free_float.
Qed.

Lemma run_insert_sendable new_id status now args p :
  run_insert new_id status now args = Ok p ->
  length args = 8 /\ sendable args = true.
Proof.
  intros (a & pr & bd & bt & sq & pt & x & y & lon & lat & -> & Ha%text_arg_sendable &
          Hpr%numeric_arg_sendable & Hbd%integer_arg_sendable &
          Hbt%numeric_arg_sendable & Hsq%integer_arg_sendable &
          Hpt%text_arg_sendable & Hx%coord_arg_sendable & Hy%coord_arg_sendable & _)
    %run_insert_Ok.
  split; [done|]. rewrite !sendable_cons. by rewrite Ha, Hpr, Hbd, Hbt, Hsq, Hpt, Hx, Hy.
Qed.

(** An insert the store accepts is the meaning of the statement. *)
Lemma execute_insert_Ok args c p :
  run_insert (c_next_id c) (db_default_status (c_db c)) (db_now (c_db c)) args = Ok p ->
  execute insert_sql (Some args) c =
    (Conn (c_db c) (c_rows c ++ [p]) (c_next_id c + 1), Ok [[("id", VInt (p_id p))]]).
Proof.
  intros Hp. destruct (run_insert_sendable _ _ _ _ _ Hp) as [Hlen Had].
  rewrite execute_insert by done. simpl. by rewrite Hp.
Qed.

(** An insert the store refuses fails and leaves the connection as it
    was. *)
Lemma execute_insert_Err args c e :
  run_insert (c_next_id c) (db_default_status (c_db c)) (db_now (c_db c)) args = Err e ->
  exists e', execute insert_sql (Some args) c = (c, Err e').
Proof.
  intros He. unfold execute, mbind, dbm_bind, lift.
  destruct (mogrify _ _) as [text|e']; [|by eexists].
  destruct parse_fixed_sql as (_ & _ & _ & _ & ->).
  simpl. rewrite He. by eexists.
Qed.

(** The statements change the connection's rows on a successful insert
    only; none changes the committed database. *)
Lemma execute_c_db sql args c : c_db (execute sql args c).1 = c_db c.
Proof.
  unfold execute, mbind, dbm_bind, lift.
  destruct (mogrify sql args); [|done]. destruct (parse_stmt sql) as [[]|]; try done.
  simpl. by case_match.
Qed.

Lemma execute_Err sql args c e :
  (execute sql args c).2 = Err e -> (execute sql args c).1 = c.
Proof.
  unfold execute, mbind, dbm_bind, lift.
  destruct (mogrify sql args); [|done]. destruct (parse_stmt sql) as [[]|]; try done.
  simpl. by case_match.
Qed.

Lemma execute_no_args sql st c :
  parse_stmt sql = Some st -> execute sql None c = run_stmt st [] c.
Proof. intros Hst. unfold execute, mbind, dbm_bind, lift; simpl. by rewrite Hst. Qed.

(** ** Connections *)

Lemma set_rows_same d : set_rows d (db_rows d) (db_next_id d) = d.
Proof. by destruct d. Qed.

Lemma with_connection_down {A} d (body : dbm A) :
  db_up d = false ->
  with_connection d body = (d, raise DbError "could not connect to server").
Proof. intros Hd. unfold with_connection, get_db_connection. by rewrite Hd. Qed.

(** A block that leaves the connection as it found it leaves the database as
    it was. *)
Lemma with_connection_read {A} d (body : dbm A) :
  (forall c, (body c).1 = c) ->
  (with_connection d body).1 = d.
Proof.
  intros Hro. unfold with_connection, get_db_connection.
  destruct (db_up d); [|done]. specialize (Hro (Conn d (db_rows d) (db_next_id d))).
  destruct (body _) as [c' [a|e]]; simpl in *; subst; simpl; [|done].
  apply set_rows_same.
Qed.

Lemma with_connection_up {A} d (body : dbm A) :
  db_up d = true -> (forall c, (body c).1 = c) ->
  with_connection d body = (d, (body (Conn d (db_rows d) (db_next_id d))).2).
Proof.
  intros Hd Hro. unfold with_connection, get_db_connection. rewrite Hd.
  specialize (Hro (Conn d (db_rows d) (db_next_id d))).
  destruct (body _) as [c' [a|e]]; simpl in *; subst; simpl; [|done].
  by rewrite set_rows_same.
Qed.

Lemma get_db_connection_Err d e : get_db_connection d = Err e -> exn_cls e = DbError.
Proof. unfold get_db_connection. case_match; [done|]. by intros [= <-]. Qed.

(** A block that runs one query and computes its answer from the rows: the
    database is left as it was, and the result is the answer on the rows the
    query gives on a fresh connection. *)
Lemma with_connection_query {A B} d (q : dbm A) (res : conn -> py A) (k : A -> py B) :
  (forall c, q c = (c, res c)) ->
  with_connection d (q ≫= fun x => lift (k x)) =
    (d, c ← get_db_connection d; x ← res c; k x).
Proof.
  intros Hq.
  assert (forall c, (q ≫= fun x => lift (k x)) c = (c, res c ≫= k)) as Hb.
  { intros c. unfold mbind at 1, dbm_bind. rewrite Hq. by destruct (res c). }
  unfold get_db_connection. destruct (db_up d) eqn:Hd.
  - rewrite with_connection_up; [|done|intros c; by rewrite Hb]. by rewrite Hb.
  - by rewrite with_connection_down.
Qed.

End execute_lemmas.

(** ** What a statement depends on and what it changes *)

Section frame.
Context `{Spatial} `{!SqlText}.

(** Two databases with the same environment: they differ in their rows and
    in their sequence at most. *)
Definition same_env (d d' : db) : Prop := set_rows d [] 0 = set_rows d' [] 0.

#[export] Instance same_env_equiv : Equivalence same_env.
Proof. unfold same_env. split; [done|by intros ???|by intros ??? -> ->]. Qed.

Lemma same_env_set_rows d rows next : same_env (set_rows d rows next) d.
Proof. done. Qed.

Lemma set_rows_env d d' rows next :
  same_env d d' -> set_rows d rows next = set_rows d' rows next.
Proof. unfold same_env, set_rows. intros [=]. by f_equal. Qed.

Lemma same_env_eq d d' :
  same_env d d' -> db_rows d = db_rows d' -> db_next_id d = db_next_id d' -> d = d'.
Proof.
  intros He Hr Hn. rewrite <-(set_rows_same d), <-(set_rows_same d'), Hr, Hn.
  by apply set_rows_env.
Qed.

Lemma same_env_up d d' : same_env d d' -> db_up d = db_up d'.
Proof. unfold same_env, set_rows. by intros [=]. Qed.

(** A statement reads the rows and the sequence of the connection, and the
    environment of the database: not the committed rows. *)
Lemma run_stmt_env st args c d :
  same_env (c_db c) d ->
  run_stmt st args (Conn d (c_rows c) (c_next_id c)) =
    (Conn d (c_rows (run_stmt st args c).1) (c_next_id (run_stmt st args c).1),
     (run_stmt st args c).2).
Proof.
  unfold same_env, set_rows. intros [= Hup Hst Hnow Hv Hn Hu Hp].
  destruct c as [d0 rows next].
  destruct st; simpl in *; unfold info_row;
    rewrite ?Hst, ?Hnow, ?Hv, ?Hn, ?Hu, ?Hp; try done.
  by case_match.
Qed.

Lemma execute_env sql args c d :
  same_env (c_db c) d ->
  execute sql args (Conn d (c_rows c) (c_next_id c)) =
    (Conn d (c_rows (execute sql args c).1) (c_next_id (execute sql args c).1),
     (execute sql args c).2).
Proof.
  intros He. unfold execute, mbind, dbm_bind, lift.
  destruct (mogrify sql args); [|done]. destruct (parse_stmt sql) as [st|]; [|done].
  simpl. by apply run_stmt_env.
Qed.

(** A statement leaves the connection as it found it, or adds one row with
    the next value of the sequence as its id. *)
Lemma execute_shape sql args c :
  (execute sql args c).1 = c \/
  exists p, (execute sql args c).1 = Conn (c_db c) (c_rows c ++ [p]) (c_next_id c + 1) /\
            p_id p = c_next_id c /\ row_ok p.
Proof.
  unfold execute, mbind, dbm_bind, lift.
  destruct (mogrify sql args); [|by left].
  destruct (parse_stmt sql) as [[]|]; try (by left). simpl.
  destruct (run_insert _ _ _ _) as [p|] eqn:Hp; [right|by left].
  apply run_insert_Ok in Hp as (? & ? & ? & ? & ? & ? & ? & ? & ? & ? & Hp). exists p.
  by destruct_and!.
Qed.

End frame.
