(* ===== verification/Exact.v ===== *)
(** * An instance of the interfaces, and a sample database

    The theorems of the development hold for every implementation of
    [PyFloat], [Spatial] and [Flask].  To evaluate the handlers on concrete
    requests this file gives one: floats as exact rationals (no rounding, no
    infinities), the distance of two points as the sum of the differences of
    their coordinates, and [jsonify] passing a [default] keyword to the
    encoder.  It also holds a small table used by the examples.  Nothing
    here is a claim about IEEE floats or PostGIS. *)

From Stdlib Require Import ZArith Lia QArith Qabs Qround Ascii.
From stdpp Require Import base tactics option list strings.
From S2P Require Import Prelude PyValue PyBuiltins Serializer Flask Sql Bind Store Psycopg.

Module Exact.

(** ** Floats as rationals *)

#[export] Instance Q_eq_dec : EqDecision Q.
Proof. solve_decision. Defined.

(** [digits.digits] with an optional sign; the exponent forms, [nan] and
    [inf] of Python are left out: every float of this instance is finite. *)
Definition unsigned_of_str (s : string) : option Q :=
  match split_on "." s with
  | [i] => inject_Z <$> digits_val 0 false i
  | [i; frac] =>
      n ← digits_val 0 false i;
      m ← digits_val 0 false frac;
      Some (Qred (inject_Z n + inject_Z m / inject_Z (10 ^ Z.of_nat (String.length frac))))
  | _ => None
  end.

Definition q_of_str (s : string) : option Q :=
  match strip s with
  | String c r =>
      if Ascii.eqb c "-" then Qopp <$> unsigned_of_str r
      else if Ascii.eqb c "+" then unsigned_of_str r
      else unsigned_of_str (String c r)
  | EmptyString => None
  end.

#[export] Instance exact_float : PyFloat := {|
  pyfloat := Q;
  float_of_str := q_of_str;
  float_of_decimal d := Qred (dec_Q d);
  float_is_zero q := Qeq_bool q 0;
  float_finite _ := true
|}.

(** ** Distances and the order *)

Definition Qle_rel : relation Q := Qle.

#[export] Instance Qle_rel_dec : RelDecision Qle_rel.
Proof.
  intros a b. destruct (Qlt_le_dec b a); [right; by apply Qlt_not_le|by left].
Defined.
#[export] Instance Qle_rel_trans : Transitive Qle_rel.
Proof. intros a b c. apply Qle_trans. Qed.
#[export] Instance Qle_rel_total : Total Qle_rel.
Proof.
  intros a b. destruct (Qlt_le_dec b a); [right; by apply Qlt_le_weak|by left].
Qed.

Definition taxicab (a b : Q * Q) : Q :=
  Qred (Qabs (a.1 - b.1) + Qabs (a.2 - b.2)).

#[export] Instance exact_spatial : @Spatial exact_float :=
  @Build_Spatial exact_float taxicab Qle_rel Qle_rel_dec Qle_rel_trans Qle_rel_total
    inject_Z (fun q : Q => Some (Decimal (Qfloor (q * 1000000)) (-6)))
    (fun q => conj (fun _ => eq_refl) (fun _ => mk_is_Some _ _ eq_refl)).

(** ** The text of an argument

    A rational is written as its fraction and a decimal with its exponent,
    after a space when negative. *)

Definition q_sql (q : Q) : string :=
  spaced (str_of_int (Qnum q) +:+ "/" +:+ str_of_int (Z.pos (Qden q))).

Definition dec_sql (d : decimal) : string :=
  spaced (str_of_int (dec_mant d) +:+ "E" +:+ str_of_int (dec_exp d)).

Lemma no_quote_q_sql q : no_quote (q_sql q) = true.
Proof.
  unfold q_sql. by rewrite no_quote_spaced, !no_quote_app, !no_quote_str_of_int.
Qed.

Lemma no_quote_dec_sql d : no_quote (dec_sql d) = true.
Proof.
  unfold dec_sql. by rewrite no_quote_spaced, !no_quote_app, !no_quote_str_of_int.
Qed.

#[export] Instance exact_text : @SqlText exact_float := {|
  float_sql := q_sql;
  decimal_sql := dec_sql;
  float_sql_plain := fun q _ => no_quote_q_sql q;
  float_sql_quoted := fun q (Hq : true = false) => False_ind _ (diff_true_false Hq);
  float_sql_closed := fun q => closed_code _ (no_quote_q_sql q);
  decimal_sql_closed := fun d => closed_code _ (no_quote_dec_sql d)
|}.

(** ** [jsonify] *)

#[export] Instance exact_flask : @Flask exact_float :=
  @flask_keyword_default exact_float (@no_default exact_float).

Definition exact_flask_released : @Flask exact_float :=
  @flask_released exact_float (@no_default exact_float).

(** ** A sample database *)

Definition noon : datetime := Datetime 2024 5 17 12 0 0 0 None.

Definition oak_loc : @point exact_float := ((-1224194) # 10000, 377749 # 10000).
Definition elm_loc : @point exact_float := ((-1224094) # 10000, 377849 # 10000).
Definition pine_loc : @point exact_float := ((-1214194) # 10000, 387749 # 10000).

Definition oak_st : @property exact_float :=
  Property 1 "12 Oak St" (Decimal 75000000 (-2)) (Some 3%Z) (Some (Decimal 20 (-1)))
    (Some 1500%Z) (Some "House") "active"
    (Some oak_loc) noon.

Definition elm_ave : @property exact_float :=
  Property 2 "9 Elm Ave" (Decimal 42000000 (-2)) (Some 1%Z) (Some (Decimal 10 (-1)))
    (Some 640%Z) (Some "Condo") "active"
    (Some elm_loc) noon.

Definition pine_rd : @property exact_float :=
  Property 3 "3 Pine Rd" (Decimal 98000000 (-2)) (Some 4%Z) (Some (Decimal 35 (-1)))
    None (Some "house") "sold"
    (Some pine_loc) noon.

Definition bay_ct : @property exact_float :=
  Property 4 "70 Bay Ct" (Decimal 55000000 (-2)) None None None None "active" None noon.

Definition sample_rows : list (@property exact_float) :=
  [oak_st; elm_ave; pine_rd; bay_ct].

Definition sample_db : @db exact_float :=
  Db true sample_rows 5 "active" noon "PostgreSQL 15.4" "properties" "app" (Some "3.3").

(** A GET request with the given query string. *)
Definition get (path : string) (a : multidict) : @request exact_float :=
  Request "GET" path a (Ok VNone).

(** The same database with no rows. *)
Definition empty_db : @db exact_float :=
  Db true [] 1 "active" noon "PostgreSQL 15.4" "properties" "app" (Some "3.3").

Definition sample_down : @db exact_float :=
  Db false sample_rows 5 "active" noon "PostgreSQL 15.4" "properties" "app" (Some "3.3").

End Exact.
