(* ===== verification/Search.v ===== *)
(** * The filtered search: [search_properties]

    [src/app.py], lines 225-289.  The handler reads six optional arguments,
    builds the list of conditions and the list of arguments side by side
    ([build_search]), renders the statement ([Sql.search_sql]), runs it and
    answers with the rows.  Everything is inside one [try]: any exception
    gives the 500 response.

    The abstract view of the builder is [search_conds] with [search_args]:
    which predicates are in force and which argument each one binds;
    [matches] is the meaning of the filters on a row. *)

From Stdlib Require Import ZArith Lia.
From stdpp Require Import base tactics option list strings sorting.
From S2P Require Import Prelude PyValue PyBuiltins Url Serializer Flask Sql Bind Store Psycopg.
From S2P Require Import Exact.

Section search.
Context `{Spatial} `{!SqlText} `{!Flask}.

(** ** The handler *)

(** The values of lines 229-234. *)
Record filters := Filters {
  price_min : option Z;
  price_max : option Z;
  bedrooms : option Z;
  bathrooms : option pyfloat;
  property_type : option string;
  limit : Z
}.

(** Lines 229-234: a filter that is absent or does not convert is [None];
    [limit] is converted with [int], which may raise, and capped at 100. *)
Definition parse_filters (a : multidict) : py filters :=
  let price_min := args_get_type int_of_str a "price_min" in
  let price_max := args_get_type int_of_str a "price_max" in
  let bedrooms := args_get_type int_of_str a "bedrooms" in
  let bathrooms := args_get_type float_of_str a "bathrooms" in
  let property_type := args_get a "property_type" in
  n ← args_int a "limit" 20;
  Ok (Filters price_min price_max bedrooms bathrooms property_type (Z.min n 100)).

(** [if v: conditions.append(text); params.append(arg)] *)
Definition append_if (v : pyval) (text : string) (arg : pyval)
    (q : list string * list pyval) : list string * list pyval :=
  if truthy v then (q.1 ++ [text], q.2 ++ [arg]) else q.

(** Lines 237-256: the conditions and the arguments, in step. *)
Definition build_search (f : filters) : list string * list pyval :=
  let q := (["listing_status = 'active'"], []) in
  let v := of_opt VInt (price_min f) in
  let q := append_if v "price >= %s" v q in
  let v := of_opt VInt (price_max f) in
  let q := append_if v "price <= %s" v q in
  let v := of_opt VInt (bedrooms f) in
  let q := append_if v "bedrooms >= %s" v q in
  let v := of_opt VFloat (bathrooms f) in
  let q := append_if v "bathrooms >= %s" v q in
  let v := of_opt VStr (property_type f) in
  let q := append_if v "property_type ILIKE %s"
             (VStr ("%" +:+ default "" (property_type f) +:+ "%")) q in
  (q.1, q.2 ++ [VInt (limit f)]).

(** Line 273: the text [cur.execute(query, params)] sends. *)
Definition search_sent (f : filters) : py string :=
  let '(conditions, params) := build_search f in
  mogrify (search_sql conditions) (Some params).

(** Lines 277-284: the body of the answer. *)
Definition search_answer (f : filters) (properties : list row) : pyval :=
  VDict
    [ ("filters_applied",
        VDict
          [ ("price_range",
              VList [of_opt VInt (price_min f); of_opt VInt (price_max f)]);
            ("min_bedrooms", of_opt VInt (bedrooms f));
            ("min_bathrooms", of_opt VFloat (bathrooms f));
            ("property_type", of_opt VStr (property_type f)) ]);
      ("total_found", VInt (Z.of_nat (length properties)));
      ("properties", VList (VDict <$> properties)) ].

(** Lines 271-285: the block under [with get_db_connection() as conn]. *)
Definition search_block (f : filters) : dbm response :=
  let '(conditions, params) := build_search f in
  properties ← execute (search_sql conditions) (Some params);
  lift (json_response_default 200 (search_answer f properties) serialize_result).

(** Lines 228-285: the [try] block. *)
Definition search_try (req : request) (d : db) : db * py response :=
  match parse_filters (req_args req) with
  | Ok f => with_connection d (search_block f)
  | Err e => (d, Err e)
  end.

(** Lines 287-289: the answer to any exception. *)
Definition search_failed : py response :=
  json_response 500 (VDict [("error", VStr "Search failed")]).

Definition search_properties (req : request) (d : db) : db * py response :=
  match search_try req d with
  | (d', Ok r) => (d', Ok r)
  | (d', Err _) => (d', search_failed)
  end.

(** ** The abstract view *)

(** The filters in the order the handler tests them, each with its
    condition, the value tested for truth and the argument bound. *)
Definition filter_table (f : filters) : list (cond * pyval * pyval) :=
  [ (CPriceGe, of_opt VInt (price_min f), of_opt VInt (price_min f));
    (CPriceLe, of_opt VInt (price_max f), of_opt VInt (price_max f));
    (CBedroomsGe, of_opt VInt (bedrooms f), of_opt VInt (bedrooms f));
    (CBathroomsGe, of_opt VFloat (bathrooms f), of_opt VFloat (bathrooms f));
    (CTypeILike, of_opt VStr (property_type f),
       VStr ("%" +:+ default "" (property_type f) +:+ "%")) ].

(** The filters in force: those whose value is true. *)
Definition in_force (f : filters) : list (cond * pyval) :=
  (fun t => (t.1.1, t.2)) <$> filter (fun t => truthy t.1.2 = true) (filter_table f).

(** The conditions of the WHERE clause and the arguments of the statement. *)
Definition search_conds (f : filters) : list cond := CActive :: (fst <$> in_force f).

Definition search_args (f : filters) : list pyval :=
  (snd <$> in_force f) ++ [VInt (limit f)].

(** The meaning of the filters on a row: active, and every filter in force
    holds.  [None] when a comparison raises. *)
Definition matches (f : filters) (p : property) : py bool :=
  all_hold ((CActive, VNone) :: in_force f) p.

End search.

Arguments search_sent : simpl never.

(** ** The builder *)

Section builder.
Context `{Spatial} `{!SqlText}.

Implicit Types (tbl : list (cond * pyval * pyval)) (q : list string * list pyval).

(** One [if] of lines 240-254, on a row of the filter table. *)
Definition build_step q (t : cond * pyval * pyval) : list string * list pyval :=
  append_if t.1.2 (cond_sql t.1.1) t.2 q.

Definition forced tbl : list (cond * pyval) :=
  (fun t => (t.1.1, t.2)) <$> filter (fun t => truthy t.1.2 = true) tbl.

Lemma build_steps tbl q :
  foldl build_step q tbl =
    (q.1 ++ (cond_sql <$> (fst <$> forced tbl)), q.2 ++ (snd <$> forced tbl)).
Proof.
  revert q. induction tbl as [|[[c v] a] tbl IH]; intros [cs args]; simpl.
  - by rewrite !app_nil_r.
  - rewrite IH. unfold forced, build_step, append_if. rewrite filter_cons; simpl.
    destruct (truthy v); case_decide; try done; simpl.
    by rewrite <-!app_assoc.
Qed.

(** The builder implements the abstract view: the condition texts are those
    of [search_conds], in order, and the arguments those of [search_args]. *)
Lemma build_search_spec f :
  build_search f = (cond_sql <$> search_conds f, search_args f).
Proof.
  change (build_search f) with
    (let q := foldl build_step (["listing_status = 'active'"], []) (filter_table f) in
     (q.1, q.2 ++ [VInt (limit f)])).
  by rewrite build_steps.
Qed.

(** Every condition in force binds exactly one argument. *)
Lemma in_force_unary f : Forall (fun b => cond_arity b.1 = 1) (in_force f).
Proof.
  unfold in_force. apply Forall_fmap, Forall_filter_keep.
  by repeat constructor.
Qed.

End builder.

(** ** The statement and its arguments *)

Section statement.
Context `{Spatial} `{!SqlText}.

Lemma search_arity f : sum_list (cond_arity <$> search_conds f) = length (in_force f).
Proof.
  unfold search_conds. rewrite fmap_cons; simpl. rewrite <-list_fmap_compose.
  rewrite (sum_list_fmap_same 1); [lia|]. apply in_force_unary.
Qed.

Lemma length_search_args f : length (search_args f) = length (in_force f) + 1.
Proof. unfold search_args. rewrite length_app, length_fmap. done. Qed.

(** For every combination of filters, the statement [search_properties]
    sends has exactly as many placeholders as the handler passes arguments:
    positional binding never runs out of arguments and leaves none over. *)
Lemma search_placeholders_match f :
  placeholders (search_sql (build_search f).1) = Ok (length (build_search f).2).
Proof.
  rewrite build_search_spec; cbn [fst snd].
  by rewrite search_sql_placeholders, search_arity, length_search_args.
Qed.

End statement.

(** ** The filters in force *)

Section in_force.
Context `{Spatial} `{!SqlText}.

(** What a filter in force is: one of the five, with a value that is true. *)
Inductive forces (f : filters) : cond -> pyval -> Prop :=
| forces_price_min z :
    price_min f = Some z -> z <> 0%Z -> forces f CPriceGe (VInt z)
| forces_price_max z :
    price_max f = Some z -> z <> 0%Z -> forces f CPriceLe (VInt z)
| forces_bedrooms z :
    bedrooms f = Some z -> z <> 0%Z -> forces f CBedroomsGe (VInt z)
| forces_bathrooms x :
    bathrooms f = Some x -> float_is_zero x = false -> forces f CBathroomsGe (VFloat x)
| forces_property_type s :
    property_type f = Some s -> s <> "" ->
    forces f CTypeILike (VStr ("%" +:+ s +:+ "%")).

Lemma truthy_int o : truthy (of_opt VInt o) = true <-> exists z, o = Some z /\ z <> 0%Z.
Proof.
  destruct o as [z|]; simpl; [|by split; [|intros (? & ? & ?)]].
  rewrite negb_true_iff, Z.eqb_neq. split; [eauto|]. by intros (? & [= <-] & ?).
Qed.

Lemma truthy_float o :
  truthy (of_opt VFloat o) = true <-> exists x, o = Some x /\ float_is_zero x = false.
Proof.
  destruct o as [x|]; simpl; [|by split; [|intros (? & ? & ?)]].
  rewrite negb_true_iff. split; [eauto|]. by intros (? & [= <-] & ?).
Qed.

Lemma truthy_str o : truthy (of_opt VStr o) = true <-> exists s, o = Some s /\ s <> "".
Proof.
  destruct o as [s|]; simpl; [|by split; [|intros (? & ? & ?)]].
  rewrite negb_true_iff, String.eqb_neq. split; [eauto|]. by intros (? & [= <-] & ?).
Qed.

Lemma in_force_forces f c a : (c, a) ∈ in_force f <-> forces f c a.
Proof.
  unfold in_force, filter_table. rewrite list_elem_of_fmap. split.
  - intros ([[c' v] a'] & [= -> ->] & [Hv Hin]%list_elem_of_filter). simpl in Hv.
    repeat (apply elem_of_cons in Hin as [[= -> -> ->]|Hin]);
      [apply truthy_int in Hv as (z & Hz & ?)..
      |apply truthy_float in Hv as (x & Hx & ?)
      |apply truthy_str in Hv as (s & Hs & ?)
      |by apply elem_of_nil in Hin];
      rewrite ?Hz, ?Hx, ?Hs; simpl; by econstructor.
  - intros Hf.
    assert (forall t, truthy t.1.2 = true -> t ∈ filter_table f ->
              exists t', (t.1.1, t.2) = (t'.1.1, t'.2) /\
                t' ∈ filter (fun t => truthy t.1.2 = true) (filter_table f))
      as Hin by (intros t ??; exists t; by rewrite list_elem_of_filter).
    unfold filter_table in Hin.
    destruct Hf as [z Hz ?|z Hz ?|z Hz ?|x Hx ?|s Hs ?].
    + apply (Hin (CPriceGe, of_opt VInt (price_min f), VInt z));
        [apply truthy_int; eauto|rewrite Hz; solve_elem].
    + apply (Hin (CPriceLe, of_opt VInt (price_max f), VInt z));
        [apply truthy_int; eauto|rewrite Hz; solve_elem].
    + apply (Hin (CBedroomsGe, of_opt VInt (bedrooms f), VInt z));
        [apply truthy_int; eauto|rewrite Hz; solve_elem].
    + apply (Hin (CBathroomsGe, of_opt VFloat (bathrooms f), VFloat x));
        [apply truthy_float; eauto|rewrite Hx; solve_elem].
    + apply (Hin (CTypeILike, of_opt VStr (property_type f), VStr ("%" +:+ s +:+ "%")));
        [apply truthy_str; eauto|rewrite Hs; solve_elem].
Qed.

End in_force.

(** ** What the statement returns *)

Section results.
Context `{Spatial} `{!SqlText}.

(** The rows the handler's statement selects: the rows that match, in the
    order of their price, cut at the limit. *)
Definition search_result (f : filters) (rows : list property) : py (list property) :=
  k ← check_limit (limit f);
  kept ← filterM (matches f) rows;
  Ok (take k (merge_sort by_price kept)).

Definition search_rows (ps : list property) : list row := search_row <$> ps.

Lemma run_search_spec rows f :
  run_search rows (search_conds f) (search_args f) =
    search_rows <$> search_result f rows.
Proof.
  unfold run_search, search_conds, search_args, search_result, matches.
  cbn [bind_conds cond_arity]. rewrite (bind_conds_unary _ _ (in_force_unary f)).
  cbn [mbind result_bind]. destruct (check_limit _); [|done]. simpl.
  by destruct (filterM _ _).
Qed.

(** The arguments of a filter table that are in force can be written when
    every row is either not in force or has an argument that can be. *)
Lemma forced_sendable (tbl : list (cond * pyval * pyval)) :
  sendable (snd <$> forced tbl) =
    forallb (fun t => negb (truthy t.1.2) || is_ok (adapt t.2)) tbl.
Proof.
  induction tbl as [|[[c v] a] tbl IH]; [done|]. unfold forced in *.
  rewrite filter_cons. cbn [fst snd forallb].
  destruct (truthy v); case_decide; try done; cbn [negb orb].
  by rewrite !fmap_cons, sendable_cons, IH.
Qed.

Lemma has_nul_app a b : has_nul (a +:+ b) = has_nul a || has_nul b.
Proof.
  induction a as [|c a IH]; [by rewrite string_app_nil_l|].
  rewrite string_app_cons. simpl. by rewrite IH, orb_assoc.
Qed.

(** The arguments of the search can be written unless the text asked for
    holds the character NUL. *)
Lemma search_args_sendable f :
  sendable (search_args f) = negb (has_nul (default "" (property_type f))).
Proof.
  unfold search_args. rewrite sendable_app, andb_true_r.
  change (in_force f) with (forced (filter_table f)). rewrite forced_sendable.
  unfold filter_table. cbn [forallb fst snd].
  replace (is_ok (adapt (of_opt VInt (price_min f)))) with true by by destruct (price_min f).
  replace (is_ok (adapt (of_opt VInt (price_max f)))) with true by by destruct (price_max f).
  replace (is_ok (adapt (of_opt VInt (bedrooms f)))) with true by by destruct (bedrooms f).
  replace (is_ok (adapt (of_opt VFloat (bathrooms f)))) with true
    by by destruct (bathrooms f).
  rewrite !orb_true_r, andb_true_r. cbn [andb adapt].
  rewrite !has_nul_app, orb_false_r. cbn [has_nul orb Ascii.eqb Bool.eqb].
  destruct (property_type f) as [[|c s]|]; try done. simpl. by case_match.
Qed.

Lemma search_sent_ok f :
  is_ok (search_sent f) = negb (has_nul (default "" (property_type f))).
Proof.
  unfold search_sent. rewrite build_search_spec. rewrite <-search_args_sendable.
  assert (length (search_args f) = sum_list (cond_arity <$> search_conds f) + 1) as Hlen
    by by rewrite search_arity, length_search_args.
  destruct (sendable (search_args f)) eqn:Hs.
  - by apply (mogrify_exact _ _ _ (search_sql_placeholders (search_conds f))).
  - by apply (mogrify_unsendable _ _ _ (search_sql_placeholders (search_conds f))).
Qed.

(** The statement, executed: when the client can write it, the rows of
    [search_result]. *)
Lemma execute_build_search f c :
  execute (search_sql (build_search f).1) (Some (build_search f).2) c =
    (c, search_sent f ≫= fun _ => search_rows <$> search_result f (c_rows c)).
Proof.
  unfold search_sent, execute, mbind at 1 2, dbm_bind, lift.
  rewrite build_search_spec; cbn [fst snd].
  destruct (mogrify _ _); [|done]. cbn [mbind result_bind].
  rewrite parse_search_sql by done. simpl. by rewrite run_search_spec.
Qed.

(** C4: the statement the handler builds is read by the store as the
    search over the conditions in force, and with the arguments the handler
    passes it returns the rows of [search_result]: those that match, in the
    order of their price, cut at the limit. *)
Theorem search_statement_refines f rows :
  parse_stmt (search_sql (build_search f).1) = Some (SSearch (search_conds f)) /\
  run_search rows (search_conds f) (build_search f).2 =
    search_rows <$> search_result f rows.
Proof.
  rewrite build_search_spec; cbn [fst snd].
  split; [by apply parse_search_sql|apply run_search_spec].
Qed.

(** A filter in force is always answered: its argument has the type its
    condition compares with, and its pattern ends in [%]. *)
Lemma forces_total f c a p : forces f c a -> is_ok (cond_holds c a p) = true.
Proof.
  destruct 1; simpl; try done.
  destruct (p_property_type p); [apply ilike_total|done].
Qed.

Lemma matches_total f p : is_ok (matches f p) = true.
Proof.
  unfold matches. cbn [all_hold cond_holds mbind result_bind].
  case_bool_decide; [|done].
  assert (Forall (fun b => forces f b.1 b.2) (in_force f)) as Hall.
  { apply Forall_forall. intros [c a] ?. by apply in_force_forces. }
  induction Hall as [|[c a] bs Hb _ IH]; [done|]. simpl.
  pose proof (forces_total f c a p Hb) as Hok.
  by destruct (cond_holds c a p) as [[]|].
Qed.

(** With a limit that is not negative the statement succeeds. *)
Lemma search_result_total f rows :
  (0 <= limit f)%Z ->
  search_result f rows =
    Ok (take (Z.to_nat (limit f))
          (merge_sort by_price (filter (fun p => matches f p = Ok true) rows))).
Proof.
  intros Hl. unfold search_result. rewrite check_limit_nonneg by done. simpl.
  rewrite filterM_total; [done|]. apply Forall_forall. intros p _. apply matches_total.
Qed.

Lemma search_result_negative f rows :
  (limit f < 0)%Z -> search_result f rows = raise DbError "LIMIT must not be negative".
Proof.
  intros Hl. unfold search_result, check_limit.
  by destruct (Z.ltb_spec (limit f) 0); [|lia].
Qed.

End results.

(** ** The handler *)

Section handler.
Context `{Spatial} `{!SqlText} `{!Flask}.

(** The body of the 500 answer. *)
Definition search_error : response :=
  Response 500 (BJson (JObj [("error", JStr "Search failed")])).

Lemma search_failed_Ok : search_failed = Ok search_error.
Proof. unfold search_failed, json_response. by rewrite jsonify_native. Qed.

(** The block runs the statement and encodes the rows; it leaves the
    connection as it found it. *)
Lemma search_block_spec f c :
  search_block f c =
    (c, search_sent f;;
        rows ← search_rows <$> search_result f (c_rows c);
        json_response_default 200 (search_answer f rows) serialize_result).
Proof.
  unfold search_block. pose proof (execute_build_search f c) as Hex.
  unfold search_sent in *. destruct (build_search f) as [cs ps]; cbn [fst snd] in Hex.
  unfold mbind at 1, dbm_bind. rewrite Hex.
  destruct (mogrify _ _); [|done]. cbn [mbind result_bind].
  by destruct (search_result f (c_rows c)).
Qed.

Lemma search_block_conn f c : (search_block f c).1 = c.
Proof. by rewrite search_block_spec. Qed.

(** The [try] block, case by case. *)
Lemma search_try_spec req d :
  search_try req d =
    (d, f ← parse_filters (req_args req);
        c ← get_db_connection d;
        search_sent f;;
        rows ← search_rows <$> search_result f (c_rows c);
        json_response_default 200 (search_answer f rows) serialize_result).
Proof.
  unfold search_try. destruct (parse_filters _) as [f|e]; [|done].
  cbn [mbind result_bind]. unfold get_db_connection. destruct (db_up d) eqn:Hd.
  - rewrite with_connection_up; [|done|apply search_block_conn].
    by rewrite search_block_spec.
  - by rewrite with_connection_down.
Qed.

End handler.

(** ** The rows of an answer *)

Section rows.
Context `{Spatial} `{!SqlText}.

Lemma search_result_Ok f rows ps :
  search_result f rows = Ok ps ->
  (0 <= limit f)%Z /\
  ps = take (Z.to_nat (limit f))
         (merge_sort by_price (filter (fun p => matches f p = Ok true) rows)).
Proof.
  intros Hps. destruct (Z.lt_ge_cases (limit f) 0) as [Hl|Hl].
  - by rewrite search_result_negative in Hps.
  - rewrite search_result_total in Hps by done. by injection Hps as <-.
Qed.

(** A row matches when it is active and every filter in force holds on it. *)
Lemma matches_true f p :
  matches f p = Ok true <->
  p_listing_status p = "active" /\ forall c a, forces f c a -> cond_holds c a p = Ok true.
Proof.
  unfold matches. rewrite all_hold_true, Forall_cons, Forall_forall. simpl.
  split.
  - intros [[= Ha%bool_decide_eq_true] Hall]. split; [done|].
    intros c a Hf%in_force_forces. apply (Hall (c, a) Hf).
  - intros [Ha Hall]. split; [by rewrite bool_decide_eq_true_2|].
    intros [c a] Hf%in_force_forces. by apply Hall.
Qed.

Lemma search_result_elem f rows ps p :
  search_result f rows = Ok ps -> p ∈ ps -> p ∈ rows /\ matches f p = Ok true.
Proof.
  intros [_ ->]%search_result_Ok Hp%selection_elem.
  apply list_elem_of_filter in Hp. tauto.
Qed.

End rows.

(** ** Theorems on the rows *)

Section row_claims.
Context `{Spatial} `{!SqlText}.

Lemma parse_filters_Ok a f :
  parse_filters a = Ok f ->
  exists n, args_int a "limit" 20 = Ok n /\ limit f = Z.min n 100 /\
    price_min f = args_get_type int_of_str a "price_min" /\
    price_max f = args_get_type int_of_str a "price_max" /\
    bedrooms f = args_get_type int_of_str a "bedrooms" /\
    bathrooms f = args_get_type float_of_str a "bathrooms" /\
    property_type f = args_get a "property_type".
Proof. intros (n & Hn & [= <-])%rbind_Ok_inv. by exists n. Qed.

(** C2: every row of an answer is a row of the table, is active, and
    satisfies each filter in force: its price is within the bounds given, it
    has at least the bedrooms and bathrooms asked for, and its type matches
    the pattern made of the text asked for.  A filter is in force when its
    value is given and is not zero or empty; a row whose column is NULL does
    not satisfy a filter on it. *)
Theorem search_result_sound f rows ps p :
  search_result f rows = Ok ps -> p ∈ ps ->
  p ∈ rows /\ p_listing_status p = "active" /\
  (forall z, price_min f = Some z -> z <> 0%Z -> dec_le (dec_of_int z) (p_price p)) /\
  (forall z, price_max f = Some z -> z <> 0%Z -> dec_le (p_price p) (dec_of_int z)) /\
  (forall z, bedrooms f = Some z -> z <> 0%Z ->
     exists b, p_bedrooms p = Some b /\ (z <= b)%Z) /\
  (forall x, bathrooms f = Some x -> float_is_zero x = false ->
     exists b, p_bathrooms p = Some b /\ float_le x (float_of_decimal b)) /\
  (forall s, property_type f = Some s -> s <> "" ->
     exists t, p_property_type p = Some t /\ ilike ("%" +:+ s +:+ "%") t = Ok true).
Proof.
  intros Hps Hp.
  destruct (search_result_elem _ _ _ _ Hps Hp) as [Hin [Ha Hall]%matches_true].
  repeat split; try done; intros v Hv Hnz;
    [apply cond_holds_price_ge|apply cond_holds_price_le|apply cond_holds_bedrooms
    |apply cond_holds_bathrooms|apply cond_holds_type];
    apply Hall; by econstructor.
Qed.

(** When the text asked for has no [%], no [_] and no backslash, the
    property type of every row of an answer contains it, letters compared
    without regard to case. *)
Lemma search_type_contains f rows ps p s :
  property_type f = Some s -> s <> "" -> plain s = true ->
  search_result f rows = Ok ps -> p ∈ ps ->
  exists t, p_property_type p = Some t /\ infix_ci s t = true.
Proof.
  intros Hs Hne Hplain Hps Hp.
  destruct (search_result_elem _ _ _ _ Hps Hp) as [_ [_ Hall]%matches_true].
  specialize (Hall _ _ (forces_property_type f s Hs Hne)).
  apply cond_holds_type in Hall as (t & Ht & Hlike).
  rewrite ilike_contains in Hlike by done. exists t. by injection Hlike.
Qed.

(** C22: the rows of an answer are in the order of their price, and there
    are at most [limit] of them, which is at most 100. *)
Theorem search_result_sorted a f rows ps :
  parse_filters a = Ok f -> search_result f rows = Ok ps ->
  Sorted by_price ps /\ (Z.of_nat (length ps) <= limit f <= 100)%Z.
Proof.
  intros (n & _ & Hn & _)%parse_filters_Ok [Hl ->]%search_result_Ok. split.
  - apply selection_sorted; apply _.
  - rewrite selection_length. lia.
Qed.

(** A row that matches is in the answer, or the answer is full of rows
    that cost no more. *)
Lemma search_result_keeps f rows ps p :
  search_result f rows = Ok ps -> p ∈ rows -> matches f p = Ok true ->
  p ∈ ps \/ (length ps = Z.to_nat (limit f) /\ Forall (fun q => by_price q p) ps).
Proof.
  intros [_ ->]%search_result_Ok Hp Hm.
  apply selection_complete; [apply _..|]. by apply list_elem_of_filter.
Qed.

(** C30: no matching row is left out unless the limit is reached, and then
    only rows that cost no less than every row of the answer. *)
Theorem search_result_complete f rows ps p :
  search_result f rows = Ok ps -> p ∈ rows -> matches f p = Ok true ->
  p ∈ ps \/ (length ps = Z.to_nat (limit f) /\ Forall (fun q => by_price q p) ps).
Proof. apply search_result_keeps. Qed.

(** The pattern made of the text [_] matches every type that is not
    empty. *)
Lemma matches_underscore n p t :
  p_listing_status p = "active" -> p_property_type p = Some t -> t <> "" ->
  matches (Filters None None None None (Some "_") n) p = Ok true.
Proof.
  intros Ha Ht Hne. apply matches_true. split; [done|].
  intros c a Hf. inversion Hf as [| | | |s Hs _]; simpl in * |-; simplify_eq.
  apply cond_holds_type. exists t. split; [done|].
  destruct t as [|x t]; [done|]. change ("%" +:+ "_" +:+ "%") with "%_%".
  rewrite ilike_percent.
  change (ilike "_%" (String x t)) with (ilike "%" t). by rewrite ilike_any.
Qed.

(** C39: a [_] in the text asked for is a wildcard of the pattern.  The
    property type [_] selects every active row whose type is not empty,
    whatever the type: each is in the answer, unless the answer is full of
    rows that cost no more. *)
Theorem search_type_wildcard n rows ps p t :
  search_result (Filters None None None None (Some "_") n) rows = Ok ps ->
  p ∈ rows -> p_listing_status p = "active" -> p_property_type p = Some t -> t <> "" ->
  p ∈ ps \/ (length ps = Z.to_nat n /\ Forall (fun q => by_price q p) ps).
Proof.
  intros Hps Hp Ha Ht Hne.
  apply (search_result_keeps _ _ _ _ Hps Hp), (matches_underscore n p t Ha Ht Hne).
Qed.

(** C9: a filter whose value is zero or empty is not applied: the
    statement and its arguments are those of a request without it. *)
Theorem search_falsy_filter_ignored f :
  build_search f =
    build_search
      (Filters (if decide (price_min f = Some 0%Z) then None else price_min f)
               (if decide (price_max f = Some 0%Z) then None else price_max f)
               (if decide (bedrooms f = Some 0%Z) then None else bedrooms f)
               (bathrooms f)
               (if decide (property_type f = Some "") then None else property_type f)
               (limit f)).
Proof.
  destruct f as [pmin pmax bd bt pt l]; unfold build_search; simpl.
  by repeat case_decide; simplify_eq.
Qed.

(** The text of the statement is made of fixed conditions only: it is
    one of the texts [search_sql] renders from a selection of [all_conds],
    whatever the values of the filters. *)
Lemma search_text_fixed f :
  (build_search f).1 = cond_sql <$> search_conds f /\
  search_conds f `sublist_of` all_conds.
Proof.
  rewrite build_search_spec. split; [done|].
  unfold search_conds, in_force, all_conds. apply sublist_skip.
  rewrite <-list_fmap_compose.
  change [CPriceGe; CPriceLe; CBedroomsGe; CBathroomsGe; CTypeILike]
    with ((fun t : cond * pyval * pyval => t.1.1) <$> filter_table f).
  apply fmap_sublist, sublist_filter.
Qed.

(** The JSON of a row of the filtered search: the price as a float, the
    creation time as its ISO-8601 string, NULL as [null]. *)
Definition row_json (p : property) : json :=
  JObj
    [ ("id", JInt (p_id p));
      ("address", JStr (p_address p));
      ("price", JFloat (float_of_decimal (p_price p)));
      ("bedrooms", from_option JInt JNull (p_bedrooms p));
      ("bathrooms", from_option (fun d => JFloat (float_of_decimal d)) JNull
                      (p_bathrooms p));
      ("square_feet", from_option JInt JNull (p_square_feet p));
      ("property_type", from_option JStr JNull (p_property_type p));
      ("listing_status", JStr (p_listing_status p));
      ("longitude", from_option (fun l => JFloat l.1) JNull (p_location p));
      ("latitude", from_option (fun l => JFloat l.2) JNull (p_location p));
      ("created_at", JStr (isoformat (p_created_at p))) ].

Lemma serialized_search_row p : serialized (VDict (search_row p)) = row_json p.
Proof.
  unfold search_row, row_json. cbn -[isoformat].
  by destruct (p_bedrooms p), (p_bathrooms p), (p_square_feet p),
    (p_property_type p), (p_location p).
Qed.

(** The rows of the filtered search cannot be encoded without the
    hook, since a price is a decimal and a creation time a date; with
    [serialize_result] as the hook they are encoded, each as its [row_json]:
    the price as a float and the time as its ISO-8601 string, the other
    columns as they are. *)
Lemma search_rows_encoded ps :
  json_encode 1 serialize_result (VList (VDict <$> search_rows ps)) =
    Ok (JArr (row_json <$> ps)) /\
  (ps <> [] ->
   is_ok (json_encode 0 no_default (VList (VDict <$> search_rows ps))) = false).
Proof.
  split.
  - rewrite json_encode_serialized. cbn [serialized]. f_equal. f_equal.
    unfold search_rows. rewrite <-!list_fmap_compose.
    apply list_fmap_ext. intros _ p _. apply serialized_search_row.
  - destruct ps as [|p ps]; [done|]. intros _.
    rewrite json_encode_list. unfold search_rows, search_row.
    cbn -[isoformat]. by destruct (p_bedrooms p).
Qed.

End row_claims.

(** ** Theorems on the handler *)

Section handler_claims.
Context `{Spatial} `{!SqlText} `{!Flask}.

(** The handler is the [try] block with every exception answered by the
    500 response; the database is the one it was given. *)
Lemma search_properties_spec req d :
  search_properties req d =
    (d, Ok (try_except (search_try req d).2 (fun _ => search_error))).
Proof.
  unfold search_properties. rewrite search_try_spec; cbn [snd].
  case_result; [done|]. by rewrite search_failed_Ok.
Qed.

Lemma search_try_Ok req d r :
  (search_try req d).2 = Ok r ->
  exists f ps, parse_filters (req_args req) = Ok f /\ db_up d = true /\
    search_result f (db_rows d) = Ok ps /\
    json_response_default 200 (search_answer f (search_rows ps)) serialize_result = Ok r.
Proof.
  rewrite search_try_spec; cbn [snd].
  intros (f & Hf & (c & Hc & (text & _ & (rows & Hrows & Hr)%rbind_Ok_inv)%rbind_Ok_inv)
    %rbind_Ok_inv)%rbind_Ok_inv.
  unfold get_db_connection in Hc. destruct (db_up d) eqn:Hd; [|done]. injection Hc as <-.
  apply rfmap_Ok_inv in Hrows as (ps & Hps & <-). by exists f, ps.
Qed.

(** The handler answers every request, whatever the arguments and the
    state of the database: it raises nothing, leaves the database as it was,
    and its answer is either a 200 with a JSON body or the 500 answer
    [Search failed]. *)
Lemma search_properties_answers req d :
  exists r, search_properties req d = (d, Ok r) /\
            ((exists j, r = Response 200 (BJson j)) \/ r = search_error).
Proof.
  rewrite search_properties_spec. eexists; split; [done|].
  destruct (search_try req d).2 as [r|e] eqn:E; [left|by right].
  apply search_try_Ok in E as (f & ps & _ & _ & _ & (j & _ & [= <-])%rbind_Ok_inv).
  by exists j.
Qed.

(** A 200 answer comes from arguments that were read, a database that
    was reached and a statement that succeeded; its body is the encoding of
    the filters read, the number of rows and the rows of [search_result]. *)
Lemma search_success_sound req d d' r :
  search_properties req d = (d', Ok r) -> status r = 200%Z ->
  exists f ps j,
    parse_filters (req_args req) = Ok f /\ db_up d = true /\
    search_result f (db_rows d) = Ok ps /\
    jsonify_default (search_answer f (search_rows ps)) serialize_result = Ok j /\
    r = Response 200 (BJson j) /\ d' = d.
Proof.
  rewrite search_properties_spec. intros [= <- <-] Hst.
  destruct (search_try req d).2 as [r|e] eqn:E; [|done].
  apply search_try_Ok in E as (f & ps & Hf & Hd & Hps & (j & Hj & [= <-])%rbind_Ok_inv).
  by exists f, ps, j.
Qed.

(** A [limit] that is not an integer literal gives the 500 answer. *)
Lemma search_bad_limit req d s :
  args_get (req_args req) "limit" = Some s -> int_of_str s = None ->
  search_properties req d = (d, Ok search_error).
Proof.
  intros Hs Hn. rewrite search_properties_spec, search_try_spec; cbn [snd].
  unfold parse_filters, args_int, py_int. by rewrite Hs, Hn.
Qed.

(** A negative [limit] passes the cap, reaches the statement and is
    refused there: the answer is the 500 answer. *)
Lemma search_negative_limit req d f :
  parse_filters (req_args req) = Ok f -> (limit f < 0)%Z ->
  search_properties req d = (d, Ok search_error).
Proof.
  intros Hf Hl. rewrite search_properties_spec, search_try_spec, Hf; cbn [snd].
  unfold get_db_connection. destruct (db_up d); [|done]. cbn [mbind result_bind].
  destruct (search_sent f); [|done]. cbn [mbind result_bind c_rows].
  by rewrite search_result_negative.
Qed.

(** C38: the limit is checked nowhere.  A [limit] that is not an integer
    literal raises inside the [try], and a negative one passes the cap,
    reaches the statement and is refused there: in both cases the answer is
    the 500 answer, on every database. *)
Theorem search_limit_unchecked req d :
  (exists s, args_get (req_args req) "limit" = Some s /\ int_of_str s = None) \/
  (exists f, parse_filters (req_args req) = Ok f /\ (limit f < 0)%Z) ->
  search_properties req d = (d, Ok search_error).
Proof.
  intros [(s & Hs & Hn)|(f & Hf & Hl)];
    [by eapply search_bad_limit|by eapply search_negative_limit].
Qed.

(** A type text with the character NUL cannot be written as an SQL
    literal: psycopg2 raises before anything is sent, and the answer is the
    500 answer. *)
Lemma search_nul_fails req d f :
  parse_filters (req_args req) = Ok f ->
  has_nul (default "" (property_type f)) = true ->
  search_properties req d = (d, Ok search_error).
Proof.
  intros Hf Hnul. rewrite search_properties_spec, search_try_spec, Hf; cbn [snd].
  unfold get_db_connection. destruct (db_up d); [|done]. cbn [mbind result_bind].
  pose proof (search_sent_ok f) as Hs. rewrite Hnul in Hs.
  by destruct (search_sent f).
Qed.

(** A limit written as a decimal numeral is read back as the number it
    denotes, and capped at 100. *)
Lemma parse_filters_limit a n :
  args_get a "limit" = Some (str_of_int n) ->
  limit <$> parse_filters a = Ok (Z.min n 100).
Proof.
  intros Hn. unfold parse_filters, args_int, py_int.
  by rewrite Hn, int_of_str_of_int.
Qed.

(** C34: what a client writes is what the handler reads.  The query that
    [urlencode] writes for arguments of ASCII text is read by Werkzeug as
    those arguments, whatever characters they hold, and a limit written in
    it as the decimal numeral of an integer is read back by
    [search_properties] as that integer, capped at 100. *)
Theorem search_limit_roundtrip a n :
  forallb ascii_pair a = true ->
  args_get a "limit" = Some (str_of_int n) ->
  parse_qs (urlencode a) = Some a /\ limit <$> parse_filters a = Ok (Z.min n 100).
Proof. intros Ha Hn. split; [by apply parse_qs_urlencode|by apply parse_filters_limit]. Qed.

(** The pattern of the type filter reaches the server as the string
    it is: psycopg2 writes it between quotes with its own quotes doubled, and
    the server reads that text as one literal whose value is the pattern. *)
Lemma search_pattern_roundtrip f s :
  property_type f = Some s -> s <> "" -> has_nul s = false ->
  exists l, VStr ("%" +:+ s +:+ "%") ∈ (build_search f).2 /\
            adapt (VStr ("%" +:+ s +:+ "%")) = Ok l /\
            sql_lex l = Some (literal ("%" +:+ s +:+ "%")).
Proof.
  intros Hs Hne Hnul. exists (quote_string ("%" +:+ s +:+ "%")). split_and!.
  - rewrite build_search_spec; cbn [snd]. unfold search_args.
    apply elem_of_app. left. apply list_elem_of_fmap.
    exists (CTypeILike, VStr ("%" +:+ s +:+ "%")).
    split; [done|]. apply in_force_forces. by constructor.
  - apply adapt_str. rewrite !has_nul_app, Hnul. done.
  - apply sql_lex_quote_string.
Qed.

(** When the database cannot be reached the answer is the 500 answer. *)
Lemma search_database_down req d :
  db_up d = false -> search_properties req d = (d, Ok search_error).
Proof.
  intros Hd. rewrite search_properties_spec, search_try_spec; cbn [snd].
  unfold get_db_connection. rewrite Hd. by destruct (parse_filters _).
Qed.

End handler_claims.

(** ** The two readings of [jsonify(obj, default=...)] *)

Section jsonify_claims.
Context `{Spatial} `{!SqlText} (own : pyval -> py pyval).

(** C24: when [jsonify] hands its [default] keyword to the encoder, a
    request whose arguments are read, with a limit that is not negative and
    a type text without the character NUL, on a database that is up, is
    answered 200 with the filters read, the number of rows and the rows that
    match, cheapest first, cut at the limit; decimals are written as floats
    and dates as ISO-8601 strings. *)
Theorem search_properties_success req d f :
  db_up d = true -> parse_filters (req_args req) = Ok f -> (0 <= limit f)%Z ->
  has_nul (default "" (property_type f)) = false ->
  @search_properties _ _ _ (flask_keyword_default own) req d =
    (d, Ok (Response 200 (BJson (serialized (search_answer f (search_rows
         (take (Z.to_nat (limit f))
            (merge_sort by_price
               (filter (fun p => matches f p = Ok true) (db_rows d)))))))))).
Proof.
  intros Hd Hf Hl Hnul. rewrite search_properties_spec, search_try_spec, Hf; cbn [snd].
  unfold get_db_connection. rewrite Hd. cbn [mbind result_bind c_rows].
  pose proof (search_sent_ok f) as Hsent. rewrite Hnul in Hsent.
  apply is_ok_true in Hsent as [text ->].
  rewrite search_result_total by done. cbn [fmap result_fmap mbind result_bind].
  by rewrite json_response_default_keyword.
Qed.

(** With a released Flask, whose [jsonify] refuses an object together
    with keyword arguments, the handler gives the 500 answer to every
    request. *)
Lemma search_released_fails req d :
  @search_properties _ _ _ (flask_released own) req d = (d, Ok search_error).
Proof.
  rewrite search_properties_spec.
  destruct (search_try req d).2 as [r|e] eqn:E; [|done].
  apply search_try_Ok in E as (f & ps & _ & _ & _ & Hr).
  pose proof (json_response_default_released own 200
                (search_answer f (search_rows ps)) serialize_result) as Hno.
  by rewrite Hr in Hno.
Qed.

End jsonify_claims.


(** ** Examples on the sample database *)

Import Exact.

Definition search_path : string := "/api/properties/search".

Definition house_request : request :=
  get search_path [("price_min", "500000"); ("property_type", "HOUSE")].

Definition house_filters : filters :=
  Filters (Some 500000%Z) None None None (Some "HOUSE") 20.

Definition house_answer : response :=
  Response 200 (BJson (serialized (search_answer house_filters (search_rows [oak_st])))).

(** No filter, and the limit given. *)
Definition limit_filters (n : Z) : filters := Filters None None None None None n.

Lemma search_result_sound_witness :
  oak_st ∈ sample_rows /\ p_listing_status oak_st = "active" /\
  dec_le (dec_of_int 500000) (p_price oak_st) /\
  exists t, p_property_type oak_st = Some t /\ ilike "%HOUSE%" t = Ok true.
Proof.
  destruct (search_result_sound house_filters sample_rows [oak_st] oak_st)
    as (Hin & Ha & Hmin & _ & _ & _ & Hty); [done|solve_elem|].
  split_and!; [done..|by apply (Hmin 500000%Z)|by apply (Hty "HOUSE")].
Defined.

Lemma search_result_sorted_witness :
  Sorted by_price [elm_ave; bay_ct; oak_st] /\ (3 <= 3 <= 100)%Z.
Proof. by apply (search_result_sorted [("limit", "3")] (limit_filters 3) sample_rows). Defined.

Lemma search_result_complete_witness :
  oak_st ∈ [elm_ave] \/
  (length [elm_ave] = 1 /\ Forall (fun q => by_price q oak_st) [elm_ave]).
Proof.
  by apply (search_result_complete (limit_filters 1) sample_rows); [|solve_elem|].
Defined.

Lemma search_properties_success_witness :
  search_properties house_request sample_db = (sample_db, Ok house_answer).
Proof.
  etrans; [by apply (search_properties_success no_default _ _ house_filters)|done].
Defined.

Lemma search_bad_limit_witness :
  search_properties (get search_path [("limit", "ten")]) sample_db =
    (sample_db, Ok search_error).
Proof. by apply (search_bad_limit _ _ "ten"). Defined.

Lemma search_negative_limit_witness :
  search_properties (get search_path [("limit", "-1")]) sample_db =
    (sample_db, Ok search_error).
Proof. by apply (search_negative_limit _ _ (limit_filters (-1))). Defined.

Lemma search_limit_unchecked_witness :
  search_properties (get search_path [("limit", "ten")]) sample_db =
    (sample_db, Ok search_error).
Proof. apply search_limit_unchecked. left. by exists "ten". Defined.

(** A type text that starts with the character NUL. *)
Definition nul_type : string := String (Ascii.ascii_of_nat 0) "house".

Definition type_filters (t : string) : filters := Filters None None None None (Some t) 20.

Lemma search_nul_fails_witness :
  search_properties (get search_path [("property_type", nul_type)]) sample_db =
    (sample_db, Ok search_error).
Proof. by apply (search_nul_fails _ _ (type_filters nul_type)). Defined.

Lemma search_limit_roundtrip_witness :
  parse_qs (urlencode [("property_type", "town house & co"); ("limit", "250")]) =
    Some [("property_type", "town house & co"); ("limit", "250")] /\
  limit <$> parse_filters [("property_type", "town house & co"); ("limit", "250")] =
    Ok (Z.min 250 100).
Proof.
  by apply (search_limit_roundtrip
              [("property_type", "town house & co"); ("limit", "250")] 250).
Defined.

Lemma search_pattern_roundtrip_witness :
  exists l, VStr ("%" +:+ "O'Hara" +:+ "%") ∈ (build_search (type_filters "O'Hara")).2 /\
            adapt (VStr ("%" +:+ "O'Hara" +:+ "%")) = Ok l /\
            sql_lex l = Some (literal ("%" +:+ "O'Hara" +:+ "%")).
Proof. by apply (search_pattern_roundtrip (type_filters "O'Hara") "O'Hara"). Defined.

Lemma search_type_contains_witness :
  exists t, p_property_type oak_st = Some t /\ infix_ci "HOUSE" t = true.
Proof.
  by apply (search_type_contains house_filters sample_rows [oak_st] oak_st "HOUSE");
    [..|solve_elem].
Defined.

(** The type [_] asked of the sample table: the house of Oak Street is in
    the answer, though its type does not contain that character. *)
Lemma search_type_wildcard_witness :
  (oak_st ∈ [elm_ave; oak_st] \/
   (length [elm_ave; oak_st] = Z.to_nat 20 /\ Forall (fun q => by_price q oak_st) [elm_ave; oak_st])) /\
  infix_ci "_" "House" = false.
Proof.
  split; [|by vm_compute].
  by apply (search_type_wildcard 20 sample_rows [elm_ave; oak_st] oak_st "House");
    [|solve_elem|..].
Defined.
