(* ===== verification/Nearby.v ===== *)
(** * The radius search: [find_nearby_properties]

    [src/app.py], lines 171-223.  The handler reads a point, a radius and a
    limit, sends the one statement [Sql.nearby_sql] with the point bound
    twice, and answers with the rows.  A [ValueError] anywhere in the [try]
    gives the 400 answer, any other exception the 500 answer.

    [nearby_result] is the abstract view of what the statement selects: the
    located rows within the radius, nearest first, cut at the limit. *)

From Stdlib Require Import ZArith Lia.
From stdpp Require Import base tactics option list strings sorting.
From S2P Require Import Prelude PyValue PyBuiltins Serializer Flask Sql Bind Store Psycopg Exact.

Section nearby.
Context `{Spatial} `{!SqlText} `{!Flask}.

(** ** The handler *)

(** The values of lines 175-178. *)
Record nearby_args := NearbyArgs {
  lat : pyfloat;
  lng : pyfloat;
  radius : Z;
  nearby_limit : Z
}.

(** Lines 175-178: each conversion may raise [ValueError]; the first that
    does ends the block.  The limit is capped at 100. *)
Definition parse_nearby (a : multidict) : py nearby_args :=
  lat ← args_float a "lat" (float_lit 377749 (-4));
  lng ← args_float a "lng" (float_lit (-1224194) (-4));
  radius ← args_int a "radius" 1000;
  n ← args_int a "limit" 10;
  Ok (NearbyArgs lat lng radius (Z.min n 100)).

(** Line 208: the arguments of the statement. *)
Definition nearby_params (q : nearby_args) : list pyval :=
  [VFloat (lng q); VFloat (lat q); VFloat (lng q); VFloat (lat q);
   VInt (radius q); VInt (nearby_limit q)].

(** Lines 212-217: the body of the answer. *)
Definition nearby_answer (q : nearby_args) (properties : list row) : pyval :=
  VDict
    [ ("search_center",
        VDict [("latitude", VFloat (lat q)); ("longitude", VFloat (lng q))]);
      ("radius_meters", VInt (radius q));
      ("total_found", VInt (Z.of_nat (length properties)));
      ("properties", VList (VDict <$> properties)) ].

(** Lines 180-217: the block under [with get_db_connection() as conn]. *)
Definition nearby_block (q : nearby_args) : dbm response :=
  properties ← execute nearby_sql (Some (nearby_params q));
  lift (json_response_default 200 (nearby_answer q properties) serialize_result).

(** Lines 174-217: the [try] block. *)
Definition nearby_try (req : request) (d : db) : db * py response :=
  match parse_nearby (req_args req) with
  | Ok q => with_connection d (nearby_block q)
  | Err e => (d, Err e)
  end.

(** Lines 219-223: the two [except] clauses. *)
Definition nearby_except (e : exn) : py response :=
  if is_value_error e then
    json_response 400 (VDict [("error", VStr "Invalid coordinates or radius")])
  else json_response 500 (VDict [("error", VStr "Search failed")]).

Definition find_nearby_properties (req : request) (d : db) : db * py response :=
  match nearby_try req d with
  | (d', Ok r) => (d', Ok r)
  | (d', Err e) => (d', nearby_except e)
  end.

(** ** The abstract view *)

(** The point the request names: [(longitude, latitude)]. *)
Definition center (q : nearby_args) : point := (lng q, lat q).

(** A located row is within the radius. *)
Definition within (q : nearby_args) (pl : property * point) : py bool :=
  st_dwithin pl.2 (center q) (radius q).

(** The rows the statement selects, each with its location. *)
Definition nearby_result (q : nearby_args) (rows : list property)
    : py (list (property * point)) :=
  if finite (lng q) && finite (lat q) then
    k ← check_limit (nearby_limit q);
    kept ← filterM (within q) (located rows);
    Ok (take k (merge_sort (by_distance (center q)) kept))
  else raise DbError "parse error - invalid geometry".

(** The rows of a radius search that succeeds. *)
Definition nearest (q : nearby_args) (rows : list property) : list (property * point) :=
  take (Z.to_nat (nearby_limit q))
    (merge_sort (by_distance (center q))
       (filter (fun pl => within q pl = Ok true) (located rows))).

Definition nearby_rows (q : nearby_args) (ps : list (property * point)) : list row :=
  nearby_row (center q) <$> ps.

(** The bodies of the two error answers. *)
Definition nearby_invalid : response :=
  Response 400 (BJson (JObj [("error", JStr "Invalid coordinates or radius")])).

Definition nearby_error : response :=
  Response 500 (BJson (JObj [("error", JStr "Search failed")])).

End nearby.

(** ** The statement *)

Section statement.
Context `{Spatial} `{!SqlText}.

Lemma run_nearby_spec rows q :
  run_nearby rows (nearby_params q) = nearby_rows q <$> nearby_result q rows.
Proof.
  unfold run_nearby, nearby_params, nearby_result, nearby_rows, within, center.
  destruct (finite (lng q)), (finite (lat q)); simpl; try done.
  destruct (check_limit _); simpl; [|done]. by destruct (filterM _ _).
Qed.

Lemma execute_nearby_params q c :
  execute nearby_sql (Some (nearby_params q)) c =
    (c, nearby_rows q <$> nearby_result q (c_rows c)).
Proof. by rewrite execute_nearby, run_nearby_spec. Qed.

(** C5: the statement of the radius search has six placeholders and the
    handler passes six arguments; executed with them it returns the rows of
    [nearby_result]: the point of the request, longitude first, is both the
    point distances are measured from and the centre of the radius. *)
Theorem nearby_statement_refines q c :
  placeholders nearby_sql = Ok (length (nearby_params q)) /\
  execute nearby_sql (Some (nearby_params q)) c =
    (c, nearby_rows q <$> nearby_result q (c_rows c)).
Proof. split; [apply fixed_sql_placeholders|apply execute_nearby_params]. Qed.

(** Within the radius is always answered when the radius is not negative. *)
Lemma within_nonneg q pl :
  (0 <= radius q)%Z ->
  within q pl = Ok (bool_decide (float_le (st_distance pl.2 (center q))
                                   (float_of_int (radius q)))).
Proof. intros Hr. unfold within, st_dwithin. by case_match eqn:E; [lia|]. Qed.

Lemma within_negative q pl :
  (radius q < 0)%Z -> within q pl = raise DbError "Tolerance cannot be negative".
Proof. intros Hr. unfold within, st_dwithin. by case_match eqn:E; [|lia]. Qed.

Lemma within_true q pl :
  within q pl = Ok true ->
  (0 <= radius q)%Z /\
  float_le (st_distance pl.2 (center q)) (float_of_int (radius q)).
Proof.
  destruct (Z.lt_ge_cases (radius q) 0) as [Hr|Hr].
  - by rewrite within_negative.
  - rewrite within_nonneg by done. by intros ?%Ok_bool_decide.
Qed.

Lemma nearby_result_Ok q rows ps :
  nearby_result q rows = Ok ps ->
  finite (lng q) = true /\ finite (lat q) = true /\ (0 <= nearby_limit q)%Z /\
  Forall (fun pl => is_ok (within q pl) = true) (located rows) /\
  ps = nearest q rows.
Proof.
  unfold nearby_result. destruct (finite (lng q)), (finite (lat q)); try done.
  intros (k & [Hl ->]%check_limit_Ok & (kept & [-> ?]%filterM_Ok & [= <-])%rbind_Ok_inv)
    %rbind_Ok_inv.
  done.
Qed.

(** A radius that is negative is refused as soon as a row is tested. *)
Lemma nearby_result_negative q rows :
  (radius q < 0)%Z -> located rows <> [] -> is_ok (nearby_result q rows) = false.
Proof.
  intros Hr Hrows. destruct (nearby_result q rows) as [ps|] eqn:E; [|done].
  apply nearby_result_Ok in E as (_ & _ & _ & Hall & _).
  destruct Hall as [|pl l Hpl _]; [done|]. by rewrite within_negative in Hpl.
Qed.

Lemma nearby_result_total q rows :
  finite (lng q) = true -> finite (lat q) = true ->
  (0 <= radius q)%Z -> (0 <= nearby_limit q)%Z ->
  nearby_result q rows = Ok (nearest q rows).
Proof.
  intros Hx Hy Hr Hl. unfold nearby_result.
  rewrite Hx, Hy, check_limit_nonneg by done. simpl.
  rewrite filterM_total; [done|]. apply Forall_forall. intros pl _.
  by rewrite within_nonneg.
Qed.

Lemma located_elem rows p loc :
  (p, loc) ∈ located rows <-> p ∈ rows /\ p_location p = Some loc.
Proof.
  unfold located. rewrite list_elem_of_omap. split.
  - intros (p' & Hp & Hloc). destruct (p_location p') eqn:E; [|done].
    by injection Hloc as -> <-.
  - intros [Hp Hloc]. exists p. by rewrite Hloc.
Qed.

(** A located row within the radius is among the nearest, or the limit is
    reached by rows that are no farther. *)
Lemma nearest_complete q rows p loc :
  (0 <= radius q)%Z -> p ∈ rows -> p_location p = Some loc ->
  float_le (st_distance loc (center q)) (float_of_int (radius q)) ->
  (p, loc) ∈ nearest q rows \/
  (length (nearest q rows) = Z.to_nat (nearby_limit q) /\
   Forall (fun x => by_distance (center q) x (p, loc)) (nearest q rows)).
Proof.
  intros Hr Hp Hloc Hd. apply selection_complete; [apply _..|].
  apply list_elem_of_filter. split; [|by apply located_elem].
  rewrite within_nonneg by done. by apply Ok_bool_decide.
Qed.

End statement.

(** ** The handler, case by case *)

Section handler.
Context `{Spatial} `{!SqlText} `{!Flask}.

Lemma nearby_try_spec req d :
  nearby_try req d =
    (d, q ← parse_nearby (req_args req);
        c ← get_db_connection d;
        rows ← nearby_rows q <$> nearby_result q (c_rows c);
        json_response_default 200 (nearby_answer q rows) serialize_result).
Proof.
  unfold nearby_try. destruct (parse_nearby _) as [q|e]; [|done].
  unfold nearby_block.
  by rewrite (with_connection_query _ _ _ _ (execute_nearby_params q)).
Qed.

(** The answer of the [except] clauses. *)
Definition nearby_caught (e : exn) : response :=
  if is_value_error e then nearby_invalid else nearby_error.

Lemma nearby_except_Ok e : nearby_except e = Ok (nearby_caught e).
Proof.
  unfold nearby_except, nearby_caught, json_response.
  by destruct (is_value_error e); rewrite jsonify_native.
Qed.

Lemma find_nearby_spec req d :
  find_nearby_properties req d =
    (d, Ok (try_except (nearby_try req d).2 nearby_caught)).
Proof.
  unfold find_nearby_properties. rewrite nearby_try_spec; cbn [snd].
  case_result; [done|]. by rewrite nearby_except_Ok.
Qed.

Lemma parse_nearby_Err a e : parse_nearby a = Err e -> is_value_error e = true.
Proof.
  unfold parse_nearby.
  intros [?%args_float_Err|(? & _ & [?%args_float_Err|(? & _ &
    [?%args_int_Err|(? & _ & [?%args_int_Err|(? & _ & [=])]%rbind_Err_inv)]
    %rbind_Err_inv)]%rbind_Err_inv)]%rbind_Err_inv; done.
Qed.

(** What the statement raises is an error of the database. *)
Lemma nearby_result_Err q rows e : nearby_result q rows = Err e -> exn_cls e = DbError.
Proof.
  unfold nearby_result. case_match; [|by intros [= <-]].
  intros [?%check_limit_Err|(k & _ & [(pl & _ & He)%filterM_Err|(? & _ & [=])]
    %rbind_Err_inv)]%rbind_Err_inv; [done|].
  unfold within, st_dwithin in He. case_match; [|done]. by injection He as <-.
Qed.

(** After the arguments are read nothing raises a [ValueError]. *)
Lemma nearby_try_Err req d q e :
  parse_nearby (req_args req) = Ok q -> (nearby_try req d).2 = Err e ->
  is_value_error e = false.
Proof.
  intros Hq. rewrite nearby_try_spec, Hq; cbn [snd mbind result_bind].
  assert (forall c, exn_cls e = c -> c <> ValueError -> is_value_error e = false) as Hcls.
  { intros c <- Hc. unfold is_value_error. by destruct (exn_cls e). }
  intros [?%get_db_connection_Err|(c & _ & [He|(rows & _ & ?%json_response_default_Err)]
    %rbind_Err_inv)]%rbind_Err_inv; [by eapply Hcls| |by eapply Hcls].
  destruct (nearby_result q (c_rows c)) as [?|e'] eqn:E; [done|].
  injection He as ->. apply nearby_result_Err in E. by eapply Hcls.
Qed.

Lemma nearby_try_Ok req d r :
  (nearby_try req d).2 = Ok r ->
  exists q ps, parse_nearby (req_args req) = Ok q /\ db_up d = true /\
    nearby_result q (db_rows d) = Ok ps /\
    json_response_default 200 (nearby_answer q (nearby_rows q ps)) serialize_result = Ok r.
Proof.
  rewrite nearby_try_spec; cbn [snd].
  intros (q & Hq & (c & Hc & (rows & Hrows & Hr)%rbind_Ok_inv)%rbind_Ok_inv)%rbind_Ok_inv.
  unfold get_db_connection in Hc. destruct (db_up d) eqn:Hd; [|done]. injection Hc as <-.
  apply rfmap_Ok_inv in Hrows as (ps & Hps & <-). by exists q, ps.
Qed.

End handler.

(** ** Theorems on the rows *)

Section row_claims.
Context `{Spatial} `{!SqlText}.

Lemma parse_nearby_Ok a q :
  parse_nearby a = Ok q ->
  exists n, args_int a "limit" 10 = Ok n /\ nearby_limit q = Z.min n 100 /\
    args_float a "lat" (float_lit 377749 (-4)) = Ok (lat q) /\
    args_float a "lng" (float_lit (-1224194) (-4)) = Ok (lng q) /\
    args_int a "radius" 1000 = Ok (radius q).
Proof.
  intros (y & Hy & (x & Hx & (r & Hr & (n & Hn & [= <-])%rbind_Ok_inv)%rbind_Ok_inv)
    %rbind_Ok_inv)%rbind_Ok_inv.
  by exists n.
Qed.

(** C3: every row of an answer is a row of the table that has a location,
    and that location is within the radius of the point asked for. *)
Theorem nearby_result_sound q rows ps p loc :
  nearby_result q rows = Ok ps -> (p, loc) ∈ ps ->
  p ∈ rows /\ p_location p = Some loc /\
  float_le (st_distance loc (center q)) (float_of_int (radius q)).
Proof.
  intros (_ & _ & _ & _ & ->)%nearby_result_Ok Hp%selection_elem.
  apply list_elem_of_filter in Hp as [[_ Hd]%within_true [Hin Hloc]%located_elem].
  done.
Qed.

(** C23: the rows of an answer are in the order of their distance to the
    point asked for, and there are at most [limit] of them, which is at most
    100. *)
Theorem nearby_result_sorted a q rows ps :
  parse_nearby a = Ok q -> nearby_result q rows = Ok ps ->
  Sorted (by_distance (center q)) ps /\
  (Z.of_nat (length ps) <= nearby_limit q <= 100)%Z.
Proof.
  intros (n & _ & Hn & _)%parse_nearby_Ok (_ & _ & Hl & _ & ->)%nearby_result_Ok.
  unfold nearest. split.
  - apply selection_sorted; apply _.
  - rewrite selection_length. lia.
Qed.

(** C31: no located row within the radius is left out unless the limit is
    reached, and then only rows that are no nearer than every row of the
    answer. *)
Theorem nearby_result_complete q rows ps p loc :
  nearby_result q rows = Ok ps -> p ∈ rows -> p_location p = Some loc ->
  float_le (st_distance loc (center q)) (float_of_int (radius q)) ->
  (p, loc) ∈ ps \/
  (length ps = Z.to_nat (nearby_limit q) /\
   Forall (fun x => by_distance (center q) x (p, loc)) ps).
Proof.
  intros (_ & _ & _ & Hall & ->)%nearby_result_Ok Hp Hloc Hd.
  apply nearest_complete; [|done..].
  assert ((p, loc) ∈ located rows) as Hin by by apply located_elem.
  rewrite Forall_forall in Hall. specialize (Hall _ Hin).
  destruct (Z.lt_ge_cases (radius q) 0) as [Hr|Hr]; [|done].
  by rewrite within_negative in Hall.
Qed.

End row_claims.

(** ** Theorems on the handler *)

Section handler_claims.
Context `{Spatial} `{!SqlText} `{!Flask}.

(** One of the four arguments is given and does not convert. *)
Definition bad_nearby (a : multidict) : bool :=
  unreadable float_of_str a "lat" || unreadable float_of_str a "lng" ||
  unreadable int_of_str a "radius" || unreadable int_of_str a "limit".

Lemma parse_nearby_ok a : is_ok (parse_nearby a) = negb (bad_nearby a).
Proof.
  unfold bad_nearby, parse_nearby.
  rewrite (unreadable_float a "lat" (float_lit 377749 (-4))),
    (unreadable_float a "lng" (float_lit (-1224194) (-4))),
    (unreadable_int a "radius" 1000), (unreadable_int a "limit" 10).
  by destruct (args_float a "lat" _), (args_float a "lng" _),
    (args_int a "radius" _), (args_int a "limit" _).
Qed.

(** The handler answers every request, whatever the arguments and the
    state of the database: it raises nothing, leaves the database as it was,
    and its answer is a 200 with a JSON body, the 400 answer or the 500
    answer. *)
Lemma find_nearby_answers req d :
  exists r, find_nearby_properties req d = (d, Ok r) /\
            ((exists j, r = Response 200 (BJson j)) \/ r = nearby_invalid \/
             r = nearby_error).
Proof.
  rewrite find_nearby_spec. eexists; split; [done|].
  destruct (nearby_try req d).2 as [r|e] eqn:E; simpl.
  - apply nearby_try_Ok in E as (q & ps & _ & _ & _ & (j & _ & [= <-])%rbind_Ok_inv).
    left. by exists j.
  - right. unfold nearby_caught. destruct (is_value_error e); eauto.
Qed.

(** C12: the answer is the 400 answer exactly when one of [lat], [lng],
    [radius] and [limit] is given and is not a number of its type; nothing
    that happens later is reported as an invalid request. *)
Theorem nearby_invalid_iff req d :
  find_nearby_properties req d = (d, Ok nearby_invalid) <->
  bad_nearby (req_args req) = true.
Proof.
  rewrite find_nearby_spec, <-negb_false_iff, <-parse_nearby_ok.
  destruct (parse_nearby (req_args req)) as [q|e] eqn:Hq; simpl.
  - split; [|done]. destruct (nearby_try req d).2 as [r|e] eqn:E; simpl.
    + apply nearby_try_Ok in E as (q' & ps & _ & _ & _ & Hr); intros [= ->].
      by apply json_response_default_status in Hr.
    + unfold nearby_caught. by rewrite (nearby_try_Err _ _ _ _ Hq E).
  - split; [done|intros _]. rewrite nearby_try_spec, Hq; simpl.
    unfold nearby_caught. by rewrite (parse_nearby_Err _ _ Hq).
Qed.

(** A negative radius is refused by the database as soon as the table
    has a located row: the answer is the 500 answer. *)
Lemma nearby_negative_radius req d q :
  parse_nearby (req_args req) = Ok q -> (radius q < 0)%Z ->
  located (db_rows d) <> [] ->
  find_nearby_properties req d = (d, Ok nearby_error).
Proof.
  intros Hq Hr Hrows. rewrite find_nearby_spec.
  destruct (nearby_try req d).2 as [r|e] eqn:E; simpl.
  - apply nearby_try_Ok in E as (q' & ps & Hq' & _ & Hps & _).
    assert (q' = q) as -> by congruence.
    pose proof (nearby_result_negative q (db_rows d) Hr Hrows) as Hno.
    by rewrite Hps in Hno.
  - unfold nearby_caught. by rewrite (nearby_try_Err _ _ _ _ Hq E).
Qed.

(** A coordinate that is not finite is read and refused later: [float]
    reads [nan], [inf] and [-inf], the request passes the conversions and
    the statement fails. *)
Lemma nearby_nonfinite_fails req d q :
  parse_nearby (req_args req) = Ok q ->
  float_finite (lat q) && float_finite (lng q) = false ->
  find_nearby_properties req d = (d, Ok nearby_error).
Proof.
  intros Hq Hf. rewrite find_nearby_spec.
  destruct (nearby_try req d).2 as [r|e] eqn:E; simpl.
  - apply nearby_try_Ok in E as (q' & ps & Hq' & _ & Hps & _).
    assert (q' = q) as -> by congruence. unfold nearby_result in Hps.
    by rewrite !finite_float_finite, andb_comm, Hf in Hps.
  - unfold nearby_caught. by rewrite (nearby_try_Err _ _ _ _ Hq E).
Qed.

(** C37: arguments that are read and refused later.  A negative radius,
    when the table has a located row, and a latitude or a longitude that is
    [nan] or an infinity pass the conversions of the handler; the database
    refuses the statement, and the answer is the 500 answer, not the 400
    answer of an invalid coordinate or radius. *)
Theorem nearby_refused_late req d q :
  parse_nearby (req_args req) = Ok q ->
  (radius q < 0)%Z /\ located (db_rows d) <> [] \/
  float_finite (lat q) && float_finite (lng q) = false ->
  find_nearby_properties req d = (d, Ok nearby_error).
Proof.
  intros Hq [[Hr Hrows]|Hf];
    [by eapply nearby_negative_radius|by eapply nearby_nonfinite_fails].
Qed.

End handler_claims.

(** ** The two readings of [jsonify(obj, default=...)] *)

Section jsonify_claims.
Context `{Spatial} `{!SqlText} (own : pyval -> py pyval).

(** C25: when [jsonify] hands its [default] keyword to the encoder, a
    request whose arguments are read, with finite coordinates and a radius
    and a limit that are not negative, on a database that is up, is answered
    200 with the point, the radius, the number of rows and the located rows
    within the radius, nearest first, cut at the limit. *)
Theorem find_nearby_success req d q :
  db_up d = true -> parse_nearby (req_args req) = Ok q ->
  finite (lng q) = true -> finite (lat q) = true ->
  (0 <= radius q)%Z -> (0 <= nearby_limit q)%Z ->
  @find_nearby_properties _ _ _ (flask_keyword_default own) req d =
    (d, Ok (Response 200 (BJson (serialized
         (nearby_answer q (nearby_rows q (nearest q (db_rows d)))))))).
Proof.
  intros Hd Hq Hx Hy Hr Hl. rewrite find_nearby_spec, nearby_try_spec, Hq; cbn [snd].
  unfold get_db_connection. rewrite Hd. cbn [mbind result_bind c_rows].
  rewrite nearby_result_total by done. cbn [fmap result_fmap mbind result_bind].
  by rewrite json_response_default_keyword.
Qed.

(** On an empty table the answer of such a request names the point
    and the radius, counts no row and lists none, whatever the radius. *)
Lemma find_nearby_empty req d q :
  db_up d = true -> db_rows d = [] -> parse_nearby (req_args req) = Ok q ->
  finite (lng q) = true -> finite (lat q) = true -> (0 <= nearby_limit q)%Z ->
  @find_nearby_properties _ _ _ (flask_keyword_default own) req d =
    (d, Ok (Response 200 (BJson (JObj
       [ ("search_center",
           JObj [("latitude", JFloat (lat q)); ("longitude", JFloat (lng q))]);
         ("radius_meters", JInt (radius q));
         ("total_found", JInt 0);
         ("properties", JArr []) ])))).
Proof.
  intros Hd Hrows Hq Hx Hy Hl.
  rewrite find_nearby_spec, nearby_try_spec, Hq; cbn [snd].
  unfold get_db_connection. rewrite Hd. cbn [mbind result_bind c_rows].
  unfold nearby_result. rewrite Hrows, Hx, Hy, check_limit_nonneg by done.
  cbn [andb located omap list_omap filterM mbind result_bind fmap result_fmap].
  rewrite json_response_default_keyword. by destruct (Z.to_nat _).
Qed.

(** With a released Flask, whose [jsonify] refuses an object together
    with keyword arguments, no request is answered 200: the answer is the 400
    answer when an argument does not convert and the 500 answer otherwise. *)
Lemma find_nearby_released req d :
  @find_nearby_properties _ _ _ (flask_released own) req d =
    (d, Ok (if bad_nearby (req_args req) then nearby_invalid else nearby_error)).
Proof.
  rewrite find_nearby_spec. f_equal. f_equal.
  destruct (nearby_try req d).2 as [r|e] eqn:E; simpl.
  - apply nearby_try_Ok in E as (q & ps & _ & _ & _ & Hr).
    pose proof (json_response_default_released own 200
                  (nearby_answer q (nearby_rows q ps)) serialize_result) as Hno.
    by rewrite Hr in Hno.
  - pose proof (parse_nearby_ok (req_args req)) as Hok. unfold nearby_caught.
    destruct (parse_nearby (req_args req)) as [q|e'] eqn:Hq.
    + rewrite (nearby_try_Err _ _ _ _ Hq E).
      by destruct (bad_nearby _).
    + rewrite nearby_try_spec, Hq in E. injection E as <-.
      rewrite (parse_nearby_Err _ _ Hq). by destruct (bad_nearby _).
Qed.

End jsonify_claims.

(** ** Examples on the sample database *)

Import Exact.

Definition near_path : string := "/api/properties/nearby".

(** The default point, with the radius and the limit given. *)
Definition near_args (r n : Z) : nearby_args :=
  NearbyArgs (float_lit 377749 (-4)) (float_lit (-1224194) (-4)) r n.

Lemma nearby_result_sound_witness :
  elm_ave ∈ sample_rows /\ p_location elm_ave = Some elm_loc /\
  float_le (st_distance elm_loc (center (near_args 1 10))) (float_of_int 1).
Proof.
  by apply (nearby_result_sound (near_args 1 10) sample_rows
              [(oak_st, oak_loc); (elm_ave, elm_loc)]); [|solve_elem].
Defined.

Lemma nearby_result_sorted_witness :
  Sorted (by_distance (center (near_args 1 10))) [(oak_st, oak_loc); (elm_ave, elm_loc)] /\
  (2 <= 10 <= 100)%Z.
Proof. by apply (nearby_result_sorted [("radius", "1")] (near_args 1 10) sample_rows). Defined.

Lemma nearby_result_complete_witness :
  (elm_ave, elm_loc) ∈ [(oak_st, oak_loc)] \/
  (length [(oak_st, oak_loc)] = 1 /\
   Forall (fun x => by_distance (center (near_args 1 1)) x (elm_ave, elm_loc))
     [(oak_st, oak_loc)]).
Proof.
  apply (nearby_result_complete (near_args 1 1) sample_rows);
    [done|solve_elem|done|decide_true].
Defined.

Lemma nearby_negative_radius_witness :
  find_nearby_properties (get near_path [("radius", "-5")]) sample_db =
    (sample_db, Ok nearby_error).
Proof. by apply (nearby_negative_radius _ _ (near_args (-5) 10)). Defined.

Lemma nearby_refused_late_witness :
  find_nearby_properties (get near_path [("radius", "-5")]) sample_db =
    (sample_db, Ok nearby_error).
Proof. apply (nearby_refused_late _ _ (near_args (-5) 10)); [done|]. by left. Defined.

Lemma find_nearby_success_witness :
  find_nearby_properties (get near_path [("radius", "1")]) sample_db =
    (sample_db,
     Ok (Response 200 (BJson (serialized
          (nearby_answer (near_args 1 10)
             (nearby_rows (near_args 1 10)
                [(oak_st, oak_loc); (elm_ave, elm_loc)])))))).
Proof.
  assert (nearest (near_args 1 10) (db_rows sample_db) =
            [(oak_st, oak_loc); (elm_ave, elm_loc)]) as <- by reflexivity.
  by apply (find_nearby_success no_default).
Defined.

Lemma find_nearby_empty_witness :
  find_nearby_properties
    (get near_path [("lat", "37.7749"); ("lng", "-122.4194"); ("radius", "500");
                    ("limit", "5")]) empty_db =
    (empty_db, Ok (Response 200 (BJson (JObj
       [ ("search_center",
           JObj [("latitude", JFloat (float_lit 377749 (-4)));
                 ("longitude", JFloat (float_lit (-1224194) (-4)))]);
         ("radius_meters", JInt 500);
         ("total_found", JInt 0);
         ("properties", JArr []) ])))).
Proof. by apply (find_nearby_empty no_default _ _ (near_args 500 5)). Defined.
