(* ===== verification/Insert.v ===== *)
(** * The insert: [add_property]

    [src/app.py], lines 291-333.  The handler decodes the JSON body, answers
    400 when one of the four required fields is not in it, and otherwise
    sends the one statement [Sql.insert_sql], reads the new id, commits and
    answers 201.  Any exception gives the 500 answer, and the connection
    rolls back what the block did.

    [add_outcome] is the abstract view: the database and the answer as a
    function of the body and the database before. *)

From Stdlib Require Import ZArith Lia.
From stdpp Require Import base tactics option list strings.
From S2P Require Import Prelude PyValue PyBuiltins Serializer Flask Sql Bind Store Psycopg Exact.

Section insert.
Context `{Spatial} `{!SqlText} `{!Flask}.

(** ** The handler *)

(** Line 296. *)
Definition required_fields : list string :=
  ["address"; "price"; "latitude"; "longitude"].

(** Line 298: [all(field in data for field in required_fields)]. *)
Definition has_required (data : pyval) : py bool :=
  py_all (fun field => py_contains field data) required_fields.

(** Lines 311-320: the arguments of the statement, evaluated left to
    right. *)
Definition insert_params (data : pyval) : py (list pyval) :=
  address ← py_getitem data "address";
  price ← py_getitem data "price";
  bedrooms ← py_get data "bedrooms" VNone;
  bathrooms ← py_get data "bathrooms" VNone;
  square_feet ← py_get data "square_feet" VNone;
  property_type ← py_get data "property_type" (VStr "Unknown");
  longitude ← py_getitem data "longitude";
  latitude ← py_getitem data "latitude";
  Ok [address; price; bedrooms; bathrooms; square_feet; property_type;
      longitude; latitude].

(** Lines 325-329: the body of the 201 answer. *)
Definition added (new_id : pyval) : pyval :=
  VDict [ ("success", VBool true);
          ("property_id", new_id);
          ("message", VStr "Property added successfully") ].

(** Lines 301-329: the block under [with get_db_connection() as conn]. *)
Definition add_block (data : pyval) : dbm response :=
  params ← lift (insert_params data);
  rows ← execute insert_sql (Some params);
  new_id ← lift (py_getitem (fetchone rows) "id");
  commit;;
  lift (json_response 201 (added new_id)).

(** Lines 294-329: the [try] block. *)
Definition add_try (req : request) (d : db) : db * py response :=
  match req_json req with
  | Err e => (d, Err e)
  | Ok data =>
      match has_required data with
      | Err e => (d, Err e)
      | Ok false =>
          (d, json_response 400 (VDict [("error", VStr "Missing required fields")]))
      | Ok true => with_connection d (add_block data)
      end
  end.

(** Lines 331-333: the answer to any exception. *)
Definition add_failed : py response :=
  json_response 500 (VDict [("error", VStr "Failed to add property")]).

Definition add_property (req : request) (d : db) : db * py response :=
  match add_try req d with
  | (d', Ok r) => (d', Ok r)
  | (d', Err _) => (d', add_failed)
  end.

(** A body whose coordinates, when it is an object that has them, are
    written into the statement without a quote, as numbers are.  The
    statement sent is then the insert of the template
    ([Sent.insert_text_intact]), which is what the model of the store runs.
    For another body the text sent is a different statement
    ([Sent.insert_text_escapes]), and what the server does with it is outside
    the model. *)
Definition plain_coordinates (data : pyval) : Prop :=
  forall kvs k v, data = VDict kvs -> k ∈ ["longitude"; "latitude"] ->
    assoc k kvs = Some v -> quote_free v = true.

(** ** The abstract view *)

Definition add_created (new_id : Z) : response :=
  Response 201 (BJson (JObj [ ("success", JBool true);
                              ("property_id", JInt new_id);
                              ("message", JStr "Property added successfully") ])).

Definition add_missing : response :=
  Response 400 (BJson (JObj [("error", JStr "Missing required fields")])).

Definition add_error : response :=
  Response 500 (BJson (JObj [("error", JStr "Failed to add property")])).

(** The row a body asks for, when the store accepts it. *)
Definition new_row (d : db) (data : pyval) : py property :=
  insert_params data ≫= run_insert (db_next_id d) (db_default_status d) (db_now d).

(** The database with one more row. *)
Definition with_row (d : db) (p : property) : db :=
  set_rows d (db_rows d ++ [p]) (db_next_id d + 1).

(** The database after the request and the answer to it. *)
Definition add_outcome (req : request) (d : db) : db * response :=
  match req_json req ≫= fun data => pair data <$> has_required data with
  | Err _ => (d, add_error)
  | Ok (data, false) => (d, add_missing)
  | Ok (data, true) =>
      match get_db_connection d ≫= fun _ => new_row d data with
      | Ok p => (with_row d p, add_created (p_id p))
      | Err _ => (d, add_error)
      end
  end.

End insert.

(** ** The handler implements the abstract view *)

Section refinement.
Context `{Spatial} `{!SqlText} `{!Flask}.

Lemma add_created_Ok new_id :
  json_response 201 (added (VInt new_id)) = Ok (add_created new_id).
Proof. unfold json_response. by rewrite jsonify_native. Qed.

Lemma add_failed_Ok : add_failed = Ok add_error.
Proof. unfold add_failed, json_response. by rewrite jsonify_native. Qed.

Lemma add_missing_Ok :
  json_response 400 (VDict [("error", VStr "Missing required fields")]) = Ok add_missing.
Proof. unfold json_response. by rewrite jsonify_native. Qed.

(** The row the store would accept on the connection [c]. *)
Definition conn_row (c : conn) (data : pyval) : py property :=
  insert_params data ≫=
    run_insert (c_next_id c) (db_default_status (c_db c)) (db_now (c_db c)).

(** The block, when the store accepts the row: the row is added and
    committed. *)
Lemma add_block_Ok data c p :
  conn_row c data = Ok p ->
  add_block data c =
    (conn_commit (Conn (c_db c) (c_rows c ++ [p]) (c_next_id c + 1)),
     Ok (add_created (p_id p))).
Proof.
  intros (params & Hparams & Hp)%rbind_Ok_inv.
  unfold add_block, mbind, dbm_bind, lift, commit. rewrite Hparams.
  rewrite (execute_insert_Ok _ _ _ Hp). simpl. by rewrite add_created_Ok.
Qed.

(** The block, when it does not: it raises before anything is committed. *)
Lemma add_block_Err data c e :
  conn_row c data = Err e ->
  exists e', add_block data c = (c, Err e').
Proof.
  unfold add_block, mbind at 1 2, dbm_bind, lift.
  intros [Hparams|(params & Hparams & Hp)]%rbind_Err_inv; rewrite Hparams;
    [by eexists|].
  destruct (execute_insert_Err _ _ _ Hp) as [e' ->]. by eexists.
Qed.

Lemma with_connection_add d data :
  with_connection d (add_block data) =
    match get_db_connection d ≫= fun _ => new_row d data with
    | Ok p => (with_row d p, Ok (add_created (p_id p)))
    | Err _ => (d, (with_connection d (add_block data)).2)
    end /\
  (is_ok (get_db_connection d ≫= fun _ => new_row d data) = false ->
   is_ok (with_connection d (add_block data)).2 = false).
Proof.
  unfold with_connection, get_db_connection. destruct (db_up d); [|done]. simpl.
  change (new_row d data) with (conn_row (Conn d (db_rows d) (db_next_id d)) data).
  destruct (conn_row _ data) as [p|e] eqn:E.
  - rewrite (add_block_Ok _ _ _ E). by destruct d.
  - destruct (add_block_Err _ _ _ E) as [e' ->]. simpl. by destruct d.
Qed.

(** The handler is [add_outcome]: it raises nothing, and the database and
    the answer are those of the abstract view. *)
Lemma add_property_outcome req d :
  add_property req d = ((add_outcome req d).1, Ok (add_outcome req d).2).
Proof.
  unfold add_property, add_try, add_outcome.
  destruct (req_json req) as [data|e]; simpl; [|by rewrite add_failed_Ok].
  destruct (has_required data) as [[]|e]; simpl;
    [|by rewrite add_missing_Ok|by rewrite add_failed_Ok].
  destruct (with_connection_add d data) as [-> Hno].
  destruct (get_db_connection d ≫= _) as [p|e]; simpl; [done|].
  destruct (with_connection d (add_block data)).2; [by specialize (Hno eq_refl)|].
  by rewrite add_failed_Ok.
Qed.

End refinement.

(** ** Theorems *)

Section claims.
Context `{Spatial} `{!SqlText} `{!Flask}.

(** On an object the check of line 298 is the presence of the four keys. *)
Lemma has_required_dict kvs :
  has_required (VDict kvs) =
    Ok (forallb (fun k => bool_decide (is_Some (assoc k kvs))) required_fields).
Proof.
  unfold has_required, required_fields. cbn [py_all py_contains forallb mbind result_bind].
  by repeat (case_bool_decide; cbn [andb]; try done).
Qed.

Lemma insert_params_dict kvs :
  insert_params (VDict kvs) =
    address ← of_option (Exn KeyError "address") (assoc "address" kvs);
    price ← of_option (Exn KeyError "price") (assoc "price" kvs);
    longitude ← of_option (Exn KeyError "longitude") (assoc "longitude" kvs);
    latitude ← of_option (Exn KeyError "latitude") (assoc "latitude" kvs);
    Ok [address; price; default VNone (assoc "bedrooms" kvs);
        default VNone (assoc "bathrooms" kvs);
        default VNone (assoc "square_feet" kvs);
        default (VStr "Unknown") (assoc "property_type" kvs); longitude; latitude].
Proof.
  unfold insert_params. cbn [py_getitem py_get].
  destruct (assoc "address" kvs); [|done].
  destruct (assoc "price" kvs); [|done]. cbn [mbind result_bind of_option].
  by destruct (assoc "longitude" kvs), (assoc "latitude" kvs).
Qed.

Lemma insert_params_required kvs params :
  insert_params (VDict kvs) = Ok params -> has_required (VDict kvs) = Ok true.
Proof.
  rewrite insert_params_dict, has_required_dict.
  intros (a & Ha%of_option_Ok & (pr & Hpr%of_option_Ok & (x & Hx%of_option_Ok &
    (y & Hy%of_option_Ok & _)%rbind_Ok_inv)%rbind_Ok_inv)%rbind_Ok_inv)%rbind_Ok_inv.
  unfold required_fields. cbn [forallb]. by rewrite Ha, Hpr, Hx, Hy.
Qed.

(** A body that is an object without one of [address], [price],
    [latitude] and [longitude] is answered 400, and the database is left as
    it was: no row is created. *)
Lemma add_missing_field req d kvs k :
  req_json req = Ok (VDict kvs) -> k ∈ required_fields -> assoc k kvs = None ->
  add_property req d = (d, Ok add_missing).
Proof.
  intros Hdata Hk Hnone. rewrite add_property_outcome. unfold add_outcome.
  rewrite Hdata; cbn [mbind result_bind]. rewrite has_required_dict.
  replace (forallb _ required_fields) with false; [done|].
  symmetry. apply not_true_is_false. rewrite forallb_forall.
  intros Hall. specialize (Hall k). rewrite <-list_elem_of_In in Hall.
  apply Hall, bool_decide_eq_true in Hk. rewrite Hnone in Hk. by destruct Hk.
Qed.

(** The new row takes the next id of the sequence. *)
Lemma new_row_id d data p : new_row d data = Ok p -> p_id p = db_next_id d.
Proof.
  intros (params & _ & Hrow)%rbind_Ok_inv.
  apply run_insert_Ok in Hrow as (? & ? & ? & ? & ? & ? & ? & ? & ? & ? & Hrow).
  tauto.
Qed.

(** An object the store accepts, on a database that is up: the row is added
    and the answer is the 201 answer. *)
Lemma add_property_row req d kvs p :
  req_json req = Ok (VDict kvs) -> db_up d = true -> new_row d (VDict kvs) = Ok p ->
  add_property req d = (with_row d p, Ok (add_created (p_id p))).
Proof.
  intros Hdata Hd Hp. rewrite add_property_outcome. unfold add_outcome.
  pose proof Hp as (params & Hparams%insert_params_required & _)%rbind_Ok_inv.
  rewrite Hdata; cbn [mbind result_bind]. rewrite Hparams; cbn [fmap result_fmap].
  unfold get_db_connection. rewrite Hd; cbn [mbind result_bind]. by rewrite Hp.
Qed.

(** C10: a body the store accepts, on a database that is up, is answered
    201 with the next id of the sequence; the database then holds one more
    row, the last, with that id. *)
Theorem add_property_success req d kvs p :
  req_json req = Ok (VDict kvs) -> db_up d = true -> new_row d (VDict kvs) = Ok p ->
  add_property req d = (with_row d p, Ok (add_created (db_next_id d))) /\
  db_rows (with_row d p) = db_rows d ++ [p] /\ p_id p = db_next_id d.
Proof.
  intros Hdata Hd Hp. rewrite (add_property_row _ _ _ _ Hdata Hd Hp).
  by rewrite (new_row_id _ _ _ Hp).
Qed.

(** C6: for a body whose coordinates are written without a quote, the
    database changes only with a 201 answer, and then by one row added at
    the end; every other answer is the 400 or the 500 answer and leaves the
    database as it was.  The handler raises nothing. *)
Theorem add_property_atomic req d :
  (forall data, req_json req = Ok data -> plain_coordinates data) ->
  exists d' r, add_property req d = (d', Ok r) /\
    ((exists data p, req_json req = Ok data /\ new_row d data = Ok p /\
                     d' = with_row d p /\ r = add_created (p_id p)) \/
     (d' = d /\ (r = add_missing \/ r = add_error))).
Proof.
  intros _. rewrite add_property_outcome. eexists _, _. split; [done|].
  unfold add_outcome.
  destruct (req_json req) as [data|e]; cbn [mbind result_bind]; [|by eauto].
  destruct (has_required data) as [[]|e]; cbn [fmap result_fmap]; [|by eauto..].
  unfold get_db_connection. destruct (db_up d); cbn [mbind result_bind]; [|by eauto].
  destruct (new_row d data) as [p|e] eqn:Hp; [left|by eauto]. by exists data, p.
Qed.

End claims.

(** ** What is stored, and the invariant of the table *)

Section stored.
Context `{Spatial} `{!SqlText} `{!Flask}.

Lemma insert_params_length data params : insert_params data = Ok params -> length params = 8.
Proof.
  intros (? & _ & (? & _ & (? & _ & (? & _ & (? & _ & (? & _ & (? & _ & (? & _ & [= <-])
    %rbind_Ok_inv)%rbind_Ok_inv)%rbind_Ok_inv)%rbind_Ok_inv)%rbind_Ok_inv)%rbind_Ok_inv)
    %rbind_Ok_inv)%rbind_Ok_inv.
  done.
Qed.

(** The statement of the insert has eight placeholders and the handler
    passes eight arguments. *)
Lemma insert_placeholders_match data params :
  insert_params data = Ok params -> placeholders insert_sql = Ok (length params).
Proof.
  intros ->%insert_params_length. by destruct fixed_sql_placeholders as (_ & -> & _).
Qed.

(** C28: the row stored for a body holds the body's address and price, its
    bedrooms, bathrooms and square feet or NULL, its property type or
    [Unknown], and the point whose [x] is the body's longitude and whose [y]
    is its latitude; the status and the creation time are the defaults of the
    table, and the row satisfies the constraints of the table. *)
Theorem new_row_stores d kvs p :
  new_row d (VDict kvs) = Ok p ->
  exists a pr x y lon lat,
    assoc "address" kvs = Some a /\ text_arg a = Ok (Some (p_address p)) /\
    assoc "price" kvs = Some pr /\ numeric_arg pr = Ok (Some (p_price p)) /\
    integer_arg (default VNone (assoc "bedrooms" kvs)) = Ok (p_bedrooms p) /\
    numeric_arg (default VNone (assoc "bathrooms" kvs)) = Ok (p_bathrooms p) /\
    integer_arg (default VNone (assoc "square_feet" kvs)) = Ok (p_square_feet p) /\
    text_arg (default (VStr "Unknown") (assoc "property_type" kvs)) =
      Ok (p_property_type p) /\
    assoc "longitude" kvs = Some x /\ coord_arg x = Ok lon /\
    assoc "latitude" kvs = Some y /\ coord_arg y = Ok lat /\
    p_location p = Some (lon, lat) /\
    p_listing_status p = db_default_status d /\ p_created_at p = db_now d /\
    row_ok p.
Proof.
  unfold new_row. rewrite insert_params_dict.
  intros (params & (a & Ha%of_option_Ok & (pr & Hpr%of_option_Ok & (x & Hx%of_option_Ok &
    (y & Hy%of_option_Ok & [= <-])%rbind_Ok_inv)%rbind_Ok_inv)%rbind_Ok_inv)%rbind_Ok_inv
    & Hrow)%rbind_Ok_inv.
  apply run_insert_Ok in Hrow
    as (? & ? & ? & ? & ? & ? & ? & ? & lon & lat & [= <- <- <- <- <- <- <- <-] & Hrow).
  exists a, pr, x, y, lon, lat. tauto.
Qed.

Lemma with_row_wf d p :
  db_wf d -> p_id p = db_next_id d -> row_ok p -> db_wf (with_row d p).
Proof.
  intros (Hlt & Hnd & Hok) Hid Hp. unfold db_wf, with_row; simpl. split_and!.
  - apply Forall_app. split; [|constructor; [lia|done]].
    eapply Forall_impl; [exact Hlt|]. simpl. lia.
  - rewrite fmap_app. apply NoDup_app. split_and!; [done| |apply NoDup_singleton].
    intros i (q & -> & Hq)%list_elem_of_fmap [= Heq]%list_elem_of_singleton.
    rewrite Forall_forall in Hlt. specialize (Hlt q Hq). lia.
  - apply Forall_app. split; [done|by constructor].
Qed.

(** The handler keeps the table well formed: after it, ids are still
    below the next value of the sequence and distinct, and every row
    satisfies the constraints of the table. *)
Lemma add_property_wf req d : db_wf d -> db_wf (add_property req d).1.
Proof.
  intros Hwf. rewrite add_property_outcome; cbn [fst]. unfold add_outcome.
  destruct (_ ≫= _) as [[data []]|e]; try done.
  destruct (_ ≫= _) as [p|e] eqn:Hp; try done.
  apply rbind_Ok_inv in Hp as (_ & _ & (params & _ & Hrow)%rbind_Ok_inv).
  apply run_insert_Ok in Hrow as (? & ? & ? & ? & ? & ? & ? & ? & ? & ? & Hrow).
  apply with_row_wf; [done|tauto..].
Qed.

(** A body that is a list naming the four required fields passes the
    check of the fields and fails when the fields are read: the answer is the
    500 answer, not the 400 answer. *)
Lemma add_list_body req d l :
  req_json req = Ok (VList l) -> Forall (fun k => VStr k ∈ l) required_fields ->
  add_property req d = (d, Ok add_error).
Proof.
  intros Hdata Hall. rewrite add_property_outcome. unfold add_outcome.
  rewrite Hdata; cbn [mbind result_bind].
  assert (has_required (VList l) = Ok true) as ->.
  { assert (forall k, VStr k ∈ l -> existsb (is_str k) l = true) as Hin.
    { intros k Hk. apply existsb_exists. exists (VStr k).
      split; [by apply list_elem_of_In|by apply bool_decide_eq_true]. }
    unfold has_required, required_fields in *. cbn [py_all py_contains mbind result_bind].
    rewrite !Forall_cons in Hall.
    destruct Hall as (Ha%Hin & Hb%Hin & Hc%Hin & Hd%Hin & _).
    by rewrite Ha, Hb, Hc, Hd. }
  cbn [fmap result_fmap]. by destruct (get_db_connection d).
Qed.

(** A body that [get_json] does not read, because the request does not
    say that it is JSON or because it is not a JSON document, is answered
    500, with every version of Flask: [get_json] raises inside the [try], or
    returns [None], on which the check of the fields raises. *)
Lemma add_unread_body unread failed req d h loads :
  req_json req = get_json unread failed h loads ->
  is_json (mimetype_of h) = false \/ is_ok loads = false ->
  add_property req d = (d, Ok add_error).
Proof.
  intros Hreq Hun. unfold add_property, add_try. rewrite Hreq.
  by destruct (get_json_unread unread failed h loads Hun) as [->|[e ->]];
    cbn; rewrite add_failed_Ok.
Qed.

(** C11: the check of the body.  A body that is an object without one of
    [address], [price], [latitude] and [longitude] is answered 400 and no
    row is created; a body that is a list naming the four fields passes the
    same check, since [in] on a list looks for an element, and fails when the
    fields are read: it is answered 500; and so is a body that is not read as
    JSON, for its content type or for its text, with every version of
    Flask. *)
Theorem add_fields_check req d :
  (forall kvs k, req_json req = Ok (VDict kvs) -> k ∈ required_fields ->
     assoc k kvs = None -> add_property req d = (d, Ok add_missing)) /\
  (forall l, req_json req = Ok (VList l) ->
     Forall (fun k => VStr k ∈ l) required_fields ->
     add_property req d = (d, Ok add_error)) /\
  (forall unread failed h loads, req_json req = get_json unread failed h loads ->
     is_json (mimetype_of h) = false \/ is_ok loads = false ->
     add_property req d = (d, Ok add_error)).
Proof.
  split_and!; [apply add_missing_field|apply add_list_body|].
  intros unread failed h loads. apply add_unread_body.
Qed.

End stored.

(** ** Examples on the sample database *)

Import Exact.

(** A POST request with the given decoded body. *)
Definition post (data : pyval) : request :=
  Request "POST" "/api/properties" [] (Ok data).

Definition main_st_fields : list (string * pyval) :=
  [ ("address", VStr "1 Main St"); ("price", VInt 500000);
    ("latitude", VFloat (float_lit 3777 (-2)));
    ("longitude", VFloat (float_lit (-12241) (-2))) ].

Definition main_st : property :=
  Property 5 "1 Main St" (Decimal 500000 0) None None None (Some "Unknown") "active"
    (Some (float_lit (-12241) (-2), float_lit 3777 (-2))) noon.

Definition field_names : list pyval :=
  [VStr "address"; VStr "price"; VStr "latitude"; VStr "longitude"].

Lemma sample_db_wf : db_wf sample_db.
Proof.
  unfold db_wf; simpl. split_and!; [decide_true..|].
  repeat constructor; simpl; lia.
Qed.

Lemma main_st_plain : plain_coordinates (VDict main_st_fields).
Proof.
  intros kvs k v [= <-] Hk Hv.
  apply elem_of_cons in Hk as [->|Hk%list_elem_of_singleton]; subst;
    injection Hv as <-; by apply quote_free_float.
Qed.

Lemma add_property_atomic_witness :
  exists d' r, add_property (post (VDict main_st_fields)) sample_db = (d', Ok r) /\
    ((exists data p, req_json (post (VDict main_st_fields)) = Ok data /\
                     new_row sample_db data = Ok p /\
                     d' = with_row sample_db p /\ r = add_created (p_id p)) \/
     (d' = sample_db /\ (r = add_missing \/ r = add_error))).
Proof. apply add_property_atomic. intros data [= <-]. apply main_st_plain. Defined.

Lemma add_missing_field_witness :
  add_property (post (VDict [("address", VStr "1 Main St")])) sample_db =
    (sample_db, Ok add_missing).
Proof.
  by apply (add_missing_field _ _ [("address", VStr "1 Main St")] "price");
    [|solve_elem|].
Defined.

Lemma add_property_success_witness :
  add_property (post (VDict main_st_fields)) sample_db =
    (with_row sample_db main_st, Ok (add_created 5)) /\
  db_rows (with_row sample_db main_st) = sample_rows ++ [main_st] /\
  p_id main_st = 5%Z.
Proof.
  by apply (add_property_success (post (VDict main_st_fields)) sample_db
              main_st_fields main_st).
Defined.

Lemma new_row_stores_witness :
  p_location main_st = Some (float_lit (-12241) (-2), float_lit 3777 (-2)) /\
  p_property_type main_st = Some "Unknown" /\ row_ok main_st.
Proof.
  destruct (new_row_stores sample_db main_st_fields main_st)
    as (a & pr & x & y & lon & lat & Hstored); [done|].
  split_and!; [done..|tauto].
Defined.

Lemma add_property_wf_witness :
  db_wf (add_property (post (VDict main_st_fields)) sample_db).1.
Proof. apply add_property_wf, sample_db_wf. Defined.

Lemma add_fields_check_witness :
  add_property (post (VDict [("address", VStr "1 Main St")])) sample_db =
    (sample_db, Ok add_missing).
Proof.
  by apply (proj1 (add_fields_check _ sample_db) [("address", VStr "1 Main St")] "price");
    [|solve_elem|].
Defined.

Lemma add_list_body_witness :
  add_property (post (VList field_names)) sample_db = (sample_db, Ok add_error).
Proof.
  apply (add_list_body _ _ field_names); [done|]. unfold required_fields.
  repeat constructor; solve_elem.
Defined.
