(* ===== verification/Sent.v ===== *)
(** * The texts the handlers send

    psycopg2 writes the arguments of a statement into its text before it
    sends it ([Bind]).  This file looks at the three statements with
    arguments in [src/app.py] and asks whether the text the server receives
    still is the statement of the template: whether its code is the
    template's code and each argument is read as one value ([intact]).

    - The filtered search (lines 258-269) has its placeholders in the place
      of values only: its text is intact whatever the request holds.
    - The radius search (lines 182-208) and the insert (lines 303-311) write
      the coordinates inside the quoted text ['POINT(%s %s)'].  The radius
      search passes floats, and the text is intact when they are neither nan
      nor infinite.  The insert passes what the JSON body holds: with
      numbers the text is intact, with a string the quotes psycopg2 puts
      around it end the literal of the template, and the characters of the
      string reach the server as code. *)

From Stdlib Require Import ZArith Lia.
From stdpp Require Import base tactics option list strings.
From S2P Require Import Prelude PyValue PyBuiltins Serializer Flask Sql Bind Store Psycopg.
From S2P Require Import Exact Search Nearby Insert.

Section sent.
Context `{Spatial} `{!SqlText} `{!Flask}.

(** The text sent for a statement and its arguments is whole, and its
    tokens are those of the template with each placeholder filled by what
    was written for its argument. *)
Definition intact (sql : string) (args : list pyval) : Prop :=
  exists text toks,
    mogrify sql (Some args) = Ok text /\
    bound_tokens sql args = Some toks /\ sql_lex text = Some toks.

(** Lines 182-208: the text [cur.execute] sends for the radius search. *)
Definition nearby_sent (q : nearby_args) : py string :=
  mogrify nearby_sql (Some (nearby_params q)).

(** Lines 303-320: the text [cur.execute] sends for the insert. *)
Definition insert_sent (data : pyval) : py string :=
  params ← insert_params data;
  mogrify insert_sql (Some params).

End sent.

Arguments nearby_sent : simpl never.
Arguments insert_sent : simpl never.

(** ** Where the placeholders of the statements stand *)

Section templates.

(** After a condition the lexer is just after a literal or just after a
    placeholder. *)
Definition rests (ts : tpl_state) : Prop := ts = At Closing \/ ts = AfterArg.

Lemma reads_cond c :
  exists ts, reads (At Code) (cond_sql c) = Some (ts, replicate (cond_arity c) false) /\
             rests ts.
Proof. destruct c; eexists; (split; [vm_compute; reflexivity|]); by (left + right). Qed.

Lemma reads_and ts : rests ts -> reads ts " AND " = Some (At Code, []).
Proof. by intros [-> | ->]. Qed.

Lemma reads_tail ts : rests ts -> reads ts search_tail = Some (At Code, [false]).
Proof. by intros [-> | ->]; vm_compute. Qed.

Lemma reads_select : reads (At Code) search_select = Some (At Code, []).
Proof. by vm_compute. Qed.

Lemma reads_join (cs : list cond) :
  cs <> [] ->
  exists ts, reads (At Code) (join_and (cond_sql <$> cs)) =
               Some (ts, replicate (sum_list (cond_arity <$> cs)) false) /\
             rests ts.
Proof.
  induction cs as [|c cs IH]; [done|]. intros _.
  destruct (reads_cond c) as (ts & Hc & Hts).
  destruct cs as [|c' cs].
  { exists ts. split; [|done]. simpl. by rewrite Nat.add_0_r. }
  destruct IH as (ts' & Hj & Hts'); [done|]. exists ts'. split; [|done].
  change (join_and (cond_sql <$> c :: c' :: cs))
    with (cond_sql c +:+ " AND " +:+ join_and (cond_sql <$> c' :: cs)).
  replace (sum_list (cond_arity <$> c :: c' :: cs))
    with (cond_arity c + sum_list (cond_arity <$> c' :: cs)) by done.
  rewrite replicate_add.
  apply (reads_app _ _ _ ts _ ts'); [done|].
  by apply (reads_app _ _ _ (At Code) [] ts'); [apply reads_and|].
Qed.

(** Every placeholder of the filtered search stands in the place of a
    value. *)
Lemma kinds_search (cs : list cond) :
  cs <> [] ->
  kinds (search_sql (cond_sql <$> cs)) =
    Some (replicate (sum_list (cond_arity <$> cs) + 1) false).
Proof.
  intros (ts & Hj & Hts)%reads_join. unfold kinds, search_sql.
  rewrite (reads_app _ _ _ (At Code) [] (At Code)
             (replicate (sum_list (cond_arity <$> cs)) false ++ [false]) reads_select).
  - simpl. by rewrite replicate_add.
  - by apply (reads_app _ _ _ ts _ (At Code)); [|apply reads_tail].
Qed.

(** The coordinates of the radius search and of the insert stand inside a
    literal, their other arguments in the place of values. *)
Lemma kinds_nearby : kinds nearby_sql = Some [true; true; true; true; false; false].
Proof. by vm_compute. Qed.

Lemma kinds_insert :
  kinds insert_sql = Some [false; false; false; false; false; false; true; true].
Proof. by vm_compute. Qed.

Lemma insert_holes_in_literal :
  hole_in_literal insert_sql 6 = true /\ hole_in_literal insert_sql 7 = true.
Proof. by vm_compute. Qed.

End templates.

(** ** Theorems *)

Section claims.
Context `{Spatial} `{!SqlText} `{!Flask}.

(** C1: the text of the filtered search is intact for every combination
    of filters, whatever characters the type text holds, quotes included:
    the code the server reads is the code of the template, and every
    argument is read as the value that was written.  The one request whose
    statement is not sent is a type text with the character NUL, which
    psycopg2 refuses to write. *)
Theorem search_text_intact f :
  intact (search_sql (build_search f).1) (build_search f).2 <->
  has_nul (default "" (property_type f)) = false.
Proof.
  rewrite build_search_spec; cbn [fst snd].
  pose proof (search_args_sendable f) as Hs. split.
  - intros (text & toks & _ & Hb%bound_tokens_sent & _).
    unfold sendable in Hs. rewrite Hb in Hs. by destruct (has_nul _).
  - intros Hnul. rewrite Hnul in Hs. apply is_ok_true in Hs as [lits Hl].
    apply (bound_fits _ _ (replicate (length (search_args f)) false) lits);
      [|done|by apply adapt_fits_values].
    rewrite kinds_search by done. by rewrite search_arity, length_search_args.
Qed.

(** The text of the radius search is intact when the latitude and the
    longitude are finite: the numbers are written inside
    the quoted text of the point and no character of them ends it. *)
Lemma nearby_text_intact_finite q :
  float_finite (lat q) = true -> float_finite (lng q) = true ->
  intact nearby_sql (nearby_params q).
Proof.
  intros Hlat%float_sql_plain Hlng%float_sql_plain.
  eapply (bound_fits _ _ _ _ kinds_nearby); [done|].
  repeat constructor; simpl; try done.
  all: apply closed_code; by rewrite no_quote_spaced, no_quote_str_of_int.
Qed.

(** The text of a float between the quotes of the point. *)
Lemma fits_float_sql f : fits true (float_sql f) = float_finite f.
Proof.
  simpl. destruct (float_finite f) eqn:Hf; [by apply float_sql_plain|by apply float_sql_quoted].
Qed.

(** C17: the text of the radius search is intact exactly when the latitude
    and the longitude are finite.  [float] reads [nan] and [inf], psycopg2
    writes them between quotes, and the quotes end the quoted text of the
    point: for such a request the text sent is not the statement of the
    template. *)
Theorem nearby_text_intact_iff q :
  intact nearby_sql (nearby_params q) <->
  float_finite (lat q) = true /\ float_finite (lng q) = true.
Proof.
  split; [|intros []; by apply nearby_text_intact_finite].
  intros (text & toks & _ & Hb & _).
  assert (mapM_result adapt (nearby_params q) =
            Ok [float_sql (lng q); float_sql (lat q); float_sql (lng q); float_sql (lat q);
                spaced (str_of_int (radius q)); spaced (str_of_int (nearby_limit q))])
    as Hl by done.
  pose proof (bound_tokens_fits _ _ _ _ _ kinds_nearby Hl Hb) as Hfits.
  apply Forall2_cons_1 in Hfits as [Hlng Hfits]. apply Forall2_cons_1 in Hfits as [Hlat _].
  by rewrite fits_float_sql in Hlng, Hlat.
Qed.

(** The arguments of the insert, one by one. *)
Lemma insert_params_lookup kvs params :
  insert_params (VDict kvs) = Ok params ->
  length params = 8 /\ params !! 6 = assoc "longitude" kvs /\
  params !! 7 = assoc "latitude" kvs.
Proof.
  rewrite insert_params_dict.
  intros (a & _ & (pr & _ & (x & ->%of_option_Ok & (y & ->%of_option_Ok & [= <-])
    %rbind_Ok_inv)%rbind_Ok_inv)%rbind_Ok_inv)%rbind_Ok_inv.
  done.
Qed.

(** A body the store accepts has coordinates that are numbers. *)
Lemma new_row_plain d kvs p : new_row d (VDict kvs) = Ok p -> plain_coordinates (VDict kvs).
Proof.
  intros (params & Hparams & Hrow)%rbind_Ok_inv kvs' k v [= <-] Hk Hv.
  destruct (insert_params_lookup kvs params Hparams) as (_ & Hx & Hy).
  apply run_insert_Ok in Hrow
    as (? & ? & ? & ? & ? & ? & x & y & lon & lat & -> & _ & _ & _ & _ & _ & _ &
        Hlon%coord_arg_quote_free & Hlat%coord_arg_quote_free & _).
  simpl in Hx, Hy.
  apply elem_of_cons in Hk as [->|Hk%list_elem_of_singleton]; subst; congruence.
Qed.

(** C18: the text of the insert is intact when both coordinates are
    written without a quote, as numbers are, whatever the other fields hold:
    the address and the type are strings in the place of values, and are
    read as the strings they are. *)
Theorem insert_text_intact kvs params :
  plain_coordinates (VDict kvs) ->
  insert_params (VDict kvs) = Ok params -> sendable params = true ->
  intact insert_sql params.
Proof.
  intros Hplain Hparams [lits Hl]%is_ok_true.
  destruct (insert_params_lookup kvs params Hparams) as (Hlen & Hx & Hy).
  apply (bound_fits _ _ _ lits kinds_insert Hl).
  apply mapM_result_Forall2 in Hl.
  do 9 (destruct params as [|? params]; try done). clear Hlen. simpl in Hx, Hy.
  repeat match goal with
         | H : Forall2 _ (_ :: _) _ |- _ =>
             apply Forall2_cons_inv_l in H as (? & ? & ? & H & ->)
         | H : Forall2 _ [] _ |- _ => apply Forall2_nil_inv_l in H as ->
         end.
  repeat constructor; try by eapply adapt_closed.
  - eapply quote_free_fits; [done|]. eapply (Hplain kvs "longitude"); [done|solve_elem|done].
  - eapply quote_free_fits; [done|]. eapply (Hplain kvs "latitude"); [done|solve_elem|done].
Qed.

(** C7: a coordinate given as a JSON string is not kept inside the quoted
    text of the point.  For a string that is not empty and has no quote of
    its own, the text sent is whole, and in it the characters of the string
    are code: they follow the quote that ends a literal and are followed by
    the quote that starts another.  The text is not the statement of the
    template. *)
Theorem insert_text_escapes kvs k x text :
  k ∈ ["longitude"; "latitude"] -> assoc k kvs = Some (VStr x) ->
  no_quote x = true -> x <> "" ->
  insert_sent (VDict kvs) = Ok text ->
  exists params toks,
    insert_params (VDict kvs) = Ok params /\ sql_lex text = Some toks /\
    escapes x toks /\ ~ intact insert_sql params.
Proof.
  intros Hk Hkx Hq Hne (params & Hparams & Hsent)%rbind_Ok_inv.
  destruct (insert_params_lookup kvs params Hparams) as (Hlen & Hx & Hy).
  destruct insert_holes_in_literal as [H6 H7].
  assert (exists n, hole_in_literal insert_sql n = true /\ params !! n = Some (VStr x) /\
                    kinds insert_sql ≫= (.!! n) = Some true) as (n & Hn & Hpn & Hkn).
  { apply elem_of_cons in Hk as [->|Hk]; [exists 6|exists 7]; split_and!; try done.
    - by rewrite Hx.
    - apply list_elem_of_singleton in Hk as ->. by rewrite Hy. }
  destruct (hole_in_literal_escape _ _ _ _ _ Hn Hpn Hq Hne Hsent) as (toks & Ht & He).
  exists params, toks. split_and!; [done..|].
  intros (text' & toks' & Hm & Hb & _).
  destruct (mapM_result adapt params) as [lits|] eqn:Hl;
    [|by apply bound_tokens_sent in Hb; rewrite Hl in Hb].
  pose proof (bound_tokens_fits _ _ _ _ _ kinds_insert Hl Hb) as Hfits.
  rewrite kinds_insert in Hkn. simpl in Hkn.
  destruct (Forall2_lookup_l _ _ _ _ _ (mapM_result_Forall2 _ _ _ Hl) Hpn) as (l & Hnl & Ha).
  pose proof (Forall2_lookup_lr _ _ _ _ _ _ Hfits Hkn Hnl) as Hfit. simpl in Hfit.
  pose proof (quote_free_str x) as Hnq. unfold quote_free in Hnq. by rewrite Ha, Hfit in Hnq.
Qed.

End claims.

(** ** Examples *)

Import Exact.

(** A search for a type text with a quote and a comment sign. *)
Definition quoted_filters : filters :=
  Filters None None None None (Some "x' OR 1=1 --") 20.

(** A body whose longitude is a piece of SQL. *)
Definition subquery : string := "||(SELECT version())||".

Definition injected_fields : list (string * pyval) :=
  [ ("address", VStr "1 Main St"); ("price", VInt 500000);
    ("latitude", VFloat (float_lit 3777 (-2)));
    ("longitude", VStr subquery) ].

(** What psycopg2 sends for it: the subquery stands between two literals. *)
Definition injected_text : string :=
  "
                    INSERT INTO properties (
                        address, price, bedrooms, bathrooms, square_feet,
                        property_type, location
                    ) VALUES (
                        '1 Main St', 500000, NULL, NULL, NULL, 'Unknown',
                        ST_GeomFromText('POINT('||(SELECT version())||' 3777/100)', 4326)
                    ) RETURNING id;
                ".

Example insert_sent_injected : insert_sent (VDict injected_fields) = Ok injected_text.
Proof. by vm_compute. Qed.

(** The text sent for the quoted type text: the quote is doubled, and the
    whole text is one literal. *)
Example search_sent_quoted :
  exists text, search_sent quoted_filters = Ok text /\
               is_infix "property_type ILIKE '%x'' OR 1=1 --%'" text = true.
Proof. eexists. split; by vm_compute. Qed.

Example nearby_text_intact_example :
  intact nearby_sql
    (nearby_params (NearbyArgs (float_lit 3777 (-2)) (float_lit (-12241) (-2)) 1000 10)).
Proof. by apply nearby_text_intact_finite. Qed.

Definition main_st_params : list pyval :=
  [ VStr "1 Main St"; VInt 500000; VNone; VNone; VNone; VStr "Unknown";
    VFloat (float_lit (-12241) (-2)); VFloat (float_lit 3777 (-2)) ].

Lemma insert_text_intact_witness : intact insert_sql main_st_params.
Proof.
  apply (insert_text_intact main_st_fields);
    [apply main_st_plain|reflexivity|by vm_compute].
Defined.

Lemma insert_text_escapes_witness :
  exists params toks,
    insert_params (VDict injected_fields) = Ok params /\
    sql_lex injected_text = Some toks /\ escapes subquery toks /\
    ~ intact insert_sql params.
Proof.
  apply (insert_text_escapes injected_fields "longitude" subquery injected_text);
    [solve_elem|done..|apply insert_sent_injected].
Defined.
