(* ===== verification/Health.v ===== *)
(** * The health probe: [health_check]

    [src/app.py], lines 118-168.  On one connection the handler asks the
    database who it is, asks PostGIS for its version and counts the rows of
    the table, and answers with the three results; any exception gives the
    500 answer with the exception's message.  [clock] is the time
    [datetime.now()] returns when the answer is built. *)

From Stdlib Require Import ZArith Lia.
From stdpp Require Import base tactics option list strings.
From S2P Require Import Prelude PyValue PyBuiltins Serializer Flask Sql Bind Store Psycopg Exact.

Section health.
Context `{Spatial} `{!SqlText} `{!Flask}.

(** ** The handler *)

(** [v.isoformat()] *)
Definition py_isoformat (v : pyval) : py pyval :=
  match v with
  | VDatetime t => Ok (VStr (isoformat t))
  | v => raise AttributeError
           ("'" +:+ type_name v +:+ "' object has no attribute 'isoformat'")
  end.

(** Lines 142-161: the body of the 200 answer, its values read left to
    right. *)
Definition health_report (clock : datetime) (db_info postgis_version spatial_stats : pyval)
    : py pyval :=
  version ← py_getitem db_info "version";
  database ← py_getitem db_info "current_database";
  user ← py_getitem db_info "current_user";
  server_time ← py_getitem db_info "now" ≫= py_isoformat;
  total ← py_getitem spatial_stats "property_count";
  located ← py_getitem spatial_stats "properties_with_location";
  Ok (VDict
        [ ("status", VStr "healthy");
          ("timestamp", VStr (isoformat clock));
          ("database",
            VDict [ ("version", version); ("database", database); ("user", user);
                    ("server_time", server_time) ]);
          ("postgis",
            VDict [("version", postgis_version); ("spatial_enabled", VBool true)]);
          ("data_summary",
            VDict [ ("total_properties", total);
                    ("properties_with_location", located) ]) ]).

(** Lines 122-161: the block under [with get_db_connection() as conn]. *)
Definition health_block (clock : datetime) : dbm response :=
  rows ← execute health_info_sql None;
  let db_info := fetchone rows in
  rows ← execute postgis_version_sql None;
  postgis_version ← lift (py_getitem (fetchone rows) "postgis_version");
  rows ← execute counts_sql None;
  let spatial_stats := fetchone rows in
  lift (health_report clock db_info postgis_version spatial_stats ≫= json_response 200).

(** Lines 162-168: the answer to any exception. *)
Definition health_failed (clock : datetime) (e : exn) : py response :=
  json_response 500
    (VDict [ ("status", VStr "unhealthy");
             ("error", VStr (str_of_exn e));
             ("timestamp", VStr (isoformat clock)) ]).

Definition health_check (clock : datetime) (d : db) : db * py response :=
  match with_connection d (health_block clock) with
  | (d', Ok r) => (d', Ok r)
  | (d', Err e) => (d', health_failed clock e)
  end.

(** ** The abstract view *)

Definition healthy (clock : datetime) (d : db) (postgis : string) : response :=
  Response 200 (BJson (JObj
    [ ("status", JStr "healthy");
      ("timestamp", JStr (isoformat clock));
      ("database",
        JObj [ ("version", JStr (db_version d)); ("database", JStr (db_name d));
               ("user", JStr (db_user d));
               ("server_time", JStr (isoformat (db_now d))) ]);
      ("postgis", JObj [("version", JStr postgis); ("spatial_enabled", JBool true)]);
      ("data_summary",
        JObj [ ("total_properties", JInt (Z.of_nat (length (db_rows d))));
               ("properties_with_location",
                 JInt (Z.of_nat (length (located (db_rows d))))) ]) ])).

Definition unhealthy (clock : datetime) (message : string) : response :=
  Response 500 (BJson (JObj
    [ ("status", JStr "unhealthy");
      ("error", JStr message);
      ("timestamp", JStr (isoformat clock)) ])).

(** The answer as a function of the database. *)
Definition health_outcome (clock : datetime) (d : db) : response :=
  if db_up d then
    match db_postgis d with
    | Some v => healthy clock d v
    | None => unhealthy clock "function postgis_version() does not exist"
    end
  else unhealthy clock "could not connect to server".

End health.

(** ** The handler implements the abstract view *)

Section refinement.
Context `{Spatial} `{!SqlText} `{!Flask}.

Lemma health_failed_Ok clock e :
  health_failed clock e = Ok (unhealthy clock (str_of_exn e)).
Proof. unfold health_failed, json_response. by rewrite jsonify_native. Qed.

(** The report on the rows the three statements return. *)
Lemma health_report_Ok clock d v (n m : Z) :
  health_report clock (VDict (info_row d)) (VStr v)
      (VDict [("property_count", VInt n); ("properties_with_location", VInt m)])
    ≫= json_response 200 =
    Ok (Response 200 (BJson (JObj
      [ ("status", JStr "healthy");
        ("timestamp", JStr (isoformat clock));
        ("database",
          JObj [ ("version", JStr (db_version d)); ("database", JStr (db_name d));
                 ("user", JStr (db_user d));
                 ("server_time", JStr (isoformat (db_now d))) ]);
        ("postgis", JObj [("version", JStr v); ("spatial_enabled", JBool true)]);
        ("data_summary",
          JObj [ ("total_properties", JInt n);
                 ("properties_with_location", JInt m) ]) ]))).
Proof.
  unfold health_report, info_row, json_response. simpl.
  by rewrite jsonify_native.
Qed.

(** The block: the three statements in order, on a connection it leaves as
    it found it. *)
Lemma health_block_spec clock c :
  health_block clock c =
    (c, match db_postgis (c_db c) with
        | Some v =>
            Ok (healthy clock (set_rows (c_db c) (c_rows c) (c_next_id c)) v)
        | None => raise DbError "function postgis_version() does not exist"
        end).
Proof.
  destruct parse_fixed_sql as (Hinfo & Hgis & Hcounts & _).
  unfold health_block. unfold mbind at 1, dbm_bind.
  rewrite (execute_no_args _ _ _ Hinfo). cbn [run_stmt].
  unfold mbind at 1, dbm_bind.
  rewrite (execute_no_args _ _ _ Hgis). cbn [run_stmt].
  destruct (db_postgis (c_db c)) as [v|]; [|done].
  unfold mbind at 1, dbm_bind, lift. simpl (py_getitem _ _). cbv iota.
  unfold mbind at 1, dbm_bind.
  rewrite (execute_no_args _ _ _ Hcounts). cbn [run_stmt run_counts fetchone].
  by rewrite health_report_Ok.
Qed.

Lemma health_check_outcome clock d :
  health_check clock d = (d, Ok (health_outcome clock d)).
Proof.
  unfold health_check, health_outcome. destruct (db_up d) eqn:Hd.
  - rewrite with_connection_up; [|done|intros c; by rewrite health_block_spec].
    rewrite health_block_spec; cbn [snd c_db c_rows c_next_id]. rewrite set_rows_same.
    destruct (db_postgis d); [done|].
    cbv beta iota delta [raise]. by rewrite health_failed_Ok.
  - rewrite with_connection_down by done.
    cbv beta iota delta [raise]. by rewrite health_failed_Ok.
Qed.

End refinement.

(** ** Theorems *)

Section claims.
Context `{Spatial} `{!SqlText} `{!Flask}.

(** On a database that is up and has PostGIS the probe answers 200
    with the identity of the database, the version of PostGIS, the number of
    rows and the number of rows that have a location; the database is left
    as it was. *)
Lemma health_check_healthy clock d v :
  db_up d = true -> db_postgis d = Some v ->
  health_check clock d = (d, Ok (healthy clock d v)).
Proof.
  intros Hd Hv. rewrite health_check_outcome. unfold health_outcome.
  by rewrite Hd, Hv.
Qed.

(** The probe answers whatever the state of the database: it raises
    nothing, and its answer is a 200 exactly when the database is up and has
    PostGIS, and otherwise a 500 that says [unhealthy] and gives the message
    of the failure. *)
Lemma health_check_answers clock d :
  exists r, health_check clock d = (d, Ok r) /\
    (status r = 200%Z <-> db_up d = true /\ is_Some (db_postgis d)) /\
    (status r = 200%Z \/ exists message, r = unhealthy clock message).
Proof.
  rewrite health_check_outcome. eexists; split; [done|]. unfold health_outcome.
  destruct (db_up d), (db_postgis d) as [v|]; simpl; split;
    try (by right; eexists); try (by left);
    split; try done; by intros [? [? ?]].
Qed.

(** The count of rows with a location is at most the count of rows, and
    neither is negative. *)
Lemma run_counts_bounds rows :
  exists n m : Z,
    run_counts rows =
      [[("property_count", VInt n); ("properties_with_location", VInt m)]] /\
    n = Z.of_nat (length rows) /\ (0 <= m <= n)%Z.
Proof.
  eexists _, _. split; [done|]. split; [done|]. split; [lia|].
  apply Nat2Z.inj_le, length_located.
Qed.

End claims.

(** ** Examples on the sample database *)

Import Exact.

Lemma health_check_healthy_witness :
  health_check noon sample_db = (sample_db, Ok (healthy noon sample_db "3.3")).
Proof. by apply health_check_healthy. Defined.
