(* ===== verification/Home.v ===== *)
(** * The documentation page: [home]

    [src/app.py], lines 50-116.  The handler renders a template that has no
    tag of the template language: what it returns is the text of the
    template.  The text is kept as in the source, cut at its double quotes
    ([html_pieces]) and joined again with them. *)

From Stdlib Require Import ZArith Ascii.
From stdpp Require Import base tactics option list strings.
From S2P Require Import Prelude PyValue Serializer Flask.

(** The double quote character. *)
Definition dquote : string := String (ascii_of_nat 34) EmptyString.

(** Lines 53-115: the text between the double quotes of the template. *)
Definition html_pieces : list string :=
    ["
    <!DOCTYPE html>
    <html>
    <head>
        <title>postgis-property-search-demo-py API</title>
        <style>
            body { font-family: Arial, sans-serif; margin: 40px; background: #f5f5f5; }
            .container { max-width: 800px; margin: 0 auto; background: white; padding: 30px; border-radius: 8px; box-shadow: 0 2px 10px rgba(0,0,0,0.1); }
            h1 { color: #2c3e50; border-bottom: 3px solid #3498db; padding-bottom: 10px; }
            .endpoint { background: #ecf0f1; padding: 15px; margin: 15px 0; border-left: 4px solid #3498db; }
            .method { background: #3498db; color: white; padding: 4px 8px; border-radius: 4px; font-size: 12px; }
            pre { background: #2c3e50; color: #ecf0f1; padding: 15px; border-radius: 4px; overflow-x: auto; }
            .status { color: #27ae60; font-weight: bold; }
        </style>
    </head>
    <body>
        <div class=";
     "container";
     ">
            <h1>postgis-property-search-demo-py</h1>
            <p><span class=";
     "status";
     ">✓ ONLINE</span> | PostgreSQL 15.4 with PostGIS API</p>
            
            <h2>API Endpoints</h2>
            
            <div class=";
     "endpoint";
     ">
                <p><span class=";
     "method";
     ">GET</span> <strong>/health</strong></p>
                <p>Health check and database connectivity status</p>
            </div>

            
            <div class=";
     "endpoint";
     ">
                <p><span class=";
     "method";
     ">GET</span> <strong>/api/properties/nearby</strong></p>
                <p>Find properties within radius of coordinates</p>
                <pre>?lat=37.7749&lng=-122.4194&radius=1000&limit=10</pre>
            </div>

            <div class=";
     "endpoint";
     ">
                <p><span class=";
     "method";
     ">GET</span> <strong>/api/properties/search</strong></p>
                <p>Advanced property search with filters</p>
                <pre>?price_min=500000&price_max=1000000&bedrooms=3&property_type=house</pre>
            </div>

            <div class=";
     "endpoint";
     ">
                <p><span class=";
     "method";
     ">POST</span> <strong>/api/properties</strong></p>
                <p>Add new property listing</p>
            </div>
            

            <h2>Database Info</h2>
            <pre id=";
     "dbInfo";
     ">Loading database information...</pre>
            
            <script>
                fetch('/health')
                    .then(response => response.json())
                    .then(data => {
                        document.getElementById('dbInfo').textContent = JSON.stringify(data, null, 2);
                    })
                    .catch(error => {
                        document.getElementById('dbInfo').textContent = 'Error loading database info: ' + error;
                    });
            </script>
        </div>
    </body>
    </html>
    "].

Definition html_template : string := String.concat dquote html_pieces.

(** ** What the page shows

    A reader of the page sees, for each endpoint, its method and its path
    (a [span] of class [method] and a [strong] element) and, for two of them,
    a query string (a [pre] element that starts with a question mark). *)

(** The texts of [s] between an [l] and the next [r]. *)
Definition between (l r s : string) : list string :=
  omap (fun part => match split_on r part with
                    | inner :: _ :: _ => Some inner
                    | _ => None
                    end) (tail (split_on l s)).

(** The endpoints the page lists: method and path. *)
Definition listed_endpoints (page : string) : list (string * string) :=
  omap (fun part => match split_on "</span> <strong>" part with
                    | [m; p] => Some (m, p)
                    | _ => None
                    end) (between ("method" +:+ dquote +:+ ">") "</strong>" page).

(** The query strings the page gives as examples. *)
Definition shown_queries (page : string) : list string :=
  between "<pre>?" "</pre>" page.

Section home.
Context `{PyFloat}.

(** The opening of a tag of the template language. *)
Definition has_tag (s : string) : bool :=
  is_infix "{{" s || is_infix "{%" s || is_infix "{#" s.

(** [render_template_string] on a template without tags. *)
Definition render_template_string (template : string) : py string :=
  if has_tag template then raise TypeError "templates with tags are not modelled"
  else Ok template.

(** Lines 50-116. *)
Definition home : py response :=
  page ← render_template_string html_template;
  Ok (Response 200 (BHtml page)).

Lemma html_template_plain : has_tag html_template = false.
Proof. by vm_compute. Qed.

Lemma home_Ok : home = Ok (Response 200 (BHtml html_template)).
Proof. unfold home, render_template_string. by rewrite html_template_plain. Qed.

End home.
