(* ===== verification/App.v ===== *)
(** * The application: configuration, routes and the life of the service

    [src/app.py]: the configuration read when the module is run (lines
    344-351; what is read when it is loaded is in [Config]), the rule of
    the static files that [Flask(__name__)] declares (line 25), the routes
    the decorators declare (lines 50, 118, 171, 225 and 291), and the two
    error handlers (lines 336-342).  [handle] is one request from its arrival to its
    answer; [step] is what can happen to the database between two
    observations. *)

From Stdlib Require Import ZArith Lia Ascii.
From stdpp Require Import base tactics option list strings sorting.
From S2P Require Import Prelude PyValue PyBuiltins Serializer Flask Sql Bind Store Psycopg.
From S2P Require Import Config Exact Search Nearby Insert Sent Health Home.

Section app.
Context `{Spatial} `{!SqlText} `{!Flask}.

(** ** Configuration *)

Record server := Server { host : string; port : Z; debug : bool }.

(** Lines 347-351: the arguments of [app.run]. *)
Definition main (env : environ) : py server :=
  port ← match env "PORT" with Some s => py_int s | None => Ok 5000%Z end;
  let debug := bool_decide (env "FLASK_ENV" = Some "development") in
  Ok (Server "0.0.0.0" port debug).

(** ** Routes *)

Inductive endpoint := EHome | EHealth | ENearby | ESearch | EAddProperty | EStatic.

#[export] Instance endpoint_eq_dec : EqDecision endpoint.
Proof. solve_decision. Defined.

(** The path of a rule: a fixed text, or a prefix followed by a value of
    the converter [path], which is text that is not empty and does not start
    with a slash. *)
Inductive rule_path :=
| Fixed (path : string)
| Under (prefix : string).

(** A rule: path, methods, endpoint. *)
Definition rule : Type := rule_path * list string * endpoint.

Definition rule_matches (r : rule) (path : string) : bool :=
  match r.1.1 with
  | Fixed p => bool_decide (path = p)
  | Under prefix =>
      match strip_prefix prefix path with
      | Some (String c _) => negb (Ascii.eqb c "/"%char)
      | _ => false
      end
  end.

(** Line 25: [Flask(__name__)] declares the rule of the static files,
    [/static/<path:filename>], whose view sends a file of the folder
    [static] beside the module. *)
Definition static_rule : rule := (Under "/static/", ["GET"], EStatic).

(** The rules, in the order they are declared: the one of the application
    object, then those of the decorators. *)
Definition url_map : list rule :=
  [ static_rule;
    (Fixed "/", ["GET"], EHome);
    (Fixed "/health", ["GET"], EHealth);
    (Fixed "/api/properties/nearby", ["GET"], ENearby);
    (Fixed "/api/properties/search", ["GET"], ESearch);
    (Fixed "/api/properties", ["POST"], EAddProperty) ].

Inductive routed :=
| Routed (e : endpoint)
| Options
| MethodNotAllowed
| NotFound.

(** Flask's matching: the rule of the path; [HEAD] goes where [GET] goes,
    [OPTIONS] is answered by Flask, any other method the rule does not list
    is refused, and a path without a rule is not found.  (A path with a
    doubled slash is a path without a rule here; Werkzeug answers some of
    them with a redirect, which ones depends on its version.) *)
Definition route (method path : string) : routed :=
  match filter (fun r => rule_matches r path = true) url_map with
  | [] => NotFound
  | (_, methods, e) :: _ =>
      if bool_decide (method ∈ methods) then Routed e
      else if bool_decide (method = "HEAD" /\ "GET" ∈ methods) then Routed e
      else if bool_decide (method = "OPTIONS") then Options
      else MethodNotAllowed
  end.

(** ** The error handlers *)

(** Lines 336-338. *)
Definition not_found : py response :=
  json_response 404 (VDict [("error", VStr "Endpoint not found")]).

(** Lines 340-342. *)
Definition internal_error : py response :=
  json_response 500 (VDict [("error", VStr "Internal server error")]).

(** ** One request *)

(** The view function of an endpoint.  The one of the static files finds no
    file, the repository having no folder [static]: [send_from_directory]
    raises [NotFound], which the handler of 404 answers. *)
Definition view (e : endpoint) (clock : datetime) (req : request) (d : db)
    : db * py response :=
  match e with
  | EHome => (d, home)
  | EHealth => health_check clock d
  | ENearby => find_nearby_properties req d
  | ESearch => search_properties req d
  | EAddProperty => add_property req d
  | EStatic => (d, not_found)
  end.

(** Flask's dispatch: the view of the route; an exception that leaves a view
    is answered by the 500 handler, a path without a rule by the 404
    handler. *)
Definition handle (clock : datetime) (req : request) (d : db) : db * py response :=
  match route (req_method req) (req_path req) with
  | Routed e =>
      match view e clock req d with
      | (d', Ok r) => (d', Ok r)
      | (d', Err _) => (d', internal_error)
      end
  | Options => (d, Ok (Response 200 (BHtml "")))
  | MethodNotAllowed => (d, Ok (Response 405 (BPage 405)))
  | NotFound => (d, not_found)
  end.

(** ** The life of the service *)

(** The database with its environment changed: whether it can be reached,
    and its clock. *)
Definition with_env (d : db) (up : bool) (now : datetime) : db :=
  Db up (db_rows d) (db_next_id d) (db_default_status d) now
     (db_version d) (db_name d) (db_user d) (db_postgis d).

(** A request whose body, when it has coordinates, has them written
    without a quote: the statements sent for it are those of the templates,
    which the model of the store runs. *)
Definition well_bound (req : request) : Prop :=
  forall data, req_json req = Ok data -> plain_coordinates data.

(** What happens to the database: a well-bound request is handled, or the
    environment of the database changes. *)
Inductive step : db -> db -> Prop :=
| step_request clock req d : well_bound req -> step d (handle clock req d).1
| step_env d up now : step d (with_env d up now).

(** The databases the service can reach from [d0]. *)
Inductive reachable (d0 : db) : db -> Prop :=
| reachable_init : reachable d0 d0
| reachable_step d d' : reachable d0 d -> step d d' -> reachable d0 d'.

(** ** The interface *)

(** The status codes the interface gives for each endpoint; the view of the
    static files has the one of the 404 handler. *)
Definition statuses (e : endpoint) : list Z :=
  match e with
  | EHome => [200]
  | EHealth => [200; 500]
  | ENearby => [200; 400; 500]
  | ESearch => [200; 500]
  | EAddProperty => [201; 400; 500]
  | EStatic => [404]
  end%Z.

(** An answer of the type of its endpoint: one of its status codes, with the
    page for the documentation and a JSON body for the others. *)
Definition answer_typed (e : endpoint) (r : response) : Prop :=
  status r ∈ statuses e /\
  match resp_body r with
  | BHtml _ => e = EHome
  | BJson _ => e <> EHome
  | BPage _ => False
  end.

End app.

(** ** One request *)

Section request_lemmas.
Context `{Spatial} `{!SqlText} `{!Flask}.

Definition endpoint_missing : response :=
  Response 404 (BJson (JObj [("error", JStr "Endpoint not found")])).

Lemma not_found_Ok : not_found = Ok endpoint_missing.
Proof. unfold not_found, json_response. by rewrite jsonify_native. Qed.

(** No view lets an exception out. *)
Lemma view_Ok e clock req d : is_ok (view e clock req d).2 = true.
Proof.
  destruct e; cbn [view snd].
  - by rewrite home_Ok.
  - by rewrite health_check_outcome.
  - by rewrite find_nearby_spec.
  - by rewrite search_properties_spec.
  - by rewrite add_property_outcome.
  - by rewrite not_found_Ok.
Qed.

(** Every view but the insert leaves the database as it was. *)
Lemma view_db e clock req d : e <> EAddProperty -> (view e clock req d).1 = d.
Proof.
  destruct e; cbn [view fst]; intros He; try done.
  - by rewrite health_check_outcome.
  - by rewrite find_nearby_spec.
  - by rewrite search_properties_spec.
Qed.

(** The insert leaves it as it was or adds one row that is well formed and
    takes the next id. *)
Lemma add_property_db req d :
  (add_property req d).1 = d \/
  exists p, (add_property req d).1 = with_row d p /\
            p_id p = db_next_id d /\ row_ok p.
Proof.
  rewrite add_property_outcome; cbn [fst]. unfold add_outcome.
  destruct (_ ≫= _) as [[data []]|e]; try by left.
  destruct (_ ≫= _) as [p|e] eqn:Hp; [right|by left].
  apply rbind_Ok_inv in Hp as (_ & _ & (params & _ & Hrow)%rbind_Ok_inv).
  apply run_insert_Ok in Hrow as (? & ? & ? & ? & ? & ? & ? & ? & ? & ? & Hrow).
  exists p. tauto.
Qed.

Lemma handle_db clock req d :
  (handle clock req d).1 = d \/
  exists p, (handle clock req d).1 = with_row d p /\
            p_id p = db_next_id d /\ row_ok p.
Proof.
  unfold handle. destruct (route _ _) as [e| | |]; try by left.
  destruct (decide (e = EAddProperty)) as [->|He].
  - cbn [view].
    destruct (add_property_db req d) as [Hd|(p & Hd & Hp)]; [left|right; exists p];
      destruct (add_property req d) as [? []]; simpl in *; tauto.
  - left. pose proof (view_db e clock req d He).
    by destruct (view _ _ _ _) as [? []].
Qed.

End request_lemmas.

(** ** Theorems on one request *)

Section request_claims.
Context `{Spatial} `{!SqlText} `{!Flask}.

(** Only a POST reaches the insert. *)
Lemma route_add method path :
  route method path = Routed EAddProperty -> method = "POST".
Proof.
  unfold route, url_map. rewrite !filter_cons, filter_nil.
  repeat case_decide; simpl in *; try done.
  all: repeat case_bool_decide; try done.
  all: intros _.
  all: repeat match goal with
              | H : _ /\ _ |- _ => destruct H
              | H : _ ∈ [_] |- _ => apply list_elem_of_singleton in H
              end.
  all: done.
Qed.

(** Every request is answered, and never by the handler of internal
    errors: no exception leaves a view, so the answer of a routed request is
    the answer of its view. *)
Lemma handle_never_raises clock req d :
  exists r, (handle clock req d).2 = Ok r /\
    forall e, route (req_method req) (req_path req) = Routed e ->
              view e clock req d = ((handle clock req d).1, Ok r).
Proof.
  unfold handle. destruct (route _ _) as [e| | |].
  - pose proof (view_Ok e clock req d) as Hok.
    destruct (view e clock req d) as [d' [r|]] eqn:Hv; [|done].
    exists r. split; [done|]. by intros ? [= <-].
  - by eexists.
  - by eexists.
  - rewrite not_found_Ok. by eexists.
Qed.

(** A path that no route declares is answered 404 with the body
    [Endpoint not found], whatever the method, and the database is left as
    it was. *)
Lemma handle_not_found clock req d :
  Forall (fun rule => rule_matches rule (req_path req) <> true) url_map ->
  handle clock req d = (d, Ok endpoint_missing).
Proof.
  intros Hpath. unfold handle, route.
  rewrite filter_none by done. by rewrite not_found_Ok.
Qed.

(** C26: every answer of a view has the type of its endpoint: its status
    is one the interface lists for the endpoint, and its body is JSON except
    for the documentation page. *)
Theorem view_typed e clock req d :
  exists r, (view e clock req d).2 = Ok r /\ answer_typed e r.
Proof.
  unfold answer_typed. destruct e; cbn [view snd statuses].
  - rewrite home_Ok. eexists. split; [done|]. split; [solve_elem|done].
  - rewrite health_check_outcome. eexists. split; [done|]. unfold health_outcome.
    repeat case_match; (split; [solve_elem|done]).
  - destruct (find_nearby_answers req d) as (r & -> & [[j ->]|[->| ->]]);
      eexists; (split; [done|]); (split; [solve_elem|done]).
  - destruct (search_properties_answers req d) as (r & -> & [[j ->]| ->]);
      eexists; (split; [done|]); (split; [solve_elem|done]).
  - rewrite add_property_outcome. eexists. split; [done|]. unfold add_outcome.
    repeat case_match; (split; [solve_elem|done]).
  - rewrite not_found_Ok. eexists. split; [done|]. split; [solve_elem|done].
Qed.

(** A request whose method is not POST leaves the database as it
    was. *)
Lemma handle_read_only clock req d :
  req_method req <> "POST" -> (handle clock req d).1 = d.
Proof.
  intros Hm. unfold handle. destruct (route _ _) as [e| | |] eqn:Hr; try done.
  assert (e <> EAddProperty) as He by (intros ->; by apply route_add in Hr).
  pose proof (view_db e clock req d He).
  by destruct (view _ _ _ _) as [? []].
Qed.

End request_claims.

(** ** The searches under a released Flask *)

Section released.
Context `{Spatial} `{!SqlText} (own : pyval -> py pyval).

(** C8: with a released Flask, whose [jsonify] refuses an object together
    with keyword arguments, neither search ever answers 200.  The filtered
    search gives its 500 answer to every request; the radius search gives
    the 400 answer when an argument does not convert and the 500 answer
    otherwise.  The database is not touched. *)
Theorem released_searches_fail clock req d :
  @view _ _ _ (flask_released own) ESearch clock req d = (d, Ok search_error) /\
  @view _ _ _ (flask_released own) ENearby clock req d =
    (d, Ok (if bad_nearby (req_args req) then nearby_invalid else nearby_error)).
Proof. split; [apply search_released_fails|apply find_nearby_released]. Qed.

End released.

(** ** Theorems on the life of the service *)

Section life_claims.
Context `{Spatial} `{!SqlText} `{!Flask}.

Lemma with_row_rows d p : db_rows (with_row d p) = db_rows d ++ [p].
Proof. done. Qed.

(** A step keeps the rows or adds one at the end, with the next id. *)
Lemma step_rows d d' :
  step d d' ->
  (db_rows d' = db_rows d /\ db_next_id d' = db_next_id d) \/
  exists p, db_rows d' = db_rows d ++ [p] /\ db_next_id d' = (db_next_id d + 1)%Z /\
            p_id p = db_next_id d /\ row_ok p.
Proof.
  destruct 1 as [clock req d _|d up now]; [|by left].
  destruct (handle_db clock req d) as [->|(p & -> & Hp)]; [by left|right].
  by exists p.
Qed.



(** The service never updates or deletes: the rows it started with are
    still there, unchanged and in place, in every database it reaches, and
    the sequence never goes back. *)
Lemma reachable_grows d0 d :
  reachable d0 d ->
  db_rows d0 `prefix_of` db_rows d /\ (db_next_id d0 <= db_next_id d)%Z.
Proof.
  induction 1 as [|d d' _ [IHrows IHid] Hstep]; [done|].
  apply step_rows in Hstep as [[-> ->]|(p & -> & -> & _)]; [done|].
  split; [by apply prefix_app_r|lia].
Qed.

Lemma reachable_trans d0 d1 d2 : reachable d0 d1 -> reachable d1 d2 -> reachable d0 d2.
Proof. intros H01. induction 1; eauto using reachable_step. Qed.

(** C27: the insert stays enabled.  A body the store accepts in one state
    is accepted in every state the service reaches, whenever the database is
    up: the request is answered 201 with the next id, the step exists, and
    the new row is found in every state the service reaches afterwards. *)
Theorem insert_stays_enabled clock req d0 d kvs p :
  req_method req = "POST" -> req_path req = "/api/properties" ->
  req_json req = Ok (VDict kvs) -> new_row d0 (VDict kvs) = Ok p ->
  reachable d0 d -> db_up d = true ->
  exists p',
    handle clock req d = (with_row d p', Ok (add_created (db_next_id d))) /\
    reachable d0 (with_row d p') /\
    forall d', reachable (with_row d p') d' -> p' ∈ db_rows d'.
Proof.
  intros Hm Hpath Hdata (params & Hparams & Hrow)%rbind_Ok_inv Hreach Hup.
  destruct (run_insert_any _ _ _ (db_next_id d) (db_default_status d) (db_now d) _ _ Hrow)
    as [p' Hp'].
  assert (new_row d (VDict kvs) = Ok p') as Hnew by (unfold new_row; by rewrite Hparams).
  assert (handle clock req d = (with_row d p', Ok (add_created (db_next_id d)))) as Hh.
  { unfold handle. rewrite Hm, Hpath.
    change (route "POST" "/api/properties") with (Routed EAddProperty).
    cbn [view]. rewrite (add_property_row _ _ _ _ Hdata Hup Hnew).
    by rewrite (new_row_id _ _ _ Hnew). }
  exists p'. split_and!; [done| |].
  - apply (reachable_step _ d); [done|].
    replace (with_row d p') with (handle clock req d).1 by by rewrite Hh.
    apply step_request. intros data Hd. rewrite Hdata in Hd. injection Hd as <-.
    by apply (new_row_plain d kvs p').
  - intros d' [Hpre _]%reachable_grows. apply (elem_of_prefix _ _ _) with (2 := Hpre).
    rewrite with_row_rows, elem_of_app. right. solve_elem.
Qed.

End life_claims.

(** ** Insert, then search *)

Section sequences.
Context `{Spatial} `{!SqlText} `{!Flask}.

Lemma handle_add clock req d :
  req_method req = "POST" -> req_path req = "/api/properties" ->
  (handle clock req d).1 = (add_property req d).1.
Proof.
  intros Hm Hp. unfold handle. rewrite Hm, Hp.
  change (route "POST" "/api/properties") with (Routed EAddProperty).
  cbn [view]. by destruct (add_property req d) as [? []].
Qed.

(** C29: after a POST to [/api/properties] that succeeds, a radius search
    centred on the point of the new row, with a radius that covers the
    distance of a point to itself, finds the new row, unless the limit is
    reached by rows that are no farther from the point. *)
Theorem add_then_nearby clock req d kvs p loc q :
  req_method req = "POST" -> req_path req = "/api/properties" ->
  req_json req = Ok (VDict kvs) -> db_up d = true -> new_row d (VDict kvs) = Ok p ->
  p_location p = Some loc -> center q = loc ->
  finite (lng q) = true -> finite (lat q) = true ->
  (0 <= radius q)%Z -> (0 <= nearby_limit q)%Z ->
  float_le (st_distance loc loc) (float_of_int (radius q)) ->
  exists ps, nearby_result q (db_rows (handle clock req d).1) = Ok ps /\
    ((p, loc) ∈ ps \/
     (length ps = Z.to_nat (nearby_limit q) /\
      Forall (fun x => by_distance (center q) x (p, loc)) ps)).
Proof.
  intros Hm Hpath Hdata Hd Hp Hloc Hc Hx Hy Hr Hl Hself.
  rewrite (handle_add _ _ _ Hm Hpath).
  rewrite (add_property_row _ _ _ _ Hdata Hd Hp); cbn [fst].
  rewrite nearby_result_total by done. eexists; split; [done|].
  apply nearest_complete; [done| |done|by rewrite Hc].
  rewrite with_row_rows, elem_of_app. right. solve_elem.
Qed.

End sequences.

(** ** Examples on the sample database *)

Import Exact.

(** A second listing at the address of the first. *)
Definition twin_fields : list (string * pyval) :=
  [ ("address", VStr "12 Oak St, rear"); ("price", VInt 310000);
    ("latitude", VFloat (float_lit 377749 (-4)));
    ("longitude", VFloat (float_lit (-1224194) (-4))) ].

Definition twin_loc : point := (float_lit (-1224194) (-4), float_lit 377749 (-4)).

Definition twin : property :=
  Property 5 "12 Oak St, rear" (Decimal 310000 0) None None None (Some "Unknown")
    "active" (Some twin_loc) noon.

(** The point of the twin, any row within [r], at most [n] rows. *)
Definition at_twin (r n : Z) : nearby_args :=
  NearbyArgs (float_lit 377749 (-4)) (float_lit (-1224194) (-4)) r n.

(** With a limit of one, a radius search at the point of a row that
    was just inserted returns the older row at the same point and not the
    new one. *)
Example add_then_nearby_limit :
  (handle noon (post (VDict twin_fields)) sample_db).1 = with_row sample_db twin /\
  nearby_result (at_twin 0 1) (db_rows (with_row sample_db twin)) =
    Ok [(oak_st, oak_loc)] /\
  (twin, twin_loc) ∉ [(oak_st, oak_loc)].
Proof.
  split_and!; [done..|].
  by intros [=]%list_elem_of_singleton.
Qed.

Lemma add_then_nearby_witness :
  exists ps, nearby_result (at_twin 0 10)
               (db_rows (handle noon (post (VDict twin_fields)) sample_db).1) = Ok ps /\
    ((twin, twin_loc) ∈ ps \/
     (length ps = Z.to_nat 10 /\
      Forall (fun x => by_distance (center (at_twin 0 10)) x (twin, twin_loc)) ps)).
Proof.
  apply (add_then_nearby noon _ _ twin_fields twin twin_loc (at_twin 0 10));
    try done; decide_true.
Defined.

Lemma handle_not_found_witness :
  handle noon (get "/api/nonexistent" []) sample_db = (sample_db, Ok endpoint_missing).
Proof. apply handle_not_found. unfold url_map. repeat constructor; done. Defined.

Lemma handle_read_only_witness :
  (handle noon (get "/api/properties/search" [("limit", "1")]) sample_db).1 = sample_db.
Proof. by apply handle_read_only. Defined.

Lemma sample_reachable :
  reachable sample_db (handle noon (post (VDict twin_fields)) sample_db).1.
Proof.
  eapply reachable_step; [apply reachable_init|apply step_request].
  intros data [= <-] kvs k v [= <-] Hk Hv.
  apply elem_of_cons in Hk as [->|Hk%list_elem_of_singleton]; subst;
    injection Hv as <-; by apply quote_free_float.
Qed.

(** The sample database after the second listing. *)
Definition after_twin : db := (handle noon (post (VDict twin_fields)) sample_db).1.

Lemma insert_stays_enabled_witness :
  exists p',
    handle noon (post (VDict twin_fields)) after_twin =
      (with_row after_twin p', Ok (add_created (db_next_id after_twin))) /\
    reachable sample_db (with_row after_twin p') /\
    forall d', reachable (with_row after_twin p') d' -> p' ∈ db_rows d'.
Proof.
  apply (insert_stays_enabled noon _ sample_db after_twin twin_fields twin);
    try done. apply sample_reachable.
Defined.


Lemma reachable_grows_witness :
  sample_rows `prefix_of` db_rows (handle noon (post (VDict twin_fields)) sample_db).1 /\
  (5 <= db_next_id (handle noon (post (VDict twin_fields)) sample_db).1)%Z.
Proof. exact (reachable_grows _ _ sample_reachable). Defined.

(** ** The documentation page and the routes *)

Lemma listed_endpoints_home :
  listed_endpoints html_template =
    [("GET", "/health"); ("GET", "/api/properties/nearby");
     ("GET", "/api/properties/search"); ("POST", "/api/properties")].
Proof. by vm_compute. Qed.

Lemma shown_queries_home :
  parse_qs <$> shown_queries html_template =
    [ Some [("lat", "37.7749"); ("lng", "-122.4194"); ("radius", "1000"); ("limit", "10")];
      Some [("price_min", "500000"); ("price_max", "1000000"); ("bedrooms", "3");
            ("property_type", "house")] ].
Proof. by vm_compute. Qed.

(** The page that [home] returns documents the service as it is routed:
    the pairs of method and path it lists are, in order, those of the rules
    of the decorators other than the page's own, and each is routed to a
    view; the
    two query strings it shows are read by their handlers without an error,
    the one of the radius search being the defaults of [parse_nearby] spelt
    out. *)
Lemma home_documents_routes :
  home = Ok (Response 200 (BHtml html_template)) /\
  listed_endpoints html_template =
    flat_map (fun r => match r.1.1 with
                       | Fixed path => (fun m => (m, path)) <$> r.1.2
                       | Under _ => []
                       end) (drop 2 url_map) /\
  Forall (fun mp => exists e, route mp.1 mp.2 = Routed e)
         (listed_endpoints html_template) /\
  exists near search,
    parse_qs <$> shown_queries html_template = [Some near; Some search] /\
    parse_nearby near = parse_nearby [] /\
    is_ok (parse_filters search) = true.
Proof.
  split; [apply home_Ok|]. rewrite listed_endpoints_home, shown_queries_home.
  split_and!; [done|repeat constructor; by eexists|].
  by do 2 eexists.
Qed.
