(* ===== verification/Cors.v ===== *)
(** * flask-cors: the headers of cross-origin access

    [CORS(app)] ([src/app.py], line 26) installs the extension with no
    option: every option has the default of the library and the rules cover
    every path.  The extension registers one function that Flask calls on
    every response ([cors_after_request]); it computes the headers of
    cross-origin access from the headers and the method of the request
    ([get_cors_headers]) and adds them, unless the response already has an
    [Access-Control-Allow-Origin].

    The functions are those of [flask_cors.core] (as in the versions 3 and
    4.0.0; later versions add a header to answers to requests that ask for
    access to a private network).  An allowed origin or header is the
    wildcard or a text: regular expressions other than the one the wildcard
    becomes are not modelled. *)

From Stdlib Require Import ZArith Lia Ascii.
From stdpp Require Import base tactics option list strings sorting.
From S2P Require Import Prelude PyValue PyBuiltins Url Serializer Flask.

Section cors.

(** ** The names of the headers *)

(** A value that an [if] takes as true: a string that is not empty. *)
Definition given (v : option string) : option string :=
  match v with
  | Some s => if decide (s = "") then None else Some s
  | None => None
  end.

Definition ACL_ORIGIN : string := "Access-Control-Allow-Origin".
Definition ACL_METHODS : string := "Access-Control-Allow-Methods".
Definition ACL_ALLOW_HEADERS : string := "Access-Control-Allow-Headers".
Definition ACL_EXPOSE_HEADERS : string := "Access-Control-Expose-Headers".
Definition ACL_CREDENTIALS : string := "Access-Control-Allow-Credentials".
Definition ACL_MAX_AGE : string := "Access-Control-Max-Age".
Definition ACL_REQUEST_METHOD : string := "Access-Control-Request-Method".
Definition ACL_REQUEST_HEADERS : string := "Access-Control-Request-Headers".

(** ** Options *)

(** An allowed origin or header: the wildcard [*], which the extension
    turns into the regular expression [.*], or a text. *)
Inductive pattern :=
| Any
| Text (s : string).

#[export] Instance pattern_eq_dec : EqDecision pattern.
Proof. solve_decision. Defined.

Record cors_options := CorsOptions {
  origins : list pattern;
  methods : list string;
  allow_headers : list pattern;
  expose_headers : option string;
  supports_credentials : bool;
  max_age : option string;
  send_wildcard : bool;
  vary_header : bool;
  always_send : bool
}.

Definition ALL_METHODS : list string :=
  ["GET"; "HEAD"; "POST"; "OPTIONS"; "PUT"; "PATCH"; "DELETE"].

(** [DEFAULT_OPTIONS], with [origins] and [allow_headers] as
    [serialize_options] leaves them. *)
Definition default_options : cors_options :=
  CorsOptions [Any] ALL_METHODS [Any] None false None false true true.

(** Line 26: [CORS(app)]. *)
Definition cors : cors_options := default_options.

(** ** The functions of the extension *)

(** The order of [sorted] on strings. *)
Definition str_le (a b : string) : Prop := String.leb a b = true.

#[export] Instance str_le_dec : RelDecision str_le.
Proof. intros a b. unfold str_le. apply _. Defined.

(** [", ".join(sorted(l))] *)
Definition flexible_str (l : list string) : string := String.concat ", " (merge_sort str_le l).

(** The option [methods] as [serialize_options] leaves it: one string, in
    upper case. *)
Definition serialized_methods (o : cors_options) : string :=
  str_upper (flexible_str (methods o)).

(** [try_match]: the regular expression of the wildcard matches every
    text; a text is compared without regard to case. *)
Definition try_match (inst : string) (p : pattern) : bool :=
  match p with
  | Any => true
  | Text s => String.eqb (str_lower inst) (str_lower s)
  end.

Definition try_match_any (inst : string) (ps : list pattern) : bool :=
  existsb (try_match inst) ps.

Definition probably_regex (p : pattern) : bool :=
  match p with Any => true | Text _ => false end.

(** [get_cors_origins]: the origins to name in the answer, when there are
    any. *)
Definition get_cors_origins (o : cors_options) (request_origin : option string)
    : option (list string) :=
  let wildcard := bool_decide (Any ∈ origins o) in
  match given request_origin with
  | Some origin =>
      if wildcard && send_wildcard o then Some ["*"]
      else if try_match_any origin (origins o) then Some [origin]
      else None
  | None =>
      if always_send o then
        if wildcard then (if supports_credentials o then None else Some ["*"])
        else Some (merge_sort str_le
                     (omap (fun p => match p with Text s => Some s | Any => None end)
                           (origins o)))
      else None
  end.

(** [get_allow_headers]: of the headers the request asks for, those the
    options allow, sorted. *)
Definition get_allow_headers (o : cors_options) (acl_request_headers : option string)
    : option string :=
  match given acl_request_headers with
  | Some hs =>
      Some (flexible_str (List.filter (fun h => try_match_any h (allow_headers o))
                                      (strip <$> split_char "," hs)))
  | None => None
  end.

(** The headers of a preflight request, whose method is [OPTIONS]. *)
Definition preflight_headers (o : cors_options) (request_headers : headers)
    : list (string * option string) :=
  let acl_request_method :=
    str_upper (default "" (header_get request_headers ACL_REQUEST_METHOD)) in
  if bool_decide (acl_request_method <> "") &&
     is_infix acl_request_method (serialized_methods o)
  then [ (ACL_ALLOW_HEADERS,
          get_allow_headers o (header_get request_headers ACL_REQUEST_HEADERS));
         (ACL_MAX_AGE, max_age o);
         (ACL_METHODS, Some (serialized_methods o)) ]
  else [].

(** Whether the answer depends on the origin of the request. *)
Definition vary_headers (o : cors_options) (origins_to_set : list string)
    : list (string * option string) :=
  if vary_header o then
    if decide (head origins_to_set = Some "*") then []
    else if (1 <? length (origins o))%nat || (1 <? length origins_to_set)%nat ||
            existsb probably_regex (origins o)
    then [("Vary", Some "Origin")]
    else []
  else [].

(** [get_cors_headers]: the first of the origins, what the options
    expose and whether they let credentials through, the headers of a
    preflight request, and [Vary]; a header without a value is left out. *)
Definition get_cors_headers (o : cors_options) (request_headers : headers)
    (request_method : string) : headers :=
  match get_cors_origins o (header_get request_headers "Origin") with
  | Some (origin :: rest) =>
      omap (fun kv => pair kv.1 <$> given kv.2)
        ([ (ACL_ORIGIN, Some origin); (ACL_EXPOSE_HEADERS, expose_headers o) ] ++
         (if supports_credentials o then [(ACL_CREDENTIALS, Some "true")] else []) ++
         (if decide (request_method = "OPTIONS") then preflight_headers o request_headers
          else []) ++
         vary_headers o (origin :: rest))
  | _ => []
  end.

(** [cors_after_request]: the function registered with [app.after_request].
    The rule [/*] of the default is a regular expression that matches at
    the start of every path, so the headers are computed for every
    request. *)
Definition cors_after_request (o : cors_options) (request_headers : headers)
    (request_method : string) (response_headers : headers) : headers :=
  match given (header_get response_headers ACL_ORIGIN) with
  | Some _ => response_headers
  | None => response_headers ++ get_cors_headers o request_headers request_method
  end.

(** The origin the default options name: the one of the request, or the
    wildcard when the request has none. *)
Definition allowed_origin (request_headers : headers) : string :=
  default "*" (given (header_get request_headers "Origin")).

End cors.

(** ** Examples *)

Example serialized_methods_default :
  serialized_methods cors = "DELETE, GET, HEAD, OPTIONS, PATCH, POST, PUT".
Proof. by vm_compute. Qed.

(** A request of a page of another site, and the preflight request a
    browser sends before a POST with a JSON body. *)
Example get_cors_headers_examples :
  get_cors_headers cors [("Origin", "https://example.org")] "GET" =
    [(ACL_ORIGIN, "https://example.org"); ("Vary", "Origin")] /\
  get_cors_headers cors [] "GET" = [(ACL_ORIGIN, "*")] /\
  get_cors_headers cors [("origin", "https://example.org");
                         ("Access-Control-Request-Method", "post");
                         ("Access-Control-Request-Headers", "X-Token, content-type")]
                   "OPTIONS" =
    [(ACL_ORIGIN, "https://example.org");
     (ACL_ALLOW_HEADERS, "X-Token, content-type");
     (ACL_METHODS, "DELETE, GET, HEAD, OPTIONS, PATCH, POST, PUT");
     ("Vary", "Origin")].
Proof. by vm_compute. Qed.

(** ** The headers of the default options *)

Section cors_lemmas.
Implicit Types (rh h : headers) (m name : string).

(** Only a preflight request has headers of its method. *)
Lemma cors_after_request_method o rh m m' h :
  m <> "OPTIONS" -> m' <> "OPTIONS" ->
  cors_after_request o rh m h = cors_after_request o rh m' h.
Proof.
  intros Hm Hm'. unfold cors_after_request, get_cors_headers.
  by rewrite !decide_False by done.
Qed.

(** The origin named is never the empty string. *)
Lemma given_allowed_origin rh : given (Some (allowed_origin rh)) = Some (allowed_origin rh).
Proof.
  unfold allowed_origin, given. destruct (header_get rh "Origin") as [s|]; [|done].
  destruct (decide (s = "")) as [->|Hs]; [done|]. simpl. by rewrite decide_False.
Qed.

Lemma get_cors_origins_default rh :
  get_cors_origins cors (header_get rh "Origin") = Some [allowed_origin rh].
Proof. unfold get_cors_origins, allowed_origin. by destruct (given _). Qed.

(** The names of the headers that follow the origin. *)
Definition follow_names : list string := [ACL_ALLOW_HEADERS; ACL_METHODS; "Vary"].

(** With the default options the headers start with the origin allowed, and
    name it once. *)
Lemma get_cors_headers_default rh m :
  exists rest,
    get_cors_headers cors rh m = (ACL_ORIGIN, allowed_origin rh) :: rest /\
    Forall (fun kv => kv.1 ∈ follow_names) rest.
Proof.
  unfold get_cors_headers. rewrite get_cors_origins_default.
  cbn -[allowed_origin given preflight_headers vary_headers].
  rewrite given_allowed_origin. cbn -[allowed_origin given preflight_headers vary_headers].
  eexists. split; [done|].
  unfold vary_headers, preflight_headers; cbn [vary_header max_age cors default_options].
  destruct (decide (m = "OPTIONS")); [destruct (_ && _)|];
    destruct (decide (_ = Some "*")); cbn; try destruct (given (get_allow_headers _ _));
    cbn; repeat constructor; unfold follow_names; solve_elem.
Qed.

Lemma header_all_follow rest :
  Forall (fun kv => kv.1 ∈ follow_names) rest -> header_all rest ACL_ORIGIN = [].
Proof.
  unfold header_all. induction 1 as [|[k v] rest Hk _ IH]; [done|].
  cbn [List.filter fst] in *. replace (same_name k ACL_ORIGIN) with false; [done|].
  unfold follow_names in Hk.
  repeat (apply elem_of_cons in Hk as [->|Hk]; [done|]). by apply elem_of_nil in Hk.
Qed.

Lemma get_cors_headers_origin rh m :
  header_all (get_cors_headers cors rh m) ACL_ORIGIN = [allowed_origin rh].
Proof.
  destruct (get_cors_headers_default rh m) as (rest & -> & Hrest).
  change (header_all (_ :: rest) ACL_ORIGIN)
    with (allowed_origin rh :: header_all rest ACL_ORIGIN).
  by rewrite header_all_follow.
Qed.

(** The function adds the headers to a response that names no origin, and
    leaves alone one that does: applied twice, it adds them once. *)
Lemma cors_after_request_fresh rh m h :
  header_all h ACL_ORIGIN = [] ->
  cors_after_request cors rh m h = h ++ get_cors_headers cors rh m.
Proof. intros Hh. unfold cors_after_request. by rewrite header_get_head, Hh. Qed.

Lemma cors_after_request_twice rh m h :
  header_all h ACL_ORIGIN = [] ->
  cors_after_request cors rh m (cors_after_request cors rh m h) =
    cors_after_request cors rh m h.
Proof.
  intros Hh. rewrite (cors_after_request_fresh _ _ h Hh).
  unfold cors_after_request at 1.
  rewrite header_get_head, header_all_app, Hh, get_cors_headers_origin.
  cbn [app head]. by rewrite given_allowed_origin.
Qed.

Lemma cors_after_request_origin rh m h :
  header_all h ACL_ORIGIN = [] ->
  header_all (cors_after_request cors rh m h) ACL_ORIGIN = [allowed_origin rh].
Proof.
  intros Hh. by rewrite cors_after_request_fresh, header_all_app, Hh, get_cors_headers_origin.
Qed.

(** The headers of a request that is not a preflight request, all of
    them: the origin, and [Vary] unless the origin is the wildcard. *)
Lemma get_cors_headers_plain rh m :
  m <> "OPTIONS" ->
  get_cors_headers cors rh m =
    (ACL_ORIGIN, allowed_origin rh) ::
    (if decide (allowed_origin rh = "*") then [] else [("Vary", "Origin")]).
Proof.
  intros Hm. unfold get_cors_headers. rewrite get_cors_origins_default, decide_False by done.
  cbn -[allowed_origin given]. rewrite given_allowed_origin.
  cbn -[allowed_origin given]. f_equal.
  destruct (decide (Some (allowed_origin rh) = Some "*")) as [[= ->]|Hne].
  - by rewrite decide_True.
  - rewrite decide_False by congruence. done.
Qed.

(** The value of a header that comes after headers of other names. *)
Lemma header_get_omap (pre rest : list (string * option string)) k v name :
  Forall (fun kv => same_name kv.1 name = false) pre ->
  same_name k name = true -> v <> "" ->
  header_get (omap (fun kv => pair kv.1 <$> given kv.2) (pre ++ (k, Some v) :: rest)) name =
    Some v.
Proof.
  intros Hpre Hk Hv. induction Hpre as [|[k' v'] pre Hk' _ IH]; simpl in *.
  - rewrite decide_False by done. unfold header_get. simpl. by rewrite Hk.
  - destruct (given v'); [|done]. unfold header_get in *. simpl. by rewrite Hk'.
Qed.

(** A preflight request that names a method of the list is told the list,
    whatever its origin. *)
Lemma preflight_methods rh method :
  header_get rh ACL_REQUEST_METHOD = Some method -> method <> "" ->
  is_infix (str_upper method) (serialized_methods cors) = true ->
  header_get (get_cors_headers cors rh "OPTIONS") ACL_METHODS =
    Some (serialized_methods cors).
Proof.
  intros Hm Hne Hin. unfold get_cors_headers.
  rewrite get_cors_origins_default, decide_True by done.
  unfold preflight_headers. rewrite Hm. cbn [default from_option id].
  rewrite Hin, bool_decide_true by (by destruct method).
  cbn [andb supports_credentials cors default_options app].
  by apply (header_get_omap [_; _; _; _]); [repeat constructor|..].
Qed.

End cors_lemmas.
