(* ===== verification/Http.v ===== *)
(** * Requests and responses with their headers

    [App.handle] is a request from its arrival to its answer, without the
    headers.  This file adds them: the headers of the request, which the
    views do not read and the extension of line 26 does, and the headers of
    the response, which are the type of the body and what [CORS(app)] adds.
    [full_dispatch] is Flask's [full_dispatch_request] with the functions of
    [after_request]; [wsgi_app] is what is sent; [received] is the request
    Flask makes of what the server hands over, with the query decoded and the
    body read by [get_json].

    flask-cors wraps the two functions of Flask that answer an exception
    ([handle_user_exception] for the errors of routing, [handle_exception]
    for what a view lets out), so a response of those goes through
    [cors_after_request] twice.  [Content-Length], the [Allow] of Flask's own
    answers and the headers of the server are left out. *)

From Stdlib Require Import ZArith Lia Ascii.
From stdpp Require Import base tactics option list strings.
From S2P Require Import Prelude PyValue PyBuiltins Url Serializer Flask Sql Bind Store Psycopg.
From S2P Require Import Config Exact Search Nearby Insert Sent Health Home App Cors.

Section http.
Context `{Spatial} `{!SqlText} `{!Flask}.

Record http_request := HttpRequest {
  h_request : request;
  h_headers : headers
}.

Record http_response := HttpResponse {
  h_response : response;
  h_out : headers
}.

(** The type Flask gives a body: JSON for [jsonify], HTML for a text and for
    the pages of Werkzeug. *)
Definition mimetype (b : body) : string :=
  match b with
  | BJson _ => "application/json"
  | BHtml _ | BPage _ => "text/html; charset=utf-8"
  end.

(** [make_response]: the response of a view, of a handler or of Flask
    itself, with its type. *)
Definition make_response (r : response) : http_response :=
  HttpResponse r [("Content-Type", mimetype (resp_body r))].

(** [process_response]: the functions registered with [after_request], of
    which there is one, that of [CORS(app)]. *)
Definition process_response (hr : http_request) (resp : http_response) : http_response :=
  HttpResponse (h_response resp)
    (cors_after_request cors (h_headers hr) (req_method (h_request hr)) (h_out resp)).

(** An answer to an exception: the wrapper of the extension adds the
    headers to what the handler of the error returns, and Flask then
    finalises the response as it does any other. *)
Definition intercepted (hr : http_request) (r : response) : http_response :=
  process_response hr (process_response hr (make_response r)).

(** [full_dispatch_request] and, for an exception that a view lets out,
    [handle_exception]. *)
Definition full_dispatch (clock : datetime) (hr : http_request) (d : db)
    : db * py http_response :=
  let req := h_request hr in
  match route (req_method req) (req_path req) with
  | Routed e =>
      match view e clock req d with
      | (d', Ok r) => (d', Ok (process_response hr (make_response r)))
      | (d', Err _) => (d', intercepted hr <$> internal_error)
      end
  | Options => (d, Ok (process_response hr (make_response (Response 200 (BHtml "")))))
  | MethodNotAllowed => (d, Ok (intercepted hr (Response 405 (BPage 405))))
  | NotFound => (d, intercepted hr <$> not_found)
  end.

(** What is sent: the answer to a [HEAD] request has the headers and no
    body. *)
Definition sent (hr : http_request) (resp : http_response) : http_response :=
  if decide (req_method (h_request hr) = "HEAD")
  then HttpResponse (Response (status (h_response resp)) (BHtml "")) (h_out resp)
  else resp.

Definition wsgi_app (clock : datetime) (hr : http_request) (d : db)
    : db * py http_response :=
  let '(d', r) := full_dispatch clock hr d in (d', sent hr <$> r).

(** The request Flask makes of what the server hands over: the method, the
    path, the text of the query, the headers, and the data, of which [loads]
    is what [json.loads] makes ([Flask.get_json], with its two arguments for
    the version of Flask). *)
Definition received (unread : option exn) (failed : exn -> exn)
    (m path query : string) (h : headers) (loads : py pyval) : option http_request :=
  a ← parse_qs query;
  Some (HttpRequest (Request m path a (get_json unread failed h loads)) h).

(** The same request with another method. *)
Definition with_method (m : string) (hr : http_request) : http_request :=
  let req := h_request hr in
  HttpRequest (Request m (req_path req) (req_args req) (req_json req)) (h_headers hr).

(** A response without its body. *)
Definition bodiless (resp : http_response) : http_response :=
  HttpResponse (Response (status (h_response resp)) (BHtml "")) (h_out resp).

End http.

(** ** The headers of a response *)

Section http_lemmas.
Context `{Spatial} `{!SqlText} `{!Flask}.
Implicit Types (hr : http_request) (r : response) (resp : http_response).

Lemma make_response_origin r : header_all (h_out (make_response r)) ACL_ORIGIN = [].
Proof. done. Qed.

(** Going through the function of the extension twice adds its headers
    once. *)
Lemma intercepted_once hr r : intercepted hr r = process_response hr (make_response r).
Proof.
  unfold intercepted, process_response; cbn [h_response h_out]. f_equal.
  apply cors_after_request_twice, make_response_origin.
Qed.

Lemma process_response_origin hr r :
  header_all (h_out (process_response hr (make_response r))) ACL_ORIGIN =
    [allowed_origin (h_headers hr)].
Proof. apply cors_after_request_origin, make_response_origin. Qed.

(** Every answer is the answer of [App.handle] with headers: its type, and
    what the extension computes from the request. *)
Lemma full_dispatch_spec clock hr d :
  full_dispatch clock hr d =
    ((handle clock (h_request hr) d).1,
     process_response hr ∘ make_response <$> (handle clock (h_request hr) d).2).
Proof.
  unfold full_dispatch, handle. destruct (route _ _) as [e| | |]; cbn [fst snd].
  - destruct (view e clock _ d) as [d' [r|x]]; [done|]. cbn [fst snd].
    destruct internal_error as [r|y]; [|done]. cbn. by rewrite intercepted_once.
  - done.
  - cbn. by rewrite intercepted_once.
  - destruct not_found as [r|y]; [|done]. cbn. by rewrite intercepted_once.
Qed.

(** Forgetting the headers gives the answer of [App.handle]. *)
Lemma full_dispatch_handle clock hr d :
  ((full_dispatch clock hr d).1, h_response <$> (full_dispatch clock hr d).2) =
    handle clock (h_request hr) d.
Proof.
  rewrite full_dispatch_spec; cbn [fst snd].
  destruct (handle clock (h_request hr) d) as [d' [r|x]]; done.
Qed.

(** The headers of an answer to a request that is not a preflight
    request, all of them: the type of the body, the origin allowed, and
    [Vary] when the origin is the one of the request. *)
Lemma full_dispatch_headers clock hr d resp :
  req_method (h_request hr) <> "OPTIONS" -> (full_dispatch clock hr d).2 = Ok resp ->
  h_out resp =
    ("Content-Type", mimetype (resp_body (h_response resp))) ::
    (ACL_ORIGIN, allowed_origin (h_headers hr)) ::
    (if decide (allowed_origin (h_headers hr) = "*") then [] else [("Vary", "Origin")]).
Proof.
  intros Hm. rewrite full_dispatch_spec; cbn [snd].
  destruct (handle clock (h_request hr) d).2 as [r|x]; [|done]. intros [= <-].
  unfold process_response; cbn [h_out h_response make_response].
  by rewrite cors_after_request_fresh, get_cors_headers_plain.
Qed.

End http_lemmas.

(** ** What the extension lets through *)

Section cors_claims.
Context `{Spatial} `{!SqlText} `{!Flask}.
Implicit Types (hr : http_request).

(** C21: every answer allows the origin that asked.  Whatever the request
    (any path, any method, any origin) and whatever the database, the
    answer is the one of [App.handle] and carries exactly one
    [Access-Control-Allow-Origin]: the origin of the request when the request
    names one, the wildcard otherwise.  A page of any site may therefore read
    every answer of the service, the 404, 405 and 500 answers included. *)
Theorem cors_allows_origin clock hr d :
  exists resp,
    full_dispatch clock hr d = ((handle clock (h_request hr) d).1, Ok resp) /\
    (handle clock (h_request hr) d).2 = Ok (h_response resp) /\
    header_all (h_out resp) ACL_ORIGIN =
      [ match header_get (h_headers hr) "Origin" with
        | Some origin => if decide (origin = "") then "*" else origin
        | None => "*"
        end ].
Proof.
  destruct (handle_never_raises clock (h_request hr) d) as (r & Hr & _).
  exists (process_response hr (make_response r)).
  rewrite full_dispatch_spec, Hr, process_response_origin. split_and!; [done..|].
  unfold allowed_origin, given. destruct (header_get _ _) as [o|]; [|done].
  by destruct (decide (o = "")).
Qed.

(** The preflight request of a browser before a cross-origin request with
    the method [POST]: with any origin and on any path that has a rule it is
    answered 200, with the list of all methods. *)
Lemma preflight_allowed clock hr d method :
  req_method (h_request hr) = "OPTIONS" ->
  route "OPTIONS" (req_path (h_request hr)) = Options ->
  header_get (h_headers hr) ACL_REQUEST_METHOD = Some method -> method <> "" ->
  is_infix (str_upper method) (serialized_methods cors) = true ->
  exists resp,
    full_dispatch clock hr d = (d, Ok resp) /\ status (h_response resp) = 200%Z /\
    header_get (h_out resp) ACL_METHODS = Some (serialized_methods cors).
Proof.
  intros Hm Hroute Hacl Hne Hin. unfold full_dispatch. rewrite Hm, Hroute.
  eexists. split_and!; [done..|]. unfold process_response; cbn [h_out].
  rewrite cors_after_request_fresh by done. rewrite header_get_app, Hm. cbn [make_response h_out].
  change (header_get [_] ACL_METHODS) with (@None string).
  by apply (preflight_methods _ method).
Qed.

(** [HEAD] goes where [GET] goes, for every path. *)
Lemma route_head path : route "HEAD" path = route "GET" path.
Proof.
  unfold route. destruct (filter _ url_map) as [|[[p ms] e] rest] eqn:Hf; [done|].
  assert ((p, ms, e) ∈ filter (fun r => rule_matches r path = true) url_map) as Hin
    by (rewrite Hf; left).
  apply list_elem_of_filter in Hin as [_ Hin]. unfold url_map in Hin.
  repeat (apply elem_of_cons in Hin as [[= -> -> ->]|Hin]; [by vm_compute|]).
  by apply elem_of_nil in Hin.
Qed.

(** No view reads the method of the request. *)
Lemma view_with_method e clock m hr d :
  view e clock (h_request (with_method m hr)) d = view e clock (h_request hr) d.
Proof. destruct hr as [[m' p a j] h]. by destruct e. Qed.

Lemma handle_head clock hr d :
  req_method (h_request hr) = "HEAD" ->
  handle clock (h_request (with_method "GET" hr)) d = handle clock (h_request hr) d.
Proof.
  intros Hm. unfold handle.
  change (req_method (h_request (with_method "GET" hr))) with "GET".
  change (req_path (h_request (with_method "GET" hr))) with (req_path (h_request hr)).
  rewrite Hm, route_head. destruct (route "GET" _) as [e| | |]; [|done..].
  by rewrite (view_with_method e clock "GET").
Qed.

(** A [HEAD] request is the [GET] request without the body of the
    answer: the view runs, on the database as well, and the status and the
    headers are those of the [GET]. *)
Lemma head_as_get clock hr d :
  req_method (h_request hr) = "HEAD" ->
  wsgi_app clock hr d =
    ((full_dispatch clock (with_method "GET" hr) d).1,
     bodiless <$> (full_dispatch clock (with_method "GET" hr) d).2).
Proof.
  intros Hm. unfold wsgi_app. rewrite !full_dispatch_spec, handle_head by done.
  destruct (handle clock (h_request hr) d) as [d' [r|x]]; [|done]. cbn [fst snd].
  cbn [fmap result_fmap compose]. unfold sent, bodiless, process_response.
  rewrite decide_True, Hm by done.
  cbn [h_response h_out with_method h_request req_method h_headers].
  by rewrite (cors_after_request_method _ _ "HEAD" "GET").
Qed.

End cors_claims.

(** ** From the text of a request to its answer *)

Section received_lemmas.
Context `{Spatial} `{!SqlText} `{!Flask} (unread : option exn) (failed : exn -> exn).
Implicit Types (hr : http_request) (h : headers) (a : multidict).

Lemma received_Some m path query h loads hr :
  received unread failed m path query h loads = Some hr ->
  h_headers hr = h /\
  h_request hr = Request m path (query_pairs query) (get_json unread failed h loads).
Proof.
  unfold received. destruct (parse_qs query) as [a|] eqn:Ha; [|done].
  apply parse_qs_Some in Ha as ->. by intros [= <-].
Qed.

(** The query [urlencode] writes for arguments of ASCII text is received
    as those arguments. *)
Lemma received_urlencode m path a h loads :
  forallb ascii_pair a = true ->
  received unread failed m path (urlencode a) h loads =
    Some (HttpRequest (Request m path a (get_json unread failed h loads)) h).
Proof. intros Ha. unfold received. by rewrite parse_qs_urlencode. Qed.

(** What is sent for a request other than [HEAD] is the answer of
    [App.handle] with the headers. *)
Lemma wsgi_app_handle clock hr d r :
  req_method (h_request hr) <> "HEAD" -> handle clock (h_request hr) d = (d, Ok r) ->
  wsgi_app clock hr d = (d, Ok (process_response hr (make_response r))).
Proof.
  intros Hm Hh. unfold wsgi_app. rewrite full_dispatch_spec, Hh; cbn [fst snd].
  cbn [fmap result_fmap compose]. unfold sent. by rewrite decide_False.
Qed.

(** An insert whose body is not read as JSON, for its content type or
    for its text, is answered 500, with the headers of every answer, and
    stores nothing. *)
Lemma insert_unread_body clock query h loads hr d :
  received unread failed "POST" "/api/properties" query h loads = Some hr ->
  is_json (mimetype_of h) = false \/ is_ok loads = false ->
  wsgi_app clock hr d = (d, Ok (process_response hr (make_response add_error))).
Proof.
  intros [Hh Hreq]%received_Some Hun. apply wsgi_app_handle; rewrite Hreq; [done|].
  unfold handle; cbn [req_method req_path].
  change (route "POST" "/api/properties") with (Routed EAddProperty). cbn [view].
  by rewrite (add_unread_body unread failed _ _ h loads).
Qed.

End received_lemmas.

(** ** Examples on the sample database *)

Import Exact.

(** A page of another site. *)
Definition elsewhere : headers := [("Origin", "https://elsewhere.example")].

(** The search, asked by a page of another site: the answer of the handler,
    with the headers that let the page read it. *)
Example search_cross_origin :
  (h_out <$> (full_dispatch noon (HttpRequest (get "/api/properties/search" []) elsewhere)
                            sample_db).2) =
    Ok [("Content-Type", "application/json");
        ("Access-Control-Allow-Origin", "https://elsewhere.example");
        ("Vary", "Origin")].
Proof. reflexivity. Qed.

(** The preflight request before the insert. *)
Definition preflight : http_request :=
  HttpRequest (Request "OPTIONS" "/api/properties" [] (Ok VNone))
    (elsewhere ++ [("Access-Control-Request-Method", "POST");
                   ("Access-Control-Request-Headers", "content-type")]).

Example preflight_insert :
  full_dispatch noon preflight sample_db =
    (sample_db,
     Ok (HttpResponse (Response 200 (BHtml ""))
           [("Content-Type", "text/html; charset=utf-8");
            ("Access-Control-Allow-Origin", "https://elsewhere.example");
            ("Access-Control-Allow-Headers", "content-type");
            ("Access-Control-Allow-Methods", "DELETE, GET, HEAD, OPTIONS, PATCH, POST, PUT");
            ("Vary", "Origin")])).
Proof. reflexivity. Qed.

Lemma preflight_allowed_witness :
  exists resp,
    full_dispatch noon preflight sample_db = (sample_db, Ok resp) /\
    status (h_response resp) = 200%Z /\
    header_get (h_out resp) ACL_METHODS = Some (serialized_methods cors).
Proof. by apply (preflight_allowed noon preflight sample_db "POST"). Defined.

(** The insert as a form sends it, and as a client that writes JSON and
    says so: the first is answered 500 whatever its data, the second is
    stored. *)
Definition form : headers := [("Content-Type", "application/x-www-form-urlencoded")].

Definition typed : headers := [("Content-Type", "application/json; charset=utf-8")].

Lemma insert_unread_body_witness :
  wsgi_app noon (HttpRequest (Request "POST" "/api/properties" []
                                (get_json (Some unsupported_media_type) (fun _ => bad_request)
                                   form (Ok (VDict main_st_fields)))) form) sample_db =
    (sample_db,
     Ok (HttpResponse add_error
           [("Content-Type", "application/json"); ("Access-Control-Allow-Origin", "*")])).
Proof.
  by apply (insert_unread_body (Some unsupported_media_type) (fun _ => bad_request) noon
              "" form (Ok (VDict main_st_fields))); [|left].
Defined.

Example insert_typed_body :
  option_map (fun hr => (wsgi_app noon hr sample_db).2)
    (received None (fun _ => bad_request) "POST" "/api/properties" "" typed
       (Ok (VDict main_st_fields))) =
    Some (Ok (HttpResponse (add_created 5)
                [("Content-Type", "application/json");
                 ("Access-Control-Allow-Origin", "*")])).
Proof. reflexivity. Qed.

(** The search, from the text of its query. *)
Example search_from_text :
  option_map (fun hr => (h_request hr, status ∘ h_response <$> (wsgi_app noon hr sample_db).2))
    (received None (fun _ => bad_request) "GET" "/api/properties/search"
       "price_min=500000&property_type=HOUSE" [] (raise ValueError "Expecting value")) =
    Some (Request "GET" "/api/properties/search"
            [("price_min", "500000"); ("property_type", "HOUSE")] (Ok VNone),
          Ok 200%Z).
Proof. reflexivity. Qed.

(** A request without an origin is answered with the wildcard, and a file
    that is not there with the answer of the 404 handler. *)
Example static_missing :
  wsgi_app noon (HttpRequest (get "/static/app.js" []) []) sample_db =
    (sample_db,
     Ok (HttpResponse endpoint_missing
           [("Content-Type", "application/json"); ("Access-Control-Allow-Origin", "*")])).
Proof. reflexivity. Qed.

(** The rule of the static files has no [POST]. *)
Example static_routes :
  route "POST" "/static/app.js" = MethodNotAllowed /\
  route "GET" "/static/" = NotFound /\ route "GET" "/static//app.js" = NotFound /\
  route "OPTIONS" "/static/css/site.css" = Options.
Proof. by vm_compute. Qed.
