(* ===== verification/Logging.v ===== *)
(** * Logging: the levels, the configuration of the module and the records

    [src/app.py] configures the root logger once, when the module is loaded
    (lines 22-23), and writes to it at six places: the failure of a
    connection (line 39), the [except Exception] clauses of the four
    handlers that use the database (lines 163, 222, 288 and 332) and the
    start of the development server (line 350).

    A record is the level and the message of a call; the text of the line
    ([levelname:name:message], where the name is that of the module as it
    was loaded) and the stream it goes to are left to the library.  The
    log of a run is the list of the records it emitted, oldest first. *)

From Stdlib Require Import ZArith Lia.
From stdpp Require Import base tactics option list strings.
From S2P Require Import Prelude PyValue.

(** The levels of [logging], with their numbers. *)
Inductive level := DEBUG | INFO | WARNING | ERROR | CRITICAL.

#[export] Instance level_eq_dec : EqDecision level.
Proof. solve_decision. Defined.

Definition level_no (l : level) : Z :=
  match l with
  | DEBUG => 10
  | INFO => 20
  | WARNING => 30
  | ERROR => 40
  | CRITICAL => 50
  end.

(** One call that was let through. *)
Record log_record := LogRecord { rec_level : level; rec_msg : string }.

#[export] Instance log_record_eq_dec : EqDecision log_record.
Proof. solve_decision. Defined.

(** Line 22: [logging.basicConfig(level=logging.INFO)], the level of the
    root logger. *)
Definition root_level : level := INFO.

(** Line 23: [logger = logging.getLogger(__name__)]: a logger without a
    level of its own, which takes the level of the root. *)
Definition logger_level : option level := None.

(** [logger.getEffectiveLevel()] and [logger.isEnabledFor(l)] *)
Definition effective_level : level := default root_level logger_level.

Definition is_enabled_for (l : level) : bool :=
  bool_decide (level_no effective_level <= level_no l)%Z.

(** [logger.log(l, msg)]: what reaches the handler of the root logger. *)
Definition emit (l : level) (msg : string) : list log_record :=
  if is_enabled_for l then [LogRecord l msg] else [].

(** The messages of the handlers, [f"<text>: {e}"]: the text and [str(e)]. *)
Definition failure_msg (text : string) (e : exn) : string :=
  text +:+ str_of_exn e.

(** ** What the configuration lets through *)

Lemma level_no_inj : Inj (=) (=) level_no.
Proof. intros [] []; by try done. Qed.

(** A call is let through exactly from [INFO] up. *)
Lemma is_enabled_for_spec l : is_enabled_for l = bool_decide (l <> DEBUG).
Proof. by destruct l. Qed.

Lemma emit_error msg : emit ERROR msg = [LogRecord ERROR msg].
Proof. done. Qed.

Lemma emit_info msg : emit INFO msg = [LogRecord INFO msg].
Proof. done. Qed.

Lemma emit_debug msg : emit DEBUG msg = [].
Proof. done. Qed.
