(* ===== verification/Prog.v ===== *)
(** * The handlers as programs over the database

    A handler of [src/app.py] talks to the database through psycopg2: it
    opens a connection, executes statements, commits, and the connection's
    context manager commits or rolls back when the block ends; what goes
    wrong it writes to the log ([Logging]).  Here each
    handler is written once more as a tree of those requests ([prog], in the
    style of interaction trees: an event with the type of its answer, and a
    continuation), so that the requests of different handlers can be
    interleaved ([Concurrent]).

    The meaning of an event is given on the shared database and the rows the
    transaction has written and not committed ([handle_event]), and by the
    records it adds to the log ([event_log]).  Run alone
    from start to end ([run]), the program of a request is the handler of
    [App] ([run_handle]): the functions of the other files are the programs
    under the schedule that lets each request finish before the next
    starts. *)

From Stdlib Require Import ZArith Lia.
From stdpp Require Import base tactics option list strings.
From S2P Require Import Prelude PyValue PyBuiltins Serializer Flask Sql Bind Store Psycopg.
From S2P Require Import Config Search Nearby Insert Health Home App Logging.

(** ** Programs *)

Section programs.
Context `{Spatial} `{!SqlText}.

(** What a handler asks of psycopg2 and of the logger, with the type of
    the answer: [psycopg2.connect] and [cursor.execute] return or raise,
    [commit], [rollback] and [logger.log] return. *)
Inductive dbE : Type -> Type :=
| Connect : dbE (py unit)
| Execute (sql : string) (args : option (list pyval)) : dbE (py (list row))
| Commit : dbE unit
| Rollback : dbE unit
| Log (l : level) (msg : string) : dbE unit.

(** A program: it returns, raises, or asks and goes on with the answer. *)
Inductive prog (A : Type) : Type :=
| Ret (a : A)
| Raise (e : exn)
| Vis {T : Type} (ev : dbE T) (k : T -> prog A).

Arguments Ret {A} a.
Arguments Raise {A} e.
Arguments Vis {A T} ev k.

Fixpoint pbind {A B} (p : prog A) (f : A -> prog B) : prog B :=
  match p with
  | Ret a => f a
  | Raise e => Raise e
  | Vis ev k => Vis ev (fun x => pbind (k x) f)
  end.

#[export] Instance prog_ret : MRet prog := @Ret.
#[export] Instance prog_bind : MBind prog := fun _ _ f p => pbind p f.

(** [try: p except Exception as e: h e] *)
Fixpoint catch {A} (p : prog A) (h : exn -> prog A) : prog A :=
  match p with
  | Ret a => Ret a
  | Raise e => h e
  | Vis ev k => Vis ev (fun x => catch (k x) h)
  end.

(** A computation that does not ask anything. *)
Definition liftp {A} (m : py A) : prog A :=
  match m with
  | Ok a => Ret a
  | Err e => Raise e
  end.

Definition log_error (msg : string) : prog unit := Vis (Log ERROR msg) Ret.
Definition log_info (msg : string) : prog unit := Vis (Log INFO msg) Ret.

(** Lines 33-40, [get_db_connection()]: an error of psycopg2 is logged
    and raised again. *)
Definition db_connect : prog unit :=
  Vis Connect (fun r =>
    match r with
    | Ok _ => Ret ()
    | Err e =>
        (if bool_decide (exn_cls e = DbError)
         then log_error (failure_msg "Database connection failed: " e)
         else Ret ());;
        Raise e
    end).
Definition db_execute (sql : string) (args : option (list pyval)) : prog (list row) :=
  Vis (Execute sql args) liftp.
Definition db_commit : prog unit := Vis Commit Ret.
Definition db_rollback : prog unit := Vis Rollback Ret.

(** [with get_db_connection() as conn: body]: the connection commits when
    the block returns, and rolls back and raises again when it raises. *)
Definition with_conn {A} (body : prog A) : prog A :=
  db_connect;;
  catch (a ← body; db_commit;; Ret a) (fun e => db_rollback;; Raise e).

(** ** The meaning of the events *)

(** The connection of a transaction: it sees the committed rows and, after
    them, the rows it has written itself. *)
Definition tx_conn (d : db) (pending : list property) : conn :=
  Conn d (db_rows d ++ pending) (db_next_id d).

(** One event of a transaction, on the shared database [d] and the rows
    [pending] of the transaction: the database and the transaction's rows
    afterwards, and the answer.  A value taken from the sequence is taken
    for good, whatever becomes of the transaction; rows reach the table at
    the commit. *)
Definition handle_event {T} (ev : dbE T) (d : db) (pending : list property)
    : db * list property * T :=
  match ev in dbE T return db * list property * T with
  | Connect => (d, [], (fun _ => ()) <$> get_db_connection d)
  | Execute sql args =>
      let '(c, r) := execute sql args (tx_conn d pending) in
      (set_rows d (db_rows d) (c_next_id c), drop (length (db_rows d)) (c_rows c), r)
  | Commit => (set_rows d (db_rows d ++ pending) (db_next_id d), [], ())
  | Rollback => (d, [], ())
  | Log _ _ => (d, pending, ())
  end.

(** The records an event adds to the log. *)
Definition event_log {T} (ev : dbE T) : list log_record :=
  match ev with
  | Log l msg => emit l msg
  | _ => []
  end.

(** A program run from start to end with nothing in between. *)
Fixpoint run {A} (p : prog A) (d : db) (pending : list property)
    : db * list property * py A :=
  match p with
  | Ret a => (d, pending, Ok a)
  | Raise e => (d, pending, Err e)
  | Vis ev k =>
      let '(d', pending', x) := handle_event ev d pending in
      run (k x) d' pending'
  end.

(** The log of that run. *)
Fixpoint run_log {A} (p : prog A) (d : db) (pending : list property)
    : list log_record :=
  match p with
  | Vis ev k =>
      let '(d', pending', x) := handle_event ev d pending in
      event_log ev ++ run_log (k x) d' pending'
  | _ => []
  end.

(** The same events on one connection of [Psycopg]. *)
Definition interp_event {T} (ev : dbE T) (c : conn) : conn * T :=
  match ev in dbE T return conn * T with
  | Connect => (c, Ok ())
  | Execute sql args => execute sql args c
  | Commit => (conn_commit c, ())
  | Rollback => (conn_rollback c, ())
  | Log _ _ => (c, ())
  end.

Fixpoint interp {A} (p : prog A) : dbm A := fun c =>
  match p with
  | Ret a => (c, Ok a)
  | Raise e => (c, Err e)
  | Vis ev k => let '(c', x) := interp_event ev c in interp (k x) c'
  end.

(** A program of a block: it neither connects nor rolls back, and logs
    nothing. *)
Inductive block {A} : prog A -> Prop :=
| block_ret a : block (Ret a)
| block_raise e : block (Raise e)
| block_execute sql args k : (forall r, block (k r)) -> block (Vis (Execute sql args) k)
| block_commit k : block (k ()) -> block (Vis Commit k).

End programs.

Arguments Ret {_ A} a.
Arguments Raise {_ A} e.
Arguments Vis {_ A T} ev k.

(** ** The programs of the handlers *)

Section handlers.
Context `{Spatial} `{!SqlText} `{!Flask}.

(** [search_properties], lines 271-285 and 225-289. *)
Definition search_block_prog (f : filters) : prog response :=
  let '(conditions, params) := build_search f in
  properties ← db_execute (search_sql conditions) (Some params);
  liftp (json_response_default 200 (search_answer f properties) serialize_result).

Definition search_prog (req : request) : prog response :=
  catch (f ← liftp (parse_filters (req_args req)); with_conn (search_block_prog f))
        (fun e => log_error (failure_msg "Property search failed: " e);;
                  liftp search_failed).

(** [find_nearby_properties], lines 180-217 and 171-223. *)
Definition nearby_block_prog (q : nearby_args) : prog response :=
  properties ← db_execute nearby_sql (Some (nearby_params q));
  liftp (json_response_default 200 (nearby_answer q properties) serialize_result).

Definition nearby_prog (req : request) : prog response :=
  catch (q ← liftp (parse_nearby (req_args req)); with_conn (nearby_block_prog q))
        (fun e => if is_value_error e then liftp (nearby_except e)
                  else log_error (failure_msg "Nearby search failed: " e);;
                       liftp (nearby_except e)).

(** [add_property], lines 301-329 and 291-333. *)
Definition add_block_prog (data : pyval) : prog response :=
  params ← liftp (insert_params data);
  rows ← db_execute insert_sql (Some params);
  new_id ← liftp (py_getitem (fetchone rows) "id");
  db_commit;;
  liftp (json_response 201 (added new_id)).

Definition add_prog (req : request) : prog response :=
  catch (data ← liftp (req_json req);
         ok ← liftp (has_required data);
         if ok : bool then with_conn (add_block_prog data)
         else liftp (json_response 400 (VDict [("error", VStr "Missing required fields")])))
        (fun e => log_error (failure_msg "Add property failed: " e);;
                  liftp add_failed).

(** [health_check], lines 122-161 and 118-168. *)
Definition health_block_prog (clock : datetime) : prog response :=
  rows ← db_execute health_info_sql None;
  let db_info := fetchone rows in
  rows ← db_execute postgis_version_sql None;
  postgis_version ← liftp (py_getitem (fetchone rows) "postgis_version");
  rows ← db_execute counts_sql None;
  let spatial_stats := fetchone rows in
  liftp (health_report clock db_info postgis_version spatial_stats ≫= json_response 200).

Definition health_prog (clock : datetime) : prog response :=
  catch (with_conn (health_block_prog clock))
        (fun e => log_error (failure_msg "Health check failed: " e);;
                  liftp (health_failed clock e)).

(** The program of a view. *)
Definition view_prog (e : endpoint) (clock : datetime) (req : request) : prog response :=
  match e with
  | EHome => liftp home
  | EHealth => health_prog clock
  | ENearby => nearby_prog req
  | ESearch => search_prog req
  | EAddProperty => add_prog req
  | EStatic => liftp not_found
  end.

(** The program of a request: Flask's dispatch around the view.  An
    exception that leaves the view is logged by Flask ([log_exception])
    before the handler of 500 answers. *)
Definition handle_prog (clock : datetime) (req : request) : prog response :=
  match route (req_method req) (req_path req) with
  | Routed e =>
      catch (view_prog e clock req)
            (fun _ => log_error ("Exception on " +:+ req_path req +:+
                                 " [" +:+ req_method req +:+ "]");;
                      liftp internal_error)
  | Options => Ret (Response 200 (BHtml ""))
  | MethodNotAllowed => Ret (Response 405 (BPage 405))
  | NotFound => liftp not_found
  end.

(** What a request writes to the log when nothing happens in between. *)
Definition handle_log (clock : datetime) (req : request) (d : db) : list log_record :=
  run_log (handle_prog clock req) d [].

(** Lines 347-351, the script: the arguments of [app.run], announced in
    the log. *)
Definition main_prog (env : environ) : prog server :=
  port ← liftp (match env "PORT" with Some s => py_int s | None => Ok 5000%Z end);
  let debug := bool_decide (env "FLASK_ENV" = Some "development") in
  log_info ("Starting postgis-property-search-demo-py API server on port "
            +:+ str_of_int port);;
  Ret (Server "0.0.0.0" port debug).

End handlers.

(** ** Laws of [run] and [interp] *)

Section run_lemmas.
Context `{Spatial} `{!SqlText}.

Lemma run_bind {A B} (p : prog A) (f : A -> prog B) d pending :
  run (p ≫= f) d pending =
    match run p d pending with
    | (d', pending', Ok a) => run (f a) d' pending'
    | (d', pending', Err e) => (d', pending', Err e)
    end.
Proof.
  change (p ≫= f) with (pbind p f). revert d pending.
  induction p as [a|e|T ev k IH]; intros d pending; [done..|]. simpl.
  destruct (handle_event ev d pending) as [[d' pending'] x]. apply IH.
Qed.

Lemma run_catch {A} (p : prog A) (h : exn -> prog A) d pending :
  run (catch p h) d pending =
    match run p d pending with
    | (d', pending', Ok a) => (d', pending', Ok a)
    | (d', pending', Err e) => run (h e) d' pending'
    end.
Proof.
  revert d pending. induction p as [a|e|T ev k IH]; intros d pending; [done..|]. simpl.
  destruct (handle_event ev d pending) as [[d' pending'] x]. apply IH.
Qed.

Lemma run_liftp {A} (m : py A) d pending : run (liftp m) d pending = (d, pending, m).
Proof. by destruct m. Qed.

(** Logging changes neither the database nor the answer. *)
Lemma run_log_error {A} msg (p : prog A) d pending :
  run (log_error msg;; p) d pending = run p d pending.
Proof. done. Qed.

Lemma run_log_bind {A B} (p : prog A) (f : A -> prog B) d pending :
  run_log (p ≫= f) d pending =
    run_log p d pending ++
    match run p d pending with
    | (d', pending', Ok a) => run_log (f a) d' pending'
    | _ => []
    end.
Proof.
  change (p ≫= f) with (pbind p f). revert d pending.
  induction p as [a|e|T ev k IH]; intros d pending; [done..|]. simpl.
  destruct (handle_event ev d pending) as [[d' pending'] x].
  by rewrite IH, (assoc_L (++)).
Qed.

Lemma run_log_catch {A} (p : prog A) (h : exn -> prog A) d pending :
  run_log (catch p h) d pending =
    run_log p d pending ++
    match run p d pending with
    | (d', pending', Err e) => run_log (h e) d' pending'
    | _ => []
    end.
Proof.
  revert d pending. induction p as [a|e|T ev k IH]; intros d pending;
    [by rewrite ?app_nil_r..|]. simpl.
  destruct (handle_event ev d pending) as [[d' pending'] x].
  by rewrite IH, (assoc_L (++)).
Qed.

Lemma run_log_liftp {A} (m : py A) d pending : run_log (liftp m) d pending = [].
Proof. by destruct m. Qed.

Lemma run_log_log_error {A} msg (p : prog A) d pending :
  run_log (log_error msg;; p) d pending = LogRecord ERROR msg :: run_log p d pending.
Proof. done. Qed.

Lemma interp_bind {A B} (p : prog A) (f : A -> prog B) c :
  interp (p ≫= f) c = (interp p ≫= fun a => interp (f a)) c.
Proof.
  change (p ≫= f) with (pbind p f). unfold mbind, dbm_bind. revert c.
  induction p as [a|e|T ev k IH]; intros c; [done..|]. simpl.
  destruct (interp_event ev c) as [c' x]. apply IH.
Qed.

Lemma interp_liftp {A} (m : py A) c : interp (liftp m) c = lift m c.
Proof. by destruct m. Qed.

Lemma interp_execute sql args c : interp (db_execute sql args) c = execute sql args c.
Proof. simpl. by destruct (execute sql args c) as [c' []]. Qed.

Lemma interp_commit c : interp db_commit c = commit c.
Proof. done. Qed.

(** Binds of blocks that agree on every connection agree. *)
Lemma dbm_bind_ext {A B} (m1 m2 : dbm A) (k1 k2 : A -> dbm B) c :
  (forall c', m1 c' = m2 c') -> (forall a c', k1 a c' = k2 a c') ->
  (m1 ≫= k1) c = (m2 ≫= k2) c.
Proof. intros Hm Hk. unfold mbind, dbm_bind. rewrite Hm. by destruct (m2 c) as [c' []]. Qed.

Lemma with_connection_ext {A} d (b1 b2 : dbm A) :
  (forall c, b1 c = b2 c) -> with_connection d b1 = with_connection d b2.
Proof. intros Hb. unfold with_connection. destruct (get_db_connection d); by rewrite ?Hb. Qed.

End run_lemmas.

(** Turns [interp] of a program written with the monad into the block of
    [Psycopg] written with the monad. *)
Ltac interp_block :=
  cbv zeta;
  first [ apply interp_execute | apply interp_commit | apply interp_liftp
        | rewrite interp_bind; apply dbm_bind_ext; [intros ?|intros ??]; interp_block ].

(** ** A transaction on the shared database and a connection of [Psycopg] *)

Section simulation.
Context `{Spatial} `{!SqlText}.

(** The connection [c] is the transaction with the rows [pending] on [d]:
    it sees the same rows and the same sequence, the database it was opened
    on has the committed rows and the environment of [d], and is [d] when
    nothing is pending. *)
Definition tracks (d : db) (pending : list property) (c : conn) : Prop :=
  c_rows c = db_rows d ++ pending /\ c_next_id c = db_next_id d /\
  same_env (c_db c) d /\ db_rows (c_db c) = db_rows d /\
  (pending = [] -> c_db c = d).

Lemma tracks_init d : tracks d [] (Conn d (db_rows d) (db_next_id d)).
Proof. unfold tracks; simpl. by rewrite app_nil_r. Qed.

Lemma tracks_execute sql args d pending c :
  tracks d pending c ->
  (handle_event (Execute sql args) d pending).2 = (execute sql args c).2 /\
  tracks (handle_event (Execute sql args) d pending).1.1
         (handle_event (Execute sql args) d pending).1.2 (execute sql args c).1.
Proof.
  intros (Hrows & Hnext & Henv & Hdb & Hclean). unfold handle_event, tx_conn.
  rewrite <-Hrows, <-Hnext, (execute_env _ _ c d Henv).
  pose proof (execute_c_db sql args c) as Hc.
  destruct (execute_shape sql args c) as [Hs|(p & Hs & _)];
    destruct (execute sql args c) as [c' r]; simpl in *; subst c'; simpl.
  - split; [done|]. rewrite Hrows, drop_app_length, Hnext, set_rows_same. by repeat split.
  - split; [done|]. rewrite Hrows, <-(assoc_L (++)), drop_app_length.
    repeat split; simpl; try done. by intros ?%app_eq_nil%proj2.
Qed.

Lemma tracks_commit d pending c :
  tracks d pending c ->
  tracks (set_rows d (db_rows d ++ pending) (db_next_id d)) [] (conn_commit c).
Proof.
  intros (Hrows & Hnext & Henv & Hdb & Hclean). unfold conn_commit, tracks; simpl.
  rewrite app_nil_r, Hrows, Hnext.
  repeat split; try done. intros _. by apply set_rows_env.
Qed.

(** The program of a block, run as one transaction, is the block on the
    connection. *)
Lemma run_interp {A} (p : prog A) d pending c :
  block p -> tracks d pending c ->
  (run p d pending).2 = (interp p c).2 /\
  tracks (run p d pending).1.1 (run p d pending).1.2 (interp p c).1.
Proof.
  intros Hp. revert d pending c.
  induction Hp as [a|e|sql args k _ IH|k _ IH]; intros d pending c Ht; [done..| |].
  - destruct (tracks_execute sql args d pending c Ht) as [Hr Ht'].
    cbn [run interp interp_event].
    destruct (handle_event _ d pending) as [[d' pending'] r].
    destruct (execute sql args c) as [c' r']. simpl in Hr, Ht'. subst r'.
    by apply IH.
  - cbn [run interp interp_event handle_event]. by apply IH, tracks_commit.
Qed.

(** The block under [with]: when the block leaves the connection as it
    found it whenever it raises, the program is [Psycopg.with_connection]. *)
Lemma run_with_conn {A} (body : prog A) d :
  block body ->
  (forall c e, (interp body c).2 = Err e -> (interp body c).1 = c) ->
  run (with_conn body) d [] =
    ((with_connection d (interp body)).1, [], (with_connection d (interp body)).2).
Proof.
  intros Hb Hclean. unfold with_conn, db_connect, with_connection, get_db_connection.
  rewrite run_bind. cbn [run handle_event]. unfold get_db_connection.
  destruct (db_up d); [|done]. cbn [fmap result_fmap liftp run].
  rewrite run_catch, run_bind.
  destruct (run_interp body d [] _ Hb (tracks_init d)) as [Hr Ht].
  specialize (Hclean (Conn d (db_rows d) (db_next_id d))).
  destruct (run body d []) as [[d' pending'] r].
  destruct (interp body _) as [c' r']. simpl in Hr, Ht, Hclean. subst r'.
  destruct Ht as (Hrows & Hnext & Henv & Hdb & Hc). destruct r as [a|e]; simpl.
  - unfold conn_commit; simpl. rewrite Hrows, Hnext. by rewrite (set_rows_env _ _ _ _ Henv).
  - rewrite (Hclean e eq_refl) in *. simpl in *.
    assert (pending' = []) as ->.
    { apply (app_inv_head (db_rows d')). by rewrite app_nil_r, <-Hrows, Hdb. }
    by rewrite Hc.
Qed.

End simulation.

(** ** The programs are the handlers *)

Section agreement.
Context `{Spatial} `{!SqlText} `{!Flask}.

Lemma block_liftp {A} (m : py A) : block (liftp m).
Proof. destruct m; constructor. Qed.

Lemma block_bind {A B} (p : prog A) (f : A -> prog B) :
  block p -> (forall a, block (f a)) -> block (p ≫= f).
Proof.
  intros Hp Hf. change (p ≫= f) with (pbind p f).
  induction Hp; simpl; [done|constructor..]; done.
Qed.

Lemma block_execute_bind {B} sql args (f : list row -> prog B) :
  (forall rows, block (f rows)) -> block (db_execute sql args ≫= f).
Proof. intros Hf. apply block_bind; [|done]. constructor. intros r. apply block_liftp. Qed.

Lemma search_block_interp f c : interp (search_block_prog f) c = search_block f c.
Proof. unfold search_block_prog, search_block. destruct (build_search f). interp_block. Qed.

Lemma nearby_block_interp q c : interp (nearby_block_prog q) c = nearby_block q c.
Proof. unfold nearby_block_prog, nearby_block. interp_block. Qed.

Lemma add_block_interp data c : interp (add_block_prog data) c = add_block data c.
Proof. unfold add_block_prog, add_block. interp_block. Qed.

Lemma health_block_interp clock c : interp (health_block_prog clock) c = health_block clock c.
Proof. unfold health_block_prog, health_block. interp_block. Qed.

Lemma search_block_block f : block (search_block_prog f).
Proof.
  unfold search_block_prog. destruct (build_search f).
  apply block_execute_bind. intros rows. apply block_liftp.
Qed.

Lemma nearby_block_block q : block (nearby_block_prog q).
Proof. apply block_execute_bind. intros rows. apply block_liftp. Qed.

Lemma add_block_block data : block (add_block_prog data).
Proof.
  unfold add_block_prog. apply block_bind; [apply block_liftp|]. intros params.
  apply block_execute_bind. intros rows. apply block_bind; [apply block_liftp|].
  intros new_id. apply block_bind; [by repeat constructor|]. intros _. apply block_liftp.
Qed.

Lemma health_block_block clock : block (health_block_prog clock).
Proof.
  unfold health_block_prog. apply block_execute_bind. intros r1.
  apply block_execute_bind. intros r2. apply block_bind; [apply block_liftp|].
  intros v. apply block_execute_bind. intros r3. apply block_liftp.
Qed.

End agreement.

(** ** Run alone, a program is its handler *)

Section alone.
Context `{Spatial} `{!SqlText} `{!Flask}.

(** A block that raises leaves its connection as it found it. *)
Definition clean {A} (body : dbm A) : Prop :=
  forall c e, (body c).2 = Err e -> (body c).1 = c.

Lemma search_block_clean f : clean (search_block f).
Proof. intros c e _. by rewrite search_block_spec. Qed.

Lemma nearby_block_clean q : clean (nearby_block q).
Proof.
  intros c e _. unfold nearby_block, mbind, dbm_bind. rewrite execute_nearby_params.
  by destruct (_ <$> _).
Qed.

Lemma health_block_clean clock : clean (health_block clock).
Proof. intros c e _. by rewrite health_block_spec. Qed.

Lemma add_block_clean data : clean (add_block data).
Proof.
  intros c e. destruct (conn_row c data) as [p|e'] eqn:Hp.
  - by rewrite (add_block_Ok _ _ _ Hp).
  - destruct (add_block_Err _ _ _ Hp) as [e'' ->]. done.
Qed.

(** The block of a handler under [with], as a program and in [Psycopg]. *)
Lemma run_block {A} (p : prog A) (body : dbm A) d :
  block p -> (forall c, interp p c = body c) -> clean body ->
  run (with_conn p) d [] = ((with_connection d body).1, [], (with_connection d body).2).
Proof.
  intros Hp Hi Hc. rewrite run_with_conn; [|done|].
  - by rewrite (with_connection_ext _ _ body).
  - intros c e. rewrite Hi. apply Hc.
Qed.

Lemma run_search req d :
  run (search_prog req) d [] = ((search_properties req d).1, [], (search_properties req d).2).
Proof.
  unfold search_prog, search_properties, search_try. rewrite run_catch, run_bind, run_liftp.
  destruct (parse_filters _) as [f|e]; [|by rewrite run_log_error, run_liftp].
  rewrite (run_block _ (search_block f));
    [|apply search_block_block|apply search_block_interp|apply search_block_clean].
  destruct (with_connection d (search_block f)) as [d' [r|e]]; [done|].
  cbn [fst snd]. by rewrite run_log_error, run_liftp.
Qed.

Lemma run_nearby_except e d pending :
  run (if is_value_error e then liftp (nearby_except e)
       else log_error (failure_msg "Nearby search failed: " e);; liftp (nearby_except e))
      d pending = (d, pending, nearby_except e).
Proof. destruct (is_value_error e); by rewrite ?run_log_error, run_liftp. Qed.

Lemma run_nearby req d :
  run (nearby_prog req) d [] =
    ((find_nearby_properties req d).1, [], (find_nearby_properties req d).2).
Proof.
  unfold nearby_prog, find_nearby_properties, nearby_try.
  rewrite run_catch, run_bind, run_liftp.
  destruct (parse_nearby _) as [q|e]; [|apply run_nearby_except].
  rewrite (run_block _ (nearby_block q));
    [|apply nearby_block_block|apply nearby_block_interp|apply nearby_block_clean].
  destruct (with_connection d (nearby_block q)) as [d' [r|e]]; [done|].
  cbn [fst snd]. by rewrite run_nearby_except.
Qed.

Lemma run_health clock d :
  run (health_prog clock) d [] = ((health_check clock d).1, [], (health_check clock d).2).
Proof.
  unfold health_prog, health_check. rewrite run_catch.
  rewrite (run_block _ (health_block clock));
    [|apply health_block_block|apply health_block_interp|apply health_block_clean].
  destruct (with_connection d (health_block clock)) as [d' [r|e]]; [done|].
  cbn [fst snd]. by rewrite run_log_error, run_liftp.
Qed.

Lemma run_add req d :
  run (add_prog req) d [] = ((add_property req d).1, [], (add_property req d).2).
Proof.
  unfold add_prog, add_property, add_try. rewrite run_catch, run_bind, run_liftp.
  destruct (req_json req) as [data|e]; [|by rewrite run_log_error, run_liftp].
  rewrite run_bind, run_liftp.
  destruct (has_required data) as [[]|e]; [| |by rewrite run_log_error, run_liftp].
  - rewrite (run_block _ (add_block data));
      [|apply add_block_block|apply add_block_interp|apply add_block_clean].
    destruct (with_connection d (add_block data)) as [d' [r|e]]; [done|].
    cbn [fst snd]. by rewrite run_log_error, run_liftp.
  - rewrite run_liftp. destruct (json_response 400 _); [done|].
    by rewrite run_log_error, run_liftp.
Qed.

Lemma run_view_alone e clock req d :
  run (view_prog e clock req) d [] = ((view e clock req d).1, [], (view e clock req d).2).
Proof.
  destruct e; cbn [view_prog view].
  - by rewrite run_liftp.
  - apply run_health.
  - apply run_nearby.
  - apply run_search.
  - apply run_add.
  - by rewrite run_liftp.
Qed.

(** Run from start to end with nothing in between, the program of a request
    leaves the database and gives the answer that [App.handle] gives, with
    no row left uncommitted. *)
Lemma run_handle clock req d :
  run (handle_prog clock req) d [] =
    ((handle clock req d).1, [], (handle clock req d).2).
Proof.
  unfold handle_prog, handle. destruct (route _ _) as [e| | |]; try done.
  - rewrite run_catch, run_view_alone.
    destruct (view e clock req d) as [d' [r|err]]; [done|].
    cbn [fst snd]. by rewrite run_log_error, run_liftp.
  - by rewrite run_liftp.
Qed.

End alone.
