(* ===== verification/Logged.v ===== *)
(** * What a request writes to the log

    The handlers of [src/app.py] log at five places: [get_db_connection]
    when the connection fails (line 39), and each of the four handlers that
    use the database in its [except Exception] clause (lines 163, 222, 288
    and 332).  The [except ValueError] clause of the radius search (lines
    219-220) answers 400 and logs nothing.

    [view_log_spec] gives the log of a handler run alone ([Prog.run_log])
    from the result of its [try] block; the theorems after it say what the
    log tells: a record for every answer 500 of a handler and for nothing
    else, with the text of the exception, which the answers of the search,
    the radius search and the insert do not carry and the answer of the
    health check does. *)

From Stdlib Require Import ZArith Lia.
From stdpp Require Import base tactics option list strings.
From S2P Require Import Prelude PyValue PyBuiltins Serializer Flask Sql Bind Store Psycopg.
From S2P Require Import Exact Search Nearby Insert Health Home App Logging Prog.

Section logged.
Context `{Spatial} `{!SqlText} `{!Flask}.

(** The [try] block of a view: what it returns or raises. *)
Definition view_try (e : endpoint) (clock : datetime) (req : request) (d : db)
    : db * py response :=
  match e with
  | EHome => (d, home)
  | EHealth => with_connection d (health_block clock)
  | ENearby => nearby_try req d
  | ESearch => search_try req d
  | EAddProperty => add_try req d
  | EStatic => (d, not_found)
  end.

(** Whether the view gets as far as asking for a connection. *)
Definition connects (e : endpoint) (req : request) : bool :=
  match e with
  | EHome => false
  | EHealth => true
  | ENearby => is_ok (parse_nearby (req_args req))
  | ESearch => is_ok (parse_filters (req_args req))
  | EAddProperty => bool_decide (req_json req ≫= has_required = Ok true)
  | EStatic => false
  end.

(** Line 39: what [get_db_connection] logs on the database [d]. *)
Definition connection_log (d : db) : list log_record :=
  if db_up d then []
  else emit ERROR (failure_msg "Database connection failed: "
                               (Exn DbError "could not connect to server")).

(** The text a handler starts its record with. *)
Definition handler_text (e : endpoint) : string :=
  match e with
  | EHome => ""
  | EHealth => "Health check failed: "
  | ENearby => "Nearby search failed: "
  | ESearch => "Property search failed: "
  | EAddProperty => "Add property failed: "
  | EStatic => ""
  end.

(** Lines 163, 222, 288 and 332: what the [except] clauses of a view log
    for the exception [x]. *)
Definition except_log (e : endpoint) (x : exn) : list log_record :=
  match e with
  | EHome | EStatic => []
  | ENearby =>
      if is_value_error x then [] else emit ERROR (failure_msg (handler_text e) x)
  | _ => emit ERROR (failure_msg (handler_text e) x)
  end.

(** Lines 164-168, 220, 223, 289 and 333: what the clauses answer. *)
Definition except_answer (e : endpoint) (clock : datetime) (x : exn) : py response :=
  match e with
  | EHome | EStatic => Err x
  | EHealth => health_failed clock x
  | ENearby => nearby_except x
  | ESearch => search_failed
  | EAddProperty => add_failed
  end.

(** The log of a view, from the result of its [try] block. *)
Definition view_log (e : endpoint) (clock : datetime) (req : request) (d : db)
    : list log_record :=
  (if connects e req then connection_log d else []) ++
  match (view_try e clock req d).2 with
  | Ok _ => []
  | Err x => except_log e x
  end.

(** ** The log of a block and of its connection *)

Lemma block_run_log {A} (p : prog A) d pending : block p -> run_log p d pending = [].
Proof.
  intros Hp. revert d pending.
  induction Hp as [a|e|sql args k _ IH|k _ IH]; intros d pending; [done..| |]; simpl.
  - destruct (execute _ _ _) as [c r]. apply IH.
  - apply IH.
Qed.

(** Lines 33-40: the connection, and what it logs. *)
Lemma run_db_connect d pending :
  run db_connect d pending = (d, [], (fun _ => ()) <$> get_db_connection d) /\
  run_log db_connect d pending = connection_log d.
Proof.
  unfold db_connect, connection_log, get_db_connection. simpl.
  unfold get_db_connection. by destruct (db_up d).
Qed.

(** Under [with], the connection is all that logs. *)
Lemma run_log_with_conn {A} (body : prog A) d :
  block body -> run_log (with_conn body) d [] = connection_log d.
Proof.
  intros Hb. unfold with_conn. destruct (run_db_connect d []) as [Hr Hl].
  rewrite run_log_bind, Hr, Hl.
  destruct (_ <$> get_db_connection d) as [[]|x]; [|by rewrite app_nil_r].
  rewrite run_log_catch, run_log_bind, (block_run_log body), run_bind by done.
  destruct (run body d []) as [[d' pending'] [a|x]]; simpl; by rewrite app_nil_r.
Qed.

(** A [try] around a block under [with]: the log of the connection, and
    the log of the clause when the block or the connection raised. *)
Lemma run_log_try_with {A} (p : prog A) (body : dbm A) (h : exn -> prog A) d l :
  block p -> (forall c, interp p c = body c) -> clean body ->
  (forall x d' pending, run_log (h x) d' pending = l x) ->
  run_log (catch (with_conn p) h) d [] =
    connection_log d ++
    match (with_connection d body).2 with
    | Ok _ => []
    | Err x => l x
    end.
Proof.
  intros Hp Hi Hc Hh. rewrite run_log_catch, run_log_with_conn, (run_block p body) by done.
  destruct (with_connection d body) as [d' [a|x]]; simpl; by rewrite ?Hh.
Qed.

(** A computation that asks nothing, before the rest of a [try]. *)
Lemma run_log_try_after {A B} (m : py A) (f : A -> prog B) (h : exn -> prog B) d l :
  (forall x d' pending, run_log (h x) d' pending = l x) ->
  run_log (catch (liftp m ≫= f) h) d [] =
    match m with
    | Ok a => run_log (catch (f a) h) d []
    | Err x => l x
    end.
Proof. intros Hh. destruct m as [a|x]; [done|apply Hh]. Qed.

Lemma run_log_nearby_except x d pending :
  run_log (if is_value_error x then liftp (nearby_except x)
           else log_error (failure_msg "Nearby search failed: " x);;
                liftp (nearby_except x)) d pending = except_log ENearby x.
Proof.
  unfold except_log. destruct (is_value_error x);
    by rewrite ?run_log_log_error, run_log_liftp.
Qed.

Lemma run_log_except text (r : py response) x d pending :
  run_log (log_error (failure_msg text x);; liftp r) d pending =
    emit ERROR (failure_msg text x).
Proof. by rewrite run_log_log_error, run_log_liftp. Qed.

(** ** The log of each view *)

Lemma health_log clock req d :
  run_log (health_prog clock) d [] = view_log EHealth clock req d.
Proof.
  unfold health_prog, view_log; cbn [connects view_try].
  apply (run_log_try_with _ (health_block clock));
    [apply health_block_block|apply health_block_interp|apply health_block_clean|].
  intros x d' pending. apply run_log_except.
Qed.

Lemma nearby_log clock req d :
  run_log (nearby_prog req) d [] = view_log ENearby clock req d.
Proof.
  unfold nearby_prog, view_log; cbn [connects view_try]. unfold nearby_try.
  rewrite (run_log_try_after _ _ _ _ (except_log ENearby)) by apply run_log_nearby_except.
  destruct (parse_nearby _) as [q|x]; [|done]. cbn [is_ok].
  apply (run_log_try_with _ (nearby_block q));
    [apply nearby_block_block|apply nearby_block_interp|apply nearby_block_clean|].
  apply run_log_nearby_except.
Qed.

Lemma search_log clock req d :
  run_log (search_prog req) d [] = view_log ESearch clock req d.
Proof.
  unfold search_prog, view_log; cbn [connects view_try]. unfold search_try.
  rewrite (run_log_try_after _ _ _ _ (except_log ESearch))
    by (intros; apply run_log_except).
  destruct (parse_filters _) as [f|x]; [|done]. cbn [is_ok].
  apply (run_log_try_with _ (search_block f));
    [apply search_block_block|apply search_block_interp|apply search_block_clean|].
  intros x d' pending. apply run_log_except.
Qed.

Lemma add_log clock req d :
  run_log (add_prog req) d [] = view_log EAddProperty clock req d.
Proof.
  assert (forall x d' pending,
    run_log (log_error (failure_msg "Add property failed: " x);; liftp add_failed)
            d' pending = except_log EAddProperty x) as Hh
    by (intros; apply run_log_except).
  unfold add_prog, view_log; cbn [connects view_try]. unfold add_try.
  rewrite (run_log_try_after _ _ _ _ _ Hh).
  destruct (req_json req) as [data|x]; [|done]. cbn [mbind result_bind].
  rewrite (run_log_try_after _ _ _ _ _ Hh).
  destruct (has_required data) as [[]|x]; [| |done].
  - rewrite bool_decide_true by done.
    by apply (run_log_try_with _ (add_block data));
      [apply add_block_block|apply add_block_interp|apply add_block_clean|].
  - by rewrite add_missing_Ok.
Qed.

(** What a handler writes to the log.  Run alone on a database, a view
    logs the failure of its connection, when it asks for one and the
    database is down, and then the exception its [try] block raised, under
    the name of the handler: nothing when the block returned, and nothing
    for a [ValueError] of the radius search, which is answered 400. *)
Theorem view_log_spec e clock req d :
  run_log (view_prog e clock req) d [] = view_log e clock req d.
Proof.
  destruct e; cbn [view_prog].
  - unfold view_log; cbn [connects view_try snd]. by rewrite run_log_liftp, home_Ok.
  - apply health_log.
  - apply nearby_log.
  - apply search_log.
  - apply add_log.
  - unfold view_log; cbn [connects view_try snd]. by rewrite run_log_liftp, not_found_Ok.
Qed.

(** ** What the log tells *)

(** A view is its [try] block and its [except] clauses. *)
Lemma view_try_except e clock req d :
  view e clock req d =
    match view_try e clock req d with
    | (d', Ok r) => (d', Ok r)
    | (d', Err x) => (d', except_answer e clock x)
    end.
Proof.
  destruct e; cbn [view view_try except_answer];
    [by rewrite home_Ok|done..|by rewrite not_found_Ok].
Qed.

(** A clause answers 500 exactly when it logs. *)
Lemma except_answer_status e clock x r :
  except_answer e clock x = Ok r -> (except_log e x <> [] <-> status r = 500%Z).
Proof.
  destruct e; cbn [except_answer except_log];
    rewrite ?health_failed_Ok, ?nearby_except_Ok, ?search_failed_Ok, ?add_failed_Ok;
    intros [= <-]; try done.
  unfold nearby_caught. by destruct (is_value_error x).
Qed.

(** A [try] block that returns does not answer 500, and had its
    connection when it asked for one. *)
Lemma view_try_Ok e clock req d r :
  (view_try e clock req d).2 = Ok r ->
  status r <> 500%Z /\ (connects e req = true -> db_up d = true).
Proof.
  destruct e; cbn [view_try connects snd].
  - rewrite home_Ok. by intros [= <-].
  - destruct (db_up d) eqn:Hd; [|by rewrite with_connection_down].
    rewrite with_connection_up by (done || intros c; by rewrite health_block_spec).
    rewrite health_block_spec; cbn [snd]. destruct (db_postgis _); [|done]. by intros [= <-].
  - intros (q & ps & _ & Hd & _ & ->%json_response_default_status)%nearby_try_Ok. done.
  - intros (f & ps & _ & Hd & _ & ->%json_response_default_status)%search_try_Ok. done.
  - unfold add_try. destruct (req_json req) as [data|x]; [|done]. cbn [mbind result_bind].
    destruct (has_required data) as [[]|x]; [| |done].
    + destruct (db_up d) eqn:Hd; [|by rewrite with_connection_down].
      destruct (with_connection_add d data) as [-> Hno].
      destruct (get_db_connection d ≫= _) as [p|x]; cbn [snd]; [by intros [= <-]|].
      intros Hr. specialize (Hno eq_refl). by rewrite Hr in Hno.
    + rewrite add_missing_Ok. by intros [= <-].
  - rewrite not_found_Ok. by intros [= <-].
Qed.

(** A [try] block that raises what its clauses do not log had not asked
    for a connection. *)
Lemma view_try_Err e clock req d x :
  (view_try e clock req d).2 = Err x -> except_log e x = [] -> connects e req = false.
Proof.
  destruct e; cbn [view_try connects except_log snd]; try done.
  destruct (parse_nearby (req_args req)) as [q|y] eqn:Hq; [|done]. intros Hx.
  by rewrite (nearby_try_Err req d q x Hq Hx).
Qed.

Lemma view_logged_iff_500 e clock req d r :
  (view e clock req d).2 = Ok r -> (view_log e clock req d <> [] <-> status r = 500%Z).
Proof.
  rewrite view_try_except. unfold view_log.
  pose proof (view_try_Ok e clock req d) as HOk.
  pose proof (view_try_Err e clock req d) as HErr.
  destruct (view_try e clock req d) as [d' [r'|x]]; cbn [snd] in *.
  - intros [= ->]. destruct (HOk r eq_refl) as [Hs Hd]. unfold connection_log.
    destruct (connects e req); [rewrite Hd by done|]; by split.
  - intros Hr%except_answer_status. rewrite <-Hr. specialize (HErr x eq_refl).
    destruct (except_log e x) as [|rec l]; [by rewrite HErr|].
    split; [done|]. intros _. by destruct (if connects e req then _ else _).
Qed.

Lemma main_prog_run env d :
  run (main_prog env) d [] = (d, [], main env) /\
  run_log (main_prog env) d [] =
    match main env with
    | Ok s => [LogRecord INFO ("Starting postgis-property-search-demo-py API server on port "
                               +:+ str_of_int (port s))]
    | Err _ => []
    end.
Proof.
  unfold main_prog, main. rewrite run_bind, run_log_bind, run_liftp, run_log_liftp.
  by destruct (match env "PORT" with Some s => py_int s | None => Ok 5000%Z end).
Qed.

(** The log of a request is the log of its view: Flask has nothing to
    log, since no exception leaves a view. *)
Lemma handle_log_view clock req d :
  handle_log clock req d =
    match route (req_method req) (req_path req) with
    | Routed e => view_log e clock req d
    | _ => []
    end.
Proof.
  unfold handle_log, handle_prog. destruct (route _ _) as [e| | |]; [|done..|].
  - rewrite run_log_catch, view_log_spec, run_view_alone. pose proof (view_Ok e clock req d).
    destruct (view e clock req d) as [d' [r|x]]; [by rewrite app_nil_r|done].
  - apply run_log_liftp.
Qed.

(** C20: the cause of a failure is logged, and told by the health check
    only.  When the [try] block of a handler raises an exception that is
    not a [ValueError], the log holds the text of the handler followed by
    the text of the exception.  The answer of the search, of the radius
    search and of the insert is the one the handler gives for any other
    exception: nothing of the cause reaches the caller.  The answer of the
    health check carries the text of the exception. *)
Theorem cause_logged e clock req d x :
  (view_try e clock req d).2 = Err x -> is_value_error x = false ->
  LogRecord ERROR (failure_msg (handler_text e) x) ∈ run_log (view_prog e clock req) d [] /\
  if decide (e = EHealth)
  then (view e clock req d).2 = Ok (unhealthy clock (str_of_exn x))
  else forall y, is_value_error y = false -> (view e clock req d).2 = except_answer e clock y.
Proof.
  intros Hx Hv. rewrite view_log_spec, view_try_except. unfold view_log.
  destruct e; [cbn [view_try snd] in Hx; by rewrite home_Ok in Hx|..
              |cbn [view_try snd] in Hx; by rewrite not_found_Ok in Hx].
  all: destruct (view_try _ clock req d) as [d' [r|x']]; cbn [snd] in Hx; [done|].
  all: injection Hx as ->; cbn [snd except_log except_answer handler_text].
  all: split; [apply elem_of_app; right; rewrite ?Hv; by apply list_elem_of_singleton|].
  all: rewrite ?decide_True, ?decide_False by done; try apply health_failed_Ok.
  all: intros y Hy; unfold nearby_except; by rewrite ?Hv, ?Hy.
Qed.

(** C19: a request is logged exactly when it is answered 500.  Whatever the
    request and the database, the handler writes to the log if and only if
    its answer has the status 500: every failure of the database, of the
    connection or of the handler's own code leaves a record, and an answer
    200, 201, 400, 404 or 405 leaves none. *)
Theorem logged_iff_500 clock req d r :
  (handle clock req d).2 = Ok r -> (handle_log clock req d <> [] <-> status r = 500%Z).
Proof.
  rewrite handle_log_view. unfold handle. destruct (route _ _) as [e| | |]; cbn [snd].
  - pose proof (view_Ok e clock req d) as HOk.
    pose proof (view_logged_iff_500 e clock req d r) as Hiff.
    destruct (view e clock req d) as [d' [r'|x]]; [done|done].
  - by intros [= <-].
  - by intros [= <-].
  - rewrite not_found_Ok. by intros [= <-].
Qed.

End logged.

(** ** Examples on the sample database *)

Import Exact.

(** A search with a negative limit: the statement is refused, the handler
    logs what PostgreSQL said and answers with its fixed text. *)
Example search_negative_limit_logged :
  handle_log noon (get "/api/properties/search" [("limit", "-1")]) sample_db =
    [LogRecord ERROR "Property search failed: LIMIT must not be negative"] /\
  (handle noon (get "/api/properties/search" [("limit", "-1")]) sample_db).2 =
    Ok search_error.
Proof. split; [by vm_compute|reflexivity]. Qed.

(** With the database down a search logs twice: the connection, then the
    handler. *)
Example search_down_logged :
  handle_log noon (get "/api/properties/search" []) sample_down =
    [ LogRecord ERROR "Database connection failed: could not connect to server";
      LogRecord ERROR "Property search failed: could not connect to server" ].
Proof. by vm_compute. Qed.

(** A radius search without coordinates is answered 400 and not logged;
    one with a radius that is not a number as well. *)
Example nearby_invalid_not_logged :
  handle_log noon (get "/api/properties/nearby" [("lat", "north")]) sample_db = [] /\
  status <$> (handle noon (get "/api/properties/nearby" [("lat", "north")]) sample_db).2 =
    Ok 400%Z.
Proof. split; [by vm_compute|reflexivity]. Qed.

Lemma logged_iff_500_witness :
  handle_log noon (get "/api/properties/search" [("limit", "-1")]) sample_db <> [] <->
  status search_error = 500%Z.
Proof.
  apply (logged_iff_500 noon (get "/api/properties/search" [("limit", "-1")]) sample_db).
  reflexivity.
Defined.

Lemma cause_logged_witness :
  LogRecord ERROR (failure_msg (handler_text ESearch)
                               (Exn DbError "LIMIT must not be negative")) ∈
    run_log (view_prog ESearch noon (get "/api/properties/search" [("limit", "-1")]))
            sample_db [] /\
  if decide (ESearch = EHealth)
  then (view ESearch noon (get "/api/properties/search" [("limit", "-1")]) sample_db).2 =
         Ok (unhealthy noon (str_of_exn (Exn DbError "LIMIT must not be negative")))
  else forall y, is_value_error y = false ->
         (view ESearch noon (get "/api/properties/search" [("limit", "-1")]) sample_db).2 =
           except_answer ESearch noon y.
Proof.
  apply (cause_logged ESearch noon _ sample_db (Exn DbError "LIMIT must not be negative"));
    reflexivity.
Defined.

(** The health check on a database that is down tells what it logs. *)
Example health_down_told :
  handle_log noon (get "/health" []) sample_down =
    [ LogRecord ERROR "Database connection failed: could not connect to server";
      LogRecord ERROR "Health check failed: could not connect to server" ] /\
  (handle noon (get "/health" []) sample_down).2 =
    Ok (unhealthy noon "could not connect to server").
Proof. split; [by vm_compute|reflexivity]. Qed.

(** An insert sent as a form: the body is not read, and the log has the
    exception of [get_json], its status 415 included, where the answer has
    the status 500.  With a Flask that returns [None] for such a body the
    log has the [TypeError] of the check of the fields. *)
Example insert_form_logged :
  handle_log noon
    (Request "POST" "/api/properties" []
       (get_json (Some unsupported_media_type) (fun _ => bad_request)
          [("Content-Type", "application/x-www-form-urlencoded")] (Ok VNone))) sample_db =
    [LogRecord ERROR
       "Add property failed: 415 Unsupported Media Type: Did not attempt to load JSON data because the request Content-Type was not 'application/json'."] /\
  handle_log noon
    (Request "POST" "/api/properties" []
       (get_json None (fun _ => bad_request) [] (Ok VNone))) sample_db =
    [LogRecord ERROR "Add property failed: argument of type 'NoneType' is not iterable"].
Proof. split; by vm_compute. Qed.
