(* ===== verification/Extended.v ===== *)
(** * A second instance: floats with nan and the infinities

    [Exact] has finite floats only.  Python's [float] also reads [nan],
    [inf] and [infinity] with a sign, in any case, and psycopg2 writes those
    values between quotes (['NaN'::float], ['Infinity'::float],
    ['-Infinity'::float]).  This instance adds them to the rationals of
    [Exact], with the order PostgreSQL gives to [double precision]
    ([-Infinity] first, [NaN] last), so that the theorems on coordinates
    that are not finite ([Nearby.nearby_refused_late],
    [Sent.nearby_text_intact_iff]) can be evaluated on a request. *)

From Stdlib Require Import ZArith Lia QArith Qabs Qround Ascii.
From stdpp Require Import base tactics option list strings.
From S2P Require Import Prelude PyValue PyBuiltins Serializer Flask Sql Bind Store Psycopg.
From S2P Require Import Config Exact Search Nearby Insert Sent Health Home App Logging Prog.
From S2P Require Import Logged.

Module Extended.

(** ** The floats *)

Inductive xfloat :=
| Fin (q : Q)
| NaN
| Inf (negative : bool).

#[export] Instance xfloat_eq_dec : EqDecision xfloat.
Proof. pose proof Exact.Q_eq_dec. solve_decision. Defined.

(** The spellings of the values that are not finite. *)
Definition special_of_str (s : string) : option xfloat :=
  let t := str_lower (strip s) in
  let '(negative, body) :=
    match t with
    | String c r =>
        if Ascii.eqb c "-" then (true, r)
        else if Ascii.eqb c "+" then (false, r) else (false, t)
    | EmptyString => (false, t)
    end in
  if decide (body = "nan") then Some NaN
  else if decide (body = "inf" \/ body = "infinity") then Some (Inf negative)
  else None.

Definition x_of_str (s : string) : option xfloat :=
  match special_of_str s with
  | Some x => Some x
  | None => Fin <$> Exact.q_of_str s
  end.

Definition x_finite (x : xfloat) : bool :=
  match x with Fin _ => true | _ => false end.

#[export] Instance ext_float : PyFloat := {|
  pyfloat := xfloat;
  float_of_str := x_of_str;
  float_of_decimal d := Fin (Qred (dec_Q d));
  float_is_zero x := match x with Fin q => Qeq_bool q 0 | _ => false end;
  float_finite := x_finite
|}.

(** ** Distances and the order *)

(** The order of [double precision]: [-Infinity], the finite values,
    [Infinity], [NaN]. *)
Definition xle (a b : xfloat) : Prop :=
  match a, b with
  | _, NaN => True
  | NaN, _ => False
  | Inf true, _ => True
  | _, Inf true => False
  | _, Inf false => True
  | Inf false, _ => False
  | Fin p, Fin q => Qle p q
  end.

#[export] Instance xle_dec : RelDecision xle.
Proof.
  intros [p| |[]] [q| |[]]; simpl; try (by left); try (by right; intros []).
  apply Exact.Qle_rel_dec.
Defined.

#[export] Instance xle_trans : Transitive xle.
Proof.
  intros [p| |[]] [q| |[]] [r| |[]]; simpl; try done. apply Qle_trans.
Qed.

#[export] Instance xle_total : Total xle.
Proof.
  intros [p| |[]] [q| |[]]; simpl; try (by left); try (by right).
  apply Exact.Qle_rel_total.
Qed.

Definition x_distance (a b : xfloat * xfloat) : xfloat :=
  match a, b with
  | (Fin x1, Fin y1), (Fin x2, Fin y2) => Fin (Exact.taxicab (x1, y1) (x2, y2))
  | _, _ => NaN
  end.

Definition x_to_decimal (x : xfloat) : option decimal :=
  match x with
  | Fin q => Some (Decimal (Qfloor (q * 1000000)) (-6))
  | _ => None
  end.

Lemma x_to_decimal_finite x : is_Some (x_to_decimal x) <-> x_finite x = true.
Proof. destruct x; simpl; split; try done; by intros [? ?]. Qed.

#[export] Instance ext_spatial : @Spatial ext_float :=
  @Build_Spatial ext_float x_distance xle xle_dec xle_trans xle_total
    (fun z => Fin (inject_Z z)) x_to_decimal x_to_decimal_finite.

(** ** The text of an argument *)

Definition x_sql (x : xfloat) : string :=
  match x with
  | Fin q => Exact.q_sql q
  | NaN => "'NaN'::float"
  | Inf false => "'Infinity'::float"
  | Inf true => "'-Infinity'::float"
  end.

Lemma x_sql_plain x : x_finite x = true -> no_quote (x_sql x) = true.
Proof. destruct x; [intros _; apply Exact.no_quote_q_sql|done..]. Qed.

Lemma x_sql_quoted x : x_finite x = false -> no_quote (x_sql x) = false.
Proof. by destruct x as [q| |[]]. Qed.

Lemma x_sql_closed x : closed (x_sql x) = true.
Proof.
  destruct x as [q| |[]]; [apply closed_code, Exact.no_quote_q_sql|by vm_compute..].
Qed.

#[export] Instance ext_text : @SqlText ext_float := {|
  float_sql := x_sql;
  decimal_sql := Exact.dec_sql;
  float_sql_plain := x_sql_plain;
  float_sql_quoted := x_sql_quoted;
  float_sql_closed := x_sql_closed;
  decimal_sql_closed := fun d => closed_code _ (Exact.no_quote_dec_sql d)
|}.

#[export] Instance ext_flask : @Flask ext_float :=
  @flask_keyword_default ext_float (@no_default ext_float).

(** ** The sample table, with these floats *)

Definition embed (p : @property Exact.exact_float) : @property ext_float :=
  Property (p_id p) (p_address p) (p_price p) (p_bedrooms p) (p_bathrooms p)
    (p_square_feet p) (p_property_type p) (p_listing_status p)
    (prod_map Fin Fin <$> p_location p) (p_created_at p).

Definition sample_db : @db ext_float :=
  Db true (embed <$> Exact.sample_rows) 5 "active" Exact.noon "PostgreSQL 15.4"
     "properties" "app" (Some "3.3").

Definition get (path : string) (a : multidict) : @request ext_float :=
  Request "GET" path a (Ok VNone).

(** A radius search whose latitude is [nan]. *)
Definition nan_search : @request ext_float :=
  get "/api/properties/nearby" [("lat", "NaN"); ("lng", "-122.4194")].

Definition nan_args : nearby_args :=
  NearbyArgs NaN (Fin ((-612097) # 5000)) 1000 10.

End Extended.

(** ** Examples *)

Import Extended.

(** The finite floats are read as in [Exact], the others by their names. *)
Example x_of_str_examples :
  x_of_str "37.7749" = Some (Fin (377749 # 10000)) /\
  x_of_str " nan " = Some NaN /\ x_of_str "-Infinity" = Some (Inf true) /\
  x_of_str "INF" = Some (Inf false) /\ x_of_str "north" = None.
Proof. by vm_compute. Qed.

(** The request with [lat=NaN] is read. *)
Lemma nan_search_parsed : parse_nearby (req_args nan_search) = Ok nan_args.
Proof. reflexivity. Qed.

(** It is answered 500, as [Nearby.nearby_refused_late] says. *)
Example nan_search_fails :
  find_nearby_properties nan_search sample_db = (sample_db, Ok nearby_error).
Proof.
  by apply (nearby_nonfinite_fails nan_search sample_db nan_args nan_search_parsed).
Qed.

(** What is sent for it is not the statement of the template: the quotes
    psycopg2 puts around [NaN] end the text of the point. *)
Example nan_text_broken :
  ~ intact nearby_sql (nearby_params nan_args) /\
  (fun text => is_infix "ST_GeomFromText('POINT( -612097/5000 'NaN'::float)', 4326)" text)
    <$> nearby_sent nan_args = Ok true.
Proof. split; [by rewrite nearby_text_intact_iff; intros []|by vm_compute]. Qed.

(** The failure is logged under the name of the handler, and the answer
    is the one of any failure of the database. *)
Example nan_search_logged :
  handle_log Exact.noon nan_search sample_db =
    [LogRecord ERROR "Nearby search failed: parse error - invalid geometry"] /\
  status <$> (handle Exact.noon nan_search sample_db).2 = Ok 500%Z.
Proof. split; [by vm_compute|reflexivity]. Qed.
