(* ===== verification/Concurrent.v ===== *)
(** * Requests in flight together

    The development server of Flask ([app.run], lines 344-351 of
    [src/app.py]) answers each request in a thread of its own, and each
    handler opens a connection of its own: the statements of different
    requests reach the database in any order.  A configuration is the shared
    database with the threads, each one the rest of its program ([Prog]),
    the rows its transaction has written and not committed and the records
    it has logged; a step is one event of one thread ([cstep]), and a
    schedule names the thread of each step ([run_schedule]).

    This file holds the model and what holds of every program: the
    invariant of the table under interleaving, and the log and the answer
    of a program that looks at the rows once ([one_shot]), which are those
    it gives alone on a database the service went through.  [Shapes] shows
    that the handlers are such programs, and [Requests] draws the
    conclusions for the requests of the service. *)

From Stdlib Require Import ZArith Lia.
From stdpp Require Import base tactics option list strings relations.
From S2P Require Import Prelude PyValue PyBuiltins Serializer Flask Sql Bind Store Psycopg.
From S2P Require Import Exact Search Nearby Insert Health Home App Logging Prog.

Section pool.
Context `{Spatial} `{!SqlText}.

(** A request in flight: the rows of its transaction, the records it has
    logged and the rest of its program. *)
Record thread := Thread {
  t_pending : list property;
  t_log : list log_record;
  t_prog : prog response
}.

(** A request that has not started. *)
Definition spawn (p : prog response) : thread := Thread [] [] p.

(** The answer of a request that has ended. *)
Definition answer (t : thread) : option (py response) :=
  match t_prog t with
  | Ret r => Some (Ok r)
  | Raise e => Some (Err e)
  | Vis _ _ => None
  end.

(** The log and the answer of a request that has ended. *)
Definition report (t : thread) : option (list log_record * py response) :=
  pair (t_log t) <$> answer t.

(** One event of a thread on the database. *)
Definition thread_step (d : db) (t : thread) : option (db * thread) :=
  match t_prog t with
  | Vis ev k =>
      let '(d', pending', x) := handle_event ev d (t_pending t) in
      Some (d', Thread pending' (t_log t ++ event_log ev) (k x))
  | _ => None
  end.

Definition config : Type := db * list thread.

(** A step of the service: one thread does its next event. *)
Inductive cstep : config -> config -> Prop :=
| cstep_thread i d ts t d' t' :
    ts !! i = Some t -> thread_step d t = Some (d', t') ->
    cstep (d, ts) (d', <[i:=t']> ts).

(** The step of the thread a schedule names; a thread that has ended, or
    that does not exist, does nothing. *)
Definition sched_step (cfg : config) (i : nat) : config :=
  match cfg.2 !! i ≫= thread_step cfg.1 with
  | Some (d', t') => (d', <[i:=t']> cfg.2)
  | None => cfg
  end.

Definition run_schedule (s : list nat) (cfg : config) : config :=
  foldl sched_step cfg s.



(** An event whose answer and whose effect on the transaction depend on
    the environment of the database only, not on its rows. *)
Definition env_only {T} (ev : dbE T) : Prop :=
  forall d d' pending,
    same_env d d' ->
    (handle_event ev d pending).2 = (handle_event ev d' pending).2 /\
    (handle_event ev d pending).1.2 = (handle_event ev d' pending).1.2.

(** Such an event that leaves the database as it is. *)
Definition passive {T} (ev : dbE T) : Prop :=
  env_only ev /\ forall d pending, (handle_event ev d pending).1.1 = d.

(** A program whose answer depends on the environment only. *)
Fixpoint quiet {A} (p : prog A) : Prop :=
  match p with
  | Vis ev k => env_only ev /\ forall x, quiet (k x)
  | _ => True
  end.

(** A program that looks at the rows once: on each of its paths the events
    are [passive] up to one event, and [env_only] after it. *)
Fixpoint one_shot {A} (p : prog A) : Prop :=
  match p with
  | Vis ev k => (passive ev /\ forall x, one_shot (k x)) \/ (forall x, quiet (k x))
  | _ => True
  end.

(** What a thread will have logged and answered when it runs to its end
    on [d] with nothing in between. *)
Definition outcome (t : thread) (d : db) : list log_record * py response :=
  (t_log t ++ run_log (t_prog t) d (t_pending t), (run (t_prog t) d (t_pending t)).2).

End pool.

(** ** What one event does to the database and to its transaction *)

Section events.
Context `{Spatial} `{!SqlText}.

(** An event leaves the database and the transaction as they are or drops
    the rows of the transaction; or takes a value of the sequence for a new
    row of the transaction; or moves the rows of the transaction to the
    table. *)
Inductive effect (d : db) (pending : list property) : db -> list property -> Prop :=
| effect_keep pending' : pending' ⊆+ pending -> effect d pending d pending'
| effect_insert p :
    p_id p = db_next_id d -> row_ok p ->
    effect d pending (set_rows d (db_rows d) (db_next_id d + 1)) (pending ++ [p])
| effect_commit :
    effect d pending (set_rows d (db_rows d ++ pending) (db_next_id d)) [].

Lemma execute_effect sql args d pending :
  effect d pending (handle_event (Execute sql args) d pending).1.1
                   (handle_event (Execute sql args) d pending).1.2.
Proof.
  unfold handle_event.
  destruct (execute_shape sql args (tx_conn d pending)) as [Hs|(p & Hs & Hid & Hok)];
    destruct (execute _ _ _) as [c r]; simpl in Hs; subst c; simpl.
  - rewrite set_rows_same, drop_app_length. by constructor.
  - rewrite <-(assoc_L (++)), drop_app_length. by constructor.
Qed.

Lemma handle_event_effect {T} (ev : dbE T) d pending :
  effect d pending (handle_event ev d pending).1.1 (handle_event ev d pending).1.2.
Proof.
  destruct ev; [| apply execute_effect |..]; simpl;
    [constructor; apply submseteq_nil_l | constructor | constructor; apply submseteq_nil_l
    | by constructor].
Qed.

Lemma effect_env d pending d' pending' : effect d pending d' pending' -> same_env d' d.
Proof. by destruct 1. Qed.

Lemma handle_event_env {T} (ev : dbE T) d pending :
  same_env (handle_event ev d pending).1.1 d.
Proof. eapply effect_env, handle_event_effect. Qed.

(** The events of the handlers by kind. *)
Lemma connect_passive : passive Connect.
Proof.
  split; [|done]. intros d d' pending Hd. simpl. unfold get_db_connection.
  rewrite (same_env_up _ _ Hd). by destruct (db_up d').
Qed.

Lemma commit_env_only : env_only Commit.
Proof. by intros d d' pending Hd. Qed.

Lemma rollback_env_only : env_only Rollback.
Proof. by intros d d' pending Hd. Qed.

Lemma log_passive l msg : passive (Log l msg).
Proof. by split. Qed.

(** A statement that does not read the table: the two probes of the health
    check. *)
Lemma probe_passive sql :
  parse_stmt sql = Some SInfo \/ parse_stmt sql = Some SPostgis ->
  passive (Execute sql None).
Proof.
  intros Hsql.
  assert (forall d pending, handle_event (Execute sql None) d pending =
            (d, pending, (run_stmt (default SInfo (parse_stmt sql)) [] (tx_conn d [])).2))
    as Hev.
  { intros d pending. unfold handle_event.
    rewrite (execute_no_args _ (default SInfo (parse_stmt sql)))
      by (by destruct Hsql as [-> | ->]).
    destruct Hsql as [-> | ->]; simpl; by rewrite set_rows_same, drop_app_length. }
  split; [|intros d pending; by rewrite Hev].
  intros d d' pending Hd. rewrite !Hev. split; [|done].
  unfold same_env, set_rows in Hd. injection Hd as Hup Hst Hnow Hv Hn Hu Hp.
  destruct Hsql as [-> | ->]; simpl; unfold info_row;
    by rewrite ?Hst, ?Hnow, ?Hv, ?Hn, ?Hu, ?Hp.
Qed.

End events.

(** ** The invariant of the table under interleaving *)

Section invariant.
Context `{Spatial} `{!SqlText}.

Lemma thread_step_Some d t d' t' :
  thread_step d t = Some (d', t') ->
  exists T (ev : dbE T) k,
    t_prog t = Vis ev k /\ d' = (handle_event ev d (t_pending t)).1.1 /\
    t' = Thread (handle_event ev d (t_pending t)).1.2 (t_log t ++ event_log ev)
                (k (handle_event ev d (t_pending t)).2).
Proof.
  unfold thread_step. destruct (t_prog t) as [| |T ev k]; [done..|].
  destruct (handle_event _ _ _) as [[d1 p1] x] eqn:He. intros [= <- <-].
  exists T, ev, k. by rewrite He.
Qed.

Lemma thread_step_effect d t d' t' :
  thread_step d t = Some (d', t') -> effect d (t_pending t) d' (t_pending t').
Proof.
  intros (T & ev & k & _ & -> & ->)%thread_step_Some. apply handle_event_effect.
Qed.







Lemma cstep_env cfg cfg' : cstep cfg cfg' -> same_env cfg'.1 cfg.1.
Proof. intros [i d ts t d' t' _ Hstep]. eapply effect_env, thread_step_effect, Hstep. Qed.

Lemma rtc_cstep_env cfg cfg' : rtc cstep cfg cfg' -> same_env cfg'.1 cfg.1.
Proof.
  induction 1 as [|cfg1 cfg2 cfg3 H12%cstep_env _ IH]; [done|]. by rewrite IH.
Qed.

(** A schedule is a sequence of steps. *)
Lemma sched_step_rtc cfg i : rtc cstep cfg (sched_step cfg i).
Proof.
  unfold sched_step. destruct cfg as [d ts]; simpl.
  destruct (ts !! i) as [t|] eqn:Ht; [|done]. simpl.
  destruct (thread_step d t) as [[d' t']|] eqn:Hs; [|done].
  by apply rtc_once, (cstep_thread i d ts t).
Qed.

Lemma run_schedule_rtc s cfg : rtc cstep cfg (run_schedule s cfg).
Proof.
  revert cfg. induction s as [|i s IH]; intros cfg; [done|].
  etrans; [apply (sched_step_rtc cfg i)|apply IH].
Qed.


End invariant.

(** ** The answers under interleaving *)

Section answers.
Context `{Spatial} `{!SqlText}.

Lemma quiet_run {A} (p : prog A) d d' pending :
  quiet p -> same_env d d' ->
  (run p d pending).2 = (run p d' pending).2 /\ run_log p d pending = run_log p d' pending.
Proof.
  revert d d' pending. induction p as [a|e|T ev k IH]; intros d d' pending Hq Hd; [done..|].
  destruct Hq as [Hev Hk]. destruct (Hev d d' pending Hd) as [Hx Hp]. simpl.
  pose proof (handle_event_env ev d pending) as He1.
  pose proof (handle_event_env ev d' pending) as He2.
  destruct (handle_event ev d pending) as [[d1 p1] x1].
  destruct (handle_event ev d' pending) as [[d2 p2] x2]. simpl in *. subst x2 p2.
  destruct (IH x1 d1 d2 p1) as [-> ->]; [done|by rewrite He1, He2|done].
Qed.

Lemma quiet_outcome pending log (p : prog response) d d' :
  quiet p -> same_env d d' ->
  outcome (Thread pending log p) d = outcome (Thread pending log p) d'.
Proof. intros Hq Hd. unfold outcome; simpl. by destruct (quiet_run p d d' pending) as [-> ->]. Qed.

(** The outcome of a thread before and after one of its events. *)
Lemma outcome_step d t d' t' :
  thread_step d t = Some (d', t') -> outcome t d = outcome t' d'.
Proof.
  intros (T & ev & k & Hp & -> & ->)%thread_step_Some. unfold outcome. rewrite Hp. simpl.
  destruct (handle_event ev d (t_pending t)) as [[d1 p1] x1]. simpl.
  by rewrite (assoc_L (++)).
Qed.

(** A thread that has not looked at the rows: its log and its answer will
    be those of its program on the database it ends on. *)
Definition undecided (p0 : prog response) (d0 : db) (t : thread) : Prop :=
  one_shot (t_prog t) /\
  forall d, same_env d d0 -> outcome t d = outcome (spawn p0) d.

(** A thread that has: its log and its answer are fixed. *)
Definition decided (d0 : db) (t : thread) (x : list log_record * py response) : Prop :=
  quiet (t_prog t) /\
  forall d, same_env d d0 -> outcome t d = x.

Lemma decided_step d0 t x d d' t' :
  decided d0 t x -> same_env d d0 -> thread_step d t = Some (d', t') -> decided d0 t' x.
Proof.
  intros [Hq Hx] Hd Hs. pose proof (outcome_step _ _ _ _ Hs) as Ho.
  pose proof (effect_env _ _ _ _ (thread_step_effect _ _ _ _ Hs)) as He.
  destruct (thread_step_Some _ _ _ _ Hs) as (T & ev & k & Hp & _ & Ht').
  rewrite Hp in Hq. destruct Hq as [_ Hk]. split; [subst t'; apply Hk|].
  intros d2 Hd2. rewrite <-(Hx d Hd), Ho. subst t'.
  apply quiet_outcome; [apply Hk|]. by rewrite Hd2, He, Hd.
Qed.

Lemma undecided_step p0 d0 t d d' t' :
  undecided p0 d0 t -> same_env d d0 -> thread_step d t = Some (d', t') ->
  undecided p0 d0 t' \/ decided d0 t' (outcome (spawn p0) d).
Proof.
  intros [Ho Hx] Hd Hs.
  pose proof (effect_env _ _ _ _ (thread_step_effect _ _ _ _ Hs)) as He.
  destruct (thread_step_Some _ _ _ _ Hs) as (T & ev & k & Hp & Hd' & Ht').
  rewrite Hp in Ho. destruct Ho as [[[Hev Hpass] Hk]|Hk].
  - left. split; [subst t'; apply Hk|]. intros d2 Hd2. rewrite <-(Hx d2 Hd2).
    assert (thread_step d2 t = Some (d2, t')) as Hs2.
    { unfold thread_step. rewrite Hp. destruct (Hev d d2 (t_pending t)) as [Hans Hpend];
        [by rewrite Hd, Hd2|].
      pose proof (Hpass d2 (t_pending t)) as Hsame.
      destruct (handle_event ev d2 (t_pending t)) as [[d3 p3] x3]. simpl in *.
      by rewrite Ht', Hans, Hpend, Hsame. }
    symmetry. by apply outcome_step.
  - right. split; [subst t'; apply Hk|]. intros d2 Hd2.
    rewrite <-(Hx d Hd), (outcome_step _ _ _ _ Hs). subst t'.
    apply quiet_outcome; [apply Hk|]. by rewrite Hd2, He, Hd.
Qed.

Lemma answer_outcome t r d : answer t = Some r -> outcome t d = (t_log t, r).
Proof.
  unfold answer, outcome. destruct (t_prog t); intros [= <-]; simpl; by rewrite app_nil_r.
Qed.

(** Where thread [i] stands after some steps: it has not looked at the
    rows, or its log and its answer are those of its program on a database
    the service went through. *)
Definition explained (p0 : prog response) (cfg0 : config) (i : nat) (cfg : config) : Prop :=
  exists t, cfg.2 !! i = Some t /\
    (undecided p0 cfg0.1 t \/
     exists cfg', rtc cstep cfg0 cfg' /\ rtc cstep cfg' cfg /\
                  decided cfg0.1 t (outcome (spawn p0) cfg'.1)).

Lemma explained_step p0 cfg0 i cfg cfg2 :
  rtc cstep cfg0 cfg -> cstep cfg cfg2 ->
  explained p0 cfg0 i cfg -> explained p0 cfg0 i cfg2.
Proof.
  intros Hsteps Hstep (t & Ht & Hex). pose proof (rtc_cstep_env _ _ Hsteps) as Henv.
  destruct Hstep as [j d ts tj d' tj' Hj Hs]. simpl in *.
  assert (cstep (d, ts) (d', <[j:=tj']> ts)) as Hstep by by econstructor.
  destruct (decide (j = i)) as [->|Hne].
  - assert (tj = t) as -> by congruence. exists tj'. split.
    { apply list_lookup_insert_eq. by eapply lookup_lt_Some. }
    destruct Hex as [Hu|(cfg' & Hto & Hfrom & Hd)].
    + destruct (undecided_step _ _ _ _ _ _ Hu Henv Hs) as [Hu'|Hd']; [by left|].
      right. exists (d, ts). split_and!; [done|by apply rtc_once|done].
    + right. exists cfg'. split_and!; [done|by eapply rtc_r|].
      by eapply decided_step.
  - exists t. split; [simpl; by rewrite list_lookup_insert_ne|].
    destruct Hex as [Hu|(cfg' & Hto & Hfrom & Hd)]; [by left|].
    right. exists cfg'. split_and!; [done|by eapply rtc_r|done].
Qed.

Lemma explained_rtc p0 cfg0 i cfg :
  one_shot p0 -> cfg0.2 !! i = Some (spawn p0) -> rtc cstep cfg0 cfg ->
  explained p0 cfg0 i cfg.
Proof.
  intros Ho Hi. revert cfg. apply rtc_ind_r.
  - exists (spawn p0). split; [done|]. by left.
  - intros cfg cfg2 Hsteps Hstep IH. by eapply explained_step.
Qed.

(** The log and the answer of a program that looks at the rows once are,
    under every interleaving, those it gives run alone on a database the
    service went through. *)
Lemma one_shot_outcome p0 cfg0 i cfg t r :
  one_shot p0 -> cfg0.2 !! i = Some (spawn p0) -> rtc cstep cfg0 cfg ->
  cfg.2 !! i = Some t -> answer t = Some r ->
  exists cfg', rtc cstep cfg0 cfg' /\ rtc cstep cfg' cfg /\
               (t_log t, r) = (run_log p0 cfg'.1 [], (run p0 cfg'.1 []).2).
Proof.
  intros Ho Hi Hsteps Ht Hr.
  destruct (explained_rtc p0 cfg0 i cfg Ho Hi Hsteps) as (t' & Ht' & Hex).
  assert (t' = t) as -> by congruence.
  pose proof (rtc_cstep_env _ _ Hsteps) as Henv.
  destruct Hex as [[_ Hu]|(cfg' & Hto & Hfrom & _ & Hd)].
  - exists cfg. split_and!; [done..|]. by rewrite <-(answer_outcome _ _ cfg.1 Hr), (Hu _ Henv).
  - exists cfg'. split_and!; [done..|]. by rewrite <-(answer_outcome _ _ cfg.1 Hr), (Hd _ Henv).
Qed.

End answers.
