(* ===== verification/Shapes.v ===== *)
(** * The shape of the handlers' programs

    Three properties of a program ([Prog.prog]) that hold of every handler
    of [src/app.py], each proved for the combinators ([liftp], bind,
    [catch], [with_conn]) and then for the programs built from them:

    - it looks at the rows of the table once ([Concurrent.one_shot]): the
      connection, the probes of the health check and the log do not read
      the table, and what follows the one statement that does depends on
      its answer only;
    - it ends within a number of events ([within]), six for a request;
    - it does not raise ([never_raises]): every path of a view ends in an
      answer, so Flask's handler of 500 has nothing to catch. *)

From Stdlib Require Import ZArith Lia.
From stdpp Require Import base tactics option list strings relations.
From S2P Require Import Prelude PyValue PyBuiltins Serializer Flask Sql Bind Store Psycopg.
From S2P Require Import Exact Search Nearby Insert Health Home App Logging Prog Concurrent.

Section bounds.
Context `{Spatial} `{!SqlText}.

(** A program that ends within [n] events, whatever the answers. *)
Fixpoint within {A} (n : nat) (p : prog A) {struct p} : Prop :=
  match p with
  | Vis ev k =>
      match n with
      | O => False
      | S n => forall x, within n (k x)
      end
  | _ => True
  end.

(** A program that does not raise, whatever the answers. *)
Fixpoint never_raises {A} (p : prog A) : Prop :=
  match p with
  | Ret _ => True
  | Raise _ => False
  | Vis ev k => forall x, never_raises (k x)
  end.

(** An [except] clause of a handler: it logs at most once and answers. *)
Definition logs_once {A} (h : exn -> prog A) : Prop :=
  forall e, quiet (h e) /\ within 1 (h e).

End bounds.

Section shapes.
Context `{Spatial} `{!SqlText}.

Lemma quiet_liftp {A} (m : py A) : quiet (liftp m).
Proof. by destruct m. Qed.

Lemma quiet_bind {A B} (p : prog A) (f : A -> prog B) :
  quiet p -> (forall a, quiet (f a)) -> quiet (p ≫= f).
Proof.
  intros Hp Hf. change (p ≫= f) with (pbind p f).
  induction p as [a|e|T ev k IH]; simpl; [done..|].
  destruct Hp as [Hev Hk]. split; [done|]. intros x. by apply IH.
Qed.

Lemma quiet_catch {A} (p : prog A) (h : exn -> prog A) :
  quiet p -> (forall e, quiet (h e)) -> quiet (catch p h).
Proof.
  intros Hp Hh. induction p as [a|e|T ev k IH]; simpl; [done..|].
  destruct Hp as [Hev Hk]. split; [done|]. intros x. by apply IH.
Qed.

Lemma one_shot_liftp {A} (m : py A) : one_shot (liftp m).
Proof. by destruct m. Qed.

Lemma one_shot_bind {A B} (p : prog A) (f : A -> prog B) :
  one_shot p -> (forall a, quiet (f a)) -> one_shot (p ≫= f).
Proof.
  intros Hp Hf. change (p ≫= f) with (pbind p f).
  induction p as [a|e|T ev k IH]; simpl; [|done|].
  - destruct (f a) as [| |T ev k] eqn:Hfa; [done..|]. right.
    specialize (Hf a). rewrite Hfa in Hf. apply Hf.
  - destruct Hp as [[Hev Hk]|Hk]; [left|right].
    + split; [done|]. intros x. by apply IH.
    + intros x. by apply (quiet_bind (k x) f).
Qed.

Lemma one_shot_catch {A} (p : prog A) (h : exn -> prog A) :
  one_shot p -> (forall e, quiet (h e)) -> one_shot (catch p h).
Proof.
  intros Hp Hh. induction p as [a|e|T ev k IH]; simpl; [done| |].
  - destruct (h e) as [| |T ev k] eqn:Hhe; [done..|]. right.
    specialize (Hh e). rewrite Hhe in Hh. apply Hh.
  - destruct Hp as [[Hev Hk]|Hk]; [left|right].
    + split; [done|]. intros x. by apply IH.
    + intros x. by apply quiet_catch.
Qed.

(** What does not ask anything may come first. *)
Lemma one_shot_after {A B} (m : py A) (f : A -> prog B) :
  (forall a, one_shot (f a)) -> one_shot (liftp m ≫= f).
Proof. intros Hf. destruct m; [apply Hf|done]. Qed.

Lemma quiet_commit_ret {A} (a : A) : quiet (db_commit;; Ret a).
Proof. split; [apply commit_env_only|done]. Qed.

Lemma quiet_rollback_raise {A} e : quiet (db_rollback;; Raise e : prog A).
Proof. split; [apply rollback_env_only|done]. Qed.

Lemma quiet_log_error {A} msg (p : prog A) : quiet p -> quiet (log_error msg;; p).
Proof. intros Hp. split; [apply log_passive|]. by intros []. Qed.

Lemma one_shot_log_error {A} msg (p : prog A) : one_shot p -> one_shot (log_error msg;; p).
Proof. intros Hp. left. split; [apply log_passive|]. by intros []. Qed.

Lemma one_shot_with_conn {A} (body : prog A) : one_shot body -> one_shot (with_conn body).
Proof.
  intros Hb. simpl. left. split; [apply connect_passive|]. intros [[]|e].
  - apply one_shot_catch; [|apply quiet_rollback_raise].
    apply one_shot_bind; [done|]. apply quiet_commit_ret.
  - simpl. destruct (bool_decide _); [|done]. left. split; [apply log_passive|done].
Qed.

(** A statement followed by a computation on its rows. *)
Lemma one_shot_look {A} sql args (f : list row -> prog A) :
  (forall rows, quiet (f rows)) -> one_shot (db_execute sql args ≫= f).
Proof. intros Hf. simpl. right. intros [rows|e]; simpl; [apply Hf|exact I]. Qed.

Lemma one_shot_probe {A} sql (f : list row -> prog A) :
  parse_stmt sql = Some SInfo \/ parse_stmt sql = Some SPostgis ->
  (forall rows, one_shot (f rows)) -> one_shot (db_execute sql None ≫= f).
Proof.
  intros Hsql Hf. simpl. left. split; [by apply probe_passive|].
  intros [rows|e]; simpl; [apply Hf|exact I].
Qed.

(** Ending within a number of events. *)
Lemma within_le {A} (p : prog A) n m : n <= m -> within n p -> within m p.
Proof.
  revert n m. induction p as [a|e|T ev k IH]; intros n m Hnm; [done..|].
  destruct n as [|n]; [done|]. destruct m as [|m]; [lia|]. simpl.
  intros Hk x. apply (IH x n m); [lia|done].
Qed.

Lemma within_le_shape {A} n m (p : prog A) :
  n <= m -> one_shot p /\ within n p -> one_shot p /\ within m p.
Proof. intros Hnm [Ho Hw]. split; [done|by eapply within_le]. Qed.

Lemma within_liftp {A} (m : py A) n : within n (liftp m).
Proof. by destruct m. Qed.

Lemma within_bind {A B} (p : prog A) (f : A -> prog B) n m :
  within n p -> (forall a, within m (f a)) -> within (n + m) (p ≫= f).
Proof.
  change (p ≫= f) with (pbind p f). revert n.
  induction p as [a|e|T ev k IH]; intros n Hp Hf; simpl; [|done|].
  - apply (within_le _ m); [lia|done].
  - destruct n as [|n]; [done|]. simpl. intros x. by apply IH.
Qed.

Lemma within_catch {A} (p : prog A) (h : exn -> prog A) n m :
  within n p -> (forall e, within m (h e)) -> within (n + m) (catch p h).
Proof.
  revert n. induction p as [a|e|T ev k IH]; intros n Hp Hh; simpl; [done| |].
  - apply (within_le _ m); [lia|done].
  - destruct n as [|n]; [done|]. simpl. intros x. by apply IH.
Qed.

Lemma within_log_error {A} msg (p : prog A) n :
  within n p -> within (S n) (log_error msg;; p).
Proof. by intros Hp []. Qed.

(** A block that ends within [n] events ends within [n + 1] with its
    commit or its rollback, and within [n + 2] with its connection; a
    connection that fails is one event, and one more for the log. *)
Lemma within_transaction {A} (body : prog A) n :
  within n body ->
  within (S n) (catch (a ← body; db_commit;; Ret a) (fun e => db_rollback;; Raise e)).
Proof.
  revert n. induction body as [a|e|T ev k IH]; intros n Hb; [by intros []..|].
  destruct n as [|n]; [done|]. intros x. by apply IH.
Qed.

Lemma within_with_conn {A} (body : prog A) n :
  within n body -> within (S (S n)) (with_conn body).
Proof.
  intros Hb [[]|e]; [by apply within_transaction|]. simpl.
  destruct (bool_decide _); [by intros []|done].
Qed.

(** What is caught by a clause that does not raise does not raise, and a
    [try] around what does not raise adds nothing. *)
Lemma never_raises_catch {A} (p : prog A) (h : exn -> prog A) :
  (forall e, never_raises (h e)) -> never_raises (catch p h).
Proof. intros Hh. induction p as [a|e|T ev k IH]; simpl; [done|apply Hh|done]. Qed.

Lemma never_raises_log_error {A} msg (m : py A) :
  is_ok m = true -> never_raises (log_error msg;; liftp m).
Proof. destruct m; [|done]. by intros _ []. Qed.

Lemma within_catch_never {A} (p : prog A) (h : exn -> prog A) n :
  never_raises p -> within n p -> within n (catch p h).
Proof.
  revert n. induction p as [a|e|T ev k IH]; intros n Hp Hw; [done..|].
  destruct n as [|n]; [done|]. intros x. by apply IH.
Qed.

Lemma one_shot_catch_never {A} (p : prog A) (h : exn -> prog A) :
  never_raises p -> one_shot p -> one_shot (catch p h).
Proof.
  assert (forall p : prog A, never_raises p -> quiet p -> quiet (catch p h)) as Hq.
  { clear p. induction p as [a|e|T ev k IH]; [done..|]. intros Hp [Hev Hk].
    split; [done|]. intros x. by apply IH. }
  induction p as [a|e|T ev k IH]; [done..|]. intros Hp [[Hev Hk]|Hk]; [left|right].
  - split; [done|]. intros x. by apply IH.
  - intros x. by apply Hq.
Qed.

Lemma within_execute {A} sql args (f : list row -> prog A) n :
  (forall rows, within n (f rows)) -> within (S n) (db_execute sql args ≫= f).
Proof. intros Hf [rows|e]; simpl; [apply Hf|exact I]. Qed.

Lemma within_after {A B} (m : py A) (f : A -> prog B) n :
  (forall a, within n (f a)) -> within n (liftp m ≫= f).
Proof. intros Hf. destruct m; [apply Hf|done]. Qed.

Lemma quiet_commit {A} (p : prog A) : quiet p -> quiet (db_commit;; p).
Proof. intros Hp. split; [apply commit_env_only|]. by intros []. Qed.

Lemma within_commit {A} (p : prog A) n : within n p -> within (S n) (db_commit;; p).
Proof. by intros Hp []. Qed.

End shapes.

(** The shape of a program built from the combinators is found by the
    lemmas above, one for each combinator. *)
Create HintDb shape discriminated.

#[export] Hint Resolve quiet_liftp quiet_bind quiet_commit quiet_log_error
  one_shot_liftp one_shot_look one_shot_after one_shot_log_error
  within_liftp within_execute within_after within_commit within_log_error : shape.

Ltac shape := cbv zeta; split; eauto 10 with shape.

Section handler_shapes.
Context `{Spatial} `{!SqlText} `{!Flask}.

Lemma search_block_shape f :
  one_shot (search_block_prog f) /\ within 1 (search_block_prog f).
Proof. unfold search_block_prog. destruct (build_search f). shape. Qed.

Lemma nearby_block_shape q :
  one_shot (nearby_block_prog q) /\ within 1 (nearby_block_prog q).
Proof. unfold nearby_block_prog. shape. Qed.

Lemma add_block_shape data :
  one_shot (add_block_prog data) /\ within 2 (add_block_prog data).
Proof. unfold add_block_prog. shape. Qed.

Lemma health_block_shape clock :
  one_shot (health_block_prog clock) /\ within 3 (health_block_prog clock).
Proof.
  unfold health_block_prog. split.
  - apply one_shot_probe; [by left|]. intros r1. cbv zeta.
    apply one_shot_probe; [by right|]. eauto 10 with shape.
  - eauto 10 with shape.
Qed.

Lemma logs_once_error {A} (text : string) (r : exn -> py A) :
  logs_once (fun e => log_error (failure_msg text e);; liftp (r e)).
Proof.
  intros e. split; [apply quiet_log_error, quiet_liftp|apply within_log_error, within_liftp].
Qed.

Lemma logs_once_nearby :
  logs_once (fun e => if is_value_error e then liftp (nearby_except e)
                      else log_error (failure_msg "Nearby search failed: " e);;
                           liftp (nearby_except e)).
Proof.
  intros e. destruct (is_value_error e); [|apply (logs_once_error _ nearby_except)].
  split; [apply quiet_liftp|apply within_liftp].
Qed.

(** The block of a handler under [with], inside its [try]. *)
Lemma try_with_shape {A} (body : prog A) (h : exn -> prog A) n :
  logs_once h -> one_shot body /\ within n body ->
  one_shot (catch (with_conn body) h) /\ within (S (S n) + 1) (catch (with_conn body) h).
Proof.
  intros Hh [Ho Hw]. split.
  - apply one_shot_catch; [by apply one_shot_with_conn|]. intros e. apply Hh.
  - apply within_catch; [by apply within_with_conn|]. intros e. apply Hh.
Qed.

(** What does not ask anything, inside a [try]. *)
Lemma try_liftp_shape {A} (m : py A) (h : exn -> prog A) n :
  logs_once h -> one_shot (catch (liftp m) h) /\ within (S n) (catch (liftp m) h).
Proof.
  intros Hh. destruct m as [a|e]; [done|]. simpl. destruct (Hh e) as [Hq Hw].
  split; [|by eapply within_le; [|done]; lia].
  destruct (h e) as [| |T ev k]; [done..|]. right. apply Hq.
Qed.

Lemma try_after_shape {A B} (m : py A) (f : A -> prog B) (h : exn -> prog B) n :
  logs_once h ->
  (forall a, one_shot (catch (f a) h) /\ within (S n) (catch (f a) h)) ->
  one_shot (catch (liftp m ≫= f) h) /\ within (S n) (catch (liftp m ≫= f) h).
Proof.
  intros Hh Hf. destruct m as [a|e]; [apply Hf|]. by apply (try_liftp_shape (Err e)).
Qed.

Lemma view_shape e clock req :
  one_shot (view_prog e clock req) /\ within 6 (view_prog e clock req).
Proof.
  destruct e; cbn [view_prog].
  - split; [apply one_shot_liftp|apply within_liftp].
  - apply (try_with_shape _ _ 3), health_block_shape.
    apply (logs_once_error _ (health_failed clock)).
  - apply try_after_shape; [apply logs_once_nearby|]. intros q.
    eapply (within_le_shape 4); [lia|].
    apply (try_with_shape _ _ 1), nearby_block_shape. apply logs_once_nearby.
  - pose proof (logs_once_error "Property search failed: " (fun _ => search_failed)) as Hh.
    apply try_after_shape; [done|]. intros f. eapply (within_le_shape 4); [lia|].
    by apply (try_with_shape _ _ 1), search_block_shape.
  - pose proof (logs_once_error "Add property failed: " (fun _ => add_failed)) as Hh.
    apply try_after_shape; [done|]. intros data.
    apply try_after_shape; [done|]. intros [].
    + eapply (within_le_shape 5); [lia|]. by apply (try_with_shape _ _ 2), add_block_shape.
    + by apply try_liftp_shape.
  - split; [apply one_shot_liftp|apply within_liftp].
Qed.

(** A view does not raise: each of its paths ends in an answer. *)
Lemma view_never_raises e clock req : never_raises (view_prog e clock req).
Proof.
  destruct e; cbn [view_prog];
    [by rewrite home_Ok|apply never_raises_catch; intros e..|by rewrite not_found_Ok].
  - apply never_raises_log_error. by rewrite health_failed_Ok.
  - rewrite nearby_except_Ok. destruct (is_value_error e); [done|].
    by apply never_raises_log_error.
  - apply never_raises_log_error. by rewrite search_failed_Ok.
  - apply never_raises_log_error. by rewrite add_failed_Ok.
Qed.

Lemma handle_shape clock req :
  one_shot (handle_prog clock req) /\ within 6 (handle_prog clock req).
Proof.
  unfold handle_prog. destruct (route _ _) as [e| | |]; try done.
  - destruct (view_shape e clock req) as [Ho Hw].
    pose proof (view_never_raises e clock req) as Hn.
    split; [by apply one_shot_catch_never|by apply within_catch_never].
  - split; [apply one_shot_liftp|apply within_liftp].
Qed.

End handler_shapes.
