(* ===== verification/Engine.v ===== *)
(** * The search engine of module 10: [PropertySearchEngine]

    [src/modules/module_10/example.py].  The class has a constructor and no
    other method: it keeps the connection string it is given, or the one of
    the environment, and a CloudWatch client when [AWS_REGION] is set.  The
    script under [__main__] constructs an engine and prints one line.

    [boto3.client] is a parameter of the section: creating a client may
    raise (no region configured, no such service), and the theorems hold
    whatever it does.  The environment is the one of [Config.environ]; the
    theorems at the end compare the engine's reading of [DATABASE_URL] with
    the service's ([Config.load_database_url]). *)

From Stdlib Require Import ZArith.
From stdpp Require Import base tactics option list strings.
From S2P Require Import Prelude PyValue Config Exact App.

Section engine.
Context `{PyFloat}.
Context {client : Type} (boto3_client : string -> py client).

(** The attributes of an engine. *)
Record engine := Engine {
  conn_string : pyval;
  cloudwatch : option client
}.

(** [os.environ.get(key)]: the string, or [None]. *)
Definition environ_get (env : environ) (key : string) : pyval :=
  from_option VStr VNone (env key).

(** [a or b]: [a] when it is true, [b] otherwise. *)
Definition py_or (a b : pyval) : pyval := if truthy a then a else b.

(** Lines 16-18: [PropertySearchEngine(connection_string)]. *)
Definition engine_init (env : environ) (connection_string : pyval) : py engine :=
  let conn := py_or connection_string (environ_get env "DATABASE_URL") in
  cw ← (if truthy (environ_get env "AWS_REGION")
        then Some <$> boto3_client "cloudwatch"
        else Ok None);
  Ok (Engine conn cw).

(** Lines 21-23: the script; what it prints. *)
Definition engine_main (env : environ) : py (list string) :=
  _ ← engine_init env VNone;
  Ok ["Property search engine testing completed!"].

(** ** The constructor *)

Lemma truthy_environ_get env key :
  truthy (environ_get env key) = bool_decide (env key <> None /\ env key <> Some "").
Proof.
  unfold environ_get. destruct (env key) as [s|]; [|done]. simpl.
  destruct (String.eqb_spec s "") as [->|Hs]; [done|]. simpl.
  symmetry. apply bool_decide_eq_true. split; congruence.
Qed.

(** Without a region in the environment no client is asked for. *)
Lemma engine_init_no_region env c :
  truthy (environ_get env "AWS_REGION") = false ->
  engine_init env c = Ok (Engine (py_or c (environ_get env "DATABASE_URL")) None).
Proof. unfold engine_init. by intros ->. Qed.

(** With one, the engine is what the client's creation allows. *)
Lemma engine_init_region env c :
  truthy (environ_get env "AWS_REGION") = true ->
  engine_init env c =
    Engine (py_or c (environ_get env "DATABASE_URL")) ∘ Some <$> boto3_client "cloudwatch".
Proof. unfold engine_init. intros ->. by destruct (boto3_client _). Qed.

(** The connection string of an engine does not depend on the client. *)
Lemma engine_init_conn env c e :
  engine_init env c = Ok e -> conn_string e = py_or c (environ_get env "DATABASE_URL").
Proof.
  unfold engine_init. destruct (truthy (environ_get env "AWS_REGION"));
    [destruct (boto3_client _)|]; by intros [= <-].
Qed.

(** The constructor raises exactly when [AWS_REGION] is set to a
    string that is not empty and creating the CloudWatch client raises, and
    then it raises what the creation raised; the script prints its one line
    in every other case, whatever [DATABASE_URL] is. *)
Lemma engine_main_completes env :
  engine_main env =
    ((if bool_decide (env "AWS_REGION" <> None /\ env "AWS_REGION" <> Some "")
      then (fun _ => ()) <$> boto3_client "cloudwatch" else Ok ());;
     Ok ["Property search engine testing completed!"]).
Proof.
  unfold engine_main. rewrite <-truthy_environ_get.
  destruct (truthy (environ_get env "AWS_REGION")) eqn:Hr.
  - rewrite engine_init_region by done. by destruct (boto3_client _).
  - by rewrite engine_init_no_region.
Qed.

(** An explicit connection string that is not empty is the engine's,
    whatever the environment holds; the empty string and [None] fall back to
    [DATABASE_URL] as it is, None and the empty string included. *)
Lemma engine_conn_string env c e :
  engine_init env c = Ok e ->
  (forall s, c = VStr s -> s <> "" -> conn_string e = VStr s) /\
  (c = VNone \/ c = VStr "" -> conn_string e = environ_get env "DATABASE_URL").
Proof.
  intros ->%engine_init_conn. split.
  - intros s -> Hs. unfold py_or; simpl. by destruct (String.eqb_spec s "").
  - by intros [->| ->].
Qed.

(** C40: where the service refuses to start for want of a connection string
    ([load_database_url] raises), the engine is constructed all the same,
    with a connection string that is [None] or empty: the failure is left to
    the first connection. *)
Theorem engine_defers_missing_url env :
  is_ok (load_database_url env) = false ->
  truthy (environ_get env "AWS_REGION") = false ->
  exists e, engine_init env VNone = Ok e /\ truthy (conn_string e) = false /\
            cloudwatch e = None.
Proof.
  intros Hurl Hr. rewrite engine_init_no_region by done. eexists; split_and!; try done.
  unfold load_database_url, environ_get, py_or in *; simpl.
  destruct (env "DATABASE_URL") as [url|]; [|done]. simpl.
  by destruct (String.eqb url "").
Qed.

End engine.

(** ** Examples, with the floats of [Exact] *)

Import Exact.

(** An environment with a region and without a connection string. *)
Definition region_only : environ := fun key =>
  if decide (key = "AWS_REGION") then Some "eu-west-1" else None.

(** A creation of clients that finds no region ([AWS_REGION] is not a
    variable [boto3] reads). *)
Definition no_region (service : string) : py unit :=
  Err (Exn ValueError "You must specify a region.").

Lemma engine_conn_string_witness :
  (forall s, VStr "host=db" = VStr s -> s <> "" ->
     conn_string (Engine (client:=unit) (VStr "host=db") None) = VStr s) /\
  (VStr "host=db" = VNone \/ VStr "host=db" = VStr "" ->
     conn_string (Engine (client:=unit) (VStr "host=db") None) =
       environ_get (fun _ => None) "DATABASE_URL").
Proof. by apply (engine_conn_string no_region (fun _ => None) (VStr "host=db")). Defined.

Lemma engine_defers_missing_url_witness :
  exists e, engine_init no_region (fun _ => None) VNone = Ok e /\
            truthy (conn_string e) = false /\ cloudwatch e = None.
Proof. by apply engine_defers_missing_url. Defined.

(** With [AWS_REGION] set and a creation that raises, the script raises. *)
Lemma engine_main_region_only :
  engine_main no_region region_only = Err (Exn ValueError "You must specify a region.").
Proof. done. Qed.
